(** * Content publication and external-asset lifecycle of the CMS backend

    A shallow embedding of the controllers of the repository (samples,
    blogs, services and their sections, testimonials) and of the schemas
    they write, followed by the properties that its design document
    states about them.

    Conventions of the embedding.
    - A JavaScript string is a [string]: a sequence of code units, here
      restricted to the range 0..255 (Latin-1).
    - [undefined] is [None]; a field of a request is a value or
      [undefined]; an identifier of a document is a number.
    - A collection of the document store is the list of its documents in
      insertion order; [findOne] returns the first match.
    - A handler is a function from the world before the request to the
      response and the world after it. The world holds the collections
      and records, in order, every call to the blob store and every write
      to the document store.
    - The blob store ([Cloudinary]) and what the handlers use of the
      runtime ([Runtime]) are parameters: a handler is defined for every
      behaviour of theirs, rejected promises included. *)

From Stdlib Require Import String Ascii List Bool Arith ZArith Lia.
Import ListNotations.

Local Open Scope string_scope.
Local Open Scope bool_scope.
Local Open Scope nat_scope.

(* ================================================================== *)
(** * Slug generation *)
(* ================================================================== *)

Module Slug.

Definition code (c : ascii) : nat := nat_of_ascii c.

Definition between (lo hi : nat) (c : ascii) : bool :=
  (lo <=? code c) && (code c <=? hi).

(** [a-z], [A-Z], [0-9] *)
Definition is_lower : ascii -> bool := between 97 122.
Definition is_upper : ascii -> bool := between 65 90.
Definition is_digit : ascii -> bool := between 48 57.

(** [\s] of a JavaScript regular expression, on code units below 256:
    TAB, LF, VT, FF, CR, SPACE and NO-BREAK SPACE. *)
Definition is_space (c : ascii) : bool :=
  between 9 13 c || (code c =? 32) || (code c =? 160).

Definition hyphen : ascii := "-"%char.
Definition is_hyphen (c : ascii) : bool := code c =? 45.

(** [String.prototype.toLowerCase] on one code unit below 256: A-Z and
    the Latin-1 capitals U+00C0..U+00DE (U+00D7, the multiplication sign,
    excepted) move up by 32; everything else is its own lower case. *)
Definition lower_char (c : ascii) : ascii :=
  if is_upper c || (between 192 222 c && negb (code c =? 215))
  then ascii_of_nat (code c + 32)
  else c.

Fixpoint map_str (f : ascii -> ascii) (s : string) : string :=
  match s with
  | EmptyString => EmptyString
  | String c r => String (f c) (map_str f r)
  end.

Fixpoint filter_str (keep : ascii -> bool) (s : string) : string :=
  match s with
  | EmptyString => EmptyString
  | String c r => if keep c then String c (filter_str keep r) else filter_str keep r
  end.

Definition toLowerCase (s : string) : string := map_str lower_char s.

(** The character class [a-zA-Z0-9\s]: replacing [/[^a-zA-Z0-9\s]/g] by
    the empty string keeps exactly these. *)
Definition in_class (c : ascii) : bool :=
  is_lower c || is_upper c || is_digit c || is_space c.

Definition strip (s : string) : string := filter_str in_class s.

(** [.replace(/\s+/g, "-")]: every maximal run of white space becomes one
    hyphen. [in_run] tells that the previous code unit was white space,
    whose hyphen has been written already. *)
Fixpoint collapse (in_run : bool) (s : string) : string :=
  match s with
  | EmptyString => EmptyString
  | String c r =>
      if is_space c
      then (if in_run then collapse true r else String hyphen (collapse true r))
      else String c (collapse false r)
  end.

(** [title.toLowerCase()], then the two [replace]: strip, collapse. *)
Definition slugify (title : string) : string :=
  collapse false (strip (toLowerCase title)).

(** The algorithm in the words of the design document: lower-case the
    title, strip every character outside [a-z0-9\s], collapse each white
    space run to a single hyphen. *)
Definition spec_class (c : ascii) : bool :=
  is_lower c || is_digit c || is_space c.

Definition spec_slugify (title : string) : string :=
  collapse false (filter_str spec_class (toLowerCase title)).

(** Observations on strings used to state the properties. *)
Fixpoint all_str (p : ascii -> bool) (s : string) : bool :=
  match s with
  | EmptyString => true
  | String c r => p c && all_str p r
  end.

Definition first_char (s : string) : option ascii :=
  match s with
  | EmptyString => None
  | String c _ => Some c
  end.

Fixpoint last_char (s : string) : option ascii :=
  match s with
  | EmptyString => None
  | String c EmptyString => Some c
  | String _ r => last_char r
  end.

Definition holds (p : ascii -> bool) (o : option ascii) : bool :=
  match o with
  | Some c => p c
  | None => false
  end.

(** A character of a slug: [a-z0-9-]. *)
Definition slug_char (c : ascii) : bool :=
  is_lower c || is_digit c || is_hyphen c.

(** Two hyphens side by side somewhere in [s]. *)
Fixpoint double_hyphen (s : string) : bool :=
  match s with
  | EmptyString => false
  | String a r => (is_hyphen a && holds is_hyphen (first_char r)) || double_hyphen r
  end.

Fixpoint count_str (p : ascii -> bool) (s : string) : nat :=
  match s with
  | EmptyString => 0
  | String c r => (if p c then 1 else 0) + count_str p r
  end.

(** The number of maximal white-space runs of [s]. *)
Fixpoint space_runs (in_run : bool) (s : string) : nat :=
  match s with
  | EmptyString => 0
  | String c r =>
      if is_space c
      then (if in_run then space_runs true r else S (space_runs true r))
      else space_runs false r
  end.

End Slug.

(* ================================================================== *)
(** * JavaScript values *)
(* ================================================================== *)

(** Truthiness, as [if (x)], [x || y] and [!x] see it. *)
Class Truthy (A : Type) := truthy : A -> bool.

#[export] Instance Truthy_string : Truthy string :=
  fun s => match s with EmptyString => false | String _ _ => true end.
#[export] Instance Truthy_Z : Truthy Z := fun z => negb (Z.eqb z 0).
#[export] Instance Truthy_bool : Truthy bool := fun b => b.
#[export] Instance Truthy_option {A} `{Truthy A} : Truthy (option A) :=
  fun o => match o with Some a => truthy a | None => false end.

(** [a || b] *)
Definition jor {A} `{Truthy A} (a b : A) : A := if truthy a then a else b.
(** [a !== undefined ? a : b] *)
Definition defined_or {A} (a b : option A) : option A :=
  match a with Some _ => a | None => b end.

Infix "|||" := jor (at level 50, left associativity).

(** [a === b] on values that are a string or [undefined]. *)
Definition str_eq (a b : option string) : bool :=
  match a, b with
  | Some x, Some y => String.eqb x y
  | None, None => true
  | _, _ => false
  end.

(** A value inside a template literal. *)
Definition interpolate (o : option string) : string :=
  match o with Some s => s | None => "undefined" end.

(** [s.startsWith('http')] *)
Definition startsWith_http (s : string) : bool := prefix "http" s.

(** The value of a parsed JSON text, or of a field of a JSON request body. *)
#[local] Unset Elimination Schemes.
Inductive JsValue : Type :=
| JNull
| JBool (b : bool)
| JNum (z : Z)
| JStr (s : string)
| JArr (items : list JsValue)
| JObj (fields : list (string * JsValue)).
#[local] Set Elimination Schemes.

#[export] Instance Truthy_JsValue : Truthy JsValue :=
  fun v => match v with
           | JNull => false
           | JBool b => b
           | JNum z => negb (Z.eqb z 0)
           | JStr s => truthy s
           | JArr _ | JObj _ => true
           end.

(** [v.key]; [undefined] when [v] is not an object or has no such key. *)
Definition js_get (key : string) (v : JsValue) : option JsValue :=
  match v with
  | JObj fields =>
      match find (fun kv => String.eqb (fst kv) key) fields with
      | Some kv => Some (snd kv)
      | None => None
      end
  | _ => None
  end.

(** What the controllers use of the JavaScript runtime and of the query
    engine of the document store. [None] is a thrown [SyntaxError] for
    [JSON_parse], [NaN] for [parseInt], and a pattern that the engine
    rejects for [regex_i], the case-insensitive [$regex] match. *)
Record Runtime := {
  JSON_parse : string -> option JsValue;
  parseInt : string -> option Z;
  regex_i : string -> option (string -> bool)
}.

(* ================================================================== *)
(** * The blob store *)
(* ================================================================== *)

(** The Cloudinary client and the helpers of [utils/cloudinary.utils],
    which are outside the controllers. A rejected promise is [None] for an
    upload and [false] for a delete. *)
Record Cloudinary := {
  uploader_upload : string -> string -> string -> option string;
    (* content, public_id, folder |-> secure_url *)
  getPublicIdFromUrl : string -> string;
  getPublicIdFromUrl_export : string -> string;
    (* the function of the same name that the module exports on its own *)
  deleteFile : string -> option string -> bool;
    (* public id, resource type *)
  deleteImageAsset : string -> bool
    (* public id *)
}.

(* ================================================================== *)
(** * Requests and responses *)
(* ================================================================== *)

Record User := {
  user_id : nat;
  role : string;
  user_name : option string
}.

(** [user?.role === "Admin" || user?.role === "Super_Admin"] *)
Definition isAdmin (user : option User) : bool :=
  match user with
  | Some u => String.eqb (role u) "Admin" || String.eqb (role u) "Super_Admin"
  | None => false
  end.

(** [res.status(code).json({ success, message, data })] *)
Record Response (D : Type) := {
  code : nat;
  success : bool;
  message : option string;
  data : option D
}.
Arguments code {D} _.
Arguments success {D} _.
Arguments message {D} _.
Arguments data {D} _.

Definition fail {D} (c : nat) (msg : string) : Response D :=
  {| code := c; success := false; message := Some msg; data := None |}.
Definition reply {D} (c : nat) (msg : string) (d : D) : Response D :=
  {| code := c; success := true; message := Some msg; data := Some d |}.
Definition reply_data {D} (d : D) : Response D :=
  {| code := 200; success := true; message := None; data := Some d |}.
Definition reply_msg {D} (msg : string) : Response D :=
  {| code := 200; success := true; message := Some msg; data := None |}.
(** The reply to a request that did not pass the validators of the route. *)
Definition invalid {D} : Response D :=
  {| code := 400; success := false; message := None; data := None |}.

(* ================================================================== *)
(** * Collections of the document store *)
(* ================================================================== *)

Section Collection.
Context {A : Type} (idof : A -> nat).

Definition has_id (id : nat) (d : A) : bool := idof d =? id.

Definition findById (id : nat) (l : list A) : option A := find (has_id id) l.

Definition countDocuments (q : A -> bool) (l : list A) : nat :=
  length (filter q l).

(** Writing a document: in place when its id is stored, at the end
    otherwise. *)
Definition store (d : A) (l : list A) : list A :=
  if existsb (has_id (idof d)) l
  then map (fun x => if has_id (idof d) x then d else x) l
  else l ++ [d].

Definition remove (id : nat) (l : list A) : list A :=
  filter (fun x => negb (has_id id x)) l.

(** A unique index on [key]: no other document holds the key of [d]. *)
Definition unique_ok (key : A -> option string) (d : A) (l : list A) : bool :=
  negb (existsb (fun x => negb (has_id (idof d) x) && str_eq (key x) (key d)) l).
End Collection.

(** The [required] validator of a String path. *)
Definition required (o : option string) : bool := truthy o.

(** [.skip(k).limit(n)]: for a page and a limit of at least 1 the
    documents after the first [k], at most [n] of them. Outside of
    these the model follows the manual of the store, which rejects a
    negative skip and reads a negative limit as its absolute value. *)
Definition paginate {A} (page limit : Z) (l : list A) : option (list A) :=
  let k := ((page - 1) * limit)%Z in
  if (k <? 0)%Z then None
  else Some (firstn (Z.to_nat (Z.abs limit)) (skipn (Z.to_nat k) l)).

(** [Math.ceil(total / limit)]: [None] stands for the values that are not
    integers, [NaN] and the infinities of a division by zero. *)
Definition total_pages (total : nat) (limit : Z) : option Z :=
  if (limit =? 0)%Z then None
  else Some (- ((- Z.of_nat total) / limit))%Z.

(** [parseInt(x) || dflt] *)
Definition int_or (x : option Z) (dflt : Z) : Z :=
  match x with
  | Some z => if truthy z then z else dflt
  | None => dflt
  end.

(* ================================================================== *)
(** * Models *)
(* ================================================================== *)

(** A record holds the paths that the controllers read and write. The
    paths [createdAt] and [updatedAt], which [timestamps: true] adds to
    every schema and which the store sets on a write, are not among
    them: creation dates appear as the order of a collection, and an
    equality between two documents is an equality of the paths of the
    record. *)

(** ** models/sample.model.ts *)

Module ESampleStatus.
Definition DRAFT := "Draft".
Definition PUBLISHED := "Published".
Definition ARCHIVED := "Archived".
Definition values := [DRAFT; PUBLISHED; ARCHIVED].
End ESampleStatus.

(** Membership in the [enum] of a status path. *)
Definition in_enum (values : list string) (s : string) : bool :=
  existsb (String.eqb s) values.

Module Sample.
Record t := mk {
  _id : nat;
  title : option string;
  subtitle : option string;
  description : option string;
  slug : option string;
  contentUrl : option string;
  subject : option string;
  topic : option string;
  academicLevel : option string;
  wordCount : option Z;
  referenceCount : option Z;
  faqs : option JsValue;
  status : string
}.

(** The schema has no [content] path: [sample.content] is [undefined]. *)
Definition content (_ : t) : option string := None.

(** The validators that [save] runs on the paths of the sample itself;
    those of the sub-documents of [faqs] are left out. *)
Definition validate (d : t) : bool :=
  required (title d) && required (description d) && required (slug d)
  && required (contentUrl d) && required (subject d)
  && in_enum ESampleStatus.values (status d).

Definition with_status (st : string) (d : t) : t :=
  mk (_id d) (title d) (subtitle d) (description d) (slug d) (contentUrl d)
     (subject d) (topic d) (academicLevel d) (wordCount d)
     (referenceCount d) (faqs d) st.
End Sample.

Module SampleBody.
Record t := mk {
  title : option string;
  subtitle : option string;
  description : option string;
  content : option string;
  subject : option string;
  topic : option string;
  academicLevel : option string;
  wordCount : option Z;
  referenceCount : option Z;
  faqs : option JsValue;
  status : option string
}.
End SampleBody.

(** ** models/blog.model.ts *)

Module EBlogStatus.
Definition DRAFT := "Draft".
Definition PUBLISHED := "Published".
Definition ARCHIVED := "Archived".
Definition values := [DRAFT; PUBLISHED; ARCHIVED].
End EBlogStatus.

Module Blog.
Record t := mk {
  _id : nat;
  title : option string;
  subtitle : option string;
  description : option string;
  slug : option string;
  contentUrl : option string;
  thumbnailUrl : option string;
  creator : option nat;
  views : Z;
  category : option string;
  datePublished : option nat;
  tableOfContents : option JsValue;
  tags : option JsValue;
  readTime : option Z;
  status : string;
  ctaSection : option JsValue;
  authorName : option string;
  readMore : option JsValue;
  faqs : option JsValue
}.

(** The schema has no [content] path: [blog.content] is [undefined]. *)
Definition content (_ : t) : option string := None.

(** The validators that [save] runs; [categories] is the list
    [BlogCategories] of [types/blogCategories]. *)
Definition validate (categories : list string) (d : t) : bool :=
  required (title d) && required (description d) && required (slug d)
  && required (contentUrl d)
  && match creator d with Some _ => true | None => false end
  && match category d with Some c => in_enum categories c | None => false end
  && required (authorName d)
  && in_enum EBlogStatus.values (status d).

Definition with_status (st : string) (d : t) : t :=
  mk (_id d) (title d) (subtitle d) (description d) (slug d) (contentUrl d)
     (thumbnailUrl d) (creator d) (views d) (category d) (datePublished d)
     (tableOfContents d) (tags d) (readTime d) st (ctaSection d)
     (authorName d) (readMore d) (faqs d).
End Blog.

Module BlogBody.
Record t := mk {
  title : option string;
  subtitle : option string;
  description : option string;
  content : option string;
  tags : option JsValue;
  status : option string;
  authorName : option string;
  tableOfContents : option string;
  ctaSection : option string;
  readMore : option string;
  views : option string;
  category : option string;
  faqs : option string
}.
End BlogBody.

(** ** models/service.model.ts *)

Module EServiceSectionStatus.
Definition DRAFT := "Draft".
Definition LIVE := "Live".
Definition INACTIVE := "Inactive".
Definition values := [DRAFT; LIVE; INACTIVE].
End EServiceSectionStatus.

Module EServiceStatus.
Definition DRAFT := "Draft".
Definition LIVE := "Live".
Definition INACTIVE := "Inactive".
Definition COMING_SOON := "Coming_Soon".
Definition values := [DRAFT; LIVE; INACTIVE; COMING_SOON].
End EServiceStatus.

Module ServiceSection.
Record t := mk {
  _id : nat;
  name : option string;
  description : option string;
  slug : option string;
  order : Z;
  status : string
}.

Definition validate (d : t) : bool :=
  required (name d) && required (slug d)
  && in_enum EServiceSectionStatus.values (status d).
End ServiceSection.

Module Service.
Record t := mk {
  _id : nat;
  section : option nat;
  title : option string;
  subtitle : option string;
  description : option string;
  slug : option string;
  contentUrl : option string;
  order : Z;
  status : string;
  features : option JsValue;
  experts : option JsValue;
  process : option JsValue;
  promises : option JsValue;
  cta : option JsValue;
  faqs : option JsValue
}.

Definition validate (d : t) : bool :=
  match section d with Some _ => true | None => false end
  && required (title d) && required (description d) && required (slug d)
  && required (contentUrl d)
  && in_enum EServiceStatus.values (status d).

Definition with_status (st : string) (d : t) : t :=
  mk (_id d) (section d) (title d) (subtitle d) (description d) (slug d)
     (contentUrl d) (order d) st (features d) (experts d) (process d)
     (promises d) (cta d) (faqs d).
End Service.

Module ServiceBody.
Record t := mk {
  section : option nat;
  title : option string;
  subtitle : option string;
  description : option string;
  content : option string;
  features : option JsValue;
  experts : option JsValue;
  process : option JsValue;
  promises : option JsValue;
  cta : option JsValue;
  order : option Z;
  status : option string
}.
End ServiceBody.

(** ** models/testimonials.model.ts *)

Module Testimonial.
Definition statuses := ["draft"; "published"; "archived"].

Record t := mk {
  _id : nat;
  name : option string;
  content : option string;
  stars : option Z;
  location : option string;
  imageUrl : option string;
  status : string;
  forHomepage : bool
}.

Definition validate (d : t) : bool :=
  required (name d) && required (content d)
  && match stars d with
     | Some n => (1 <=? n)%Z && (n <=? 5)%Z
     | None => false
     end
  && in_enum statuses (status d).
End Testimonial.

Module TestimonialBody.
Record t := mk {
  name : option string;
  content : option string;
  stars : option Z;
  location : option string;
  forHomepage : option bool;
  status : option string
}.
End TestimonialBody.

(** ** models/imageAssets.model.ts *)

Module ImageAsset.
Record t := mk {
  _id : nat;
  name : option string;
  url : option string;
  altText : option string;
  publicId : option string
}.

Definition validate (d : t) : bool :=
  required (name d) && required (url d) && required (altText d)
  && required (publicId d).
End ImageAsset.

(* ================================================================== *)
(** * The world *)
(* ================================================================== *)

Inductive Model :=
| MSample | MBlog | MService | MServiceSection | MTestimonial | MImageAsset.

(** What a request does outside the process, in the order it does it. *)
Inductive Event :=
| Upload (content public_id folder : string) (secure_url : option string)
| DeleteFile (public_id : string) (resource_type : option string) (done : bool)
| DeleteImageAsset (public_id : string) (done : bool)
| DbWrite (m : Model) (id : nat)
| DbDelete (m : Model) (id : nat).

Record World := mkWorld {
  samples : list Sample.t;
  blogs : list Blog.t;
  services : list Service.t;
  sections : list ServiceSection.t;
  testimonials : list Testimonial.t;
  imageAssets : list ImageAsset.t;
  nextId : nat;
  trace : list Event
}.

Definition log (e : Event) (w : World) : World :=
  mkWorld (samples w) (blogs w) (services w) (sections w) (testimonials w)
          (imageAssets w) (nextId w) (trace w ++ [e]).

Definition set_samples (l : list Sample.t) (w : World) : World :=
  mkWorld l (blogs w) (services w) (sections w) (testimonials w)
          (imageAssets w) (nextId w) (trace w).
Definition set_blogs (l : list Blog.t) (w : World) : World :=
  mkWorld (samples w) l (services w) (sections w) (testimonials w)
          (imageAssets w) (nextId w) (trace w).
Definition set_services (l : list Service.t) (w : World) : World :=
  mkWorld (samples w) (blogs w) l (sections w) (testimonials w)
          (imageAssets w) (nextId w) (trace w).
Definition set_sections (l : list ServiceSection.t) (w : World) : World :=
  mkWorld (samples w) (blogs w) (services w) l (testimonials w)
          (imageAssets w) (nextId w) (trace w).
Definition set_testimonials (l : list Testimonial.t) (w : World) : World :=
  mkWorld (samples w) (blogs w) (services w) (sections w) l
          (imageAssets w) (nextId w) (trace w).
Definition set_imageAssets (l : list ImageAsset.t) (w : World) : World :=
  mkWorld (samples w) (blogs w) (services w) (sections w) (testimonials w)
          l (nextId w) (trace w).
(** A new document takes the next identifier. *)
Definition bump (w : World) : World :=
  mkWorld (samples w) (blogs w) (services w) (sections w) (testimonials w)
          (imageAssets w) (S (nextId w)) (trace w).

(* ================================================================== *)
(** * Blocks that the controllers repeat *)
(* ================================================================== *)

(** The outcome of a block of a handler: go on with a value, or answer
    the request at once. *)
Inductive Step (A : Type) :=
| Go (a : A)
| Stop (c : nat) (msg : string).
Arguments Go {A} a.
Arguments Stop {A} c msg.

Section Blocks.
Variable cloud : Cloudinary.

(** "If title is changing, update slug" (updateSample, updateBlog,
    updateService): the new value of [doc.slug], or the answer 400 when
    another document ([_id: { $ne: id }]) holds the new slug. *)
Definition slugOnUpdate {A} (idof : A -> nat) (slugof : A -> option string)
    (docs : list A) (id : nat) (title old_title old_slug : option string)
    (taken : string) : Step (option string) :=
  match title with
  | Some t =>
      if truthy t && negb (str_eq title old_title) then
        let newSlug := Slug.slugify t in
        match find (fun d => str_eq (slugof d) (Some newSlug)
                             && negb (has_id idof id d)) docs with
        | Some _ => Stop 400 taken
        | None => Go (Some newSlug)
        end
      else Go old_slug
  | None => Go old_slug
  end.

Definition publicIdOf (kind : string) (slug : option string) : string :=
  "content/" ++ kind ++ "/" ++ interpolate slug ++ "-content.md".
Definition folderOf (kind : string) : string :=
  "ping-assignments/content/" ++ kind.

(** "Handle content upload to Cloudinary" (createSample, createBlog,
    createService): the value of the local [contentUrl]. *)
Definition contentOnCreate (kind : string) (content : option string)
    (slug : string) (w : World) : Step (option string) * World :=
  match content with
  | Some c =>
      if truthy c then
        if startsWith_http c then (Go content, w)
        else
          let r := uploader_upload cloud c (publicIdOf kind (Some slug))
                                   (folderOf kind) in
          let w1 := log (Upload c (publicIdOf kind (Some slug))
                                (folderOf kind) r) w in
          match r with
          | Some url => (Go (Some url), w1)
          | None => (Stop 500 "Error uploading content", w1)
          end
      else (Go None, w)
  | None => (Go None, w)
  end.

(** "Process content - either upload new content or keep existing URL"
    (updateSample, updateBlog, updateService): the value of the local
    [contentUrl]. [compared] is what the handler compares the new content
    with, [oldUrl] is [doc.contentUrl]. *)
Definition contentOnUpdate (kind : string) (content compared : option string)
    (slug oldUrl : option string) (w : World) : Step (option string) * World :=
  match content with
  | Some c =>
      if negb (str_eq content compared) && negb (startsWith_http c) then
        let r := uploader_upload cloud c (publicIdOf kind slug)
                                 (folderOf kind) in
        let w1 := log (Upload c (publicIdOf kind slug) (folderOf kind) r) w in
        match r with
        | Some url =>
            (* Delete old content if it exists and is a URL *)
            match oldUrl with
            | Some old =>
                if truthy old && startsWith_http old then
                  let oldPublicId := getPublicIdFromUrl cloud old in
                  let done := deleteFile cloud oldPublicId (Some "raw") in
                  let w2 := log (DeleteFile oldPublicId (Some "raw") done) w1 in
                  if done then (Go (Some url), w2)
                  else (Stop 500 "Error uploading content", w2)
                else (Go (Some url), w1)
            | None => (Go (Some url), w1)
            end
        | None => (Stop 500 "Error uploading content", w1)
        end
      else (Go content, w)
  | None => (Go None, w)
  end.
End Blocks.

(** ** Equality of values, as the change tracking of a document sees it *)

Definition option_eqb {A} (eqb : A -> A -> bool) (a b : option A) : bool :=
  match a, b with
  | Some x, Some y => eqb x y
  | None, None => true
  | _, _ => false
  end.

Fixpoint JsValue_eqb (a b : JsValue) {struct a} : bool :=
  match a, b with
  | JNull, JNull => true
  | JBool x, JBool y => Bool.eqb x y
  | JNum x, JNum y => Z.eqb x y
  | JStr x, JStr y => String.eqb x y
  | JArr xs, JArr ys =>
      (fix items (xs ys : list JsValue) {struct xs} : bool :=
         match xs, ys with
         | [], [] => true
         | x :: xs', y :: ys' => JsValue_eqb x y && items xs' ys'
         | _, _ => false
         end) xs ys
  | JObj xs, JObj ys =>
      (fix fields (xs ys : list (string * JsValue)) {struct xs} : bool :=
         match xs, ys with
         | [], [] => true
         | (k, x) :: xs', (k', y) :: ys' =>
             String.eqb k k' && JsValue_eqb x y && fields xs' ys'
         | _, _ => false
         end) xs ys
  | _, _ => false
  end.

Definition Sample_eqb (a b : Sample.t) : bool :=
  (Sample._id a =? Sample._id b)
  && str_eq (Sample.title a) (Sample.title b)
  && str_eq (Sample.subtitle a) (Sample.subtitle b)
  && str_eq (Sample.description a) (Sample.description b)
  && str_eq (Sample.slug a) (Sample.slug b)
  && str_eq (Sample.contentUrl a) (Sample.contentUrl b)
  && str_eq (Sample.subject a) (Sample.subject b)
  && str_eq (Sample.topic a) (Sample.topic b)
  && str_eq (Sample.academicLevel a) (Sample.academicLevel b)
  && option_eqb Z.eqb (Sample.wordCount a) (Sample.wordCount b)
  && option_eqb Z.eqb (Sample.referenceCount a) (Sample.referenceCount b)
  && option_eqb JsValue_eqb (Sample.faqs a) (Sample.faqs b)
  && String.eqb (Sample.status a) (Sample.status b).

Definition Blog_eqb (a b : Blog.t) : bool :=
  (Blog._id a =? Blog._id b)
  && str_eq (Blog.title a) (Blog.title b)
  && str_eq (Blog.subtitle a) (Blog.subtitle b)
  && str_eq (Blog.description a) (Blog.description b)
  && str_eq (Blog.slug a) (Blog.slug b)
  && str_eq (Blog.contentUrl a) (Blog.contentUrl b)
  && str_eq (Blog.thumbnailUrl a) (Blog.thumbnailUrl b)
  && option_eqb Nat.eqb (Blog.creator a) (Blog.creator b)
  && Z.eqb (Blog.views a) (Blog.views b)
  && str_eq (Blog.category a) (Blog.category b)
  && option_eqb Nat.eqb (Blog.datePublished a) (Blog.datePublished b)
  && option_eqb JsValue_eqb (Blog.tableOfContents a) (Blog.tableOfContents b)
  && option_eqb JsValue_eqb (Blog.tags a) (Blog.tags b)
  && option_eqb Z.eqb (Blog.readTime a) (Blog.readTime b)
  && String.eqb (Blog.status a) (Blog.status b)
  && option_eqb JsValue_eqb (Blog.ctaSection a) (Blog.ctaSection b)
  && str_eq (Blog.authorName a) (Blog.authorName b)
  && option_eqb JsValue_eqb (Blog.readMore a) (Blog.readMore b)
  && option_eqb JsValue_eqb (Blog.faqs a) (Blog.faqs b).

Definition Service_eqb (a b : Service.t) : bool :=
  (Service._id a =? Service._id b)
  && option_eqb Nat.eqb (Service.section a) (Service.section b)
  && str_eq (Service.title a) (Service.title b)
  && str_eq (Service.subtitle a) (Service.subtitle b)
  && str_eq (Service.description a) (Service.description b)
  && str_eq (Service.slug a) (Service.slug b)
  && str_eq (Service.contentUrl a) (Service.contentUrl b)
  && Z.eqb (Service.order a) (Service.order b)
  && String.eqb (Service.status a) (Service.status b)
  && option_eqb JsValue_eqb (Service.features a) (Service.features b)
  && option_eqb JsValue_eqb (Service.experts a) (Service.experts b)
  && option_eqb JsValue_eqb (Service.process a) (Service.process b)
  && option_eqb JsValue_eqb (Service.promises a) (Service.promises b)
  && option_eqb JsValue_eqb (Service.cta a) (Service.cta b)
  && option_eqb JsValue_eqb (Service.faqs a) (Service.faqs b).

Definition ServiceSection_eqb (a b : ServiceSection.t) : bool :=
  (ServiceSection._id a =? ServiceSection._id b)
  && str_eq (ServiceSection.name a) (ServiceSection.name b)
  && str_eq (ServiceSection.description a) (ServiceSection.description b)
  && str_eq (ServiceSection.slug a) (ServiceSection.slug b)
  && Z.eqb (ServiceSection.order a) (ServiceSection.order b)
  && String.eqb (ServiceSection.status a) (ServiceSection.status b).

Definition Testimonial_eqb (a b : Testimonial.t) : bool :=
  (Testimonial._id a =? Testimonial._id b)
  && str_eq (Testimonial.name a) (Testimonial.name b)
  && str_eq (Testimonial.content a) (Testimonial.content b)
  && option_eqb Z.eqb (Testimonial.stars a) (Testimonial.stars b)
  && str_eq (Testimonial.location a) (Testimonial.location b)
  && str_eq (Testimonial.imageUrl a) (Testimonial.imageUrl b)
  && String.eqb (Testimonial.status a) (Testimonial.status b)
  && Bool.eqb (Testimonial.forHomepage a) (Testimonial.forHomepage b).

Definition ImageAsset_eqb (a b : ImageAsset.t) : bool :=
  (ImageAsset._id a =? ImageAsset._id b)
  && str_eq (ImageAsset.name a) (ImageAsset.name b)
  && str_eq (ImageAsset.url a) (ImageAsset.url b)
  && str_eq (ImageAsset.altText a) (ImageAsset.altText b)
  && str_eq (ImageAsset.publicId a) (ImageAsset.publicId b).

(** ** Writes *)

(** [save()] of a document made with [new Model(...)]: the validators of
    the schema run, then the document is inserted, which the unique
    indexes may refuse. [None] is a rejected promise. *)
Definition Sample_save (d : Sample.t) (w : World) : option World :=
  if Sample.validate d && unique_ok Sample._id Sample.slug d (samples w)
  then Some (log (DbWrite MSample (Sample._id d))
                 (set_samples (store Sample._id d (samples w)) w))
  else None.

Definition Blog_save (categories : list string) (d : Blog.t) (w : World)
  : option World :=
  if Blog.validate categories d
     && unique_ok Blog._id Blog.slug d (blogs w)
     && unique_ok Blog._id Blog.title d (blogs w)
  then Some (log (DbWrite MBlog (Blog._id d))
                 (set_blogs (store Blog._id d (blogs w)) w))
  else None.

Definition Service_save (d : Service.t) (w : World) : option World :=
  if Service.validate d && unique_ok Service._id Service.slug d (services w)
  then Some (log (DbWrite MService (Service._id d))
                 (set_services (store Service._id d (services w)) w))
  else None.

Definition ServiceSection_save (d : ServiceSection.t) (w : World)
  : option World :=
  if ServiceSection.validate d
     && unique_ok ServiceSection._id ServiceSection.slug d (sections w)
     && unique_ok ServiceSection._id ServiceSection.name d (sections w)
  then Some (log (DbWrite MServiceSection (ServiceSection._id d))
                 (set_sections (store ServiceSection._id d (sections w)) w))
  else None.

Definition ImageAsset_save (d : ImageAsset.t) (w : World) : option World :=
  if ImageAsset.validate d
  then Some (log (DbWrite MImageAsset (ImageAsset._id d))
                 (set_imageAssets (store ImageAsset._id d (imageAssets w)) w))
  else None.

Definition Testimonial_save (d : Testimonial.t) (w : World) : option World :=
  if Testimonial.validate d
  then Some (log (DbWrite MTestimonial (Testimonial._id d))
                 (set_testimonials (store Testimonial._id d (testimonials w)) w))
  else None.

(** [Model.findByIdAndUpdate(id, { status }, { runValidators: false })]:
    writes the one path, whatever its value. *)
Definition Sample_setStatus (id : nat) (st : string) (w : World) : World :=
  log (DbWrite MSample id)
      (set_samples (map (fun d => if has_id Sample._id id d
                                  then Sample.with_status st d else d)
                        (samples w)) w).
Definition Blog_setStatus (id : nat) (st : string) (w : World) : World :=
  log (DbWrite MBlog id)
      (set_blogs (map (fun d => if has_id Blog._id id d
                                then Blog.with_status st d else d)
                      (blogs w)) w).
Definition Service_setStatus (id : nat) (st : string) (w : World) : World :=
  log (DbWrite MService id)
      (set_services (map (fun d => if has_id Service._id id d
                                   then Service.with_status st d else d)
                         (services w)) w).

(** [save()] of a document that [findById] loaded as [loaded] and that
    the handler has changed into [d]: the validators run; when every
    path holds the value it was loaded with, nothing is sent to the
    store; otherwise the changed paths are written, which the unique
    indexes may refuse. Values are compared as the records hold them:
    the identifiers that the store gives to the sub-documents of [faqs]
    are not part of a record. *)
Definition Sample_saveLoaded (loaded d : Sample.t) (w : World) : option World :=
  if Sample.validate d && Sample_eqb loaded d then Some w
  else Sample_save d w.

Definition Blog_saveLoaded (categories : list string) (loaded d : Blog.t)
    (w : World) : option World :=
  if Blog.validate categories d && Blog_eqb loaded d then Some w
  else Blog_save categories d w.

Definition Service_saveLoaded (loaded d : Service.t) (w : World)
  : option World :=
  if Service.validate d && Service_eqb loaded d then Some w
  else Service_save d w.

Definition ServiceSection_saveLoaded (loaded d : ServiceSection.t) (w : World)
  : option World :=
  if ServiceSection.validate d && ServiceSection_eqb loaded d then Some w
  else ServiceSection_save d w.

Definition ImageAsset_saveLoaded (loaded d : ImageAsset.t) (w : World)
  : option World :=
  if ImageAsset.validate d && ImageAsset_eqb loaded d then Some w
  else ImageAsset_save d w.

Definition Testimonial_saveLoaded (loaded d : Testimonial.t) (w : World)
  : option World :=
  if Testimonial.validate d && Testimonial_eqb loaded d then Some w
  else Testimonial_save d w.

(* ================================================================== *)
(** * controllers/sample.controller.ts *)
(* ================================================================== *)

Record Pagination := {
  current : Z;
  total : option Z;
  totalItems : nat
}.

Module SampleQuery.
Record t := mk {
  subject : option string;
  topic : option string;
  academicLevel : option string;
  status : option string;
  sort : option string;
  page : option string;
  limit : option string
}.
End SampleQuery.

(** [parseInt(req.query.x as string)] *)
Definition parseParam (rt : Runtime) (x : option string) : option Z :=
  match x with Some s => parseInt rt s | None => None end.

(** A filter on one path: absent, or the value the path must equal. *)
Definition matches (filter : option string) (value : option string) : bool :=
  match filter with
  | Some _ => str_eq value filter
  | None => true
  end.

Section SampleController.
Variable cloud : Cloudinary.
Variable rt : Runtime.

(** [errors] is [validationResult(req)]. *)
Definition createSample (errors : list string) (body : SampleBody.t)
    (w : World) : Response Sample.t * World :=
  match errors with
  | _ :: _ => (invalid, w)
  | [] =>
    match SampleBody.title body with
    | None => (fail 500 "Error creating sample", w)
    | Some title =>
      (* Generate slug *)
      let slug := Slug.slugify title in
      (* Check if slug exists *)
      match find (fun d => str_eq (Sample.slug d) (Some slug)) (samples w) with
      | Some _ => (fail 400 "A sample with this title already exists", w)
      | None =>
        match contentOnCreate cloud "samples" (SampleBody.content body) slug w with
        | (Stop c msg, w1) => (fail c msg, w1)
        | (Go contentUrl, w1) =>
          let sample :=
            Sample.mk (nextId w1) (Some title) (SampleBody.subtitle body)
              (SampleBody.description body) (Some slug) contentUrl
              (SampleBody.subject body) (SampleBody.topic body)
              (SampleBody.academicLevel body) (SampleBody.wordCount body)
              (SampleBody.referenceCount body) (SampleBody.faqs body)
              ESampleStatus.DRAFT in
          match Sample_save sample (bump w1) with
          | Some w2 => (reply 201 "Sample created successfully" sample, w2)
          | None => (fail 500 "Error creating sample", w1)
          end
        end
      end
    end
  end.

(** The filter that [getSamples] builds. *)
Definition samplesQuery (q : SampleQuery.t) (user : option User)
  : option string * option string * option string * option string :=
  let status := match SampleQuery.status q with
                | Some s => Some s
                | None => Some ESampleStatus.PUBLISHED
                end in
  (if truthy (SampleQuery.subject q) then SampleQuery.subject q else None,
   if truthy (SampleQuery.topic q) then SampleQuery.topic q else None,
   if truthy (SampleQuery.academicLevel q) then SampleQuery.academicLevel q else None,
   (* Status filter (for admins, show all. for others, show only published) *)
   if isAdmin user
   then (if truthy status then status else None)
   else Some ESampleStatus.PUBLISHED).

Definition Sample_matches
    (query : option string * option string * option string * option string)
    (d : Sample.t) : bool :=
  let '(subject, topic, academicLevel, status) := query in
  matches subject (Sample.subject d) && matches topic (Sample.topic d)
  && matches academicLevel (Sample.academicLevel d)
  && matches status (Some (Sample.status d)).

(** [.sort(sortQuery)]: "recent" is the creation date, newest first; the
    other keys are paths that no stored sample has, which leaves the
    documents in their stored order. *)
Definition sortSamples (sort : option string) (l : list Sample.t)
  : list Sample.t :=
  if str_eq sort (Some "recent") then rev l else l.

Definition getSamples (q : SampleQuery.t) (user : option User) (w : World)
  : Response (list Sample.t * Pagination) * World :=
  let sort := match SampleQuery.sort q with
              | Some s => Some s
              | None => Some "rating"
              end in
  let page := int_or (parseParam rt (SampleQuery.page q)) 1 in
  let limit := int_or (parseParam rt (SampleQuery.limit q)) 10 in
  let query := samplesQuery q user in
  let found := filter (Sample_matches query) (samples w) in
  match paginate page limit (sortSamples sort found) with
  | None => (fail 500 "Error fetching samples", w)
  | Some page_items =>
      (reply_data (page_items,
                   {| current := page;
                      total := total_pages (length found) limit;
                      totalItems := length found |}), w)
  end.

Definition updateSample (id : nat) (body : SampleBody.t)
    (user : option User) (w : World) : Response Sample.t * World :=
  match findById Sample._id id (samples w) with
  | None => (fail 404 "Sample not found", w)
  | Some sample =>
    match slugOnUpdate Sample._id Sample.slug (samples w) id
            (SampleBody.title body) (Sample.title sample) (Sample.slug sample)
            "A sample with this title already exists" with
    | Stop c msg => (fail c msg, w)
    | Go slug =>
      match contentOnUpdate cloud "samples" (SampleBody.content body)
              (Sample.content sample) slug (Sample.contentUrl sample) w with
      | (Stop c msg, w1) => (fail c msg, w1)
      | (Go contentUrl, w1) =>
        let sample' :=
          Sample.mk (Sample._id sample)
            (SampleBody.title body ||| Sample.title sample)
            (SampleBody.subtitle body ||| Sample.subtitle sample)
            (SampleBody.description body ||| Sample.description sample)
            slug
            (* Update contentUrl if it changed *)
            (defined_or contentUrl (Sample.contentUrl sample))
            (SampleBody.subject body ||| Sample.subject sample)
            (SampleBody.topic body ||| Sample.topic sample)
            (SampleBody.academicLevel body ||| Sample.academicLevel sample)
            (SampleBody.wordCount body ||| Sample.wordCount sample)
            (SampleBody.referenceCount body ||| Sample.referenceCount sample)
            (SampleBody.faqs body ||| Sample.faqs sample)
            (* Only admins can change status *)
            (match SampleBody.status body with
             | Some st => if truthy st && isAdmin user then st
                          else Sample.status sample
             | None => Sample.status sample
             end) in
        match Sample_saveLoaded sample sample' w1 with
        | Some w2 => (reply 200 "Sample updated successfully" sample', w2)
        | None => (fail 500 "Error updating sample", w1)
        end
      end
    end
  end.

(** Toggle sample status between Draft and Published *)
Definition toggleSampleStatus (id : nat) (w : World)
  : Response (nat * string) * World :=
  match findById Sample._id id (samples w) with
  | None => (fail 404 "Sample not found", w)
  | Some sample =>
    (* Only allow toggling between Draft and Published, not Archived *)
    if String.eqb (Sample.status sample) ESampleStatus.ARCHIVED
    then (fail 400 "Cannot toggle status of archived sample", w)
    else
      let newStatus :=
        if String.eqb (Sample.status sample) ESampleStatus.PUBLISHED
        then ESampleStatus.DRAFT else ESampleStatus.PUBLISHED in
      (reply 200 "Sample status toggled successfully" (id, newStatus),
       Sample_setStatus id newStatus w)
  end.
End SampleController.

(* ================================================================== *)
(** * controllers/blog.controller.ts *)
(* ================================================================== *)

(** [Math.ceil(content.split(/\s+/).length / 200)]: the split has one piece
    more than the content has white-space runs. *)
Definition readingTime (content : string) : Z :=
  Z.of_nat ((S (Slug.space_runs false content) + 199) / 200).

Section BlogController.
Variable cloud : Cloudinary.
Variable rt : Runtime.
Variable BlogCategories : list string.

(** [x ? JSON.parse(x) : undefined] *)
Definition parseIfGiven (x : option string) : Step (option JsValue) :=
  match x with
  | Some s =>
      if truthy s then
        match JSON_parse rt s with
        | Some v => Go (Some v)
        | None => Stop 500 "SyntaxError"
        end
      else Go None
  | None => Go None
  end.

(** [x !== undefined]: [typeof x === 'string' ? JSON.parse(x) : x], the
    fields of a multipart body being strings. *)
Definition parseIfDefined (x : option string) (old : option JsValue)
  : Step (option JsValue) :=
  match x with
  | Some s =>
      match JSON_parse rt s with
      | Some v => Go (Some v)
      | None => Stop 500 "SyntaxError"
      end
  | None => Go old
  end.

(** [parsed.title && parsed.content] *)
Definition ctaComplete (parsed : JsValue) : bool :=
  truthy (js_get "title" parsed) && truthy (js_get "content" parsed).

(** The [ctaSection] of [createBlog]. *)
Definition ctaOnCreate (x : option string) : Step (option JsValue) :=
  match parseIfGiven x with
  | Go (Some JNull) => Stop 500 "TypeError"
  | Go (Some parsed) => Go (if ctaComplete parsed then Some parsed else None)
  | other => other
  end.

(** The [ctaSection] of [updateBlog]. *)
Definition ctaOnUpdate (x : option string) (old : option JsValue)
  : Step (option JsValue) :=
  match x with
  | Some s =>
      match JSON_parse rt s with
      | Some parsed =>
          if truthy parsed && ctaComplete parsed then Go (Some parsed)
          else if truthy parsed then Go None
          else Go old
      | None => Stop 500 "SyntaxError"
      end
  | None => Go old
  end.

(** [thumbnail] is [req.files?.thumbnail?.[0]?.path]. *)
Definition createBlog (errors : list string) (body : BlogBody.t)
    (thumbnail : option string) (user : option User) (w : World)
  : Response Blog.t * World :=
  let oops := fail 500 "Error creating blog" in
  match errors with
  | _ :: _ => (invalid, w)
  | [] =>
    match user, BlogBody.title body with
    | None, _ | _, None => (oops, w)
    | Some u, Some title =>
      let slug := Slug.slugify title in
      match find (fun d => str_eq (Blog.slug d) (Some slug)) (blogs w) with
      | Some _ => (fail 400 "A blog with this title already exists", w)
      | None =>
        match contentOnCreate cloud "blogs" (BlogBody.content body) slug w with
        | (Stop c msg, w1) => (fail c msg, w1)
        | (Go contentUrl, w1) =>
          match BlogBody.content body with
          | None => (oops, w1)
          | Some content =>
            match parseIfGiven (BlogBody.tableOfContents body),
                  ctaOnCreate (BlogBody.ctaSection body),
                  parseIfGiven (BlogBody.readMore body),
                  parseIfGiven (BlogBody.faqs body),
                  (if truthy (BlogBody.views body)
                   then parseParam rt (BlogBody.views body) else Some 0%Z) with
            | Go toc, Go cta, Go more, Go faqs, Some views =>
              let blog :=
                Blog.mk (nextId w1) (Some title) (BlogBody.subtitle body)
                  (BlogBody.description body) (Some slug) contentUrl
                  thumbnail (Some (user_id u)) views (BlogBody.category body)
                  None toc (BlogBody.tags body) (Some (readingTime content))
                  EBlogStatus.DRAFT cta
                  (BlogBody.authorName body ||| user_name u) more faqs in
              match Blog_save BlogCategories blog (bump w1) with
              | Some w2 => (reply 201 "Blog created successfully" blog, w2)
              | None => (oops, w1)
              end
            | _, _, _, _, _ => (oops, w1)
            end
          end
        end
      end
    end
  end.
(** The filter that [getBlogs] builds: status, tag, category, search. *)
Definition blogsStatusFilter (status : option string) (user : option User)
  : option string :=
  (* Status filter (for admins, show all. for others, show only published) *)
  if isAdmin user
  then (if truthy status then status else None)
  else Some EBlogStatus.PUBLISHED.

(** [tags] holds [tag]: the stored value is the tag or an array with it. *)
Definition hasTag (tag : string) (tags : option JsValue) : bool :=
  match tags with
  | Some (JStr s) => String.eqb s tag
  | Some (JArr items) =>
      existsb (fun v => match v with JStr s => String.eqb s tag | _ => false end)
              items
  | _ => false
  end.

Definition searched (re : string -> bool) (field : option string) : bool :=
  match field with Some s => re s | None => false end.

Definition getBlogs (page limit status tag category search : option string)
    (user : option User) (w : World)
  : Response (list Blog.t * Pagination) * World :=
  let page := int_or (parseParam rt page) 1 in
  let limit := int_or (parseParam rt limit) 10 in
  let status := blogsStatusFilter status user in
  match (if truthy search
         then match search with
              | Some pat => regex_i rt pat
              | None => None
              end
         else Some (fun _ => true)) with
  | None => (fail 500 "Error fetching blogs", w)
  | Some re =>
    let query (d : Blog.t) :=
      matches status (Some (Blog.status d))
      && match tag with
         | Some t => if truthy t then hasTag t (Blog.tags d) else true
         | None => true
         end
      && (if truthy category then matches category (Blog.category d) else true)
      && (if truthy search
          then searched re (Blog.title d) || searched re (Blog.description d)
          else true) in
    let found := filter query (blogs w) in
    match paginate page limit (rev found) with
    | None => (fail 500 "Error fetching blogs", w)
    | Some page_items =>
        (reply_data (page_items,
                     {| current := page;
                        total := total_pages (length found) limit;
                        totalItems := length found |}), w)
    end
  end.

(** "Handle thumbnail update" of [updateBlog]: the old thumbnail is
    deleted from the blob store, then the path of the new one is taken. *)
Definition thumbnailOnUpdate (thumbnail old : option string) (w : World)
  : Step (option string) * World :=
  match thumbnail with
  | Some path =>
      match old with
      | Some url =>
          if truthy url then
            let pid := getPublicIdFromUrl cloud url in
            let done := deleteFile cloud pid None in
            (if done then Go (Some path) else Stop 500 "Error updating blog",
             log (DeleteFile pid None done) w)
          else (Go (Some path), w)
      | None => (Go (Some path), w)
      end
  | None => (Go old, w)
  end.

(** [now] is the instant that [new Date()] reads. *)
Definition updateBlog (id : nat) (body : BlogBody.t)
    (thumbnail : option string) (user : option User) (now : nat) (w : World)
  : Response Blog.t * World :=
  let oops := fail 500 "Error updating blog" in
  match findById Blog._id id (blogs w) with
  | None => (fail 404 "Blog not found", w)
  | Some blog =>
    (* Check permissions *)
    match user, Blog.creator blog with
    | None, _ | _, None => (fail 403 "Invalid user or blog data", w)
    | Some u, Some creator =>
      if negb (user_id u =? creator) && negb (isAdmin user)
      then (fail 403 "Not authorized to update this blog", w)
      else
      match slugOnUpdate Blog._id Blog.slug (blogs w) id
              (BlogBody.title body) (Blog.title blog) (Blog.slug blog)
              "A blog with this title already exists" with
      | Stop c msg => (fail c msg, w)
      | Go slug =>
        match contentOnUpdate cloud "blogs" (BlogBody.content body)
                (Blog.content blog) slug (Blog.contentUrl blog) w with
        | (Stop c msg, w1) => (fail c msg, w1)
        | (Go contentUrl, w1) =>
          let '(thumb, w2) :=
            thumbnailOnUpdate thumbnail (Blog.thumbnailUrl blog) w1 in
          match thumb,
                parseIfDefined (BlogBody.tableOfContents body)
                               (Blog.tableOfContents blog),
                ctaOnUpdate (BlogBody.ctaSection body) (Blog.ctaSection blog),
                parseIfDefined (BlogBody.readMore body) (Blog.readMore blog),
                parseIfDefined (BlogBody.faqs body) (Blog.faqs blog) with
          | Go thumbnailUrl, Go toc, Go cta, Go more, Go faqs =>
            (* Only admins can change status *)
            let changes := truthy (BlogBody.status body) && isAdmin user in
            let status := if changes
                          then interpolate (BlogBody.status body)
                          else Blog.status blog in
            let blog' :=
              Blog.mk (Blog._id blog)
                (BlogBody.title body ||| Blog.title blog)
                (BlogBody.subtitle body ||| Blog.subtitle blog)
                (BlogBody.description body ||| Blog.description blog)
                slug
                (defined_or contentUrl (Blog.contentUrl blog))
                thumbnailUrl
                (Blog.creator blog)
                (match BlogBody.views body with
                 | Some v => int_or (parseInt rt v) 0
                 | None => Blog.views blog
                 end)
                (BlogBody.category body ||| Blog.category blog)
                (* Set datePublished when published for the first time *)
                (if changes && String.eqb status EBlogStatus.PUBLISHED
                 then match Blog.datePublished blog with
                      | Some d => Some d
                      | None => Some now
                      end
                 else Blog.datePublished blog)
                toc
                (BlogBody.tags body ||| Blog.tags blog)
                (* Update reading time if content changed *)
                (match BlogBody.content body with
                 | Some c => if truthy c then Some (readingTime c)
                             else Blog.readTime blog
                 | None => Blog.readTime blog
                 end)
                status cta
                (BlogBody.authorName body ||| Blog.authorName blog
                 ||| user_name u)
                more faqs in
            match Blog_saveLoaded BlogCategories blog blog' w2 with
            | Some w3 => (reply 200 "Blog updated successfully" blog', w3)
            | None => (oops, w2)
            end
          | _, _, _, _, _ => (oops, w2)
          end
        end
      end
    end
  end.

(** Toggle blog status between Draft and Published *)
Definition toggleBlogStatus (id : nat) (w : World)
  : Response (nat * string) * World :=
  match findById Blog._id id (blogs w) with
  | None => (fail 404 "Blog not found", w)
  | Some blog =>
    (* Only allow toggling between Draft and Published, not Archived *)
    if String.eqb (Blog.status blog) EBlogStatus.ARCHIVED
    then (fail 400 "Cannot toggle status of archived blog", w)
    else
      let newStatus :=
        if String.eqb (Blog.status blog) EBlogStatus.PUBLISHED
        then EBlogStatus.DRAFT else EBlogStatus.PUBLISHED in
      (reply 200 "Blog status toggled successfully" (id, newStatus),
       Blog_setStatus id newStatus w)
  end.
End BlogController.

(* ================================================================== *)
(** * controllers/service.controller.ts *)
(* ================================================================== *)

(** [.sort("order")]: ascending, documents of equal order in stored order. *)
Fixpoint insertByOrder (d : Service.t) (l : list Service.t) : list Service.t :=
  match l with
  | [] => [d]
  | x :: r =>
      if (Service.order d <=? Service.order x)%Z then d :: l
      else x :: insertByOrder d r
  end.

Definition sortByOrder (l : list Service.t) : list Service.t :=
  fold_right insertByOrder [] l.

(** [service] refers to the section [id]. *)
Definition in_section (id : nat) (service : Service.t) : bool :=
  match Service.section service with
  | Some sec => sec =? id
  | None => false
  end.

Section ServiceController.
Variable cloud : Cloudinary.
Variable rt : Runtime.

(** [name], [description], [order] and [status] are the fields of the
    body. *)
Definition updateSection (id : nat) (name description : option string)
    (order : option Z) (status : option string) (w : World)
  : Response ServiceSection.t * World :=
  match findById ServiceSection._id id (sections w) with
  | None => (fail 404 "Section not found", w)
  | Some section =>
    (* If name is changing, check slug uniqueness *)
    match slugOnUpdate ServiceSection._id ServiceSection.slug (sections w) id
            name (ServiceSection.name section) (ServiceSection.slug section)
            "A section with this name already exists" with
    | Stop c msg => (fail c msg, w)
    | Go slug =>
      let section' :=
        ServiceSection.mk (ServiceSection._id section)
          (name ||| ServiceSection.name section)
          (description ||| ServiceSection.description section)
          slug
          (match order with
           | Some o => o
           | None => ServiceSection.order section
           end)
          (match status with
           | Some st => st ||| ServiceSection.status section
           | None => ServiceSection.status section
           end) in
      match ServiceSection_saveLoaded section section' w with
      | Some w1 => (reply 200 "Section updated successfully" section', w1)
      | None => (fail 500 "Error updating section", w)
      end
    end
  end.

Definition deleteSection (id : nat) (w : World) : Response unit * World :=
  (* Check if section has any services *)
  let servicesCount := countDocuments (in_section id) (services w) in
  if 0 <? servicesCount
  then (fail 400 "Cannot delete section with existing services", w)
  else
    match findById ServiceSection._id id (sections w) with
    | None => (fail 404 "Section not found", w)
    | Some _ =>
        (reply_msg "Section deleted successfully",
         log (DbDelete MServiceSection id)
             (set_sections (remove ServiceSection._id id (sections w)) w))
    end.

Definition createService (errors : list string) (body : ServiceBody.t)
    (w : World) : Response Service.t * World :=
  match errors with
  | _ :: _ => (invalid, w)
  | [] =>
    (* Check if section exists *)
    match match ServiceBody.section body with
          | Some sec => findById ServiceSection._id sec (sections w)
          | None => None
          end with
    | None => (fail 404 "Section not found", w)
    | Some _ =>
      match ServiceBody.title body with
      | None => (fail 500 "Error creating service", w)
      | Some title =>
        let slug := Slug.slugify title in
        match find (fun d => str_eq (Service.slug d) (Some slug)) (services w) with
        | Some _ => (fail 400 "A service with this title already exists", w)
        | None =>
          match contentOnCreate cloud "services" (ServiceBody.content body)
                  slug w with
          | (Stop c msg, w1) => (fail c msg, w1)
          | (Go contentUrl, w1) =>
            let service :=
              Service.mk (nextId w1) (ServiceBody.section body) (Some title)
                (ServiceBody.subtitle body) (ServiceBody.description body)
                (Some slug) contentUrl
                (match ServiceBody.order body with
                 | Some o => o ||| 0%Z
                 | None => 0%Z
                 end)
                (* no status is passed: the default of the schema *)
                EServiceStatus.DRAFT
                (ServiceBody.features body) (ServiceBody.experts body)
                (ServiceBody.process body) (ServiceBody.promises body)
                (ServiceBody.cta body) None in
            match Service_save service (bump w1) with
            | Some w2 => (reply 201 "Service created successfully" service, w2)
            | None => (fail 500 "Error creating service", w1)
            end
          end
        end
      end
    end
  end.

Definition servicesStatusFilter (status : option string) (user : option User)
  : option string :=
  (* Status filter (for admins, show all. for others, show only live) *)
  if isAdmin user
  then (if truthy status then status else None)
  else Some EServiceStatus.LIVE.

Definition getServices (sectionId : option nat)
    (status search page limitParam : option string)
    (user : option User) (w : World)
  : Response (list Service.t * (Pagination + nat)) * World :=
  let page := int_or (parseParam rt page) 1 in
  let limit := if truthy limitParam then parseParam rt limitParam else None in
  let status := servicesStatusFilter status user in
  match (if truthy search
         then match search with
              | Some pat => regex_i rt pat
              | None => None
              end
         else Some (fun _ => true)) with
  | Some re =>
    let query (d : Service.t) :=
      matches status (Some (Service.status d))
      && match sectionId with
         | Some n => match Service.section d with
                     | Some m => m =? n
                     | None => false
                     end
         | None => true
         end
      && (if truthy search
          then searched re (Service.title d) || searched re (Service.subtitle d)
               || searched re (Service.description d)
          else true) in
    let found := filter query (services w) in
    let sorted := sortByOrder found in
    (* Only apply pagination if limit is specified *)
    match limit with
    | Some l =>
        if truthy l then
          match paginate page l sorted with
          | Some page_items =>
              (reply_data (page_items,
                           inl {| current := page;
                                  total := total_pages (length found) l;
                                  totalItems := length found |}), w)
          | None => (fail 500 "Error fetching services", w)
          end
        else (reply_data (sorted, inr (length found)), w)
    | None => (reply_data (sorted, inr (length found)), w)
    end
  | None => (fail 500 "Error fetching services", w)
  end.

Definition updateService (id : nat) (body : ServiceBody.t) (w : World)
  : Response Service.t * World :=
  match findById Service._id id (services w) with
  | None => (fail 404 "Service not found", w)
  | Some service =>
    (* If section is changing, validate it exists *)
    match match ServiceBody.section body, Service.section service with
          | Some sec, Some cur =>
              if negb (sec =? cur) then
                match findById ServiceSection._id sec (sections w) with
                | Some _ => Go tt
                | None => Stop 404 "Section not found"
                end
              else Go tt
          | Some _, None => Stop 500 "Error updating service"
          | None, _ => Go tt
          end with
    | Stop c msg => (fail c msg, w)
    | Go _ =>
      match slugOnUpdate Service._id Service.slug (services w) id
              (ServiceBody.title body) (Service.title service)
              (Service.slug service)
              "A service with this title already exists" with
      | Stop c msg => (fail c msg, w)
      | Go slug =>
        match contentOnUpdate cloud "services" (ServiceBody.content body)
                (Service.contentUrl service) slug
                (Service.contentUrl service) w with
        | (Stop c msg, w1) => (fail c msg, w1)
        | (Go contentUrl, w1) =>
          let service' :=
            Service.mk (Service._id service)
              (match ServiceBody.section body with
               | Some sec => Some sec
               | None => Service.section service
               end)
              (ServiceBody.title body ||| Service.title service)
              (ServiceBody.subtitle body ||| Service.subtitle service)
              (ServiceBody.description body ||| Service.description service)
              slug
              (defined_or contentUrl (Service.contentUrl service))
              (match ServiceBody.order body with
               | Some o => o
               | None => Service.order service
               end)
              (match ServiceBody.status body with
               | Some st => st ||| Service.status service
               | None => Service.status service
               end)
              (ServiceBody.features body ||| Service.features service)
              (defined_or (ServiceBody.experts body) (Service.experts service))
              (defined_or (ServiceBody.process body) (Service.process service))
              (defined_or (ServiceBody.promises body) (Service.promises service))
              (defined_or (ServiceBody.cta body) (Service.cta service))
              (Service.faqs service) in
          match Service_saveLoaded service service' w1 with
          | Some w2 => (reply 200 "Service updated successfully" service', w2)
          | None => (fail 500 "Error updating service", w1)
          end
        end
      end
    end
  end.

(** Toggle service status between Draft and Live *)
Definition toggleServiceStatus (id : nat) (w : World)
  : Response (nat * string) * World :=
  match findById Service._id id (services w) with
  | None => (fail 404 "Service not found", w)
  | Some service =>
    (* Only allow toggling between Draft and Live, not other statuses *)
    if String.eqb (Service.status service) EServiceStatus.INACTIVE
       || String.eqb (Service.status service) EServiceStatus.COMING_SOON
    then (fail 400 "Cannot toggle status of inactive or coming soon service", w)
    else
      let newStatus :=
        if String.eqb (Service.status service) EServiceStatus.LIVE
        then EServiceStatus.DRAFT else EServiceStatus.LIVE in
      (reply 200 "Service status toggled successfully" (id, newStatus),
       Service_setStatus id newStatus w)
  end.
End ServiceController.

(* ================================================================== *)
(** * controllers/testimonials.controller.ts *)
(* ================================================================== *)

Section TestimonialController.
Variable cloud : Cloudinary.
Variable rt : Runtime.

(** [image] is [req.files?.image?.[0]?.path]. *)
Definition createTestimonial (body : TestimonialBody.t)
    (image : option string) (w : World) : Response Testimonial.t * World :=
  (* Validate stars field *)
  match TestimonialBody.stars body with
  | None => (fail 400 "Stars field is required and must be between 1 and 5", w)
  | Some stars =>
    if negb (truthy stars) || (stars <? 1)%Z || (5 <? stars)%Z
    then (fail 400 "Stars field is required and must be between 1 and 5", w)
    else
      let testimonial :=
        Testimonial.mk (nextId w) (TestimonialBody.name body)
          (TestimonialBody.content body) (Some stars)
          (TestimonialBody.location body) image
          (match TestimonialBody.status body with
           | Some st => st ||| "draft"
           | None => "draft"
           end)
          (match TestimonialBody.forHomepage body with
           | Some b => b ||| false
           | None => false
           end) in
      match Testimonial_save testimonial (bump w) with
      | Some w1 => (reply 201 "Testimonial created successfully" testimonial, w1)
      | None => (fail 500 "Error creating testimonial", w)
      end
  end.

(** The public list: only published testimonials. *)
Definition getTestimonials (page limit forHomepage : option string) (w : World)
  : Response (list Testimonial.t * Pagination) * World :=
  let page := int_or (parseParam rt page) 1 in
  let limit := int_or (parseParam rt limit) 10 in
  let query (d : Testimonial.t) :=
    String.eqb (Testimonial.status d) "published"
    && match forHomepage with
       | Some f => Bool.eqb (Testimonial.forHomepage d) (String.eqb f "true")
       | None => true
       end in
  let found := filter query (testimonials w) in
  match paginate page limit (rev found) with
  | None => (fail 500 "Error fetching testimonials", w)
  | Some page_items =>
      (reply_data (page_items,
                   {| current := page;
                      total := total_pages (length found) limit;
                      totalItems := length found |}), w)
  end.

Definition updateTestimonial (id : nat) (body : TestimonialBody.t)
    (image : option string) (w : World) : Response Testimonial.t * World :=
  match findById Testimonial._id id (testimonials w) with
  | None => (fail 404 "Testimonial not found", w)
  | Some testimonial =>
    (* Validate stars field if provided *)
    if match TestimonialBody.stars body with
       | Some stars => (stars <? 1)%Z || (5 <? stars)%Z
       | None => false
       end
    then (fail 400 "Stars must be between 1 and 5", w)
    else
      (* Handle image update *)
      let '(imageUrl, w1) :=
        match image with
        | Some path =>
            (* Delete old image if exists *)
            if truthy (Testimonial.imageUrl testimonial) then
              let publicId :=
                getPublicIdFromUrl_export cloud
                  (interpolate (Testimonial.imageUrl testimonial)) in
              if truthy publicId then
                let done := deleteFile cloud publicId None in
                (if done then Go (Some path)
                 else Stop 500 "Error updating testimonial",
                 log (DeleteFile publicId None done) w)
              else (Go (Some path), w)
            else (Go (Some path), w)
        | None => (Go (Testimonial.imageUrl testimonial), w)
        end in
      match imageUrl with
      | Stop _ _ => (fail 500 "Error updating testimonial", w1)
      | Go imageUrl =>
        let testimonial' :=
          Testimonial.mk (Testimonial._id testimonial)
            (TestimonialBody.name body ||| Testimonial.name testimonial)
            (TestimonialBody.content body ||| Testimonial.content testimonial)
            (defined_or (TestimonialBody.stars body) (Testimonial.stars testimonial))
            (defined_or (TestimonialBody.location body)
                        (Testimonial.location testimonial))
            imageUrl
            (match TestimonialBody.status body with
             | Some st => st ||| Testimonial.status testimonial
             | None => Testimonial.status testimonial
             end)
            (match TestimonialBody.forHomepage body with
             | Some b => b
             | None => Testimonial.forHomepage testimonial
             end) in
        match Testimonial_saveLoaded testimonial testimonial' w1 with
        | Some w2 =>
            (reply 200 "Testimonial updated successfully" testimonial', w2)
        | None => (fail 500 "Error updating testimonial", w1)
        end
      end
  end.
End TestimonialController.

(* ================================================================== *)
(** * controllers/imageAssets.controller.ts *)
(* ================================================================== *)

Section ImageAssetController.
Variable cloud : Cloudinary.

(** [file] is [req.file]: the path and the file name of the upload. *)
Definition updateImageAsset (id : nat) (name altText : option string)
    (file : option (string * string)) (w : World)
  : Response ImageAsset.t * World :=
  match findById ImageAsset._id id (imageAssets w) with
  | None => (fail 404 "Image asset not found", w)
  | Some imageAsset =>
    (* Handle image update if new file is uploaded *)
    let '(url, publicId, w1) :=
      match file with
      | Some (path, filename) =>
          (Some path, Some filename,
           (* Delete old image from Cloudinary using stored public ID;
              a failure is only warned about *)
           match ImageAsset.publicId imageAsset with
           | Some old =>
               if truthy old
               then log (DeleteImageAsset old (deleteImageAsset cloud old)) w
               else w
           | None => w
           end)
      | None => (ImageAsset.url imageAsset, ImageAsset.publicId imageAsset, w)
      end in
    let imageAsset' :=
      ImageAsset.mk (ImageAsset._id imageAsset)
        (name ||| ImageAsset.name imageAsset)
        url
        (altText ||| ImageAsset.altText imageAsset)
        publicId in
    match ImageAsset_saveLoaded imageAsset imageAsset' w1 with
    | Some w2 => (reply 200 "Image asset updated successfully" imageAsset', w2)
    | None => (fail 500 "Error updating image asset", w1)
    end
  end.
End ImageAssetController.

(* ================================================================== *)
(** * Statements about worlds *)
(* ================================================================== *)

(** What happened outside the process between [w] and [w']. *)
Definition events_since (w w' : World) : list Event :=
  skipn (length (trace w)) (trace w').

(** The order that the design document asks of a replacement of content:
    a blob is deleted only after a write to the document store. *)
Definition delete_after_persist (evs : list Event) : Prop :=
  forall before pid kind done after,
    evs = (before ++ DeleteFile pid kind done :: after)%list ->
    exists m id, In (DbWrite m id) before.

(** ... asked of every successful update of a sample. *)
Definition updateSample_persists_first (cloud : Cloudinary) : Prop :=
  forall id body user w r w',
    updateSample cloud id body user w = (r, w') ->
    success r = true ->
    delete_after_persist (events_since w w').

(** The deletion of the old blob, as the content block of an update asks
    for it: only a locator that is a URL is deleted. *)
Definition old_blob_deletion (cloud : Cloudinary) (oldUrl : option string)
  : list Event :=
  match oldUrl with
  | Some old =>
      if truthy old && startsWith_http old
      then [DeleteFile (getPublicIdFromUrl cloud old) (Some "raw") true]
      else []
  | None => []
  end.

(** A created testimonial is a draft whatever the request says. *)
Definition createTestimonial_always_draft : Prop :=
  forall body image w r w' testimonial,
    createTestimonial body image w = (r, w') ->
    data r = Some testimonial ->
    Testimonial.status testimonial = "draft".

(** An update that supplies the empty string for the location of a
    testimonial leaves the stored location as it was. *)
Definition updateTestimonial_keeps_location : Prop :=
  forall cloud id body image w before after,
    TestimonialBody.location body = Some EmptyString ->
    findById Testimonial._id id (testimonials w) = Some before ->
    findById Testimonial._id id
             (testimonials (snd (updateTestimonial cloud id body image w)))
    = Some after ->
    Testimonial.location after = Testimonial.location before.

(** The document store holds the same documents in [w] and [w']. *)
Definition same_store (w w' : World) : Prop :=
  samples w' = samples w /\ blogs w' = blogs w /\ services w' = services w
  /\ sections w' = sections w /\ testimonials w' = testimonials w
  /\ imageAssets w' = imageAssets w.

(** Every service refers to a stored section. *)
Definition sections_resolve (w : World) : Prop :=
  forall service sec,
    In service (services w) -> Service.section service = Some sec ->
    exists section, findById ServiceSection._id sec (sections w) = Some section.

(* ================================================================== *)
(** * A small world to run the handlers in *)
(* ================================================================== *)

Module Demo.
Definition cloud : Cloudinary := {|
  uploader_upload := fun _ public_id _ =>
    Some ("https://res.cloudinary.com/raw/" ++ public_id);
  getPublicIdFromUrl := fun url => url;
  getPublicIdFromUrl_export := fun url => url;
  deleteFile := fun _ _ => true;
  deleteImageAsset := fun _ => true
|}.

(** The blob store is unreachable: every upload is rejected. *)
Definition cloud_down : Cloudinary := {|
  uploader_upload := fun _ _ _ => None;
  getPublicIdFromUrl := fun url => url;
  getPublicIdFromUrl_export := fun url => url;
  deleteFile := fun _ _ => true;
  deleteImageAsset := fun _ => true
|}.

Definition digit (c : ascii) : option Z :=
  if Slug.is_digit c then Some (Z.of_nat (Slug.code c - 48)) else None.

Fixpoint digits (acc : option Z) (s : string) : option Z :=
  match s with
  | EmptyString => acc
  | String c r =>
      match digit c with
      | Some d => digits (Some (match acc with
                                | Some a => a * 10 + d
                                | None => d
                                end)%Z) r
      | None => acc
      end
  end.

(** A runtime to run the requests below in: [parseInt] reads the decimal
    digits that a string starts with, no text is JSON, and a pattern
    matches the values that are equal to it. *)
Definition rt : Runtime := {|
  JSON_parse := fun _ => None;
  parseInt := digits None;
  regex_i := fun pattern => Some (String.eqb pattern)
|}.

Definition admin : User :=
  {| user_id := 100; role := "Admin"; user_name := Some "Ada" |}.
Definition visitor : User :=
  {| user_id := 200; role := "User"; user_name := Some "Vic" |}.

Definition sample (id : nat) (title slug status : string) : Sample.t :=
  Sample.mk id (Some title) None (Some "A description of the sample")
    (Some slug) (Some ("https://res.cloudinary.com/raw/" ++ slug ++ ".md"))
    (Some "Testing") None None None None None status.

Definition blog (id : nat) (title slug status : string)
    (published : option nat) : Blog.t :=
  Blog.mk id (Some title) None (Some "A description of the article")
    (Some slug) (Some ("https://res.cloudinary.com/raw/" ++ slug ++ ".md"))
    None (Some 100) 0%Z (Some "News") published None None (Some 1%Z) status
    None (Some "Ada") None None.

Definition service (id sec : nat) (title slug status : string) : Service.t :=
  Service.mk id (Some sec) (Some title) None
    (Some "A description of the service") (Some slug)
    (Some ("https://res.cloudinary.com/raw/" ++ slug ++ ".md"))
    0%Z status None None None None None None.

Definition section (id : nat) (name slug : string) : ServiceSection.t :=
  ServiceSection.mk id (Some name) None (Some slug) 0%Z "Live".

Definition testimonial (id : nat) (name location status : string)
  : Testimonial.t :=
  Testimonial.mk id (Some name) (Some "Very helpful") (Some 5%Z)
    (Some location) None status false.

Definition world : World := {|
  samples := [ sample 1 "Intro to Testing" "intro-to-testing" "Draft";
               sample 2 "Old Notes" "old-notes" "Archived";
               sample 3 "Graph Theory" "graph-theory" "Published" ];
  blogs := [ blog 1 "Hello World" "hello-world" "Draft" None;
             blog 2 "Retired Post" "retired-post" "Archived" (Some 5);
             blog 3 "Release Notes" "release-notes" "Published" (Some 7) ];
  services := [ service 1 10 "Essay Help" "essay-help" "Draft";
                service 2 10 "Thesis Help" "thesis-help" "Inactive";
                service 3 10 "Proofreading" "proofreading" "Live";
                service 4 10 "Tutoring" "tutoring" "Coming_Soon" ];
  sections := [ section 10 "Writing" "writing";
                section 11 "Empty Shelf" "empty-shelf" ];
  testimonials := [ testimonial 1 "Noor" "Paris" "published";
                    testimonial 2 "Sam" "Lima" "draft" ];
  imageAssets := [ ImageAsset.mk 1 (Some "Logo") (Some "https://res.cloudinary.com/image/logo.png")
                     (Some "The logo") (Some "assets/logo") ];
  nextId := 1000;
  trace := []
|}.

Definition categories : list string := ["News"; "Guides"].

Definition empty : World := {|
  samples := []; blogs := []; services := []; sections := [];
  testimonials := []; imageAssets := []; nextId := 1000; trace := []
|}.

(** A body that carries new raw content and nothing else. *)
Definition new_content : SampleBody.t :=
  SampleBody.mk None None None (Some "Fresh text of the sample") None None
    None None None None None.
Definition new_service_content : ServiceBody.t :=
  ServiceBody.mk None None None None (Some "Fresh text of the service")
    None None None None None None None.
Definition new_blog_content : BlogBody.t :=
  BlogBody.mk None None None (Some "Fresh text of the article") None None
    None None None None None None None.

(** Requests to create entities that ask to be published at once. *)
Definition eager_sample : SampleBody.t :=
  SampleBody.mk (Some "Number Theory") None (Some "Primes and congruences")
    (Some "https://res.cloudinary.com/raw/number-theory.md") (Some "Maths")
    None None None None None (Some "Published").
Definition eager_service : ServiceBody.t :=
  ServiceBody.mk (Some 10) (Some "Editing") None (Some "Editing of essays")
    (Some "Raw text of the service page") None None None None None None
    (Some "Live").
Definition eager_blog : BlogBody.t :=
  BlogBody.mk (Some "Study Tips") None (Some "How to study for exams")
    (Some "Raw text of the article") None (Some "Published") None None None
    None None (Some "Guides") None.
Definition eager_testimonial : TestimonialBody.t :=
  TestimonialBody.mk (Some "Lee") (Some "Great service") (Some 4%Z) None None
    (Some "published").

(** The same titles as stored entities, written otherwise. *)
Definition shouted_sample : SampleBody.t :=
  SampleBody.mk (Some "INTRO   TO TESTING?") None (Some "Another description")
    (Some "https://res.cloudinary.com/raw/other.md") (Some "Testing")
    None None None None None None.
Definition second_number_theory : SampleBody.t :=
  SampleBody.mk (Some "number theory!") None (Some "Another description")
    (Some "https://res.cloudinary.com/raw/other.md") (Some "Maths")
    None None None None None None.

(** A request that clears what it can of a testimonial. *)
Definition emptied_testimonial : TestimonialBody.t :=
  TestimonialBody.mk (Some EmptyString) (Some EmptyString) None
    (Some EmptyString) None None.

(** [GET /samples?status=Draft] *)
Definition ask_drafts : SampleQuery.t :=
  SampleQuery.mk None None None (Some "Draft") None None None.
End Demo.
(* ================================================================== *)
(** * controllers/sample.controller.ts, the other handlers *)
(* ================================================================== *)

(** [cloudinaryUtils.deleteFile(getPublicIdFromUrl(url), type)] when [url]
    is truthy: whether the handler may go on, and the world with the call
    recorded. *)
Definition deleteBlob (cloud : Cloudinary) (url : option string)
    (kind : option string) (w : World) : bool * World :=
  match url with
  | Some u =>
      if truthy u then
        let publicId := getPublicIdFromUrl cloud u in
        let done := deleteFile cloud publicId kind in
        (done, log (DeleteFile publicId kind done) w)
      else (true, w)
  | None => (true, w)
  end.

(** The filter [$or: [{ field: { $regex: search, $options: "i" } }, ...]],
    when [search] is truthy; [None] when the engine rejects the pattern. *)
Definition searchFilter (rt : Runtime) (search : option string)
  : option (option (string -> bool)) :=
  match search with
  | Some pattern =>
      if truthy pattern then
        match regex_i rt pattern with
        | Some re => Some (Some re)
        | None => None
        end
      else Some None
  | None => Some None
  end.

(** One of the fields matches, or there is no search. *)
Definition found_in (re : option (string -> bool)) (fields : list (option string))
  : bool :=
  match re with
  | Some test => existsb (searched test) fields
  | None => true
  end.

(** A filter that is applied when its value is truthy. *)
Definition matches_truthy (filter value : option string) : bool :=
  if truthy filter then str_eq value filter else true.

(** The [id] of a handler that deletes is [req.params.id] as [findById]
    reads it: [Some n] for the ObjectId [n], [None] for a string that is
    no ObjectId, on which [findById] rejects with a [CastError] and the
    [catch] of the handler answers. The document store is taken to
    answer the queries it is sent; one that it rejects would be answered
    by the same [catch]. *)

Section SampleReadersAndWriters.
Variable cloud : Cloudinary.
Variable rt : Runtime.

Definition getSampleBySlug (slug : string) (user : option User) (w : World)
  : Response Sample.t * World :=
  match find (fun d => str_eq (Sample.slug d) (Some slug)) (samples w) with
  | None => (fail 404 "Sample not found", w)
  | Some sample =>
      (* Check if user is admin or sample is published *)
      if negb (String.eqb (Sample.status sample) ESampleStatus.PUBLISHED)
         && negb (isAdmin user)
      then (fail 403 "Not authorized to view this sample", w)
      else (reply_data sample, w)
  end.

Definition deleteSample (id : option nat) (w : World)
  : Response unit * World :=
  match id with
  | None => (fail 500 "Error deleting sample", w)
  | Some id =>
  match findById Sample._id id (samples w) with
  | None => (fail 404 "Sample not found", w)
  | Some sample =>
      (* Delete content file from Cloudinary *)
      match deleteBlob cloud (Sample.contentUrl sample) (Some "raw") w with
      | (true, w1) =>
          (reply_msg "Sample deleted successfully",
           log (DbDelete MSample (Sample._id sample))
               (set_samples (remove Sample._id (Sample._id sample) (samples w1))
                            w1))
      | (false, w1) => (fail 500 "Error deleting sample", w1)
      end
  end
  end.

Definition getSampleByIdForAdmin (id : nat) (w : World)
  : Response Sample.t * World :=
  match findById Sample._id id (samples w) with
  | None => (fail 404 "Sample not found", w)
  | Some sample => (reply_data sample, w)
  end.

Definition archiveSample (id : nat) (w : World) : Response unit * World :=
  match findById Sample._id id (samples w) with
  | None => (fail 404 "Sample not found", w)
  | Some sample =>
      match Sample_saveLoaded sample
              (Sample.with_status ESampleStatus.ARCHIVED sample) w with
      | Some w1 => (reply_msg "Sample archived successfully", w1)
      | None => (fail 500 "Error archiving sample", w)
      end
  end.

(** Get all samples for admin (no status filtering) *)
Definition getAllSamplesForAdmin
    (page limit subject topic academicLevel search : option string) (w : World)
  : Response (list Sample.t * Pagination) * World :=
  let page := int_or (parseParam rt page) 1 in
  let limit := int_or (parseParam rt limit) 10 in
  match searchFilter rt search with
  | None => (fail 500 "Error fetching samples", w)
  | Some re =>
      let query (d : Sample.t) :=
        matches_truthy subject (Sample.subject d)
        && matches_truthy topic (Sample.topic d)
        && matches_truthy academicLevel (Sample.academicLevel d)
        && found_in re [Sample.title d; Sample.description d] in
      let found := filter query (samples w) in
      match paginate page limit (rev found) with
      | None => (fail 500 "Error fetching samples", w)
      | Some page_items =>
          (reply_data (page_items,
                       {| current := page;
                          total := total_pages (length found) limit;
                          totalItems := length found |}), w)
      end
  end.
End SampleReadersAndWriters.

(** The order of [{ $sort: { _id: 1 } }] on values that are a string or
    missing: a missing value first, strings by their code units. *)
Definition subject_compare (a b : option string) : comparison :=
  match a, b with
  | None, None => Eq
  | None, Some _ => Lt
  | Some _, None => Gt
  | Some x, Some y => String.compare x y
  end.

(** One more document in the group of [key], the groups being kept in
    ascending order of their [_id]. *)
Fixpoint tally (key : option string) (groups : list (option string * nat))
  : list (option string * nat) :=
  match groups with
  | [] => [(key, 1)]
  | (k, n) :: rest =>
      match subject_compare key k with
      | Eq => (k, S n) :: rest
      | Lt => (key, 1) :: groups
      | Gt => (k, n) :: tally key rest
      end
  end.

(** Get subject counts for all subjects (Public):
    [$match] the published samples, [$group] them by subject with
    [count: { $sum: 1 }], [$sort] the groups by [_id]. *)
Definition getSubjectCounts (w : World)
  : Response (list (option string * nat)) * World :=
  let published :=
    filter (fun d => String.eqb (Sample.status d) ESampleStatus.PUBLISHED)
           (samples w) in
  (reply_data (fold_right tally [] (map Sample.subject published)), w).

(* ================================================================== *)
(** * controllers/blog.controller.ts, the other handlers *)
(* ================================================================== *)

(** [x + 1] on numbers, for an integer [x] that a number holds: the sum
    is exact while it is below [2 ^ 53] in size; above, numbers are two
    or more apart and the sum is rounded to the nearest of them, to the
    one with the even significand when it lies half way. *)
Definition plus_one (x : Z) : Z :=
  if (Z.abs x <? 2 ^ 53)%Z || (x =? - 2 ^ 53)%Z then (x + 1)%Z
  else if (Z.abs x <? 2 ^ 54)%Z
       then (if (x mod 4 =? 0)%Z then x else x + 2)%Z
       else x.

(** The blog with one more view: [blog.views = (blog.views || 0) + 1]. *)
Definition Blog_viewed (d : Blog.t) : Blog.t :=
  Blog.mk (Blog._id d) (Blog.title d) (Blog.subtitle d) (Blog.description d)
    (Blog.slug d) (Blog.contentUrl d) (Blog.thumbnailUrl d) (Blog.creator d)
    (plus_one (Blog.views d ||| 0%Z)) (Blog.category d) (Blog.datePublished d)
    (Blog.tableOfContents d) (Blog.tags d) (Blog.readTime d) (Blog.status d)
    (Blog.ctaSection d) (Blog.authorName d) (Blog.readMore d) (Blog.faqs d).

Section BlogReadersAndWriters.
Variable cloud : Cloudinary.
Variable rt : Runtime.
Variable BlogCategories : list string.

(** The answer carries the blog as it is stored: [populate], which puts
    the name and email of the creator in its place, is left out. *)
Definition getBlogBySlug (slug : string) (w : World) : Response Blog.t * World :=
  match find (fun d => str_eq (Blog.slug d) (Some slug)) (blogs w) with
  | None => (fail 404 "Blog not found", w)
  | Some blog =>
      if negb (String.eqb (Blog.status blog) EBlogStatus.PUBLISHED)
      then (fail 403 "Not authorized to view this blog", w)
      else
        (* Increment views *)
        match Blog_saveLoaded BlogCategories blog (Blog_viewed blog) w with
        | Some w1 => (reply_data (Blog_viewed blog), w1)
        | None => (fail 500 "Error fetching blog", w)
        end
  end.

Definition archiveBlog (id : nat) (w : World) : Response unit * World :=
  match findById Blog._id id (blogs w) with
  | None => (fail 404 "Blog not found", w)
  | Some blog =>
      match Blog_saveLoaded BlogCategories blog
                            (Blog.with_status EBlogStatus.ARCHIVED blog) w with
      | Some w1 => (reply_msg "Blog archived successfully", w1)
      | None => (fail 500 "Error archiving blog", w)
      end
  end.

Definition deleteBlog (id : option nat) (w : World) : Response unit * World :=
  match id with
  | None => (fail 500 "Error deleting blog", w)
  | Some id =>
  match findById Blog._id id (blogs w) with
  | None => (fail 404 "Blog not found", w)
  | Some blog =>
      (* Delete content from Cloudinary *)
      match deleteBlob cloud (Blog.contentUrl blog) (Some "raw") w with
      | (false, w1) => (fail 500 "Error deleting blog", w1)
      | (true, w1) =>
          (* Delete thumbnail if exists *)
          match deleteBlob cloud (Blog.thumbnailUrl blog) None w1 with
          | (false, w2) => (fail 500 "Error deleting blog", w2)
          | (true, w2) =>
              (reply_msg "Blog deleted successfully",
               log (DbDelete MBlog (Blog._id blog))
                   (set_blogs (remove Blog._id (Blog._id blog) (blogs w2)) w2))
          end
      end
  end
  end.

(** Get all blogs for admin (no status filtering) *)
Definition getAllBlogsForAdmin (page limit tag category search : option string)
    (w : World) : Response (list Blog.t * Pagination) * World :=
  let page := int_or (parseParam rt page) 1 in
  let limit := int_or (parseParam rt limit) 10 in
  match searchFilter rt search with
  | None => (fail 500 "Error fetching blogs", w)
  | Some re =>
      let query (d : Blog.t) :=
        match tag with
        | Some t => if truthy t then hasTag t (Blog.tags d) else true
        | None => true
        end
        && matches_truthy category (Blog.category d)
        && found_in re [Blog.title d; Blog.description d] in
      let found := filter query (blogs w) in
      match paginate page limit (rev found) with
      | None => (fail 500 "Error fetching blogs", w)
      | Some page_items =>
          (reply_data (page_items,
                       {| current := page;
                          total := total_pages (length found) limit;
                          totalItems := length found |}), w)
      end
  end.
End BlogReadersAndWriters.

(* ================================================================== *)
(** * controllers/service.controller.ts, the other handlers *)
(* ================================================================== *)

(** [.sort("order")] on sections: ascending, equal orders in stored order. *)
Fixpoint insertSection (d : ServiceSection.t) (l : list ServiceSection.t)
  : list ServiceSection.t :=
  match l with
  | [] => [d]
  | x :: r =>
      if (ServiceSection.order d <=? ServiceSection.order x)%Z then d :: l
      else x :: insertSection d r
  end.

Definition sortSections (l : list ServiceSection.t) : list ServiceSection.t :=
  fold_right insertSection [] l.

Section ServiceReadersAndWriters.
Variable cloud : Cloudinary.

Definition createSection (errors : list string) (name description : option string)
    (order : option Z) (w : World) : Response ServiceSection.t * World :=
  match errors with
  | _ :: _ => (invalid, w)
  | [] =>
    match name with
    | None => (fail 500 "Error creating section", w)
    | Some n =>
      (* Generate slug *)
      let slug := Slug.slugify n in
      (* Check if slug exists *)
      match find (fun d => str_eq (ServiceSection.slug d) (Some slug))
                 (sections w) with
      | Some _ => (fail 400 "A section with this name already exists", w)
      | None =>
        let section :=
          ServiceSection.mk (nextId w) name description (Some slug)
            (match order with
             | Some o => o ||| 0%Z
             | None => 0%Z
             end)
            (* no status is passed: the default of the schema *)
            EServiceSectionStatus.DRAFT in
        match ServiceSection_save section (bump w) with
        | Some w1 => (reply 201 "Section created successfully" section, w1)
        | None => (fail 500 "Error creating section", w)
        end
      end
    end
  end.

Definition getSections (w : World) : Response (list ServiceSection.t) * World :=
  (reply_data (sortSections (sections w)), w).

(** The answer carries the service as it is stored: [populate], which
    puts the name and slug of the section in its place, is left out. *)
Definition getServiceBySlug (slug : string) (w : World)
  : Response Service.t * World :=
  match find (fun d => str_eq (Service.slug d) (Some slug)) (services w) with
  | None => (fail 404 "Service not found", w)
  | Some service =>
      (* Only return service if it's live *)
      if negb (String.eqb (Service.status service) EServiceStatus.LIVE)
      then (fail 404 "Service not found", w)
      else (reply_data service, w)
  end.

Definition deleteService (id : option nat) (w : World)
  : Response unit * World :=
  match id with
  | None => (fail 500 "Error deleting service", w)
  | Some id =>
  match findById Service._id id (services w) with
  | None => (fail 404 "Service not found", w)
  | Some service =>
      (* Delete content from Cloudinary if exists *)
      match deleteBlob cloud (Service.contentUrl service) (Some "raw") w with
      | (true, w1) =>
          (reply_msg "Service deleted successfully",
           log (DbDelete MService (Service._id service))
               (set_services (remove Service._id (Service._id service)
                                     (services w1)) w1))
      | (false, w1) => (fail 500 "Error deleting service", w1)
      end
  end
  end.

End ServiceReadersAndWriters.

(* ================================================================== *)
(** * controllers/testimonials.controller.ts, the other handlers *)
(* ================================================================== *)

Definition Testimonial_with_status (st : string) (d : Testimonial.t)
  : Testimonial.t :=
  Testimonial.mk (Testimonial._id d) (Testimonial.name d) (Testimonial.content d)
    (Testimonial.stars d) (Testimonial.location d) (Testimonial.imageUrl d)
    st (Testimonial.forHomepage d).

Definition Testimonial_with_homepage (b : bool) (d : Testimonial.t)
  : Testimonial.t :=
  Testimonial.mk (Testimonial._id d) (Testimonial.name d) (Testimonial.content d)
    (Testimonial.stars d) (Testimonial.location d) (Testimonial.imageUrl d)
    (Testimonial.status d) b.

Section TestimonialReadersAndWriters.
Variable cloud : Cloudinary.
Variable rt : Runtime.

(** Get all testimonials for admin (with pagination and filters) *)
Definition getAllTestimonialsForAdmin
    (page limit forHomepage status : option string) (w : World)
  : Response (list Testimonial.t * Pagination) * World :=
  let page := int_or (parseParam rt page) 1 in
  let limit := int_or (parseParam rt limit) 10 in
  let query (d : Testimonial.t) :=
    match forHomepage with
    | Some f => Bool.eqb (Testimonial.forHomepage d) (String.eqb f "true")
    | None => true
    end
    && matches_truthy status (Some (Testimonial.status d)) in
  let found := filter query (testimonials w) in
  match paginate page limit (rev found) with
  | None => (fail 500 "Error fetching testimonials for admin", w)
  | Some page_items =>
      (reply_data (page_items,
                   {| current := page;
                      total := total_pages (length found) limit;
                      totalItems := length found |}), w)
  end.

Definition getTestimonialById (id : nat) (w : World)
  : Response Testimonial.t * World :=
  match findById Testimonial._id id (testimonials w) with
  | None => (fail 404 "Testimonial not found", w)
  | Some testimonial => (reply_data testimonial, w)
  end.

Definition deleteTestimonial (id : option nat) (w : World)
  : Response unit * World :=
  match id with
  | None => (fail 500 "Error deleting testimonial", w)
  | Some id =>
  match findById Testimonial._id id (testimonials w) with
  | None => (fail 404 "Testimonial not found", w)
  | Some testimonial =>
      (* Delete image if exists *)
      let '(done, w1) :=
        if truthy (Testimonial.imageUrl testimonial) then
          let publicId :=
            getPublicIdFromUrl_export cloud
              (interpolate (Testimonial.imageUrl testimonial)) in
          if truthy publicId then
            (deleteFile cloud publicId None,
             log (DeleteFile publicId None (deleteFile cloud publicId None)) w)
          else (true, w)
        else (true, w) in
      if done then
        (reply_msg "Testimonial deleted successfully",
         log (DbDelete MTestimonial id)
             (set_testimonials (remove Testimonial._id id (testimonials w1)) w1))
      else (fail 500 "Error deleting testimonial", w1)
  end
  end.

(** Get homepage testimonials *)
Definition getHomepageTestimonials (w : World)
  : Response (list Testimonial.t) * World :=
  (reply_data
     (rev (filter (fun d => Bool.eqb (Testimonial.forHomepage d) true
                            && String.eqb (Testimonial.status d) "published")
                  (testimonials w))), w).

Definition changeTestimonialStatus (id : nat) (status : option string)
    (w : World) : Response Testimonial.t * World :=
  let refused :=
    fail 400 "Invalid status. Must be 'draft', 'published', or 'archived'" in
  match status with
  | None => (refused, w)
  | Some st =>
      if negb (in_enum ["draft"; "published"; "archived"] st) then (refused, w)
      else
        match findById Testimonial._id id (testimonials w) with
        | None => (fail 404 "Testimonial not found", w)
        | Some testimonial =>
            let testimonial' := Testimonial_with_status st testimonial in
            match Testimonial_saveLoaded testimonial testimonial' w with
            | Some w1 =>
                (reply 200 ("Testimonial status changed to " ++ st)
                       testimonial', w1)
            | None => (fail 500 "Error changing testimonial status", w)
            end
        end
  end.

Definition toggleTestimonialForHomepage (id : nat) (w : World)
  : Response Testimonial.t * World :=
  match findById Testimonial._id id (testimonials w) with
  | None => (fail 404 "Testimonial not found", w)
  | Some testimonial =>
      let testimonial' :=
        Testimonial_with_homepage (negb (Testimonial.forHomepage testimonial))
                                  testimonial in
      match Testimonial_saveLoaded testimonial testimonial' w with
      | Some w1 =>
          (reply 200 ("Testimonial "
                      ++ (if Testimonial.forHomepage testimonial'
                          then "added to" else "removed from")
                      ++ " homepage") testimonial', w1)
      | None => (fail 500 "Error toggling testimonial for homepage", w)
      end
  end.
End TestimonialReadersAndWriters.

(* ================================================================== *)
(** * controllers/imageAssets.controller.ts, the other handlers *)
(* ================================================================== *)

Section ImageAssetReadersAndWriters.
Variable cloud : Cloudinary.

(** [file] is [req.file]: the path and the file name of the upload. *)
Definition createImageAsset (errors : list string) (name altText : option string)
    (file : option (string * string)) (w : World)
  : Response ImageAsset.t * World :=
  match errors with
  | _ :: _ => (fail 400 "Validation failed", w)
  | [] =>
      (* Check if image file is uploaded *)
      match file with
      | None => (fail 400 "Image file is required", w)
      | Some (path, filename) =>
          let imageAsset :=
            ImageAsset.mk (nextId w) name (Some path) altText (Some filename) in
          match ImageAsset_save imageAsset (bump w) with
          | Some w1 =>
              (reply 201 "Image asset created successfully" imageAsset, w1)
          | None => (fail 500 "Error creating image asset", w)
          end
      end
  end.

Definition getImageAssetById (id : nat) (w : World)
  : Response ImageAsset.t * World :=
  match findById ImageAsset._id id (imageAssets w) with
  | None => (fail 404 "Image asset not found", w)
  | Some imageAsset => (reply_data imageAsset, w)
  end.

Definition deleteImageAssetById (id : option nat) (w : World)
  : Response unit * World :=
  match id with
  | None => (fail 500 "Error deleting image asset", w)
  | Some id =>
  match findById ImageAsset._id id (imageAssets w) with
  | None => (fail 404 "Image asset not found", w)
  | Some imageAsset =>
      (* Delete image from Cloudinary using stored public ID; a failure is
         only warned about *)
      let w1 :=
        match ImageAsset.publicId imageAsset with
        | Some old =>
            if truthy old
            then log (DeleteImageAsset old (deleteImageAsset cloud old)) w
            else w
        | None => w
        end in
      (* Delete from database *)
      (reply_msg "Image asset deleted successfully",
       log (DbDelete MImageAsset id)
           (set_imageAssets (remove ImageAsset._id id (imageAssets w1)) w1))
  end
  end.
End ImageAssetReadersAndWriters.

(* ================================================================== *)
(** * middleware/service.middleware.ts, middleware/blog.middleware.ts *)
(* ================================================================== *)

(** The [customSanitizer] of [features] and of [tags]: a string is parsed
    and kept when it is the text of an array; every other value that is
    not an array becomes the empty array. *)
Definition arraySanitizer (rt : Runtime) (value : JsValue) : JsValue :=
  match value with
  | JStr s =>
      match JSON_parse rt s with
      | Some (JArr items) => JArr items
      | Some _ => JArr []
      | None => JArr []
      end
  | JArr _ => value
  | _ => JArr []
  end.

(** [typeof item !== 'string' || item.length < lo || item.length > hi] *)
Definition badItem (lo hi : nat) (item : JsValue) : bool :=
  match item with
  | JStr s => (String.length s <? lo) || (hi <? String.length s)
  | _ => true
  end.

(** The [custom] validator that follows the sanitizer: the message of the
    error it throws, or [None] when the value passes. *)
Definition arrayValidator (lo hi : nat) (notArray badItems : string)
    (value : JsValue) : option string :=
  match value with
  | JArr items => if existsb (badItem lo hi) items then Some badItems else None
  | _ => Some notArray
  end.

Definition validateFeatures (rt : Runtime) (value : JsValue) : option string :=
  arrayValidator 1 500 "Features must be an array"
    "Each feature must be a string between 1 and 500 characters"
    (arraySanitizer rt value).

Definition validateTags (rt : Runtime) (value : JsValue) : option string :=
  arrayValidator 2 50 "Tags must be an array"
    "Each tag must be a string between 2 and 50 characters"
    (arraySanitizer rt value).

(* ================================================================== *)
(** * controllers/dashboard.controller.ts *)
(* ================================================================== *)

(** [contentStatus] of [getDashboardStats]: four counts of documents by
    status. *)
Record ContentStatus := {
  publishedBlogs : nat;
  draftBlogs : nat;
  activeSamples : nat;
  inactiveSamples : nat
}.

Definition contentStatus (w : World) : ContentStatus := {|
  publishedBlogs :=
    countDocuments (fun d => String.eqb (Blog.status d) "published") (blogs w);
  draftBlogs :=
    countDocuments (fun d => String.eqb (Blog.status d) "draft") (blogs w);
  activeSamples :=
    countDocuments (fun d => String.eqb (Sample.status d) "active") (samples w);
  inactiveSamples :=
    countDocuments (fun d => String.eqb (Sample.status d) "inactive")
                   (samples w)
|}.

(* ================================================================== *)
(** * Statements about the other handlers *)
(* ================================================================== *)

(** A call of the blob store that deleted a file. *)
Definition blob_deleted (e : Event) : bool :=
  match e with
  | DeleteFile _ _ done => done
  | _ => false
  end.

(** The collections other than that of [m] hold the same documents in [w]
    and [w'], and no identifier was handed out. *)
Definition same_but (m : Model) (w w' : World) : Prop :=
  (m = MSample \/ samples w' = samples w)
  /\ (m = MBlog \/ blogs w' = blogs w)
  /\ (m = MService \/ services w' = services w)
  /\ (m = MServiceSection \/ sections w' = sections w)
  /\ (m = MTestimonial \/ testimonials w' = testimonials w)
  /\ (m = MImageAsset \/ imageAssets w' = imageAssets w)
  /\ nextId w' = nextId w.

(** Between [w] and [w'] the document [id] left the collection [coll] of
    the model [m]: the blob store deleted what it was asked to, then the
    document store was written once; no other document was touched. *)
Definition removes_one {A} (idof : A -> nat) (coll : World -> list A)
    (m : Model) (id : nat) (w w' : World) : Prop :=
  findById idof id (coll w') = None
  /\ (forall id', id' <> id ->
        findById idof id' (coll w') = findById idof id' (coll w))
  /\ (exists blobs,
        events_since w w' = (blobs ++ [DbDelete m id])%list
        /\ forallb blob_deleted blobs = true)
  /\ same_but m w w'.

(** The slug of a sample is the slug of its title. *)
Definition Sample_follows_title (d : Sample.t) : bool :=
  match Sample.title d with
  | Some title => str_eq (Sample.slug d) (Some (Slug.slugify title))
  | None => false
  end.

(** No identifier is held by two documents of the list. *)
Fixpoint distinct_ids {A} (idof : A -> nat) (l : list A) : bool :=
  match l with
  | [] => true
  | d :: r => negb (existsb (has_id idof (idof d)) r) && distinct_ids idof r
  end.

(** Documents of the list that hold the same slug hold the same
    identifier. *)
Definition distinct_slugs {A} (idof : A -> nat) (slugof : A -> option string)
    (l : list A) : bool :=
  forallb (fun a =>
             forallb (fun b => implb (str_eq (slugof a) (slugof b))
                                     (idof a =? idof b)) l) l.

(** The collection of samples is consistent: every sample passes the
    validators of its schema, has the slug of its title and an identifier
    that was handed out; no two samples share an identifier or a slug. *)
Definition Sample_store_ok (w : World) : bool :=
  forallb (fun d => Sample.validate d && Sample_follows_title d
                    && (Sample._id d <? nextId w)) (samples w)
  && distinct_ids Sample._id (samples w)
  && distinct_slugs Sample._id Sample.slug (samples w).

(** [sections_resolve], decided: the section of every service is the
    identifier of a stored section. *)
Definition sections_resolved (w : World) : bool :=
  forallb (fun service =>
             match Service.section service with
             | Some sec => existsb (has_id ServiceSection._id sec) (sections w)
             | None => true
             end) (services w).

(** The identifier of every stored section was handed out before. *)
Definition sections_known (w : World) : bool :=
  forallb (fun s => ServiceSection._id s <? nextId w) (sections w).

(** The count that a list of groups gives for a subject. *)
Definition count_of (subject : option string)
    (groups : list (option string * nat)) : nat :=
  match find (fun g => str_eq (fst g) subject) groups with
  | Some (_, n) => n
  | None => 0
  end.

(** The groups are in strictly ascending order of their subject. *)
Fixpoint ascending (groups : list (option string * nat)) : bool :=
  match groups with
  | [] => true
  | (k, _) :: rest =>
      match rest with
      | [] => true
      | (k', _) :: _ =>
          match subject_compare k k' with Lt => true | _ => false end
      end
      && ascending rest
  end.

(* ================================================================== *)
(** * Further requests to run in the small world *)
(* ================================================================== *)

Module Tour.
(** [GET /samples?page=2&limit=1] *)
Definition second_page : SampleQuery.t :=
  SampleQuery.mk None None None None None (Some "2") (Some "1").

(** A blob store that deletes raw files and rejects every other
    deletion. *)
Definition cloud_images_locked : Cloudinary := {|
  uploader_upload := fun _ public_id _ =>
    Some ("https://res.cloudinary.com/raw/" ++ public_id);
  getPublicIdFromUrl := fun url => url;
  getPublicIdFromUrl_export := fun url => url;
  deleteFile := fun _ kind =>
    match kind with Some _ => true | None => false end;
  deleteImageAsset := fun _ => false
|}.

(** A published blog with a thumbnail. *)
Definition illustrated : Blog.t :=
  Blog.mk 4 (Some "Field Notes") None (Some "Notes with a picture")
    (Some "field-notes") (Some "https://res.cloudinary.com/raw/field-notes.md")
    (Some "https://res.cloudinary.com/image/field-notes.png") (Some 100) 0%Z
    (Some "News") (Some 9) None None (Some 1%Z) "Published" None (Some "Ada")
    None None.

(** A testimonial with a picture. *)
Definition portrayed : Testimonial.t :=
  Testimonial.mk 3 (Some "Kim") (Some "Quick and kind") (Some 4%Z)
    (Some "Oslo") (Some "https://res.cloudinary.com/image/kim.png")
    "published" true.

(** A body that moves the content of a sample to another URL. *)
Definition moved_content : SampleBody.t :=
  SampleBody.mk None None None (Some "https://example.org/elsewhere.md") None
    None None None None None None.

(** A body that asks for publication and for nothing else. *)
Definition publish_me : SampleBody.t :=
  SampleBody.mk None None None None None None None None None None
    (Some "Published").

(** A sample whose title has no letter and no digit. *)
Definition punctuation : SampleBody.t :=
  SampleBody.mk (Some "?!") None (Some "A description") (Some "Some text")
    (Some "Testing") None None None None None None.

(** [GET /samples?page=0&limit=ten] *)
Definition page_zero : SampleQuery.t :=
  SampleQuery.mk None None None None None (Some "0") (Some "ten").

Definition gallery : World :=
  set_testimonials (testimonials Demo.world ++ [portrayed])
    (set_blogs (blogs Demo.world ++ [illustrated]) Demo.world).
End Tour.
(* ================================================================== *)
(** * Properties *)
(* ================================================================== *)

Local Open Scope list_scope.

(** ** Slugs *)

Module SlugFacts.
Import Slug.

Ltac each_char c := destruct c as [[] [] [] [] [] [] [] []]; vm_compute; try reflexivity; try discriminate.

Lemma lower_char_not_upper (c : ascii) : is_upper (lower_char c) = false.
Proof. each_char c. Qed.

Lemma class_after_lower (c : ascii) :
  in_class (lower_char c) = spec_class (lower_char c).
Proof.
  unfold in_class, spec_class.
  rewrite lower_char_not_upper, orb_false_r. reflexivity.
Qed.

Lemma strip_lowered (s : string) :
  strip (toLowerCase s) = filter_str spec_class (toLowerCase s).
Proof.
  unfold strip, toLowerCase.
  induction s as [|c r IH]; simpl; [reflexivity|].
  rewrite class_after_lower, IH. reflexivity.
Qed.

Lemma filter_all (p : ascii -> bool) (s : string) :
  all_str p (filter_str p s) = true.
Proof.
  induction s as [|c r IH]; simpl; [reflexivity|].
  destruct (p c) eqn:E; simpl; [rewrite E|]; assumption.
Qed.

Lemma spec_class_slug_char (c : ascii) :
  spec_class c = true -> is_space c = false -> slug_char c = true.
Proof.
  unfold spec_class, slug_char. intros H Hs. rewrite Hs, orb_false_r in H.
  rewrite H. reflexivity.
Qed.

Lemma spec_class_not_hyphen (c : ascii) :
  spec_class c = true -> is_hyphen c = false.
Proof. each_char c. Qed.

Lemma slug_char_lower (c : ascii) : slug_char c = true -> lower_char c = c.
Proof. each_char c. Qed.

Lemma collapse_chars (s : string) :
  all_str spec_class s = true ->
  forall b, all_str slug_char (collapse b s) = true.
Proof.
  induction s as [|c r IH]; simpl; intros H b; [reflexivity|].
  apply andb_prop in H as [Hc Hr].
  destruct (is_space c) eqn:Es.
  - destruct b; [exact (IH Hr true)|].
    change (slug_char hyphen && all_str slug_char (collapse true r) = true).
    rewrite (IH Hr true). reflexivity.
  - simpl. rewrite (spec_class_slug_char c Hc Es). exact (IH Hr false).
Qed.

Lemma lowered_fixed (s : string) :
  all_str slug_char s = true -> toLowerCase s = s.
Proof.
  unfold toLowerCase.
  induction s as [|c r IH]; simpl; intros H; [reflexivity|].
  apply andb_prop in H as [Hc Hr].
  rewrite (slug_char_lower c Hc), (IH Hr). reflexivity.
Qed.

Lemma collapse_no_double (s : string) :
  all_str spec_class s = true ->
  forall b,
    double_hyphen (collapse b s) = false
    /\ (b = true -> holds is_hyphen (first_char (collapse b s)) = false).
Proof.
  induction s as [|c r IH]; simpl; intros H b; [split; reflexivity|].
  apply andb_prop in H as [Hc Hr].
  destruct (is_space c) eqn:Es.
  - destruct (IH Hr true) as [Hd Hf].
    destruct b; simpl.
    + split; [assumption | intros _; apply Hf; reflexivity].
    + change (is_hyphen hyphen) with true. rewrite Hd, (Hf eq_refl).
      split; [reflexivity|discriminate].
  - destruct (IH Hr false) as [Hd _]. simpl.
    rewrite (spec_class_not_hyphen c Hc), Hd. split; reflexivity.
Qed.

Lemma double_hyphen_substring (s : string) :
  double_hyphen s = false -> forall p q, s <> (p ++ "--" ++ q)%string.
Proof.
  intros H p. revert s H.
  induction p as [|a p IH]; intros s H q E; subst s; simpl in H.
  - discriminate.
  - apply orb_false_elim in H as [_ H]. exact (IH _ H q eq_refl).
Qed.

Lemma collapse_first (s : string) :
  all_str spec_class s = true ->
  holds is_hyphen (first_char (collapse false s)) = holds is_space (first_char s).
Proof.
  destruct s as [|c r]; simpl; intros H; [reflexivity|].
  apply andb_prop in H as [Hc _].
  destruct (is_space c) eqn:Es; simpl; [reflexivity|].
  apply spec_class_not_hyphen; assumption.
Qed.

Lemma last_char_cons (c : ascii) (s : string) :
  last_char (String c s) = match s with EmptyString => Some c | _ => last_char s end.
Proof. destruct s; reflexivity. Qed.

Lemma collapse_run_empty (t : string) :
  collapse true t = EmptyString <-> all_str is_space t = true.
Proof.
  induction t as [|x t IH]; simpl; [tauto|].
  destruct (is_space x); simpl; [exact IH|split; discriminate].
Qed.

Lemma collapse_fresh_empty (t : string) :
  collapse false t = EmptyString -> t = EmptyString.
Proof. destruct t as [|x t]; simpl; [reflexivity|destruct (is_space x); discriminate]. Qed.

Lemma spaces_end_in_space (t : string) :
  all_str is_space t = true -> t <> EmptyString ->
  holds is_space (last_char t) = true.
Proof.
  induction t as [|x t IH]; intros H Hne; [congruence|].
  simpl in H. apply andb_prop in H as [Hx Ht].
  rewrite last_char_cons. destruct t; [exact Hx|]. apply IH; [assumption|discriminate].
Qed.

Lemma collapse_last (s : string) :
  all_str spec_class s = true ->
  forall b,
    holds is_hyphen (last_char (collapse b s))
    = holds is_space (last_char s) && (negb b || negb (all_str is_space s)).
Proof.
  induction s as [|c r IH]; intros H b; [reflexivity|].
  simpl in H. apply andb_prop in H as [Hc Hr].
  change (collapse b (String c r))
    with (if is_space c
          then (if b then collapse true r else String hyphen (collapse true r))
          else String c (collapse false r)).
  change (all_str is_space (String c r)) with (is_space c && all_str is_space r).
  destruct (is_space c) eqn:Es.
  - pose proof (IH Hr true) as IHt. cbn [negb andb orb] in IHt.
    destruct b; cbn [negb andb orb].
    + rewrite IHt.
      destruct r; [simpl; rewrite andb_false_r; reflexivity|].
      rewrite (last_char_cons c). reflexivity.
    + rewrite andb_true_r.
      rewrite last_char_cons.
      destruct (all_str is_space r) eqn:Ea.
      * rewrite (proj2 (collapse_run_empty r) Ea).
        rewrite last_char_cons. destruct r; [simpl; rewrite Es; reflexivity|].
        symmetry. apply spaces_end_in_space; [assumption|discriminate].
      * destruct (collapse true r) eqn:Ec.
        { apply collapse_run_empty in Ec. congruence. }
        rewrite IHt, andb_true_r, last_char_cons.
        destruct r; [discriminate Ea|reflexivity].
  - pose proof (IH Hr false) as IHf. cbn [negb andb orb] in IHf.
    rewrite andb_true_r in IHf.
    cbn [negb andb orb]. rewrite orb_true_r, andb_true_r.
    rewrite !last_char_cons.
    destruct r as [|c' r'].
    + simpl. rewrite Es. apply spec_class_not_hyphen; assumption.
    + destruct (collapse false (String c' r')) eqn:Ec.
      * apply collapse_fresh_empty in Ec. discriminate.
      * exact IHf.
Qed.

Lemma collapse_hyphens (s : string) :
  all_str spec_class s = true ->
  forall b, count_str is_hyphen (collapse b s) = space_runs b s.
Proof.
  induction s as [|c r IH]; simpl; intros H b; [reflexivity|].
  apply andb_prop in H as [Hc Hr].
  destruct (is_space c) eqn:Es.
  - destruct b; [exact (IH Hr true)|].
    change (S (count_str is_hyphen (collapse true r)) = S (space_runs true r)).
    rewrite (IH Hr true). reflexivity.
  - simpl. rewrite (spec_class_not_hyphen c Hc). exact (IH Hr false).
Qed.

Lemma stripped_class (title : string) :
  all_str spec_class (strip (toLowerCase title)) = true.
Proof. rewrite strip_lowered. apply filter_all. Qed.

End SlugFacts.

(** C8. For every title, the slug is the result of the algorithm of the
    design (lower-case, strip what is outside [a-z0-9\s], collapse each
    white-space run to one hyphen); it is in lower case and made of
    [a-z0-9-] only; it never has two hyphens in a row; its hyphens are as
    many as the white-space runs of the stripped title, so that it starts
    (ends) with a hyphen exactly when the stripped title starts (ends)
    with white space. *)
Theorem slugify_well_formed (title : string) :
  let stripped := Slug.strip (Slug.toLowerCase title) in
  let slug := Slug.slugify title in
  slug = Slug.spec_slugify title
  /\ Slug.toLowerCase slug = slug
  /\ Slug.all_str Slug.slug_char slug = true
  /\ (forall p q, slug <> (p ++ "--" ++ q)%string)
  /\ Slug.count_str Slug.is_hyphen slug = Slug.space_runs false stripped
  /\ Slug.holds Slug.is_hyphen (Slug.first_char slug)
     = Slug.holds Slug.is_space (Slug.first_char stripped)
  /\ Slug.holds Slug.is_hyphen (Slug.last_char slug)
     = Slug.holds Slug.is_space (Slug.last_char stripped).
Proof.
  intros stripped slug.
  pose proof (SlugFacts.stripped_class title) as Hs. fold stripped in Hs.
  assert (Hc : Slug.all_str Slug.slug_char slug = true)
    by (apply SlugFacts.collapse_chars; exact Hs).
  repeat split.
  - unfold slug, Slug.slugify, Slug.spec_slugify.
    rewrite SlugFacts.strip_lowered. reflexivity.
  - apply SlugFacts.lowered_fixed; exact Hc.
  - exact Hc.
  - apply SlugFacts.double_hyphen_substring.
    apply (SlugFacts.collapse_no_double stripped Hs false).
  - apply SlugFacts.collapse_hyphens; exact Hs.
  - apply SlugFacts.collapse_first; exact Hs.
  - pose proof (SlugFacts.collapse_last stripped Hs false) as H.
    cbn [negb orb] in H. rewrite andb_true_r in H. exact H.
Qed.

Example slug_intro : Slug.slugify "Intro to Testing!" = "intro-to-testing".
Proof. reflexivity. Qed.

Example slug_intro_caps : Slug.slugify "Intro To Testing" = "intro-to-testing".
Proof. reflexivity. Qed.

Example slug_leading : Slug.slugify "! hello --  world " = "-hello-world-".
Proof. reflexivity. Qed.


(** ** Collections *)

Section CollectionFacts.
Context {A : Type} (idof : A -> nat).

Lemma findById_id (id : nat) (l : list A) (d : A) :
  findById idof id l = Some d -> idof d = id.
Proof.
  unfold findById. intros H. apply find_some in H as [_ H].
  apply Nat.eqb_eq in H. exact H.
Qed.

Lemma findById_In (id : nat) (l : list A) (d : A) :
  findById idof id l = Some d -> In d l.
Proof. unfold findById. intros H. apply find_some in H as [H _]. exact H. Qed.

Lemma findById_map (f : A -> A) (id : nat) (l : list A) :
  (forall x, idof (f x) = idof x) ->
  findById idof id (map f l) = option_map f (findById idof id l).
Proof.
  intros Hf. unfold findById, has_id.
  induction l as [|x l IH]; simpl; [reflexivity|].
  rewrite Hf. destruct (idof x =? id); [reflexivity|exact IH].
Qed.

Lemma findById_replace (d : A) (l : list A) (old : A) :
  findById idof (idof d) l = Some old ->
  findById idof (idof d) (map (fun x => if has_id idof (idof d) x then d else x) l)
  = Some d.
Proof.
  unfold findById, has_id.
  induction l as [|x l IH]; simpl; [discriminate|].
  destruct (idof x =? idof d) eqn:E; simpl.
  - rewrite Nat.eqb_refl. reflexivity.
  - rewrite E. exact IH.
Qed.

Lemma existsb_findById (id : nat) (l : list A) :
  existsb (has_id idof id) l = true <-> exists d, findById idof id l = Some d.
Proof.
  unfold findById. induction l as [|x l IH]; simpl.
  - split; [discriminate|intros [d H]; discriminate].
  - destruct (has_id idof id x); simpl; [split; eauto|exact IH].
Qed.

Lemma findById_store (d : A) (l : list A) :
  findById idof (idof d) (store idof d l) = Some d.
Proof.
  unfold store. destruct (existsb (has_id idof (idof d)) l) eqn:E.
  - apply existsb_findById in E as [old E].
    eapply findById_replace; eassumption.
  - unfold findById. induction l as [|x l IH]; simpl in *.
    + unfold has_id. rewrite Nat.eqb_refl. reflexivity.
    + apply orb_false_elim in E as [E1 E2]. rewrite E1. exact (IH E2).
Qed.

Lemma findById_store_at (id : nat) (d : A) (l : list A) :
  idof d = id -> findById idof id (store idof d l) = Some d.
Proof. intros <-. apply findById_store. Qed.

Lemma findById_remove (id : nat) (l : list A) :
  findById idof id (remove idof id l) = None.
Proof.
  unfold findById, remove.
  induction l as [|x l IH]; simpl; [reflexivity|].
  destruct (has_id idof id x) eqn:E; simpl; [exact IH|rewrite E; exact IH].
Qed.

Lemma findById_remove_other (id id' : nat) (l : list A) :
  id' <> id ->
  findById idof id' (remove idof id l) = findById idof id' l.
Proof.
  intros Hne. unfold findById, remove, has_id.
  induction l as [|x l IH]; simpl; [reflexivity|].
  destruct (idof x =? id) eqn:E; simpl.
  - apply Nat.eqb_eq in E.
    destruct (idof x =? id') eqn:E'; [apply Nat.eqb_eq in E'; congruence|exact IH].
  - destruct (idof x =? id'); [reflexivity|exact IH].
Qed.
End CollectionFacts.

Lemma In_firstn {A} (n : nat) (l : list A) (x : A) :
  In x (firstn n l) -> In x l.
Proof.
  intros H. rewrite <- (firstn_skipn n l). apply in_or_app. left. exact H.
Qed.

Lemma In_skipn {A} (n : nat) (l : list A) (x : A) :
  In x (skipn n l) -> In x l.
Proof.
  intros H. rewrite <- (firstn_skipn n l). apply in_or_app. right. exact H.
Qed.

Lemma paginate_In {A} (page limit : Z) (l items : list A) (x : A) :
  paginate page limit l = Some items -> In x items -> In x l.
Proof.
  unfold paginate. destruct (_ <? 0)%Z; [discriminate|].
  intros [= <-] H. apply In_firstn, In_skipn in H. exact H.
Qed.

(** ** Toggling the status *)

(** C7. Toggling an entity in a terminal or side state (an archived
    sample or blog, an inactive or coming-soon service) is answered with
    the error 400 that names the refusal, and leaves the world, hence the
    status of the entity, as it was. *)
Theorem toggle_refuses_side_states (id : nat) (w : World) :
  (forall sample,
      findById Sample._id id (samples w) = Some sample ->
      Sample.status sample = ESampleStatus.ARCHIVED ->
      toggleSampleStatus id w
      = (fail 400 "Cannot toggle status of archived sample", w))
  /\ (forall blog,
      findById Blog._id id (blogs w) = Some blog ->
      Blog.status blog = EBlogStatus.ARCHIVED ->
      toggleBlogStatus id w
      = (fail 400 "Cannot toggle status of archived blog", w))
  /\ (forall service,
      findById Service._id id (services w) = Some service ->
      Service.status service = EServiceStatus.INACTIVE
      \/ Service.status service = EServiceStatus.COMING_SOON ->
      toggleServiceStatus id w
      = (fail 400 "Cannot toggle status of inactive or coming soon service", w)).
Proof.
  repeat split.
  - intros sample Hf Hs. unfold toggleSampleStatus. rewrite Hf, Hs. reflexivity.
  - intros blog Hf Hs. unfold toggleBlogStatus. rewrite Hf, Hs. reflexivity.
  - intros service Hf [Hs|Hs]; unfold toggleServiceStatus; rewrite Hf, Hs; reflexivity.
Qed.

Lemma toggle_refuses_side_states_witness :
  toggleSampleStatus 2 Demo.world
  = (fail 400 "Cannot toggle status of archived sample", Demo.world)
  /\ toggleBlogStatus 2 Demo.world
     = (fail 400 "Cannot toggle status of archived blog", Demo.world)
  /\ toggleServiceStatus 2 Demo.world
     = (fail 400 "Cannot toggle status of inactive or coming soon service",
        Demo.world)
  /\ toggleServiceStatus 4 Demo.world
     = (fail 400 "Cannot toggle status of inactive or coming soon service",
        Demo.world).
Proof.
  destruct (toggle_refuses_side_states 2 Demo.world) as (Hs & Hb & Hv).
  destruct (toggle_refuses_side_states 4 Demo.world) as (_ & _ & Hc).
  split; [|split; [|split]].
  - eapply Hs; reflexivity.
  - eapply Hb; reflexivity.
  - eapply Hv; [reflexivity|left; reflexivity].
  - eapply Hc; [reflexivity|right; reflexivity].
Defined.

(** ** Deleting a section *)

Lemma countDocuments_zero {A} (q : A -> bool) (l : list A) :
  countDocuments q l = 0 -> forall x, In x l -> q x = false.
Proof.
  unfold countDocuments. induction l as [|y l IH]; simpl; intros H x Hx; [contradiction|].
  destruct (q y) eqn:E; [discriminate|].
  destruct Hx as [<-|Hx]; [exact E|exact (IH H x Hx)].
Qed.

Lemma countDocuments_pos {A} (q : A -> bool) (l : list A) (x : A) :
  In x l -> q x = true -> 0 < countDocuments q l.
Proof.
  intros Hx Hq. destruct (countDocuments q l) eqn:E; [|lia].
  rewrite (countDocuments_zero q l E x Hx) in Hq. discriminate.
Qed.

(** C10. Deleting a section that a service refers to is answered with the
    error 400 and changes nothing; a section is removed only when no
    service refers to it, so that the services, which the handler never
    touches, keep referring to stored sections. *)
Theorem deleteSection_keeps_referenced (id : nat) (w : World) :
  (forall service,
      In service (services w) -> Service.section service = Some id ->
      deleteSection id w
      = (fail 400 "Cannot delete section with existing services", w))
  /\ (forall r w',
      deleteSection id w = (r, w') ->
      services w' = services w
      /\ (sections w' <> sections w ->
          code r = 200
          /\ countDocuments (in_section id) (services w) = 0
          /\ sections w' = remove ServiceSection._id id (sections w)
          /\ findById ServiceSection._id id (sections w') = None
          /\ forall service, In service (services w') ->
                             Service.section service <> Some id)
      /\ (sections_resolve w -> sections_resolve w')).
Proof.
  split.
  - intros service Hin Hsec. unfold deleteSection.
    assert (Hpos : 0 < countDocuments (in_section id) (services w)).
    { apply (countDocuments_pos _ _ service Hin).
      unfold in_section. rewrite Hsec. apply Nat.eqb_refl. }
    apply Nat.ltb_lt in Hpos. rewrite Hpos. reflexivity.
  - intros r w'. unfold deleteSection.
    destruct (0 <? _) eqn:Hc.
    { intros [= <- <-]. split; [reflexivity|]. split; [congruence|auto]. }
    destruct (findById _ id (sections w)) eqn:Hf.
    2:{ intros [= <- <-]. split; [reflexivity|]. split; [congruence|auto]. }
    intros [= <- <-]. simpl.
    apply Nat.ltb_ge in Hc.
    assert (Hz : countDocuments (in_section id) (services w) = 0) by lia.
    assert (Hno : forall service, In service (services w) ->
                                  Service.section service <> Some id).
    { intros service Hin Hsec.
      pose proof (countDocuments_zero _ _ Hz service Hin) as Hq.
      unfold in_section in Hq. rewrite Hsec, Nat.eqb_refl in Hq. discriminate. }
    split; [reflexivity|]. split.
    + intros _. repeat split; auto. apply findById_remove.
    + intros Hres service sec Hin Hsec. simpl in *.
      destruct (Hres service sec Hin Hsec) as [section Hsection].
      exists section. rewrite findById_remove_other; [exact Hsection|].
      intros ->. exact (Hno service Hin Hsec).
Qed.

Lemma deleteSection_keeps_referenced_witness :
  deleteSection 10 Demo.world
  = (fail 400 "Cannot delete section with existing services", Demo.world)
  /\ (let w' := snd (deleteSection 11 Demo.world) in
      code (fst (deleteSection 11 Demo.world)) = 200
      /\ findById ServiceSection._id 11 (sections w') = None
      /\ sections_resolve w').
Proof.
  split.
  - apply (proj1 (deleteSection_keeps_referenced 10 Demo.world)
                 (Demo.service 1 10 "Essay Help" "essay-help" "Draft")).
    + simpl. left. reflexivity.
    + reflexivity.
  - destruct (proj2 (deleteSection_keeps_referenced 11 Demo.world)
                    _ _ eq_refl) as (_ & Hdel & Hres).
    destruct Hdel as (Hcode & _ & _ & Hgone & _).
    + vm_compute. discriminate.
    + split; [exact Hcode|]. split; [exact Hgone|].
      apply Hres. intros service sec Hin Hsec.
      exists (Demo.section 10 "Writing" "writing").
      simpl in Hin.
      destruct Hin as [<-|[<-|[<-|[<-|[]]]]]; simpl in Hsec;
        injection Hsec as <-; reflexivity.
Defined.

(** ** Lists *)

Lemma matches_status (s st : string) :
  matches (Some s) (Some st) = true -> st = s.
Proof. simpl. apply String.eqb_eq. Qed.

Lemma sortSamples_In (sort : option string) (l : list Sample.t) (x : Sample.t) :
  In x (sortSamples sort l) -> In x l.
Proof.
  unfold sortSamples. destruct (str_eq _ _); [|tauto].
  intros H. apply in_rev. exact H.
Qed.

Lemma insertByOrder_In (d x : Service.t) (l : list Service.t) :
  In x (insertByOrder d l) -> x = d \/ In x l.
Proof.
  induction l as [|y l IH]; simpl.
  - intros [<-|[]]. left. reflexivity.
  - destruct (_ <=? _)%Z; simpl.
    + intros [<-|H]; [left; reflexivity|right; exact H].
    + intros [<-|H]; [right; left; reflexivity|].
      destruct (IH H) as [->|H']; [left; reflexivity|right; right; exact H'].
Qed.

Lemma sortByOrder_In (l : list Service.t) (x : Service.t) :
  In x (sortByOrder l) -> In x l.
Proof.
  unfold sortByOrder. induction l as [|y l IH]; simpl; [tauto|].
  intros H. apply insertByOrder_In in H as [->|H]; [left; reflexivity|right; exact (IH H)].
Qed.

Lemma samplesQuery_status (q : SampleQuery.t) (user : option User) (d : Sample.t) :
  Sample_matches (samplesQuery q user) d = true ->
  (isAdmin user = false -> Sample.status d = ESampleStatus.PUBLISHED)
  /\ (isAdmin user = true ->
      forall s, SampleQuery.status q = Some s -> truthy s = true ->
                Sample.status d = s).
Proof.
  unfold Sample_matches, samplesQuery. intros H.
  apply andb_prop in H as [_ H]. split.
  - intros Hu. rewrite Hu in H. apply matches_status in H. exact H.
  - intros Hu s Hs Ht. rewrite Hu, Hs in H.
    change (truthy (Some s)) with (truthy s) in H. rewrite Ht in H.
    apply matches_status in H. exact H.
Qed.

(** What a caller receives from [getSamples]. *)
Lemma getSamples_items (rt : Runtime) (q : SampleQuery.t) (user : option User)
    (w : World) r w' items pg x :
  getSamples rt q user w = (r, w') -> data r = Some (items, pg) -> In x items ->
  In x (samples w) /\ Sample_matches (samplesQuery q user) x = true.
Proof.
  unfold getSamples. destruct (paginate _ _ _) as [page_items|] eqn:Hp.
  - intros [= <- <-]. simpl. intros [= <- <-] Hx.
    apply (paginate_In _ _ _ _ _ Hp), sortSamples_In, filter_In in Hx. exact Hx.
  - intros [= <- <-]. discriminate.
Qed.

Lemma getBlogs_items (rt : Runtime) page limit status tag category search
    (user : option User) (w : World) r w' items pg x :
  getBlogs rt page limit status tag category search user w = (r, w') ->
  data r = Some (items, pg) -> In x items ->
  In x (blogs w)
  /\ matches (blogsStatusFilter status user) (Some (Blog.status x)) = true.
Proof.
  unfold getBlogs.
  destruct (if truthy search then _ else _) as [re|].
  2:{ intros [= <- <-]. discriminate. }
  destruct (paginate _ _ _) as [page_items|] eqn:Hp.
  2:{ intros [= <- <-]. discriminate. }
  intros [= <- <-]. simpl. intros [= <- <-] Hx.
  apply (paginate_In _ _ _ _ _ Hp) in Hx. apply in_rev in Hx.
  apply filter_In in Hx as [Hin Hq]. split; [exact Hin|].
  apply andb_prop in Hq as [Hq _]. apply andb_prop in Hq as [Hq _].
  apply andb_prop in Hq as [Hq _]. exact Hq.
Qed.

Lemma getServices_items (rt : Runtime) sectionId status search page limitParam
    (user : option User) (w : World) r w' items pg x :
  getServices rt sectionId status search page limitParam user w = (r, w') ->
  data r = Some (items, pg) -> In x items ->
  In x (services w)
  /\ matches (servicesStatusFilter status user) (Some (Service.status x)) = true.
Proof.
  unfold getServices.
  destruct (if truthy search then _ else _) as [re|].
  2:{ intros [= <- <-]. discriminate. }
  set (query := fun d : Service.t => _).
  assert (Hfound : forall l, (forall y, In y l -> In y (sortByOrder (filter query (services w)))) ->
                             In x l ->
                             In x (services w)
                             /\ matches (servicesStatusFilter status user)
                                        (Some (Service.status x)) = true).
  { intros l Hl Hx. apply Hl, sortByOrder_In, filter_In in Hx as [Hin Hq].
    split; [exact Hin|]. unfold query in Hq.
    apply andb_prop in Hq as [Hq _]. apply andb_prop in Hq as [Hq _]. exact Hq. }
  destruct (if truthy limitParam then _ else _) as [l|].
  - destruct (truthy l).
    + destruct (paginate _ _ _) as [page_items|] eqn:Hp.
      * intros [= <- <-]. simpl. intros [= <- <-].
        apply Hfound. intros y. apply (paginate_In _ _ _ _ _ Hp).
      * intros [= <- <-]. discriminate.
    + intros [= <- <-]. simpl. intros [= <- <-]. apply Hfound. auto.
  - intros [= <- <-]. simpl. intros [= <- <-]. apply Hfound. auto.
Qed.

Lemma getTestimonials_items (rt : Runtime) page limit forHomepage
    (w : World) r w' items pg x :
  getTestimonials rt page limit forHomepage w = (r, w') ->
  data r = Some (items, pg) -> In x items ->
  In x (testimonials w) /\ Testimonial.status x = "published".
Proof.
  unfold getTestimonials.
  destruct (paginate _ _ _) as [page_items|] eqn:Hp.
  2:{ intros [= <- <-]. discriminate. }
  intros [= <- <-]. simpl. intros [= <- <-] Hx.
  apply (paginate_In _ _ _ _ _ Hp) in Hx. apply in_rev in Hx.
  apply filter_In in Hx as [Hin Hq]. split; [exact Hin|].
  apply andb_prop in Hq as [Hq _]. apply String.eqb_eq in Hq. exact Hq.
Qed.

(** C5. Whatever the query says, a caller who is not an administrator
    receives from the list handlers only entities in the public status
    (Published samples and blogs, Live services, published testimonials);
    an administrator who names a status receives only entities of that
    status, whichever it is. *)
Theorem lists_respect_visibility (rt : Runtime) (user : option User) (w : World) :
  (isAdmin user = false ->
     (forall q r w' items pg x,
         getSamples rt q user w = (r, w') -> data r = Some (items, pg) ->
         In x items -> Sample.status x = ESampleStatus.PUBLISHED)
     /\ (forall page limit status tag category search r w' items pg x,
         getBlogs rt page limit status tag category search user w = (r, w') ->
         data r = Some (items, pg) ->
         In x items -> Blog.status x = EBlogStatus.PUBLISHED)
     /\ (forall sectionId status search page limit r w' items pg x,
         getServices rt sectionId status search page limit user w = (r, w') ->
         data r = Some (items, pg) ->
         In x items -> Service.status x = EServiceStatus.LIVE)
     /\ (forall page limit forHomepage r w' items pg x,
         getTestimonials rt page limit forHomepage w = (r, w') ->
         data r = Some (items, pg) ->
         In x items -> Testimonial.status x = "published"))
  /\ (isAdmin user = true ->
      forall s, truthy s = true ->
     (forall q r w' items pg x,
         SampleQuery.status q = Some s ->
         getSamples rt q user w = (r, w') -> data r = Some (items, pg) ->
         In x items -> Sample.status x = s)
     /\ (forall page limit tag category search r w' items pg x,
         getBlogs rt page limit (Some s) tag category search user w = (r, w') ->
         data r = Some (items, pg) ->
         In x items -> Blog.status x = s)
     /\ (forall sectionId search page limit r w' items pg x,
         getServices rt sectionId (Some s) search page limit user w = (r, w') ->
         data r = Some (items, pg) ->
         In x items -> Service.status x = s)).
Proof.
  split.
  - intros Hu. repeat split.
    + intros q r w' items pg x Hr Hd Hx.
      destruct (getSamples_items _ _ _ _ _ _ _ _ _ Hr Hd Hx) as [_ Hm].
      exact (proj1 (samplesQuery_status q user x Hm) Hu).
    + intros page limit status tag category search r w' items pg x Hr Hd Hx.
      destruct (getBlogs_items _ _ _ _ _ _ _ _ _ _ _ _ _ _ Hr Hd Hx) as [_ Hm].
      unfold blogsStatusFilter in Hm. rewrite Hu in Hm.
      apply matches_status in Hm. exact Hm.
    + intros sectionId status search page limit r w' items pg x Hr Hd Hx.
      destruct (getServices_items _ _ _ _ _ _ _ _ _ _ _ _ _ Hr Hd Hx) as [_ Hm].
      unfold servicesStatusFilter in Hm. rewrite Hu in Hm.
      apply matches_status in Hm. exact Hm.
    + intros page limit forHomepage r w' items pg x Hr Hd Hx.
      exact (proj2 (getTestimonials_items _ _ _ _ _ _ _ _ _ _ Hr Hd Hx)).
  - intros Hu s Hs. repeat split.
    + intros q r w' items pg x Hq Hr Hd Hx.
      destruct (getSamples_items _ _ _ _ _ _ _ _ _ Hr Hd Hx) as [_ Hm].
      exact (proj2 (samplesQuery_status q user x Hm) Hu s Hq Hs).
    + intros page limit tag category search r w' items pg x Hr Hd Hx.
      destruct (getBlogs_items _ _ _ _ _ _ _ _ _ _ _ _ _ _ Hr Hd Hx) as [_ Hm].
      unfold blogsStatusFilter in Hm. rewrite Hu in Hm.
      change (truthy (Some s)) with (truthy s) in Hm. rewrite Hs in Hm.
      apply matches_status in Hm. exact Hm.
    + intros sectionId search page limit r w' items pg x Hr Hd Hx.
      destruct (getServices_items _ _ _ _ _ _ _ _ _ _ _ _ _ Hr Hd Hx) as [_ Hm].
      unfold servicesStatusFilter in Hm. rewrite Hu in Hm.
      change (truthy (Some s)) with (truthy s) in Hm. rewrite Hs in Hm.
      apply matches_status in Hm. exact Hm.
Qed.

Lemma lists_respect_visibility_witness :
  (exists items pg,
      data (fst (getSamples Demo.rt Demo.ask_drafts (Some Demo.visitor) Demo.world))
      = Some (items, pg)
      /\ items <> []
      /\ forall x, In x items -> Sample.status x = ESampleStatus.PUBLISHED)
  /\ (exists items pg,
      data (fst (getServices Demo.rt None (Some "Draft") None None None None
                             Demo.world))
      = Some (items, pg)
      /\ items <> []
      /\ forall x, In x items -> Service.status x = EServiceStatus.LIVE)
  /\ (exists items pg,
      data (fst (getSamples Demo.rt Demo.ask_drafts (Some Demo.admin) Demo.world))
      = Some (items, pg)
      /\ items <> []
      /\ forall x, In x items -> Sample.status x = ESampleStatus.DRAFT).
Proof.
  split; [|split].
  - eexists; eexists. split; [reflexivity|]. split; [discriminate|].
    intros x Hx.
    destruct (lists_respect_visibility Demo.rt (Some Demo.visitor) Demo.world)
      as [Hpublic _].
    destruct (Hpublic eq_refl) as (Hsamples & _).
    exact (Hsamples Demo.ask_drafts _ _ _ _ x (surjective_pairing _) eq_refl Hx).
  - eexists; eexists. split; [reflexivity|]. split; [discriminate|].
    intros x Hx.
    destruct (lists_respect_visibility Demo.rt None Demo.world) as [Hpublic _].
    destruct (Hpublic eq_refl) as (_ & _ & Hservices & _).
    exact (Hservices None (Some "Draft") None None None _ _ _ _ x
                     (surjective_pairing _) eq_refl Hx).
  - eexists; eexists. split; [reflexivity|]. split; [discriminate|].
    intros x Hx.
    destruct (lists_respect_visibility Demo.rt (Some Demo.admin) Demo.world)
      as [_ Hadmin].
    destruct (Hadmin eq_refl "Draft" eq_refl) as (Hsamples & _).
    exact (Hsamples Demo.ask_drafts _ _ _ _ x eq_refl
                    (surjective_pairing _) eq_refl Hx).
Defined.

(** ** Publication date of a blog *)

Lemma Blog_setStatus_found (id : nat) (st : string) (w : World) (blog : Blog.t) :
  findById Blog._id id (blogs w) = Some blog ->
  findById Blog._id id (blogs (Blog_setStatus id st w))
  = Some (Blog.with_status st blog).
Proof.
  intros Hf. unfold Blog_setStatus. simpl.
  rewrite findById_map.
  - rewrite Hf. simpl. unfold has_id.
    rewrite (findById_id _ _ _ _ Hf), Nat.eqb_refl. reflexivity.
  - intros x. destruct (has_id Blog._id id x); reflexivity.
Qed.

(** C2 (where the code departs from it). Toggling a draft blog publishes
    it, and toggling it again returns it to Draft, but neither toggle
    writes the publication date: a blog that was never published is
    Published after the first toggle and still has no publication date. *)
Theorem toggleBlogStatus_never_stamps (id : nat) (w : World) (blog : Blog.t) :
  findById Blog._id id (blogs w) = Some blog ->
  Blog.status blog = EBlogStatus.DRAFT ->
  let w1 := snd (toggleBlogStatus id w) in
  let w2 := snd (toggleBlogStatus id w1) in
  data (fst (toggleBlogStatus id w)) = Some (id, EBlogStatus.PUBLISHED)
  /\ findById Blog._id id (blogs w1)
     = Some (Blog.with_status EBlogStatus.PUBLISHED blog)
  /\ Blog.datePublished (Blog.with_status EBlogStatus.PUBLISHED blog)
     = Blog.datePublished blog
  /\ data (fst (toggleBlogStatus id w1)) = Some (id, EBlogStatus.DRAFT)
  /\ findById Blog._id id (blogs w2) = Some blog.
Proof.
  intros Hf Hs.
  assert (E1 : toggleBlogStatus id w
               = (reply 200 "Blog status toggled successfully"
                        (id, EBlogStatus.PUBLISHED),
                  Blog_setStatus id EBlogStatus.PUBLISHED w)).
  { unfold toggleBlogStatus. rewrite Hf, Hs. reflexivity. }
  pose proof (Blog_setStatus_found id EBlogStatus.PUBLISHED w blog Hf) as Hf1.
  assert (E2 : toggleBlogStatus id (Blog_setStatus id EBlogStatus.PUBLISHED w)
               = (reply 200 "Blog status toggled successfully"
                        (id, EBlogStatus.DRAFT),
                  Blog_setStatus id EBlogStatus.DRAFT
                    (Blog_setStatus id EBlogStatus.PUBLISHED w))).
  { unfold toggleBlogStatus. rewrite Hf1. reflexivity. }
  cbv zeta. rewrite E1. simpl fst. simpl snd. rewrite E2. simpl fst. simpl snd.
  repeat split.
  - exact Hf1.
  - rewrite (Blog_setStatus_found _ _ _ _ Hf1).
    destruct blog. simpl in *. subst. reflexivity.
Qed.

Lemma toggleBlogStatus_never_stamps_witness :
  let w1 := snd (toggleBlogStatus 1 Demo.world) in
  exists blog',
    findById Blog._id 1 (blogs w1) = Some blog'
    /\ Blog.status blog' = EBlogStatus.PUBLISHED
    /\ Blog.datePublished blog' = None.
Proof.
  destruct (toggleBlogStatus_never_stamps 1 Demo.world
              (Demo.blog 1 "Hello World" "hello-world" "Draft" None)
              eq_refl eq_refl) as (_ & Hfound & Hdate & _).
  eexists. split; [exact Hfound|]. split; [reflexivity|exact Hdate].
Defined.

(** ** Worlds and their traces *)

Lemma events_since_app (w w' : World) (evs : list Event) :
  trace w' = trace w ++ evs -> events_since w w' = evs.
Proof.
  unfold events_since. intros ->.
  rewrite skipn_app, skipn_all, Nat.sub_diag. reflexivity.
Qed.

Lemma events_since_refl (w : World) : events_since w w = [].
Proof. apply events_since_app. rewrite app_nil_r. reflexivity. Qed.

(** How the content block of an update ends: without an upload; with a
    rejected upload; or with an upload followed, when the old locator is
    a URL, by the deletion of the old blob. *)
Lemma contentOnUpdate_outcome (cloud : Cloudinary) (kind : string)
    (content compared slug oldUrl : option string) (w w1 : World)
    (st : Step (option string)) :
  contentOnUpdate cloud kind content compared slug oldUrl w = (st, w1) ->
  (st = Go content /\ w1 = w)
  \/ (exists c,
        content = Some c
        /\ w1 = log (Upload c (publicIdOf kind slug) (folderOf kind) None) w
        /\ st = Stop 500 "Error uploading content")
  \/ (exists c url,
        content = Some c
        /\ st = Go (Some url)
        /\ w1 = log (Upload c (publicIdOf kind slug) (folderOf kind) (Some url)) w
        /\ match oldUrl with
           | Some old => truthy old && startsWith_http old = false
           | None => True
           end)
  \/ (exists c url old done,
        content = Some c /\ oldUrl = Some old
        /\ truthy old && startsWith_http old = true
        /\ w1 = log (DeleteFile (getPublicIdFromUrl cloud old) (Some "raw") done)
                    (log (Upload c (publicIdOf kind slug) (folderOf kind)
                                 (Some url)) w)
        /\ st = if done then Go (Some url)
                else Stop 500 "Error uploading content").
Proof.
  unfold contentOnUpdate.
  destruct content as [c|]; [|intros [= <- <-]; left; split; reflexivity].
  destruct (negb _ && negb _); [|intros [= <- <-]; left; split; reflexivity].
  destruct (uploader_upload cloud c _ _) as [url|].
  2:{ intros [= <- <-]. right; left. exists c. repeat split. }
  destruct oldUrl as [old|].
  2:{ intros [= <- <-]. right; right; left. exists c, url. repeat split. }
  destruct (truthy old && startsWith_http old) eqn:Eold.
  2:{ intros [= <- <-]. right; right; left. exists c, url. repeat split. }
  destruct (deleteFile cloud _ _) eqn:Edel; intros [= <- <-];
    right; right; right; exists c, url, old; [exists true|exists false];
    repeat split; assumption.
Qed.

Lemma contentOnCreate_outcome (cloud : Cloudinary) (kind : string)
    (content : option string) (slug : string) (w w1 : World)
    (st : Step (option string)) :
  contentOnCreate cloud kind content slug w = (st, w1) ->
  (w1 = w /\ exists url, st = Go url)
  \/ (exists c,
        content = Some c
        /\ w1 = log (Upload c (publicIdOf kind (Some slug)) (folderOf kind) None) w
        /\ st = Stop 500 "Error uploading content")
  \/ (exists c url,
        content = Some c
        /\ st = Go (Some url)
        /\ w1 = log (Upload c (publicIdOf kind (Some slug)) (folderOf kind)
                            (Some url)) w).
Proof.
  unfold contentOnCreate.
  destruct content as [c|]; [|intros [= <- <-]; left; eauto].
  destruct (truthy c); [|intros [= <- <-]; left; eauto].
  destruct (startsWith_http c); [intros [= <- <-]; left; eauto|].
  destruct (uploader_upload cloud c _ _) as [url|]; intros [= <- <-].
  - right; right. exists c, url. repeat split.
  - right; left. exists c. repeat split.
Qed.

(** ** Equal documents *)

Lemma str_eq_refl (a : option string) : str_eq a a = true.
Proof. destruct a; simpl; [apply String.eqb_refl|reflexivity]. Qed.

Lemma str_eq_true (a b : option string) : str_eq a b = true -> a = b.
Proof.
  destruct a, b; simpl; try discriminate; [|reflexivity].
  intros H. apply String.eqb_eq in H. congruence.
Qed.

Lemma option_eqb_true {A} (eqb : A -> A -> bool) (a b : option A) :
  (forall x y, eqb x y = true -> x = y) ->
  option_eqb eqb a b = true -> a = b.
Proof.
  intros E. destruct a, b; simpl; try discriminate; [|reflexivity].
  intros H. f_equal. exact (E _ _ H).
Qed.

Lemma option_eqb_refl {A} (eqb : A -> A -> bool) (a : option A) :
  (forall x, eqb x x = true) -> option_eqb eqb a a = true.
Proof. intros E. destruct a; simpl; [apply E|reflexivity]. Qed.

Lemma Z_eqb_true (x y : Z) : Z.eqb x y = true -> x = y.
Proof. apply Z.eqb_eq. Qed.

Lemma nat_eqb_true (x y : nat) : Nat.eqb x y = true -> x = y.
Proof. apply Nat.eqb_eq. Qed.

Lemma string_eqb_true (x y : string) : String.eqb x y = true -> x = y.
Proof. apply String.eqb_eq. Qed.

Lemma JsValue_eqb_true : forall a b : JsValue, JsValue_eqb a b = true -> a = b.
Proof.
  fix IH 1. intros a b. destruct a as [|x|x|x|xs|xs], b as [|y|y|y|ys|ys];
    simpl; try discriminate.
  - reflexivity.
  - intros H. apply Bool.eqb_prop in H. congruence.
  - intros H. apply Z.eqb_eq in H. congruence.
  - intros H. apply String.eqb_eq in H. congruence.
  - intros H. f_equal. revert ys H.
    induction xs as [|x xs IHxs]; intros [|y ys]; try discriminate.
    + reflexivity.
    + intros H. apply andb_prop in H as [H1 H2].
      f_equal; [exact (IH x y H1)|exact (IHxs ys H2)].
  - intros H. f_equal. revert ys H.
    induction xs as [|[k x] xs IHxs]; intros [|[k' y] ys]; try discriminate.
    + reflexivity.
    + intros H. apply andb_prop in H as [H1 H3].
      apply andb_prop in H1 as [H1 H2]. apply String.eqb_eq in H1.
      f_equal; [f_equal; [exact H1|exact (IH x y H2)]|exact (IHxs ys H3)].
Qed.

Lemma JsValue_eqb_refl : forall a : JsValue, JsValue_eqb a a = true.
Proof.
  fix IH 1. intros a. destruct a as [|x|x|x|xs|xs]; simpl.
  - reflexivity.
  - apply Bool.eqb_reflx.
  - apply Z.eqb_refl.
  - apply String.eqb_refl.
  - induction xs as [|x xs IHxs]; [reflexivity|].
    rewrite (IH x). exact IHxs.
  - induction xs as [|[k x] xs IHxs]; [reflexivity|].
    rewrite String.eqb_refl, (IH x). exact IHxs.
Qed.

(** Splits a conjunction of tests that hold into the equalities they
    decide. *)
Ltac eqb_fields H :=
  repeat match type of H with
  | (_ && _) = true =>
      let H' := fresh "Hf" in
      apply andb_prop in H as [H H']
  end;
  repeat match goal with
  | Hf : str_eq _ _ = true |- _ => apply str_eq_true in Hf
  | Hf : String.eqb _ _ = true |- _ => apply String.eqb_eq in Hf
  | Hf : Z.eqb _ _ = true |- _ => apply Z.eqb_eq in Hf
  | Hf : Nat.eqb _ _ = true |- _ => apply Nat.eqb_eq in Hf
  | Hf : Bool.eqb _ _ = true |- _ => apply Bool.eqb_prop in Hf
  | Hf : option_eqb Z.eqb _ _ = true |- _ =>
      apply (option_eqb_true _ _ _ Z_eqb_true) in Hf
  | Hf : option_eqb Nat.eqb _ _ = true |- _ =>
      apply (option_eqb_true _ _ _ nat_eqb_true) in Hf
  | Hf : option_eqb JsValue_eqb _ _ = true |- _ =>
      apply (option_eqb_true _ _ _ JsValue_eqb_true) in Hf
  end.

Lemma Sample_eqb_true (a b : Sample.t) : Sample_eqb a b = true -> a = b.
Proof.
  unfold Sample_eqb. intros H. eqb_fields H.
  destruct a, b; cbn in *. subst. reflexivity.
Qed.

Lemma Blog_eqb_true (a b : Blog.t) : Blog_eqb a b = true -> a = b.
Proof.
  unfold Blog_eqb. intros H. eqb_fields H.
  destruct a, b; cbn in *. subst. reflexivity.
Qed.

Lemma Service_eqb_true (a b : Service.t) : Service_eqb a b = true -> a = b.
Proof.
  unfold Service_eqb. intros H. eqb_fields H.
  destruct a, b; cbn in *. subst. reflexivity.
Qed.

Lemma ServiceSection_eqb_true (a b : ServiceSection.t) :
  ServiceSection_eqb a b = true -> a = b.
Proof.
  unfold ServiceSection_eqb. intros H. eqb_fields H.
  destruct a, b; cbn in *. subst. reflexivity.
Qed.

Lemma Testimonial_eqb_true (a b : Testimonial.t) :
  Testimonial_eqb a b = true -> a = b.
Proof.
  unfold Testimonial_eqb. intros H. eqb_fields H.
  destruct a, b; cbn in *. subst. reflexivity.
Qed.

Lemma ImageAsset_eqb_true (a b : ImageAsset.t) :
  ImageAsset_eqb a b = true -> a = b.
Proof.
  unfold ImageAsset_eqb. intros H. eqb_fields H.
  destruct a, b; cbn in *. subst. reflexivity.
Qed.

Lemma Sample_eqb_refl (a : Sample.t) : Sample_eqb a a = true.
Proof.
  unfold Sample_eqb.
  rewrite Nat.eqb_refl, !str_eq_refl, String.eqb_refl,
    !(option_eqb_refl Z.eqb _ Z.eqb_refl),
    (option_eqb_refl JsValue_eqb _ JsValue_eqb_refl).
  reflexivity.
Qed.

Lemma Blog_eqb_refl (a : Blog.t) : Blog_eqb a a = true.
Proof.
  unfold Blog_eqb.
  rewrite Nat.eqb_refl, !str_eq_refl, String.eqb_refl, Z.eqb_refl,
    !(option_eqb_refl Z.eqb _ Z.eqb_refl),
    !(option_eqb_refl Nat.eqb _ Nat.eqb_refl),
    !(option_eqb_refl JsValue_eqb _ JsValue_eqb_refl).
  reflexivity.
Qed.

Lemma Service_eqb_refl (a : Service.t) : Service_eqb a a = true.
Proof.
  unfold Service_eqb.
  rewrite Nat.eqb_refl, !str_eq_refl, String.eqb_refl, Z.eqb_refl,
    !(option_eqb_refl Nat.eqb _ Nat.eqb_refl),
    !(option_eqb_refl JsValue_eqb _ JsValue_eqb_refl).
  reflexivity.
Qed.

Lemma Testimonial_eqb_refl (a : Testimonial.t) : Testimonial_eqb a a = true.
Proof.
  unfold Testimonial_eqb.
  rewrite Nat.eqb_refl, !str_eq_refl, String.eqb_refl, Bool.eqb_reflx,
    !(option_eqb_refl Z.eqb _ Z.eqb_refl).
  reflexivity.
Qed.

(** ** Saving *)

Lemma Sample_save_some (d : Sample.t) (w w' : World) :
  Sample_save d w = Some w' ->
  w' = log (DbWrite MSample (Sample._id d))
           (set_samples (store Sample._id d (samples w)) w)
  /\ Sample.validate d = true.
Proof.
  unfold Sample_save. destruct (Sample.validate d); simpl; [|discriminate].
  destruct (unique_ok _ _ _ _); [|discriminate].
  intros [= <-]. split; reflexivity.
Qed.

Lemma Blog_save_some (cats : list string) (d : Blog.t) (w w' : World) :
  Blog_save cats d w = Some w' ->
  w' = log (DbWrite MBlog (Blog._id d))
           (set_blogs (store Blog._id d (blogs w)) w)
  /\ Blog.validate cats d = true.
Proof.
  unfold Blog_save. destruct (Blog.validate cats d); simpl; [|discriminate].
  destruct (unique_ok _ _ _ _ && unique_ok _ _ _ _); [|discriminate].
  intros [= <-]. split; reflexivity.
Qed.

Lemma Service_save_some (d : Service.t) (w w' : World) :
  Service_save d w = Some w' ->
  w' = log (DbWrite MService (Service._id d))
           (set_services (store Service._id d (services w)) w)
  /\ Service.validate d = true.
Proof.
  unfold Service_save. destruct (Service.validate d); simpl; [|discriminate].
  destruct (unique_ok _ _ _ _); [|discriminate].
  intros [= <-]. split; reflexivity.
Qed.

Lemma Testimonial_save_some (d : Testimonial.t) (w w' : World) :
  Testimonial_save d w = Some w' ->
  w' = log (DbWrite MTestimonial (Testimonial._id d))
           (set_testimonials (store Testimonial._id d (testimonials w)) w)
  /\ Testimonial.validate d = true.
Proof.
  unfold Testimonial_save. destruct (Testimonial.validate d); [|discriminate].
  intros [= <-]. split; reflexivity.
Qed.

(** A loaded document that is saved either was not changed, and nothing
    is written, or is written. *)
Lemma Sample_saveLoaded_some (loaded d : Sample.t) (w w' : World) :
  Sample_saveLoaded loaded d w = Some w' ->
  (w' = w /\ loaded = d /\ Sample.validate d = true)
  \/ (w' = log (DbWrite MSample (Sample._id d))
                (set_samples (store Sample._id d (samples w)) w)
      /\ Sample.validate d = true
      /\ Sample_eqb loaded d = false).
Proof.
  unfold Sample_saveLoaded.
  destruct (Sample.validate d && Sample_eqb loaded d) eqn:E.
  - apply andb_prop in E as [Hv He]. apply Sample_eqb_true in He.
    intros [= <-]. left. auto.
  - intros H. right. apply Sample_save_some in H as [-> Hv].
    rewrite Hv in E. auto.
Qed.

Lemma Blog_saveLoaded_some (cats : list string) (loaded d : Blog.t)
    (w w' : World) :
  Blog_saveLoaded cats loaded d w = Some w' ->
  (w' = w /\ loaded = d /\ Blog.validate cats d = true)
  \/ (w' = log (DbWrite MBlog (Blog._id d))
                (set_blogs (store Blog._id d (blogs w)) w)
      /\ Blog.validate cats d = true
      /\ Blog_eqb loaded d = false).
Proof.
  unfold Blog_saveLoaded.
  destruct (Blog.validate cats d && Blog_eqb loaded d) eqn:E.
  - apply andb_prop in E as [Hv He]. apply Blog_eqb_true in He.
    intros [= <-]. left. auto.
  - intros H. right. apply Blog_save_some in H as [-> Hv].
    rewrite Hv in E. auto.
Qed.

Lemma Service_saveLoaded_some (loaded d : Service.t) (w w' : World) :
  Service_saveLoaded loaded d w = Some w' ->
  (w' = w /\ loaded = d /\ Service.validate d = true)
  \/ (w' = log (DbWrite MService (Service._id d))
                (set_services (store Service._id d (services w)) w)
      /\ Service.validate d = true
      /\ Service_eqb loaded d = false).
Proof.
  unfold Service_saveLoaded.
  destruct (Service.validate d && Service_eqb loaded d) eqn:E.
  - apply andb_prop in E as [Hv He]. apply Service_eqb_true in He.
    intros [= <-]. left. auto.
  - intros H. right. apply Service_save_some in H as [-> Hv].
    rewrite Hv in E. auto.
Qed.

Lemma Testimonial_saveLoaded_some (loaded d : Testimonial.t) (w w' : World) :
  Testimonial_saveLoaded loaded d w = Some w' ->
  (w' = w /\ loaded = d /\ Testimonial.validate d = true)
  \/ (w' = log (DbWrite MTestimonial (Testimonial._id d))
                (set_testimonials (store Testimonial._id d (testimonials w)) w)
      /\ Testimonial.validate d = true
      /\ Testimonial_eqb loaded d = false).
Proof.
  unfold Testimonial_saveLoaded.
  destruct (Testimonial.validate d && Testimonial_eqb loaded d) eqn:E.
  - apply andb_prop in E as [Hv He]. apply Testimonial_eqb_true in He.
    intros [= <-]. left. auto.
  - intros H. right. apply Testimonial_save_some in H as [-> Hv].
    rewrite Hv in E. auto.
Qed.

(** The events of a world written as [log e_n (... (log e_1 w))]. *)
Ltac events :=
  apply events_since_app; simpl trace; rewrite <- ?app_assoc; simpl app;
  try reflexivity.

Ltac no_event H :=
  rewrite events_since_refl in H; destruct H.

(** ** A rejected upload *)

(** Rewrites [events_since w w'] into the list of its events, for a [w']
    that is [w] with events logged and collections written. *)
Ltac known_events w :=
  rewrite ?events_since_refl in *;
  repeat match goal with
  | H : context [events_since w ?w'] |- _ =>
      let E := fresh "E" in
      let evs := fresh "evs" in
      evar (evs : list Event);
      assert (E : events_since w w' = evs) by (subst evs; events);
      subst evs; rewrite E in H; clear E
  | |- context [events_since w ?w'] =>
      let E := fresh "E" in
      let evs := fresh "evs" in
      evar (evs : list Event);
      assert (E : events_since w w' = evs) by (subst evs; events);
      subst evs; rewrite E; clear E
  end.

Ltac among H :=
  simpl in H;
  repeat (destruct H as [H|H]; [try discriminate H|]); try contradiction.

Lemma updateSample_failed_upload (cloud : Cloudinary) id body user
    (w w' : World) r c p f :
  updateSample cloud id body user w = (r, w') ->
  In (Upload c p f None) (events_since w w') ->
  r = fail 500 "Error uploading content"
  /\ same_store w w'
  /\ events_since w w' = [Upload c p f None]
  /\ SampleBody.content body = Some c.
Proof.
  unfold updateSample.
  destruct (findById _ id (samples w)) as [sample|];
    [|intros [= <- <-] H; no_event H].
  destruct (slugOnUpdate _ _ _ _ _ _ _ _) as [slug|];
    [|intros [= <- <-] H; no_event H].
  destruct (contentOnUpdate _ _ _ _ _ _ _) as [st w1] eqn:Hc.
  apply contentOnUpdate_outcome in Hc
    as [(-> & ->)|[(c0 & Hb & -> & ->)|[(c0 & url & Hb & -> & -> & _)
       |(c0 & url & old & done & Hb & _ & _ & -> & ->)]]].
  - destruct (Sample_saveLoaded _ _ w) as [w2|] eqn:Hs; intros [= <- <-] H.
    + apply Sample_saveLoaded_some in Hs as [(-> & _)|(-> & _)];
        known_events w; among H.
    + no_event H.
  - intros [= <- <-] H. known_events w. among H.
    injection H as <- <- <-. repeat split. exact Hb.
  - destruct (Sample_saveLoaded _ _ _) as [w2|] eqn:Hs; intros [= <- <-] H.
    + apply Sample_saveLoaded_some in Hs as [(-> & _)|(-> & _)];
        known_events w; among H.
    + known_events w. among H.
  - destruct done.
    + destruct (Sample_saveLoaded _ _ _) as [w2|] eqn:Hs; intros [= <- <-] H.
      * apply Sample_saveLoaded_some in Hs as [(-> & _)|(-> & _)];
        known_events w; among H.
      * known_events w. among H.
    + intros [= <- <-] H. known_events w. among H.
Qed.

Lemma thumbnailOnUpdate_outcome (cloud : Cloudinary) thumbnail old
    (w w2 : World) (st : Step (option string)) :
  thumbnailOnUpdate cloud thumbnail old w = (st, w2) ->
  w2 = w
  \/ (exists pid, w2 = log (DeleteFile pid None true) w)
  \/ (exists pid, w2 = log (DeleteFile pid None false) w
                  /\ st = Stop 500 "Error updating blog").
Proof.
  unfold thumbnailOnUpdate.
  destruct thumbnail as [path|]; [|intros [= <- <-]; left; reflexivity].
  destruct old as [url|]; [|intros [= <- <-]; left; reflexivity].
  destruct (truthy url); [|intros [= <- <-]; left; reflexivity].
  destruct (deleteFile cloud _ _); intros [= <- <-]; right; [left|right]; eauto.
Qed.

(** The end of [updateBlog], from the thumbnail on: the world it leaves
    is the world it found with at most the deletion of the old thumbnail
    and the write of the blog. *)
Ltac updateBlog_tail w1 :=
  let Ht := fresh "Ht" in
  let Hs := fresh "Hs" in
  destruct (thumbnailOnUpdate _ _ _ w1) as [thumb w2] eqn:Ht;
  apply thumbnailOnUpdate_outcome in Ht as [->|[(pid & ->)|(pid & -> & ->)]];
  [ | | cbv beta iota ];
  try (destruct thumb as [thumbnailUrl|];
   [destruct (parseIfDefined _ _ _) as [toc|];
    [destruct (ctaOnUpdate _ _ _) as [cta|];
     [destruct (parseIfDefined _ _ _) as [more|];
      [destruct (parseIfDefined _ _ _) as [faqs|];
       [destruct (Blog_saveLoaded _ _ _ _) as [w3|] eqn:Hs;
        [apply Blog_saveLoaded_some in Hs as [(-> & Hkept & _)|(-> & _ & Hne)]
        |]|]|]|]|]|]).

Lemma updateBlog_failed_upload (cloud : Cloudinary) (rt : Runtime) cats
    id body thumbnail user now (w w' : World) r c p f :
  updateBlog cloud rt cats id body thumbnail user now w = (r, w') ->
  In (Upload c p f None) (events_since w w') ->
  r = fail 500 "Error uploading content"
  /\ same_store w w'
  /\ events_since w w' = [Upload c p f None]
  /\ BlogBody.content body = Some c.
Proof.
  unfold updateBlog.
  destruct (findById _ id (blogs w)) as [blog|];
    [|intros [= <- <-] H; no_event H].
  destruct user as [u|]; [|intros [= <- <-] H; no_event H].
  destruct (Blog.creator blog) as [creator|]; [|intros [= <- <-] H; no_event H].
  destruct (negb _ && negb _); [intros [= <- <-] H; no_event H|].
  destruct (slugOnUpdate _ _ _ _ _ _ _ _) as [slug|];
    [|intros [= <- <-] H; no_event H].
  destruct (contentOnUpdate _ _ _ _ _ _ _) as [st w1] eqn:Hc.
  apply contentOnUpdate_outcome in Hc
    as [(-> & ->)|[(c0 & Hb & -> & ->)|[(c0 & url & Hb & -> & -> & _)
       |(c0 & url & old & done & Hb & _ & _ & -> & ->)]]].
  - updateBlog_tail w; intros [= <- <-] H; known_events w; among H.
  - intros [= <- <-] H. known_events w. among H.
    injection H as <- <- <-. repeat split. exact Hb.
  - match goal with |- context [thumbnailOnUpdate _ _ _ ?w1] =>
      updateBlog_tail w1 end; intros [= <- <-] H; known_events w; among H.
  - destruct done; [|intros [= <- <-] H; known_events w; among H].
    match goal with |- context [thumbnailOnUpdate _ _ _ ?w1] =>
      updateBlog_tail w1 end; intros [= <- <-] H; known_events w; among H.
Qed.

Lemma updateService_failed_upload (cloud : Cloudinary) id body
    (w w' : World) r c p f :
  updateService cloud id body w = (r, w') ->
  In (Upload c p f None) (events_since w w') ->
  r = fail 500 "Error uploading content"
  /\ same_store w w'
  /\ events_since w w' = [Upload c p f None]
  /\ ServiceBody.content body = Some c.
Proof.
  unfold updateService.
  destruct (findById _ id (services w)) as [service|];
    [|intros [= <- <-] H; no_event H].
  match goal with |- context [match ?x with Go _ => _ | Stop _ _ => _ end] =>
    destruct x as [[]|] end; [|intros [= <- <-] H; no_event H].
  destruct (slugOnUpdate _ _ _ _ _ _ _ _) as [slug|];
    [|intros [= <- <-] H; no_event H].
  destruct (contentOnUpdate _ _ _ _ _ _ _) as [st w1] eqn:Hc.
  apply contentOnUpdate_outcome in Hc
    as [(-> & ->)|[(c0 & Hb & -> & ->)|[(c0 & url & Hb & -> & -> & _)
       |(c0 & url & old & done & Hb & _ & _ & -> & ->)]]].
  - destruct (Service_saveLoaded _ _ w) as [w2|] eqn:Hs; intros [= <- <-] H.
    + apply Service_saveLoaded_some in Hs as [(-> & _)|(-> & _)];
        known_events w; among H.
    + no_event H.
  - intros [= <- <-] H. known_events w. among H.
    injection H as <- <- <-. repeat split. exact Hb.
  - destruct (Service_saveLoaded _ _ _) as [w2|] eqn:Hs; intros [= <- <-] H.
    + apply Service_saveLoaded_some in Hs as [(-> & _)|(-> & _)];
        known_events w; among H.
    + known_events w. among H.
  - destruct done.
    + destruct (Service_saveLoaded _ _ _) as [w2|] eqn:Hs; intros [= <- <-] H.
      * apply Service_saveLoaded_some in Hs as [(-> & _)|(-> & _)];
        known_events w; among H.
      * known_events w. among H.
    + intros [= <- <-] H. known_events w. among H.
Qed.

Lemma createSample_failed_upload (cloud : Cloudinary) errors body
    (w w' : World) r c p f :
  createSample cloud errors body w = (r, w') ->
  In (Upload c p f None) (events_since w w') ->
  r = fail 500 "Error uploading content"
  /\ same_store w w'
  /\ events_since w w' = [Upload c p f None].
Proof.
  unfold createSample.
  destruct errors; [|intros [= <- <-] H; no_event H].
  destruct (SampleBody.title body) as [title|]; [|intros [= <- <-] H; no_event H].
  destruct (find _ (samples w)); [intros [= <- <-] H; no_event H|].
  destruct (contentOnCreate _ _ _ _ _) as [st w1] eqn:Hc.
  apply contentOnCreate_outcome in Hc
    as [(-> & url & ->)|[(c0 & Hb & -> & ->)|(c0 & url & Hb & -> & ->)]].
  - destruct (Sample_save _ _) as [w2|] eqn:Hs; intros [= <- <-] H.
    + apply Sample_save_some in Hs as [-> _]. known_events w. among H.
    + no_event H.
  - intros [= <- <-] H. known_events w. among H.
    injection H as <- <- <-. repeat split.
  - destruct (Sample_save _ _) as [w2|] eqn:Hs; intros [= <- <-] H.
    + apply Sample_save_some in Hs as [-> _]. known_events w. among H.
    + known_events w. among H.
Qed.

Lemma createService_failed_upload (cloud : Cloudinary) errors body
    (w w' : World) r c p f :
  createService cloud errors body w = (r, w') ->
  In (Upload c p f None) (events_since w w') ->
  r = fail 500 "Error uploading content"
  /\ same_store w w'
  /\ events_since w w' = [Upload c p f None].
Proof.
  unfold createService.
  destruct errors; [|intros [= <- <-] H; no_event H].
  match goal with |- context [match ?x with Some _ => _ | None => (fail 404 _, _) end] =>
    destruct x end; [|intros [= <- <-] H; no_event H].
  destruct (ServiceBody.title body) as [title|]; [|intros [= <- <-] H; no_event H].
  destruct (find _ (services w)); [intros [= <- <-] H; no_event H|].
  destruct (contentOnCreate _ _ _ _ _) as [st w1] eqn:Hc.
  apply contentOnCreate_outcome in Hc
    as [(-> & url & ->)|[(c0 & Hb & -> & ->)|(c0 & url & Hb & -> & ->)]].
  - destruct (Service_save _ _) as [w2|] eqn:Hs; intros [= <- <-] H.
    + apply Service_save_some in Hs as [-> _]. known_events w. among H.
    + no_event H.
  - intros [= <- <-] H. known_events w. among H.
    injection H as <- <- <-. repeat split.
  - destruct (Service_save _ _) as [w2|] eqn:Hs; intros [= <- <-] H.
    + apply Service_save_some in Hs as [-> _]. known_events w. among H.
    + known_events w. among H.
Qed.

Ltac createBlog_tail :=
  let Hs := fresh "Hs" in
  destruct (BlogBody.content _) as [content|];
  [destruct (parseIfGiven _ _) as [toc|];
   [destruct (ctaOnCreate _ _) as [cta|];
    [destruct (parseIfGiven _ _) as [more|];
     [destruct (parseIfGiven _ _) as [faqs|];
      [match goal with |- context [match ?x with Some _ => _ | None => _ end] =>
         destruct x as [views|] end;
       [destruct (Blog_save _ _ _) as [w3|] eqn:Hs;
        [apply Blog_save_some in Hs as [-> _]|]|]|]|]|]|]|].

Lemma createBlog_failed_upload (cloud : Cloudinary) (rt : Runtime) cats
    errors body thumbnail user (w w' : World) r c p f :
  createBlog cloud rt cats errors body thumbnail user w = (r, w') ->
  In (Upload c p f None) (events_since w w') ->
  r = fail 500 "Error uploading content"
  /\ same_store w w'
  /\ events_since w w' = [Upload c p f None].
Proof.
  unfold createBlog.
  destruct errors; [|intros [= <- <-] H; no_event H].
  destruct user as [u|]; [|intros [= <- <-] H; no_event H].
  destruct (BlogBody.title body) as [title|]; [|intros [= <- <-] H; no_event H].
  destruct (find _ (blogs w)); [intros [= <- <-] H; no_event H|].
  destruct (contentOnCreate _ _ _ _ _) as [st w1] eqn:Hc.
  apply contentOnCreate_outcome in Hc
    as [(-> & url & ->)|[(c0 & Hb & -> & ->)|(c0 & url & Hb & -> & ->)]].
  - createBlog_tail; intros [= <- <-] H; known_events w; among H.
  - intros [= <- <-] H. known_events w. among H.
    injection H as <- <- <-. repeat split.
  - createBlog_tail; intros [= <- <-] H; known_events w; among H.
Qed.

(** C4. When the upload of the new content is rejected during an update
    (of a sample, a blog or a service), the request is answered with the
    error 500 "Error uploading content", the document store is what it
    was, so that the content locator and every other field of the entity
    are unchanged, and the rejected upload is the only thing that happened
    outside: no blob was deleted. The same holds for a rejected upload
    during a creation. *)
Theorem failed_upload_changes_nothing (cloud : Cloudinary) (rt : Runtime)
    (cats : list string) (w w' : World) (c p f : string) :
  In (Upload c p f None) (events_since w w') ->
  let unchanged {D} (r : Response D) :=
    r = fail 500 "Error uploading content"
    /\ same_store w w'
    /\ events_since w w' = [Upload c p f None]
    /\ (forall pid kind done,
           ~ In (DeleteFile pid kind done) (events_since w w')) in
  (forall id body user r,
      updateSample cloud id body user w = (r, w') ->
      unchanged r /\ SampleBody.content body = Some c
      /\ findById Sample._id id (samples w') = findById Sample._id id (samples w))
  /\ (forall id body thumbnail user now r,
      updateBlog cloud rt cats id body thumbnail user now w = (r, w') ->
      unchanged r /\ BlogBody.content body = Some c
      /\ findById Blog._id id (blogs w') = findById Blog._id id (blogs w))
  /\ (forall id body r,
      updateService cloud id body w = (r, w') ->
      unchanged r /\ ServiceBody.content body = Some c
      /\ findById Service._id id (services w')
         = findById Service._id id (services w))
  /\ (forall errors body r,
      createSample cloud errors body w = (r, w') -> unchanged r)
  /\ (forall errors body thumbnail user r,
      createBlog cloud rt cats errors body thumbnail user w = (r, w') ->
      unchanged r)
  /\ (forall errors body r,
      createService cloud errors body w = (r, w') -> unchanged r).
Proof.
  intros Hfailed unchanged.
  assert (Hno : events_since w w' = [Upload c p f None] ->
                forall pid kind done,
                  ~ In (DeleteFile pid kind done) (events_since w w')).
  { intros -> pid kind done [H|[]]. discriminate H. }
  repeat apply conj.
  - intros id body user r Hr.
    destruct (updateSample_failed_upload _ _ _ _ _ _ _ _ _ _ Hr Hfailed)
      as (-> & Hst & Hev & Hb).
    repeat split; try apply Hst; auto. destruct Hst as (-> & _). reflexivity.
  - intros id body thumbnail user now r Hr.
    destruct (updateBlog_failed_upload _ _ _ _ _ _ _ _ _ _ _ _ _ _ Hr Hfailed)
      as (-> & Hst & Hev & Hb).
    repeat split; try apply Hst; auto.
    destruct Hst as (_ & -> & _). reflexivity.
  - intros id body r Hr.
    destruct (updateService_failed_upload _ _ _ _ _ _ _ _ _ Hr Hfailed)
      as (-> & Hst & Hev & Hb).
    repeat split; try apply Hst; auto.
    destruct Hst as (_ & _ & -> & _). reflexivity.
  - intros errors body r Hr.
    destruct (createSample_failed_upload _ _ _ _ _ _ _ _ _ Hr Hfailed)
      as (-> & Hst & Hev).
    repeat split; try apply Hst; auto.
  - intros errors body thumbnail user r Hr.
    destruct (createBlog_failed_upload _ _ _ _ _ _ _ _ _ _ _ _ _ Hr Hfailed)
      as (-> & Hst & Hev).
    repeat split; try apply Hst; auto.
  - intros errors body r Hr.
    destruct (createService_failed_upload _ _ _ _ _ _ _ _ _ Hr Hfailed)
      as (-> & Hst & Hev).
    repeat split; try apply Hst; auto.
Qed.

Lemma failed_upload_changes_nothing_witness :
  let run := updateSample Demo.cloud_down 1 Demo.new_content
                          (Some Demo.admin) Demo.world in
  fst run = fail 500 "Error uploading content"
  /\ same_store Demo.world (snd run)
  /\ findById Sample._id 1 (samples (snd run))
     = Some (Demo.sample 1 "Intro to Testing" "intro-to-testing" "Draft")
  /\ events_since Demo.world (snd run)
     = [Upload "Fresh text of the sample"
               "content/samples/intro-to-testing-content.md"
               "ping-assignments/content/samples" None].
Proof.
  intros run.
  destruct (failed_upload_changes_nothing Demo.cloud_down Demo.rt
              Demo.categories Demo.world (snd run)
              "Fresh text of the sample"
              "content/samples/intro-to-testing-content.md"
              "ping-assignments/content/samples") as (Hsample & _).
  - vm_compute. left. reflexivity.
  - destruct (Hsample 1 Demo.new_content (Some Demo.admin) (fst run)
                      (surjective_pairing run))
      as ((Hr & Hst & Hev & _) & _ & Hf).
    split; [exact Hr|]. split; [exact Hst|]. split; [|exact Hev].
    rewrite Hf. reflexivity.
Defined.

(** ** The order of a replacement of content *)

Lemma old_blob_deletion_none (cloud : Cloudinary) (oldUrl : option string) :
  match oldUrl with
  | Some old => truthy old && startsWith_http old = false
  | None => True
  end ->
  old_blob_deletion cloud oldUrl = [].
Proof.
  unfold old_blob_deletion. destruct oldUrl as [old|]; [|reflexivity].
  intros ->. reflexivity.
Qed.

Lemma old_blob_deletion_some (cloud : Cloudinary) (old : string) :
  truthy old && startsWith_http old = true ->
  old_blob_deletion cloud (Some old)
  = [DeleteFile (getPublicIdFromUrl cloud old) (Some "raw") true].
Proof. unfold old_blob_deletion. intros ->. reflexivity. Qed.

Lemma updateSample_replacement (cloud : Cloudinary) id body user
    (w w' : World) r sample c p f url :
  updateSample cloud id body user w = (r, w') ->
  success r = true ->
  findById Sample._id id (samples w) = Some sample ->
  In (Upload c p f url) (events_since w w') ->
  exists sample' persisted,
    findById Sample._id id (samples w') = Some sample'
    /\ Sample.contentUrl sample' = url
    /\ url <> None
    /\ events_since w w'
       = Upload c p f url :: old_blob_deletion cloud (Sample.contentUrl sample)
         ++ persisted
    /\ (persisted = [DbWrite MSample id] \/ (persisted = [] /\ sample' = sample))
    /\ (Sample.contentUrl sample <> url -> persisted = [DbWrite MSample id]).
Proof.
  unfold updateSample. intros Hr Hok Hf. rewrite Hf in Hr.
  pose proof (findById_id _ _ _ _ Hf) as Hid. revert Hr.
  destruct (slugOnUpdate _ _ _ _ _ _ _ _) as [slug|];
    [|intros [= <- <-]; discriminate Hok].
  destruct (contentOnUpdate _ _ _ _ _ _ _) as [st w1] eqn:Hc.
  apply contentOnUpdate_outcome in Hc
    as [(-> & ->)|[(c0 & Hb & -> & ->)|[(c0 & url0 & Hb & -> & -> & Hold)
       |(c0 & url0 & old & done & Hb & Hold & Hhttp & -> & ->)]]].
  - destruct (Sample_saveLoaded _ _ w) as [w2|] eqn:Hs; intros [= <- <-] H;
      [|discriminate Hok].
    apply Sample_saveLoaded_some in Hs as [(-> & _)|(-> & _)];
      known_events w; among H.
  - intros [= <- <-]. discriminate Hok.
  - destruct (Sample_saveLoaded _ _ _) as [w2|] eqn:Hs; intros [= <- <-] H;
      [|discriminate Hok].
    apply Sample_saveLoaded_some in Hs as [(-> & Hkept & _)|(-> & _ & Hne)];
      known_events w; among H; injection H as <- <- <- <-;
      rewrite (old_blob_deletion_none _ _ Hold).
    + exists sample, []. simpl samples.
      assert (Hurl : Sample.contentUrl sample = Some url0)
        by (rewrite Hkept; reflexivity).
      split; [exact Hf|]. split; [exact Hurl|].
      split; [discriminate|]. split; [reflexivity|].
      split; [right; split; reflexivity|]. intros Hne'. exfalso. apply Hne'.
      first [exact Hurl|rewrite <- Hold; exact Hurl].
    + eexists. exists [DbWrite MSample id].
      split; [apply (findById_store_at Sample._id); simpl; exact Hid|].
      split; [reflexivity|]. split; [discriminate|].
      split; [simpl; rewrite Hid; reflexivity|].
      split; [left; reflexivity|]. reflexivity.
  - destruct done; [|intros [= <- <-]; discriminate Hok].
    destruct (Sample_saveLoaded _ _ _) as [w2|] eqn:Hs; intros [= <- <-] H;
      [|discriminate Hok].
    apply Sample_saveLoaded_some in Hs as [(-> & Hkept & _)|(-> & _ & Hne)];
      known_events w; among H; injection H as <- <- <- <-;
      rewrite Hold, (old_blob_deletion_some _ _ Hhttp).
    + exists sample, []. simpl samples.
      assert (Hurl : Sample.contentUrl sample = Some url0)
        by (rewrite Hkept; reflexivity).
      split; [exact Hf|]. split; [exact Hurl|].
      split; [discriminate|]. split; [reflexivity|].
      split; [right; split; reflexivity|]. intros Hne'. exfalso. apply Hne'.
      first [exact Hurl|rewrite <- Hold; exact Hurl].
    + eexists. exists [DbWrite MSample id].
      split; [apply (findById_store_at Sample._id); simpl; exact Hid|].
      split; [reflexivity|]. split; [discriminate|].
      split; [simpl; rewrite Hid; reflexivity|].
      split; [left; reflexivity|]. reflexivity.
Qed.

Lemma updateService_replacement (cloud : Cloudinary) id body
    (w w' : World) r service c p f url :
  updateService cloud id body w = (r, w') ->
  success r = true ->
  findById Service._id id (services w) = Some service ->
  In (Upload c p f url) (events_since w w') ->
  exists service' persisted,
    findById Service._id id (services w') = Some service'
    /\ Service.contentUrl service' = url
    /\ url <> None
    /\ events_since w w'
       = Upload c p f url :: old_blob_deletion cloud (Service.contentUrl service)
         ++ persisted
    /\ (persisted = [DbWrite MService id] \/ (persisted = [] /\ service' = service))
    /\ (Service.contentUrl service <> url -> persisted = [DbWrite MService id]).
Proof.
  unfold updateService. intros Hr Hok Hf. rewrite Hf in Hr.
  pose proof (findById_id _ _ _ _ Hf) as Hid. revert Hr.
  match goal with |- context [match ?x with Go _ => _ | Stop _ _ => _ end] =>
    destruct x as [[]|] end; [|intros [= <- <-]; discriminate Hok].
  destruct (slugOnUpdate _ _ _ _ _ _ _ _) as [slug|];
    [|intros [= <- <-]; discriminate Hok].
  destruct (contentOnUpdate _ _ _ _ _ _ _) as [st w1] eqn:Hc.
  apply contentOnUpdate_outcome in Hc
    as [(-> & ->)|[(c0 & Hb & -> & ->)|[(c0 & url0 & Hb & -> & -> & Hold)
       |(c0 & url0 & old & done & Hb & Hold & Hhttp & -> & ->)]]].
  - destruct (Service_saveLoaded _ _ w) as [w2|] eqn:Hs; intros [= <- <-] H;
      [|discriminate Hok].
    apply Service_saveLoaded_some in Hs as [(-> & _)|(-> & _)];
      known_events w; among H.
  - intros [= <- <-]. discriminate Hok.
  - destruct (Service_saveLoaded _ _ _) as [w2|] eqn:Hs; intros [= <- <-] H;
      [|discriminate Hok].
    apply Service_saveLoaded_some in Hs as [(-> & Hkept & _)|(-> & _ & Hne)];
      known_events w; among H; injection H as <- <- <- <-;
      rewrite (old_blob_deletion_none _ _ Hold).
    + exists service, []. simpl services.
      assert (Hurl : Service.contentUrl service = Some url0)
        by (rewrite Hkept; reflexivity).
      split; [exact Hf|]. split; [exact Hurl|].
      split; [discriminate|]. split; [reflexivity|].
      split; [right; split; reflexivity|]. intros Hne'. exfalso. apply Hne'.
      first [exact Hurl|rewrite <- Hold; exact Hurl].
    + eexists. exists [DbWrite MService id].
      split; [apply (findById_store_at Service._id); simpl; exact Hid|].
      split; [reflexivity|]. split; [discriminate|].
      split; [simpl; rewrite Hid; reflexivity|].
      split; [left; reflexivity|]. reflexivity.
  - destruct done; [|intros [= <- <-]; discriminate Hok].
    destruct (Service_saveLoaded _ _ _) as [w2|] eqn:Hs; intros [= <- <-] H;
      [|discriminate Hok].
    apply Service_saveLoaded_some in Hs as [(-> & Hkept & _)|(-> & _ & Hne)];
      known_events w; among H; injection H as <- <- <- <-;
      rewrite Hold, (old_blob_deletion_some _ _ Hhttp).
    + exists service, []. simpl services.
      assert (Hurl : Service.contentUrl service = Some url0)
        by (rewrite Hkept; reflexivity).
      split; [exact Hf|]. split; [exact Hurl|].
      split; [discriminate|]. split; [reflexivity|].
      split; [right; split; reflexivity|]. intros Hne'. exfalso. apply Hne'.
      first [exact Hurl|rewrite <- Hold; exact Hurl].
    + eexists. exists [DbWrite MService id].
      split; [apply (findById_store_at Service._id); simpl; exact Hid|].
      split; [reflexivity|]. split; [discriminate|].
      split; [simpl; rewrite Hid; reflexivity|].
      split; [left; reflexivity|]. reflexivity.
Qed.

Lemma updateBlog_replacement (cloud : Cloudinary) (rt : Runtime) cats
    id body thumbnail user now (w w' : World) r blog c p f url :
  updateBlog cloud rt cats id body thumbnail user now w = (r, w') ->
  success r = true ->
  findById Blog._id id (blogs w) = Some blog ->
  In (Upload c p f url) (events_since w w') ->
  exists blog' thumbs persisted,
    findById Blog._id id (blogs w') = Some blog'
    /\ Blog.contentUrl blog' = url
    /\ url <> None
    /\ events_since w w'
       = Upload c p f url :: old_blob_deletion cloud (Blog.contentUrl blog)
         ++ thumbs ++ persisted
    /\ (thumbs = [] \/ exists pid, thumbs = [DeleteFile pid None true])
    /\ (persisted = [DbWrite MBlog id] \/ (persisted = [] /\ blog' = blog))
    /\ (Blog.contentUrl blog <> url -> persisted = [DbWrite MBlog id]).
Proof.
  unfold updateBlog. intros Hr Hok Hf. rewrite Hf in Hr.
  pose proof (findById_id _ _ _ _ Hf) as Hid. revert Hr.
  destruct user as [u|]; [|intros [= <- <-]; discriminate Hok].
  destruct (Blog.creator blog) as [creator|];
    [|intros [= <- <-]; discriminate Hok].
  destruct (negb _ && negb _); [intros [= <- <-]; discriminate Hok|].
  destruct (slugOnUpdate _ _ _ _ _ _ _ _) as [slug|];
    [|intros [= <- <-]; discriminate Hok].
  destruct (contentOnUpdate _ _ _ _ _ _ _) as [st w1] eqn:Hc.
  apply contentOnUpdate_outcome in Hc
    as [(-> & ->)|[(c0 & Hb & -> & ->)|[(c0 & url0 & Hb & -> & -> & Hold)
       |(c0 & url0 & old & done & Hb & Hold & Hhttp & -> & ->)]]].
  - updateBlog_tail w; intros [= <- <-] H; try discriminate Hok;
      known_events w; among H.
  - intros [= <- <-]. discriminate Hok.
  - match goal with |- context [thumbnailOnUpdate _ _ _ ?w1] =>
      updateBlog_tail w1 end; intros [= <- <-] H; try discriminate Hok;
      known_events w; among H; injection H as <- <- <- <-;
      rewrite (old_blob_deletion_none _ _ Hold).
    + exists blog, [], []. simpl blogs.
      assert (Hurl : Blog.contentUrl blog = Some url0)
        by (rewrite Hkept; reflexivity).
      split; [exact Hf|]. split; [exact Hurl|].
      split; [discriminate|]. split; [reflexivity|].
      split; [left; reflexivity|].
      split; [right; split; reflexivity|]. intros Hne'. exfalso. apply Hne'.
      first [exact Hurl|rewrite <- Hold; exact Hurl].
    + eexists. exists [], [DbWrite MBlog id].
      split; [apply (findById_store_at Blog._id); simpl; exact Hid|].
      split; [reflexivity|]. split; [discriminate|].
      split; [simpl; rewrite Hid; reflexivity|].
      split; [left; reflexivity|].
      split; [left; reflexivity|]. reflexivity.
    + exists blog, [DeleteFile pid None true], []. simpl blogs.
      assert (Hurl : Blog.contentUrl blog = Some url0)
        by (rewrite Hkept; reflexivity).
      split; [exact Hf|]. split; [exact Hurl|].
      split; [discriminate|]. split; [reflexivity|].
      split; [right; eexists; reflexivity|].
      split; [right; split; reflexivity|]. intros Hne'. exfalso. apply Hne'.
      first [exact Hurl|rewrite <- Hold; exact Hurl].
    + eexists. exists [DeleteFile pid None true], [DbWrite MBlog id].
      split; [apply (findById_store_at Blog._id); simpl; exact Hid|].
      split; [reflexivity|]. split; [discriminate|].
      split; [simpl; rewrite Hid; reflexivity|].
      split; [right; eexists; reflexivity|].
      split; [left; reflexivity|]. reflexivity.
  - destruct done; [|intros [= <- <-]; discriminate Hok].
    match goal with |- context [thumbnailOnUpdate _ _ _ ?w1] =>
      updateBlog_tail w1 end; intros [= <- <-] H; try discriminate Hok;
      known_events w; among H; injection H as <- <- <- <-;
      rewrite Hold, (old_blob_deletion_some _ _ Hhttp).
    + exists blog, [], []. simpl blogs.
      assert (Hurl : Blog.contentUrl blog = Some url0)
        by (rewrite Hkept; reflexivity).
      split; [exact Hf|]. split; [exact Hurl|].
      split; [discriminate|]. split; [reflexivity|].
      split; [left; reflexivity|].
      split; [right; split; reflexivity|]. intros Hne'. exfalso. apply Hne'.
      first [exact Hurl|rewrite <- Hold; exact Hurl].
    + eexists. exists [], [DbWrite MBlog id].
      split; [apply (findById_store_at Blog._id); simpl; exact Hid|].
      split; [reflexivity|]. split; [discriminate|].
      split; [simpl; rewrite Hid; reflexivity|].
      split; [left; reflexivity|].
      split; [left; reflexivity|]. reflexivity.
    + exists blog, [DeleteFile pid None true], []. simpl blogs.
      assert (Hurl : Blog.contentUrl blog = Some url0)
        by (rewrite Hkept; reflexivity).
      split; [exact Hf|]. split; [exact Hurl|].
      split; [discriminate|]. split; [reflexivity|].
      split; [right; eexists; reflexivity|].
      split; [right; split; reflexivity|]. intros Hne'. exfalso. apply Hne'.
      first [exact Hurl|rewrite <- Hold; exact Hurl].
    + eexists. exists [DeleteFile pid None true], [DbWrite MBlog id].
      split; [apply (findById_store_at Blog._id); simpl; exact Hid|].
      split; [reflexivity|]. split; [discriminate|].
      split; [simpl; rewrite Hid; reflexivity|].
      split; [right; eexists; reflexivity|].
      split; [left; reflexivity|]. reflexivity.
Qed.

Example updateSample_trace :
  let run := updateSample Demo.cloud 1 Demo.new_content (Some Demo.admin)
                          Demo.world in
  success (fst run) = true
  /\ events_since Demo.world (snd run)
     = [Upload "Fresh text of the sample"
               "content/samples/intro-to-testing-content.md"
               "ping-assignments/content/samples"
               (Some "https://res.cloudinary.com/raw/content/samples/intro-to-testing-content.md");
        DeleteFile "https://res.cloudinary.com/raw/intro-to-testing.md"
                   (Some "raw") true;
        DbWrite MSample 1].
Proof. split; reflexivity. Qed.

(** C1 as the design document states it fails: a successful update of a
    sample that replaces its content deletes the old blob before the
    document, with the new locator, is written. *)
Lemma updateSample_deletes_before_persisting :
  ~ updateSample_persists_first Demo.cloud.
Proof.
  intros H.
  specialize (H 1 Demo.new_content (Some Demo.admin) Demo.world _ _
                eq_refl eq_refl).
  destruct (H [Upload "Fresh text of the sample"
                      "content/samples/intro-to-testing-content.md"
                      "ping-assignments/content/samples"
                      (Some "https://res.cloudinary.com/raw/content/samples/intro-to-testing-content.md")]
              "https://res.cloudinary.com/raw/intro-to-testing.md"
              (Some "raw") true [DbWrite MSample 1] eq_refl)
    as (m & id & [Hin|[]]).
  discriminate Hin.
Qed.

(** The same replacement sent a second time uploads the blob again and
    deletes the blob of the stored locator; no path of the document has
    changed, and nothing is written. *)
Example updateSample_again_trace :
  let once := updateSample Demo.cloud 1 Demo.new_content (Some Demo.admin)
                           Demo.world in
  let run := updateSample Demo.cloud 1 Demo.new_content (Some Demo.admin)
                          (snd once) in
  let url := "https://res.cloudinary.com/raw/content/samples/intro-to-testing-content.md" in
  success (fst run) = true
  /\ events_since (snd once) (snd run)
     = [Upload "Fresh text of the sample"
               "content/samples/intro-to-testing-content.md"
               "ping-assignments/content/samples" (Some url);
        DeleteFile url (Some "raw") true]
  /\ samples (snd run) = samples (snd once).
Proof. repeat split; reflexivity. Qed.

(** C1 (amended). In every successful update that replaces the content
    of a sample, a service or a blog, the events are, in this order: the
    upload of the new blob, which succeeded; the deletion of the old blob,
    attempted when the old locator is a URL; for a blog, the deletion of
    the old thumbnail when a new one comes; and last the write of the
    document. The write is left out only when the update has left the
    document as it was stored, so never when the locator has changed.
    After the update the stored document holds the new locator. *)
Theorem replacement_uploads_deletes_persists (cloud : Cloudinary)
    (rt : Runtime) (cats : list string) (w w' : World)
    (c p f : string) (url : option string) :
  In (Upload c p f url) (events_since w w') ->
  (forall id body user r sample,
      updateSample cloud id body user w = (r, w') -> success r = true ->
      findById Sample._id id (samples w) = Some sample ->
      exists sample' persisted,
        findById Sample._id id (samples w') = Some sample'
        /\ Sample.contentUrl sample' = url
        /\ url <> None
        /\ events_since w w'
           = Upload c p f url
             :: old_blob_deletion cloud (Sample.contentUrl sample)
             ++ persisted
        /\ (persisted = [DbWrite MSample id]
            \/ (persisted = [] /\ sample' = sample))
        /\ (Sample.contentUrl sample <> url ->
            persisted = [DbWrite MSample id]))
  /\ (forall id body r service,
      updateService cloud id body w = (r, w') -> success r = true ->
      findById Service._id id (services w) = Some service ->
      exists service' persisted,
        findById Service._id id (services w') = Some service'
        /\ Service.contentUrl service' = url
        /\ url <> None
        /\ events_since w w'
           = Upload c p f url
             :: old_blob_deletion cloud (Service.contentUrl service)
             ++ persisted
        /\ (persisted = [DbWrite MService id]
            \/ (persisted = [] /\ service' = service))
        /\ (Service.contentUrl service <> url ->
            persisted = [DbWrite MService id]))
  /\ (forall id body thumbnail user now r blog,
      updateBlog cloud rt cats id body thumbnail user now w = (r, w') ->
      success r = true ->
      findById Blog._id id (blogs w) = Some blog ->
      exists blog' thumbs persisted,
        findById Blog._id id (blogs w') = Some blog'
        /\ Blog.contentUrl blog' = url
        /\ url <> None
        /\ events_since w w'
           = Upload c p f url
             :: old_blob_deletion cloud (Blog.contentUrl blog)
             ++ thumbs ++ persisted
        /\ (thumbs = [] \/ exists pid, thumbs = [DeleteFile pid None true])
        /\ (persisted = [DbWrite MBlog id]
            \/ (persisted = [] /\ blog' = blog))
        /\ (Blog.contentUrl blog <> url -> persisted = [DbWrite MBlog id])).
Proof.
  intros Hup. repeat apply conj.
  - intros id body user r sample Hr Hok Hf.
    exact (updateSample_replacement _ _ _ _ _ _ _ _ _ _ _ _ Hr Hok Hf Hup).
  - intros id body r service Hr Hok Hf.
    exact (updateService_replacement _ _ _ _ _ _ _ _ _ _ _ Hr Hok Hf Hup).
  - intros id body thumbnail user now r blog Hr Hok Hf.
    exact (updateBlog_replacement _ _ _ _ _ _ _ _ _ _ _ _ _ _ _ _ Hr Hok Hf Hup).
Qed.

Lemma replacement_uploads_deletes_persists_witness :
  let run := updateSample Demo.cloud 1 Demo.new_content (Some Demo.admin)
                          Demo.world in
  let url := "https://res.cloudinary.com/raw/content/samples/intro-to-testing-content.md" in
  events_since Demo.world (snd run)
  = [Upload "Fresh text of the sample"
            "content/samples/intro-to-testing-content.md"
            "ping-assignments/content/samples" (Some url);
     DeleteFile "https://res.cloudinary.com/raw/intro-to-testing.md"
                (Some "raw") true;
     DbWrite MSample 1]
  /\ exists sample', findById Sample._id 1 (samples (snd run)) = Some sample'
                     /\ Sample.contentUrl sample' = Some url.
Proof.
  intros run url.
  destruct (replacement_uploads_deletes_persists Demo.cloud Demo.rt
              Demo.categories Demo.world (snd run)
              "Fresh text of the sample"
              "content/samples/intro-to-testing-content.md"
              "ping-assignments/content/samples" (Some url)) as (Hsample & _).
  - vm_compute. left. reflexivity.
  - destruct (Hsample 1 Demo.new_content (Some Demo.admin) (fst run)
                      (Demo.sample 1 "Intro to Testing" "intro-to-testing" "Draft")
                      (surjective_pairing run) eq_refl eq_refl)
      as (sample' & persisted & Hstored & Hurl & _ & Hev & _ & Hlast).
    split; [|exists sample'; split; [exact Hstored|exact Hurl]].
    rewrite Hev, Hlast; [reflexivity|discriminate].
Defined.

(** ** Creation *)

Lemma createSample_success (cloud : Cloudinary) errors body (w w1 : World) r :
  createSample cloud errors body w = (r, w1) ->
  success r = true ->
  exists title sample,
    errors = [] /\ SampleBody.title body = Some title
    /\ r = reply 201 "Sample created successfully" sample
    /\ Sample.slug sample = Some (Slug.slugify title)
    /\ Sample.status sample = ESampleStatus.DRAFT
    /\ findById Sample._id (Sample._id sample) (samples w1) = Some sample.
Proof.
  unfold createSample. intros Hr Hok. revert Hr.
  destruct errors; [|intros [= <- <-]; discriminate Hok].
  destruct (SampleBody.title body) as [title|];
    [|intros [= <- <-]; discriminate Hok].
  destruct (find _ (samples w)); [intros [= <- <-]; discriminate Hok|].
  destruct (contentOnCreate _ _ _ _ _) as [[contentUrl|] w0];
    [|intros [= <- <-]; discriminate Hok].
  destruct (Sample_save _ _) as [w2|] eqn:Hs; intros [= <- <-];
    [|discriminate Hok].
  apply Sample_save_some in Hs as [-> _].
  eexists; eexists. repeat split.
  apply (findById_store Sample._id).
Qed.

Lemma createService_success (cloud : Cloudinary) errors body (w w1 : World) r :
  createService cloud errors body w = (r, w1) ->
  success r = true ->
  exists title service,
    errors = [] /\ ServiceBody.title body = Some title
    /\ r = reply 201 "Service created successfully" service
    /\ Service.slug service = Some (Slug.slugify title)
    /\ Service.status service = EServiceStatus.DRAFT
    /\ findById Service._id (Service._id service) (services w1) = Some service
    /\ sections w1 = sections w.
Proof.
  unfold createService. intros Hr Hok. revert Hr.
  destruct errors; [|intros [= <- <-]; discriminate Hok].
  match goal with |- context [match ?x with Some _ => _ | None => (fail 404 _, _) end] =>
    destruct x end; [|intros [= <- <-]; discriminate Hok].
  destruct (ServiceBody.title body) as [title|];
    [|intros [= <- <-]; discriminate Hok].
  destruct (find _ (services w)); [intros [= <- <-]; discriminate Hok|].
  destruct (contentOnCreate _ _ _ _ _) as [[contentUrl|] w0] eqn:Hc;
    [|intros [= <- <-]; discriminate Hok].
  destruct (Service_save _ _) as [w2|] eqn:Hs; intros [= <- <-];
    [|discriminate Hok].
  apply Service_save_some in Hs as [-> _].
  eexists; eexists. repeat split.
  - apply (findById_store Service._id).
  - apply contentOnCreate_outcome in Hc
      as [(-> & _)|[(c0 & _ & _ & [=])|(c0 & url & _ & _ & ->)]]; reflexivity.
Qed.

Lemma createBlog_success (cloud : Cloudinary) (rt : Runtime) cats
    errors body thumbnail user (w w1 : World) r :
  createBlog cloud rt cats errors body thumbnail user w = (r, w1) ->
  success r = true ->
  exists title blog,
    errors = [] /\ BlogBody.title body = Some title
    /\ r = reply 201 "Blog created successfully" blog
    /\ Blog.slug blog = Some (Slug.slugify title)
    /\ Blog.status blog = EBlogStatus.DRAFT
    /\ Blog.datePublished blog = None
    /\ findById Blog._id (Blog._id blog) (blogs w1) = Some blog.
Proof.
  unfold createBlog. intros Hr Hok. revert Hr.
  destruct errors; [|intros [= <- <-]; discriminate Hok].
  destruct user as [u|]; [|intros [= <- <-]; discriminate Hok].
  destruct (BlogBody.title body) as [title|];
    [|intros [= <- <-]; discriminate Hok].
  destruct (find _ (blogs w)); [intros [= <- <-]; discriminate Hok|].
  destruct (contentOnCreate _ _ _ _ _) as [[contentUrl|] w0];
    [|intros [= <- <-]; discriminate Hok].
  createBlog_tail; intros [= <- <-]; try discriminate Hok.
  eexists; eexists. repeat split.
  apply (findById_store Blog._id).
Qed.

Lemma createTestimonial_success body image (w w1 : World) r testimonial :
  createTestimonial body image w = (r, w1) ->
  data r = Some testimonial ->
  Testimonial.status testimonial
  = match TestimonialBody.status body with
    | Some st => if truthy st then st else "draft"
    | None => "draft"
    end
  /\ In (Testimonial.status testimonial) Testimonial.statuses
  /\ findById Testimonial._id (Testimonial._id testimonial) (testimonials w1)
     = Some testimonial.
Proof.
  unfold createTestimonial.
  destruct (TestimonialBody.stars body) as [stars|];
    [|intros [= <- <-]; discriminate].
  destruct (negb _ || _ || _); [intros [= <- <-]; discriminate|].
  destruct (Testimonial_save _ _) as [w2|] eqn:Hs; intros [= <- <-];
    [|discriminate].
  intros [= <-]. apply Testimonial_save_some in Hs as [-> Hv].
  split; [|split].
  - simpl. destruct (TestimonialBody.status body); reflexivity.
  - unfold Testimonial.validate in Hv.
    apply andb_prop in Hv as [_ Hv]. unfold in_enum in Hv.
    apply existsb_exists in Hv as (st & Hin & Heq).
    apply String.eqb_eq in Heq. rewrite Heq. exact Hin.
  - apply (findById_store Testimonial._id).
Qed.

(** C3 as stated fails for testimonials: a testimonial created with the
    status "published" is stored as published. *)
Lemma createTestimonial_honours_status : ~ createTestimonial_always_draft.
Proof.
  intros H.
  specialize (H Demo.eager_testimonial None Demo.world _ _ _ eq_refl eq_refl).
  discriminate H.
Qed.

(** C3 (amended). A created sample, blog or service is stored with the
    status Draft whatever the request says, its status field included; a
    created testimonial is stored with the status of the request when the
    request names one (one of draft, published, archived), and as a draft
    otherwise. *)
Theorem created_entities_status (cloud : Cloudinary) (rt : Runtime)
    (cats : list string) (w w' : World) :
  (forall errors body r,
      createSample cloud errors body w = (r, w') -> success r = true ->
      exists sample,
        data r = Some sample
        /\ Sample.status sample = ESampleStatus.DRAFT
        /\ findById Sample._id (Sample._id sample) (samples w') = Some sample)
  /\ (forall errors body thumbnail user r,
      createBlog cloud rt cats errors body thumbnail user w = (r, w') ->
      success r = true ->
      exists blog,
        data r = Some blog
        /\ Blog.status blog = EBlogStatus.DRAFT
        /\ findById Blog._id (Blog._id blog) (blogs w') = Some blog)
  /\ (forall errors body r,
      createService cloud errors body w = (r, w') -> success r = true ->
      exists service,
        data r = Some service
        /\ Service.status service = EServiceStatus.DRAFT
        /\ findById Service._id (Service._id service) (services w')
           = Some service)
  /\ (forall body image r,
      createTestimonial body image w = (r, w') -> success r = true ->
      exists testimonial,
        data r = Some testimonial
        /\ Testimonial.status testimonial
           = match TestimonialBody.status body with
             | Some st => if truthy st then st else "draft"
             | None => "draft"
             end
        /\ In (Testimonial.status testimonial) Testimonial.statuses
        /\ findById Testimonial._id (Testimonial._id testimonial)
                    (testimonials w') = Some testimonial).
Proof.
  repeat apply conj.
  - intros errors body r Hr Hok.
    destruct (createSample_success _ _ _ _ _ _ Hr Hok)
      as (title & sample & _ & _ & -> & _ & Hst & Hf).
    exists sample. repeat split; assumption.
  - intros errors body thumbnail user r Hr Hok.
    destruct (createBlog_success _ _ _ _ _ _ _ _ _ _ Hr Hok)
      as (title & blog & _ & _ & -> & _ & Hst & _ & Hf).
    exists blog. repeat split; assumption.
  - intros errors body r Hr Hok.
    destruct (createService_success _ _ _ _ _ _ Hr Hok)
      as (title & service & _ & _ & -> & _ & Hst & Hf & _).
    exists service. repeat split; assumption.
  - intros body image r Hr Hok.
    destruct (data r) as [testimonial|] eqn:Hd.
    + exists testimonial. split; [reflexivity|].
      exact (createTestimonial_success _ _ _ _ _ _ Hr Hd).
    + exfalso. revert Hr. unfold createTestimonial.
      destruct (TestimonialBody.stars body) as [stars|];
        [|intros [= <- <-]; discriminate Hok].
      destruct (negb _ || _ || _); [intros [= <- <-]; discriminate Hok|].
      destruct (Testimonial_save _ _); intros [= <- <-]; discriminate.
Qed.

Lemma created_entities_status_witness :
  (exists sample,
      data (fst (createSample Demo.cloud [] Demo.eager_sample Demo.world))
      = Some sample /\ Sample.status sample = "Draft")
  /\ (exists blog,
      data (fst (createBlog Demo.cloud Demo.rt Demo.categories [] Demo.eager_blog
                            None (Some Demo.admin) Demo.world))
      = Some blog /\ Blog.status blog = "Draft")
  /\ (exists service,
      data (fst (createService Demo.cloud [] Demo.eager_service Demo.world))
      = Some service /\ Service.status service = "Draft")
  /\ (exists testimonial,
      data (fst (createTestimonial Demo.eager_testimonial None Demo.world))
      = Some testimonial /\ Testimonial.status testimonial = "published").
Proof.
  split; [|split; [|split]].
  - destruct (created_entities_status Demo.cloud Demo.rt Demo.categories
                Demo.world
                (snd (createSample Demo.cloud [] Demo.eager_sample Demo.world)))
      as (H & _).
    destruct (H [] Demo.eager_sample _ (surjective_pairing _) eq_refl)
      as (sample & Hd & Hst & _).
    exists sample. split; assumption.
  - destruct (created_entities_status Demo.cloud Demo.rt Demo.categories
                Demo.world
                (snd (createBlog Demo.cloud Demo.rt Demo.categories []
                                 Demo.eager_blog None (Some Demo.admin)
                                 Demo.world)))
      as (_ & H & _).
    destruct (H [] Demo.eager_blog None (Some Demo.admin) _
                (surjective_pairing _) eq_refl)
      as (blog & Hd & Hst & _).
    exists blog. split; assumption.
  - destruct (created_entities_status Demo.cloud Demo.rt Demo.categories
                Demo.world
                (snd (createService Demo.cloud [] Demo.eager_service Demo.world)))
      as (_ & _ & H & _).
    destruct (H [] Demo.eager_service _ (surjective_pairing _) eq_refl)
      as (service & Hd & Hst & _).
    exists service. split; assumption.
  - destruct (created_entities_status Demo.cloud Demo.rt Demo.categories
                Demo.world
                (snd (createTestimonial Demo.eager_testimonial None Demo.world)))
      as (_ & _ & _ & H).
    destruct (H Demo.eager_testimonial None _ (surjective_pairing _) eq_refl)
      as (testimonial & Hd & Hst & _).
    exists testimonial. split; assumption.
Defined.

(** ** Uniqueness of slugs *)


Lemma find_slug_taken {A} (slugof : A -> option string) (l : list A) (d : A)
    (slug : string) :
  In d l -> slugof d = Some slug ->
  exists d', find (fun x => str_eq (slugof x) (Some slug)) l = Some d'.
Proof.
  intros Hin Hs.
  destruct (find _ l) as [d'|] eqn:Hf; [eauto|].
  pose proof (find_none _ _ Hf d Hin) as Hn. simpl in Hn.
  rewrite Hs, str_eq_refl in Hn. discriminate.
Qed.

Lemma createSample_conflict (cloud : Cloudinary) body title (w : World) d :
  In d (samples w) -> Sample.slug d = Some (Slug.slugify title) ->
  SampleBody.title body = Some title ->
  createSample cloud [] body w
  = (fail 400 "A sample with this title already exists", w).
Proof.
  intros Hin Hs Ht. unfold createSample. rewrite Ht.
  destruct (find_slug_taken Sample.slug _ _ _ Hin Hs) as [d' ->]. reflexivity.
Qed.

Lemma createBlog_conflict (cloud : Cloudinary) (rt : Runtime) cats body
    thumbnail u title (w : World) d :
  In d (blogs w) -> Blog.slug d = Some (Slug.slugify title) ->
  BlogBody.title body = Some title ->
  createBlog cloud rt cats [] body thumbnail (Some u) w
  = (fail 400 "A blog with this title already exists", w).
Proof.
  intros Hin Hs Ht. unfold createBlog. rewrite Ht.
  destruct (find_slug_taken Blog.slug _ _ _ Hin Hs) as [d' ->]. reflexivity.
Qed.

Lemma createService_conflict (cloud : Cloudinary) body sec section title
    (w : World) d :
  In d (services w) -> Service.slug d = Some (Slug.slugify title) ->
  ServiceBody.title body = Some title ->
  ServiceBody.section body = Some sec ->
  findById ServiceSection._id sec (sections w) = Some section ->
  createService cloud [] body w
  = (fail 400 "A service with this title already exists", w).
Proof.
  intros Hin Hs Ht Hsec Hf. unfold createService. rewrite Ht, Hsec, Hf.
  destruct (find_slug_taken Service.slug _ _ _ Hin Hs) as [d' ->]. reflexivity.
Qed.

(** The slug block of an update, when only the updated document itself
    holds the new slug, and when another document holds it. *)
Lemma slugOnUpdate_self {A} (idof : A -> nat) (slugof : A -> option string)
    (docs : list A) id title old_title old_slug taken :
  (forall t d, title = Some t -> In d docs ->
               slugof d = Some (Slug.slugify t) -> idof d = id) ->
  exists slug,
    slugOnUpdate idof slugof docs id title old_title old_slug taken = Go slug.
Proof.
  intros Hself. unfold slugOnUpdate.
  destruct title as [t|]; [|eauto].
  destruct (truthy t && negb _); [|eauto].
  destruct (find _ docs) as [d|] eqn:Hf; [|eauto].
  apply find_some in Hf as [Hin Hp]. apply andb_prop in Hp as [Hs Hne].
  apply str_eq_true in Hs. unfold has_id in Hne.
  rewrite (Hself t d eq_refl Hin Hs), Nat.eqb_refl in Hne. discriminate.
Qed.

Lemma slugOnUpdate_other {A} (idof : A -> nat) (slugof : A -> option string)
    (docs : list A) id t old_title old_slug taken other :
  truthy t = true -> Some t <> old_title ->
  In other docs -> slugof other = Some (Slug.slugify t) -> idof other <> id ->
  slugOnUpdate idof slugof docs id (Some t) old_title old_slug taken
  = Stop 400 taken.
Proof.
  intros Ht Hne Hin Hs Hid. unfold slugOnUpdate. rewrite Ht.
  destruct (str_eq (Some t) old_title) eqn:He;
    [apply str_eq_true in He; contradiction|].
  simpl. destruct (find _ docs) as [d|] eqn:Hf; [reflexivity|].
  pose proof (find_none _ _ Hf other Hin) as Hn. simpl in Hn.
  rewrite Hs, str_eq_refl in Hn. unfold has_id in Hn.
  destruct (idof other =? id) eqn:E; [apply Nat.eqb_eq in E; contradiction|].
  discriminate Hn.
Qed.

Lemma contentOnUpdate_code (cloud : Cloudinary) kind content compared slug
    oldUrl (w w1 : World) c msg :
  contentOnUpdate cloud kind content compared slug oldUrl w = (Stop c msg, w1) ->
  c = 500.
Proof.
  intros H. apply contentOnUpdate_outcome in H
    as [([=] & _)|[(c0 & _ & _ & [= -> _])|[(c0 & url & _ & [=] & _)
       |(c0 & url & old & done & _ & _ & _ & _ & H)]]]; [reflexivity|].
  destruct done; [discriminate H|]. injection H as -> _. reflexivity.
Qed.

Lemma updateSample_self (cloud : Cloudinary) id body user (w : World) :
  (forall t d, SampleBody.title body = Some t -> In d (samples w) ->
               Sample.slug d = Some (Slug.slugify t) -> Sample._id d = id) ->
  code (fst (updateSample cloud id body user w)) <> 400.
Proof.
  intros Hself. unfold updateSample.
  destruct (findById _ id (samples w)) as [sample|]; [|simpl; lia].
  destruct (slugOnUpdate_self Sample._id Sample.slug (samples w) id
              (SampleBody.title body) (Sample.title sample) (Sample.slug sample)
              "A sample with this title already exists" Hself) as [slug ->].
  destruct (contentOnUpdate _ _ _ _ _ _ _) as [[contentUrl|c msg] w1] eqn:Hc.
  - destruct (Sample_saveLoaded _ _ _); simpl; lia.
  - apply contentOnUpdate_code in Hc as ->. simpl. lia.
Qed.

Lemma updateSample_other (cloud : Cloudinary) id body user (w : World)
    sample t other :
  findById Sample._id id (samples w) = Some sample ->
  SampleBody.title body = Some t -> truthy t = true ->
  Some t <> Sample.title sample ->
  In other (samples w) -> Sample.slug other = Some (Slug.slugify t) ->
  Sample._id other <> id ->
  updateSample cloud id body user w
  = (fail 400 "A sample with this title already exists", w).
Proof.
  intros Hf Hb Ht Hne Hin Hs Hid. unfold updateSample. rewrite Hf, Hb.
  rewrite (slugOnUpdate_other Sample._id Sample.slug _ _ _ _ _ _ other
             Ht Hne Hin Hs Hid).
  reflexivity.
Qed.

Lemma updateService_self (cloud : Cloudinary) id body (w : World) :
  (forall t d, ServiceBody.title body = Some t -> In d (services w) ->
               Service.slug d = Some (Slug.slugify t) -> Service._id d = id) ->
  code (fst (updateService cloud id body w)) <> 400.
Proof.
  intros Hself. unfold updateService.
  destruct (findById _ id (services w)) as [service|]; [|simpl; lia].
  match goal with |- context [match ?x with Go _ => _ | Stop _ _ => _ end] =>
    destruct x as [[]|c msg] eqn:Hsec end.
  2:{ destruct (ServiceBody.section body), (Service.section service);
        try discriminate Hsec.
      - destruct (negb _); [|discriminate Hsec].
        destruct (findById _ _ _); [discriminate Hsec|].
        injection Hsec as <- <-. simpl. lia.
      - injection Hsec as <- <-. simpl. lia. }
  destruct (slugOnUpdate_self Service._id Service.slug (services w) id
              (ServiceBody.title body) (Service.title service)
              (Service.slug service)
              "A service with this title already exists" Hself) as [slug ->].
  destruct (contentOnUpdate _ _ _ _ _ _ _) as [[contentUrl|c msg] w1] eqn:Hc.
  - destruct (Service_saveLoaded _ _ _); simpl; lia.
  - apply contentOnUpdate_code in Hc as ->. simpl. lia.
Qed.

Lemma updateBlog_self (cloud : Cloudinary) (rt : Runtime) cats id body
    thumbnail user now (w : World) :
  (forall t d, BlogBody.title body = Some t -> In d (blogs w) ->
               Blog.slug d = Some (Slug.slugify t) -> Blog._id d = id) ->
  code (fst (updateBlog cloud rt cats id body thumbnail user now w)) <> 400.
Proof.
  intros Hself. unfold updateBlog.
  destruct (findById _ id (blogs w)) as [blog|]; [|simpl; lia].
  destruct user as [u|]; [|simpl; lia].
  destruct (Blog.creator blog) as [creator|]; [|simpl; lia].
  destruct (negb _ && negb _); [simpl; lia|].
  destruct (slugOnUpdate_self Blog._id Blog.slug (blogs w) id
              (BlogBody.title body) (Blog.title blog) (Blog.slug blog)
              "A blog with this title already exists" Hself) as [slug ->].
  destruct (contentOnUpdate _ _ _ _ _ _ _) as [[contentUrl|c msg] w1] eqn:Hc.
  - updateBlog_tail w1; simpl; lia.
  - apply contentOnUpdate_code in Hc as ->. simpl. lia.
Qed.

Lemma updateService_other (cloud : Cloudinary) id body (w : World)
    service t other :
  findById Service._id id (services w) = Some service ->
  ServiceBody.section body = None ->
  ServiceBody.title body = Some t -> truthy t = true ->
  Some t <> Service.title service ->
  In other (services w) -> Service.slug other = Some (Slug.slugify t) ->
  Service._id other <> id ->
  updateService cloud id body w
  = (fail 400 "A service with this title already exists", w).
Proof.
  intros Hf Hsec Hb Ht Hne Hin Hs Hid. unfold updateService.
  rewrite Hf, Hsec, Hb.
  rewrite (slugOnUpdate_other Service._id Service.slug _ _ _ _ _ _ other
             Ht Hne Hin Hs Hid).
  reflexivity.
Qed.

Lemma updateBlog_other (cloud : Cloudinary) (rt : Runtime) cats id body
    thumbnail u now (w : World) blog creator t other :
  findById Blog._id id (blogs w) = Some blog ->
  Blog.creator blog = Some creator ->
  user_id u = creator \/ isAdmin (Some u) = true ->
  BlogBody.title body = Some t -> truthy t = true ->
  Some t <> Blog.title blog ->
  In other (blogs w) -> Blog.slug other = Some (Slug.slugify t) ->
  Blog._id other <> id ->
  updateBlog cloud rt cats id body thumbnail (Some u) now w
  = (fail 400 "A blog with this title already exists", w).
Proof.
  intros Hf Hc Hperm Hb Ht Hne Hin Hs Hid. unfold updateBlog.
  rewrite Hf, Hc, Hb.
  assert (Hp : negb (user_id u =? creator) && negb (isAdmin (Some u)) = false).
  { destruct Hperm as [->| ->]; [rewrite Nat.eqb_refl; reflexivity|].
    apply andb_false_r. }
  rewrite Hp.
  rewrite (slugOnUpdate_other Blog._id Blog.slug _ _ _ _ _ _ other
             Ht Hne Hin Hs Hid).
  reflexivity.
Qed.

(** C6. When the creation of an entity (sample, blog, service) succeeded
    and a second, valid, request carries a title with the same slug, the
    second request is answered with the error 400 "... with this title
    already exists" and the world stays what the first creation left:
    nothing is written, uploaded, suffixed or retried, and the first
    entity is stored as it was. In an update, a document that alone holds
    the new slug is not in conflict with itself, while another document
    that holds it makes the update answer the same error and change
    nothing. *)
Theorem duplicate_slug_is_a_conflict (cloud : Cloudinary) (rt : Runtime)
    (cats : list string) (w : World) :
  (forall errors body1 r1 w1 body2 t1 t2,
      createSample cloud errors body1 w = (r1, w1) -> success r1 = true ->
      SampleBody.title body1 = Some t1 -> SampleBody.title body2 = Some t2 ->
      Slug.slugify t2 = Slug.slugify t1 ->
      createSample cloud [] body2 w1
      = (fail 400 "A sample with this title already exists", w1)
      /\ exists first,
           data r1 = Some first
           /\ Sample.slug first = Some (Slug.slugify t1)
           /\ findById Sample._id (Sample._id first) (samples w1) = Some first)
  /\ (forall errors body1 thumbnail1 user1 r1 w1 body2 thumbnail2 u2 t1 t2,
      createBlog cloud rt cats errors body1 thumbnail1 user1 w = (r1, w1) ->
      success r1 = true ->
      BlogBody.title body1 = Some t1 -> BlogBody.title body2 = Some t2 ->
      Slug.slugify t2 = Slug.slugify t1 ->
      createBlog cloud rt cats [] body2 thumbnail2 (Some u2) w1
      = (fail 400 "A blog with this title already exists", w1)
      /\ exists first,
           data r1 = Some first
           /\ Blog.slug first = Some (Slug.slugify t1)
           /\ findById Blog._id (Blog._id first) (blogs w1) = Some first)
  /\ (forall errors body1 r1 w1 body2 t1 t2 sec section,
      createService cloud errors body1 w = (r1, w1) -> success r1 = true ->
      ServiceBody.title body1 = Some t1 -> ServiceBody.title body2 = Some t2 ->
      Slug.slugify t2 = Slug.slugify t1 ->
      ServiceBody.section body2 = Some sec ->
      findById ServiceSection._id sec (sections w) = Some section ->
      createService cloud [] body2 w1
      = (fail 400 "A service with this title already exists", w1)
      /\ exists first,
           data r1 = Some first
           /\ Service.slug first = Some (Slug.slugify t1)
           /\ findById Service._id (Service._id first) (services w1)
              = Some first)
  /\ (forall id,
      (forall body user,
          (forall t d, SampleBody.title body = Some t -> In d (samples w) ->
                       Sample.slug d = Some (Slug.slugify t) ->
                       Sample._id d = id) ->
          code (fst (updateSample cloud id body user w)) <> 400)
      /\ (forall body thumbnail user now,
          (forall t d, BlogBody.title body = Some t -> In d (blogs w) ->
                       Blog.slug d = Some (Slug.slugify t) -> Blog._id d = id) ->
          code (fst (updateBlog cloud rt cats id body thumbnail user now w))
          <> 400)
      /\ (forall body,
          (forall t d, ServiceBody.title body = Some t -> In d (services w) ->
                       Service.slug d = Some (Slug.slugify t) ->
                       Service._id d = id) ->
          code (fst (updateService cloud id body w)) <> 400)
      /\ (forall body user sample t other,
          findById Sample._id id (samples w) = Some sample ->
          SampleBody.title body = Some t -> truthy t = true ->
          Some t <> Sample.title sample ->
          In other (samples w) -> Sample.slug other = Some (Slug.slugify t) ->
          Sample._id other <> id ->
          updateSample cloud id body user w
          = (fail 400 "A sample with this title already exists", w))
      /\ (forall body thumbnail u now blog creator t other,
          findById Blog._id id (blogs w) = Some blog ->
          Blog.creator blog = Some creator ->
          user_id u = creator \/ isAdmin (Some u) = true ->
          BlogBody.title body = Some t -> truthy t = true ->
          Some t <> Blog.title blog ->
          In other (blogs w) -> Blog.slug other = Some (Slug.slugify t) ->
          Blog._id other <> id ->
          updateBlog cloud rt cats id body thumbnail (Some u) now w
          = (fail 400 "A blog with this title already exists", w))
      /\ (forall body service t other,
          findById Service._id id (services w) = Some service ->
          ServiceBody.section body = None ->
          ServiceBody.title body = Some t -> truthy t = true ->
          Some t <> Service.title service ->
          In other (services w) -> Service.slug other = Some (Slug.slugify t) ->
          Service._id other <> id ->
          updateService cloud id body w
          = (fail 400 "A service with this title already exists", w))).
Proof.
  repeat apply conj.
  - intros errors body1 r1 w1 body2 t1 t2 Hr Hok Ht1 Ht2 Hslug.
    destruct (createSample_success _ _ _ _ _ _ Hr Hok)
      as (title & first & _ & Ht & -> & Hs & _ & Hf).
    rewrite Ht1 in Ht. injection Ht as <-. split.
    + apply (createSample_conflict cloud body2 t2 w1 first);
        [exact (findById_In _ _ _ _ Hf)|congruence|exact Ht2].
    + exists first. repeat split; assumption.
  - intros errors body1 th1 user1 r1 w1 body2 th2 u2 t1 t2 Hr Hok Ht1 Ht2 Hslug.
    destruct (createBlog_success _ _ _ _ _ _ _ _ _ _ Hr Hok)
      as (title & first & _ & Ht & -> & Hs & _ & _ & Hf).
    rewrite Ht1 in Ht. injection Ht as <-. split.
    + apply (createBlog_conflict cloud rt cats body2 th2 u2 t2 w1 first);
        [exact (findById_In _ _ _ _ Hf)|congruence|exact Ht2].
    + exists first. repeat split; assumption.
  - intros errors body1 r1 w1 body2 t1 t2 sec section Hr Hok Ht1 Ht2 Hslug
           Hsec Hsection.
    destruct (createService_success _ _ _ _ _ _ Hr Hok)
      as (title & first & _ & Ht & -> & Hs & _ & Hf & Hsections).
    rewrite Ht1 in Ht. injection Ht as <-. split.
    + apply (createService_conflict cloud body2 sec section t2 w1 first);
        [exact (findById_In _ _ _ _ Hf)|congruence|exact Ht2|exact Hsec|].
      rewrite Hsections. exact Hsection.
    + exists first. repeat split; assumption.
  - intros id. repeat apply conj.
    + intros body user. apply updateSample_self.
    + intros body thumbnail user now. apply updateBlog_self.
    + intros body. apply updateService_self.
    + intros body user sample t other. apply updateSample_other.
    + intros body thumbnail u now blog creator t other. apply updateBlog_other.
    + intros body service t other. apply updateService_other.
Qed.

Lemma duplicate_slug_is_a_conflict_witness :
  let w1 := snd (createSample Demo.cloud [] Demo.eager_sample Demo.world) in
  createSample Demo.cloud [] Demo.second_number_theory w1
  = (fail 400 "A sample with this title already exists", w1)
  /\ code (fst (updateSample Demo.cloud 1 Demo.shouted_sample
                             (Some Demo.admin) Demo.world)) <> 400
  /\ updateSample Demo.cloud 3 Demo.shouted_sample (Some Demo.admin) Demo.world
     = (fail 400 "A sample with this title already exists", Demo.world).
Proof.
  intros w1.
  destruct (duplicate_slug_is_a_conflict Demo.cloud Demo.rt Demo.categories
              Demo.world) as (Hcreate & _ & _ & Hupdate).
  split; [|split].
  - apply (Hcreate [] Demo.eager_sample _ w1 Demo.second_number_theory
                   "Number Theory" "number theory!"
                   (surjective_pairing _)); reflexivity.
  - destruct (Hupdate 1) as (Hself & _).
    apply Hself. intros t d [= <-] Hin Hs. simpl in Hin.
    destruct Hin as [<-|[<-|[<-|[]]]];
      [reflexivity|discriminate Hs|discriminate Hs].
  - destruct (Hupdate 3) as (_ & _ & _ & Hother & _).
    apply (Hother Demo.shouted_sample (Some Demo.admin)
                  (Demo.sample 3 "Graph Theory" "graph-theory" "Published")
                  "INTRO   TO TESTING?"
                  (Demo.sample 1 "Intro to Testing" "intro-to-testing" "Draft"));
      try reflexivity.
    + discriminate.
    + simpl. left. reflexivity.
    + discriminate.
Defined.

(** ** Partial updates *)

Lemma jor_falsy {A} `{Truthy A} (a b : A) : truthy a = false -> a ||| b = b.
Proof. unfold jor. intros ->. reflexivity. Qed.

(** The stored sample after [updateSample], whatever the answer. *)
Lemma updateSample_stored (cloud : Cloudinary) id body user (w : World) sample :
  findById Sample._id id (samples w) = Some sample ->
  exists sample',
    findById Sample._id id (samples (snd (updateSample cloud id body user w)))
    = Some sample'
    /\ (sample' = sample
        \/ (Sample.title sample' = SampleBody.title body ||| Sample.title sample
            /\ Sample.subtitle sample'
               = SampleBody.subtitle body ||| Sample.subtitle sample
            /\ Sample.description sample'
               = SampleBody.description body ||| Sample.description sample
            /\ Sample.subject sample'
               = SampleBody.subject body ||| Sample.subject sample
            /\ Sample.topic sample' = SampleBody.topic body ||| Sample.topic sample
            /\ Sample.academicLevel sample'
               = SampleBody.academicLevel body ||| Sample.academicLevel sample)).
Proof.
  intros Hf. unfold updateSample. rewrite Hf.
  pose proof (findById_id _ _ _ _ Hf) as Hid.
  destruct (slugOnUpdate _ _ _ _ _ _ _ _) as [slug|]; [|simpl; eauto].
  destruct (contentOnUpdate _ _ _ _ _ _ _) as [st w1] eqn:Hc.
  assert (Hsame : samples w1 = samples w).
  { apply contentOnUpdate_outcome in Hc
      as [(_ & ->)|[(c0 & _ & -> & _)|[(c0 & url & _ & _ & -> & _)
         |(c0 & url & old & done & _ & _ & _ & -> & _)]]]; reflexivity. }
  destruct st as [contentUrl|]; [|simpl; rewrite Hsame; eauto].
  destruct (Sample_saveLoaded _ _ _) as [w2|] eqn:Hs;
    [|simpl; rewrite Hsame; eauto].
  apply Sample_saveLoaded_some in Hs as [(-> & _)|(-> & _)];
    [simpl; rewrite Hsame; eauto|]. simpl.
  eexists. split; [apply (findById_store_at Sample._id); exact Hid|].
  right. repeat split.
Qed.

Lemma updateService_stored (cloud : Cloudinary) id body (w : World) service :
  findById Service._id id (services w) = Some service ->
  exists service',
    findById Service._id id (services (snd (updateService cloud id body w)))
    = Some service'
    /\ (service' = service
        \/ (Service.title service'
            = ServiceBody.title body ||| Service.title service
            /\ Service.subtitle service'
               = ServiceBody.subtitle body ||| Service.subtitle service
            /\ Service.description service'
               = ServiceBody.description body ||| Service.description service)).
Proof.
  intros Hf. unfold updateService. rewrite Hf.
  pose proof (findById_id _ _ _ _ Hf) as Hid.
  match goal with |- context [match ?x with Go _ => _ | Stop _ _ => _ end] =>
    destruct x as [[]|] end; [|simpl; eauto].
  destruct (slugOnUpdate _ _ _ _ _ _ _ _) as [slug|]; [|simpl; eauto].
  destruct (contentOnUpdate _ _ _ _ _ _ _) as [st w1] eqn:Hc.
  assert (Hsame : services w1 = services w).
  { apply contentOnUpdate_outcome in Hc
      as [(_ & ->)|[(c0 & _ & -> & _)|[(c0 & url & _ & _ & -> & _)
         |(c0 & url & old & done & _ & _ & _ & -> & _)]]]; reflexivity. }
  destruct st as [contentUrl|]; [|simpl; rewrite Hsame; eauto].
  destruct (Service_saveLoaded _ _ _) as [w2|] eqn:Hs;
    [|simpl; rewrite Hsame; eauto].
  apply Service_saveLoaded_some in Hs as [(-> & _)|(-> & _)];
    [simpl; rewrite Hsame; eauto|]. simpl.
  eexists. split; [apply (findById_store_at Service._id); exact Hid|].
  right. repeat split.
Qed.

Lemma updateBlog_stored (cloud : Cloudinary) (rt : Runtime) cats id body
    thumbnail user now (w : World) blog :
  findById Blog._id id (blogs w) = Some blog ->
  exists blog',
    findById Blog._id id
             (blogs (snd (updateBlog cloud rt cats id body thumbnail user now w)))
    = Some blog'
    /\ (blog' = blog
        \/ (Blog.title blog' = BlogBody.title body ||| Blog.title blog
            /\ Blog.subtitle blog'
               = BlogBody.subtitle body ||| Blog.subtitle blog
            /\ Blog.description blog'
               = BlogBody.description body ||| Blog.description blog
            /\ Blog.category blog'
               = BlogBody.category body ||| Blog.category blog)).
Proof.
  intros Hf. unfold updateBlog. rewrite Hf.
  pose proof (findById_id _ _ _ _ Hf) as Hid.
  destruct user as [u|]; [|simpl; eauto].
  destruct (Blog.creator blog) as [creator|]; [|simpl; eauto].
  destruct (negb _ && negb _); [simpl; eauto|].
  destruct (slugOnUpdate _ _ _ _ _ _ _ _) as [slug|]; [|simpl; eauto].
  destruct (contentOnUpdate _ _ _ _ _ _ _) as [st w1] eqn:Hc.
  assert (Hsame : blogs w1 = blogs w).
  { apply contentOnUpdate_outcome in Hc
      as [(_ & ->)|[(c0 & _ & -> & _)|[(c0 & url & _ & _ & -> & _)
         |(c0 & url & old & done & _ & _ & _ & -> & _)]]]; reflexivity. }
  destruct st as [contentUrl|]; [|simpl; rewrite Hsame; eauto].
  updateBlog_tail w1; simpl; rewrite ?Hsame; eauto;
    (eexists; split; [apply (findById_store_at Blog._id); exact Hid|];
     right; repeat split).
Qed.

Lemma updateTestimonial_stored (cloud : Cloudinary) id body image (w : World)
    testimonial :
  findById Testimonial._id id (testimonials w) = Some testimonial ->
  exists testimonial',
    findById Testimonial._id id
             (testimonials (snd (updateTestimonial cloud id body image w)))
    = Some testimonial'
    /\ (testimonial' = testimonial
           /\ success (fst (updateTestimonial cloud id body image w)) = false
        \/ (Testimonial.name testimonial'
            = TestimonialBody.name body ||| Testimonial.name testimonial
            /\ Testimonial.content testimonial'
               = TestimonialBody.content body ||| Testimonial.content testimonial
            /\ Testimonial.location testimonial'
               = defined_or (TestimonialBody.location body)
                            (Testimonial.location testimonial))).
Proof.
  intros Hf. unfold updateTestimonial. rewrite Hf.
  pose proof (findById_id _ _ _ _ Hf) as Hid.
  match goal with |- context [if ?x then (fail 400 _, _) else _] =>
    destruct x end; [simpl; eauto|].
  match goal with |- context [let '(_, _) := ?x in _] =>
    destruct x as [st w1] eqn:Hi end.
  assert (Hsame : testimonials w1 = testimonials w).
  { destruct image; [|injection Hi as _ <-; reflexivity].
    destruct (truthy (Testimonial.imageUrl testimonial));
      [|injection Hi as _ <-; reflexivity].
    destruct (truthy (getPublicIdFromUrl_export _ _));
      injection Hi as _ <-; reflexivity. }
  destruct st as [imageUrl|]; [|simpl; rewrite Hsame; eauto].
  destruct (Testimonial_saveLoaded _ _ _) as [w2|] eqn:Hs;
    [|simpl; rewrite Hsame; eauto].
  apply Testimonial_saveLoaded_some in Hs as [(-> & Hkept & _)|(-> & _)].
  - simpl. rewrite Hsame. exists testimonial. split; [exact Hf|].
    right. repeat split;
      match goal with |- ?f _ = _ => exact (f_equal f Hkept) end.
  - simpl.
    eexists. split; [apply (findById_store_at Testimonial._id); exact Hid|].
    right. repeat split.
Qed.

Lemma updateSection_stored id name description order status (w : World)
    section :
  findById ServiceSection._id id (sections w) = Some section ->
  exists section',
    findById ServiceSection._id id
             (sections (snd (updateSection id name description order status w)))
    = Some section'
    /\ (section' = section
        \/ (ServiceSection.name section' = name ||| ServiceSection.name section
            /\ ServiceSection.description section'
               = description ||| ServiceSection.description section)).
Proof.
  intros Hf. unfold updateSection. rewrite Hf.
  pose proof (findById_id _ _ _ _ Hf) as Hid.
  destruct (slugOnUpdate _ _ _ _ _ _ _ _) as [slug|]; [|simpl; eauto].
  unfold ServiceSection_saveLoaded, ServiceSection_save.
  destruct (ServiceSection.validate _ && ServiceSection_eqb _ _);
    [simpl; eauto|].
  destruct (ServiceSection.validate _ && _ && _); [|simpl; eauto].
  simpl. eexists.
  split; [apply (findById_store_at ServiceSection._id); exact Hid|].
  right. split; reflexivity.
Qed.

Lemma updateImageAsset_stored (cloud : Cloudinary) id name altText file
    (w : World) imageAsset :
  findById ImageAsset._id id (imageAssets w) = Some imageAsset ->
  exists imageAsset',
    findById ImageAsset._id id
             (imageAssets (snd (updateImageAsset cloud id name altText file w)))
    = Some imageAsset'
    /\ (imageAsset' = imageAsset
        \/ (ImageAsset.name imageAsset' = name ||| ImageAsset.name imageAsset
            /\ ImageAsset.altText imageAsset'
               = altText ||| ImageAsset.altText imageAsset)).
Proof.
  intros Hf. unfold updateImageAsset. rewrite Hf.
  pose proof (findById_id _ _ _ _ Hf) as Hid.
  match goal with |- context [match ?x with (_, _) => _ end] =>
    destruct x as [[url publicId] w1] eqn:Hi end.
  assert (Hsame : imageAssets w1 = imageAssets w).
  { destruct file as [[path filename]|]; [|injection Hi as _ _ <-; reflexivity].
    destruct (ImageAsset.publicId imageAsset) as [old|];
      [|injection Hi as _ _ <-; reflexivity].
    destruct (truthy old); injection Hi as _ _ <-; reflexivity. }
  unfold ImageAsset_saveLoaded, ImageAsset_save.
  destruct (ImageAsset.validate _ && ImageAsset_eqb _ _);
    [simpl; rewrite Hsame; eauto|].
  destruct (ImageAsset.validate _); [|simpl; rewrite Hsame; eauto].
  simpl. eexists.
  split; [apply (findById_store_at ImageAsset._id); exact Hid|].
  right. split; reflexivity.
Qed.

(** C9 as stated fails for the location of a testimonial: an update that
    supplies the empty string stores the empty string. *)
Lemma updateTestimonial_clears_location : ~ updateTestimonial_keeps_location.
Proof.
  intros H.
  specialize (H Demo.cloud 1 Demo.emptied_testimonial None Demo.world
                (Demo.testimonial 1 "Noor" "Paris" "published")
                _ eq_refl eq_refl eq_refl).
  discriminate H.
Qed.

(** C9 (amended). In every update, a falsy value (the empty string or no
    value) for a text field that the handler assigns as input-or-existing
    leaves the stored field as it was, whatever the answer: title,
    subtitle, description, subject, topic and academic level of a sample;
    title, subtitle, description and category of a blog; title, subtitle
    and description of a service; name and description of a section; name
    and alternative text of an image asset; name and content of a
    testimonial. The location of a testimonial is assigned whenever the
    request defines it: a successful update stores the supplied location,
    the empty string included. *)
Theorem falsy_input_keeps_field (cloud : Cloudinary) (rt : Runtime)
    (cats : list string) (w : World) (id : nat) :
  (forall body user sample,
      findById Sample._id id (samples w) = Some sample ->
      exists sample',
        findById Sample._id id (samples (snd (updateSample cloud id body user w)))
        = Some sample'
        /\ (truthy (SampleBody.title body) = false ->
            Sample.title sample' = Sample.title sample)
        /\ (truthy (SampleBody.subtitle body) = false ->
            Sample.subtitle sample' = Sample.subtitle sample)
        /\ (truthy (SampleBody.description body) = false ->
            Sample.description sample' = Sample.description sample)
        /\ (truthy (SampleBody.subject body) = false ->
            Sample.subject sample' = Sample.subject sample)
        /\ (truthy (SampleBody.topic body) = false ->
            Sample.topic sample' = Sample.topic sample)
        /\ (truthy (SampleBody.academicLevel body) = false ->
            Sample.academicLevel sample' = Sample.academicLevel sample))
  /\ (forall body thumbnail user now blog,
      findById Blog._id id (blogs w) = Some blog ->
      exists blog',
        findById Blog._id id
          (blogs (snd (updateBlog cloud rt cats id body thumbnail user now w)))
        = Some blog'
        /\ (truthy (BlogBody.title body) = false ->
            Blog.title blog' = Blog.title blog)
        /\ (truthy (BlogBody.subtitle body) = false ->
            Blog.subtitle blog' = Blog.subtitle blog)
        /\ (truthy (BlogBody.description body) = false ->
            Blog.description blog' = Blog.description blog)
        /\ (truthy (BlogBody.category body) = false ->
            Blog.category blog' = Blog.category blog))
  /\ (forall body service,
      findById Service._id id (services w) = Some service ->
      exists service',
        findById Service._id id (services (snd (updateService cloud id body w)))
        = Some service'
        /\ (truthy (ServiceBody.title body) = false ->
            Service.title service' = Service.title service)
        /\ (truthy (ServiceBody.subtitle body) = false ->
            Service.subtitle service' = Service.subtitle service)
        /\ (truthy (ServiceBody.description body) = false ->
            Service.description service' = Service.description service))
  /\ (forall name description order status section,
      findById ServiceSection._id id (sections w) = Some section ->
      exists section',
        findById ServiceSection._id id
          (sections (snd (updateSection id name description order status w)))
        = Some section'
        /\ (truthy name = false ->
            ServiceSection.name section' = ServiceSection.name section)
        /\ (truthy description = false ->
            ServiceSection.description section'
            = ServiceSection.description section))
  /\ (forall name altText file imageAsset,
      findById ImageAsset._id id (imageAssets w) = Some imageAsset ->
      exists imageAsset',
        findById ImageAsset._id id
          (imageAssets (snd (updateImageAsset cloud id name altText file w)))
        = Some imageAsset'
        /\ (truthy name = false ->
            ImageAsset.name imageAsset' = ImageAsset.name imageAsset)
        /\ (truthy altText = false ->
            ImageAsset.altText imageAsset' = ImageAsset.altText imageAsset))
  /\ (forall body image testimonial,
      findById Testimonial._id id (testimonials w) = Some testimonial ->
      exists testimonial',
        findById Testimonial._id id
          (testimonials (snd (updateTestimonial cloud id body image w)))
        = Some testimonial'
        /\ (truthy (TestimonialBody.name body) = false ->
            Testimonial.name testimonial' = Testimonial.name testimonial)
        /\ (truthy (TestimonialBody.content body) = false ->
            Testimonial.content testimonial' = Testimonial.content testimonial)
        /\ (TestimonialBody.location body = None ->
            Testimonial.location testimonial' = Testimonial.location testimonial)
        /\ (forall location,
            success (fst (updateTestimonial cloud id body image w)) = true ->
            TestimonialBody.location body = Some location ->
            Testimonial.location testimonial' = Some location)).
Proof.
  repeat apply conj.
  - intros body user sample Hf.
    destruct (updateSample_stored cloud id body user w sample Hf)
      as (sample' & Hf' & Hcase).
    exists sample'. split; [exact Hf'|].
    destruct Hcase as [->|(Ht & Hs & Hd & Hj & Hp & Ha)];
      repeat split; intros Hfalsy; try reflexivity.
    + rewrite Ht. apply jor_falsy, Hfalsy.
    + rewrite Hs. apply jor_falsy, Hfalsy.
    + rewrite Hd. apply jor_falsy, Hfalsy.
    + rewrite Hj. apply jor_falsy, Hfalsy.
    + rewrite Hp. apply jor_falsy, Hfalsy.
    + rewrite Ha. apply jor_falsy, Hfalsy.
  - intros body thumbnail user now blog Hf.
    destruct (updateBlog_stored cloud rt cats id body thumbnail user now w blog Hf)
      as (blog' & Hf' & Hcase).
    exists blog'. split; [exact Hf'|].
    destruct Hcase as [->|(Ht & Hs & Hd & Hc)];
      repeat split; intros Hfalsy; try reflexivity.
    + rewrite Ht. apply jor_falsy, Hfalsy.
    + rewrite Hs. apply jor_falsy, Hfalsy.
    + rewrite Hd. apply jor_falsy, Hfalsy.
    + rewrite Hc. apply jor_falsy, Hfalsy.
  - intros body service Hf.
    destruct (updateService_stored cloud id body w service Hf)
      as (service' & Hf' & Hcase).
    exists service'. split; [exact Hf'|].
    destruct Hcase as [->|(Ht & Hs & Hd)];
      repeat split; intros Hfalsy; try reflexivity.
    + rewrite Ht. apply jor_falsy, Hfalsy.
    + rewrite Hs. apply jor_falsy, Hfalsy.
    + rewrite Hd. apply jor_falsy, Hfalsy.
  - intros name description order status section Hf.
    destruct (updateSection_stored id name description order status w section Hf)
      as (section' & Hf' & Hcase).
    exists section'. split; [exact Hf'|].
    destruct Hcase as [->|(Hn & Hd)];
      repeat split; intros Hfalsy; try reflexivity.
    + rewrite Hn. apply jor_falsy, Hfalsy.
    + rewrite Hd. apply jor_falsy, Hfalsy.
  - intros name altText file imageAsset Hf.
    destruct (updateImageAsset_stored cloud id name altText file w imageAsset Hf)
      as (imageAsset' & Hf' & Hcase).
    exists imageAsset'. split; [exact Hf'|].
    destruct Hcase as [->|(Hn & Ha)];
      repeat split; intros Hfalsy; try reflexivity.
    + rewrite Hn. apply jor_falsy, Hfalsy.
    + rewrite Ha. apply jor_falsy, Hfalsy.
  - intros body image testimonial Hf.
    destruct (updateTestimonial_stored cloud id body image w testimonial Hf)
      as (testimonial' & Hf' & Hcase).
    exists testimonial'. split; [exact Hf'|].
    destruct Hcase as [(-> & Hfail)|(Hn & Hc & Hl)].
    + repeat split; try reflexivity.
      intros location Hok. rewrite Hfail in Hok. discriminate Hok.
    + split; [intros Hfalsy; rewrite Hn; apply jor_falsy, Hfalsy|].
      split; [intros Hfalsy; rewrite Hc; apply jor_falsy, Hfalsy|].
      split; [intros Hnone; rewrite Hl, Hnone; reflexivity|].
      intros location _ Hsome. rewrite Hl, Hsome. reflexivity.
Qed.

Lemma falsy_input_keeps_field_witness :
  exists testimonial',
    findById Testimonial._id 1
      (testimonials (snd (updateTestimonial Demo.cloud 1
                            Demo.emptied_testimonial None Demo.world)))
    = Some testimonial'
    /\ Testimonial.name testimonial' = Some "Noor"
    /\ Testimonial.content testimonial' = Some "Very helpful"
    /\ Testimonial.location testimonial' = Some EmptyString.
Proof.
  destruct (falsy_input_keeps_field Demo.cloud Demo.rt Demo.categories
              Demo.world 1) as (_ & _ & _ & _ & _ & H).
  destruct (H Demo.emptied_testimonial None
              (Demo.testimonial 1 "Noor" "Paris" "published") eq_refl)
    as (testimonial' & Hf & Hn & Hc & _ & Hl).
  exists testimonial'. split; [exact Hf|]. split; [|split].
  - exact (Hn eq_refl).
  - exact (Hc eq_refl).
  - exact (Hl EmptyString eq_refl eq_refl).
Defined.

(** The other way to publish a blog: an administrator who sets the status
    to Published through [updateBlog] dates the first publication, and a
    date once set is kept. *)
Lemma updateBlog_stamps_once (cloud : Cloudinary) (rt : Runtime) cats id body
    thumbnail u now (w w' : World) r blog :
  updateBlog cloud rt cats id body thumbnail (Some u) now w = (r, w') ->
  success r = true ->
  findById Blog._id id (blogs w) = Some blog ->
  isAdmin (Some u) = true ->
  BlogBody.status body = Some EBlogStatus.PUBLISHED ->
  exists blog',
    findById Blog._id id (blogs w') = Some blog'
    /\ Blog.status blog' = EBlogStatus.PUBLISHED
    /\ Blog.datePublished blog'
       = Some (match Blog.datePublished blog with
               | Some d => d
               | None => now
               end).
Proof.
  unfold updateBlog. intros Hr Hok Hf Hadmin Hst. rewrite Hf in Hr.
  pose proof (findById_id _ _ _ _ Hf) as Hid. revert Hr.
  destruct (Blog.creator blog) as [creator|];
    [|intros [= <- <-]; discriminate Hok].
  rewrite Hadmin, Hst.
  destruct (negb _ && negb _); [intros [= <- <-]; discriminate Hok|].
  destruct (slugOnUpdate _ _ _ _ _ _ _ _) as [slug|];
    [|intros [= <- <-]; discriminate Hok].
  destruct (contentOnUpdate _ _ _ _ _ _ _) as [st w1] eqn:Hc.
  assert (Hsame : blogs w1 = blogs w).
  { apply contentOnUpdate_outcome in Hc
      as [(_ & ->)|[(c0 & _ & -> & _)|[(c0 & url & _ & _ & -> & _)
         |(c0 & url & old & done & _ & _ & _ & -> & _)]]]; reflexivity. }
  destruct st as [contentUrl|]; [|intros [= <- <-]; discriminate Hok].
  updateBlog_tail w1; intros [= <- <-]; try discriminate Hok;
    first
      [ exists blog; simpl blogs; rewrite Hsame; split; [exact Hf|];
        pose proof (f_equal Blog.status Hkept) as Hs1;
        pose proof (f_equal Blog.datePublished Hkept) as Hd1;
        simpl in Hs1, Hd1; split; [exact Hs1|];
        destruct (Blog.datePublished blog); exact Hd1
      | eexists; split; [apply (findById_store_at Blog._id); exact Hid|];
        split; [reflexivity|]; simpl; destruct (Blog.datePublished blog);
        reflexivity ].
Qed.

Example updateBlog_dates_demo :
  let run := updateBlog Demo.cloud Demo.rt Demo.categories 1 Demo.eager_blog
                        None (Some Demo.admin) 42 Demo.world in
  option_map Blog.datePublished
             (findById Blog._id 1 (blogs (snd run))) = Some (Some 42)
  /\ option_map Blog.datePublished
                (findById Blog._id 1 (blogs (snd (toggleBlogStatus 1 Demo.world))))
     = Some None.
Proof. split; reflexivity. Qed.

(** ** From creation to conflict *)

Example intro_to_testing :
  let body := SampleBody.mk (Some "Intro to Testing!") None
                (Some "What a test is") (Some "Raw text of the sample")
                (Some "Testing") None None None None None (Some "Published") in
  let again := SampleBody.mk (Some "Intro To Testing") None
                 (Some "The same again") None (Some "Testing")
                 None None None None None None in
  let w1 := snd (createSample Demo.cloud [] body Demo.empty) in
  let w2 := snd (toggleSampleStatus 1000 w1) in
  option_map (fun d => (Sample.slug d, Sample.status d))
             (findById Sample._id 1000 (samples w1))
  = Some (Some "intro-to-testing", "Draft")
  /\ option_map Sample.status (findById Sample._id 1000 (samples w2))
     = Some "Published"
  /\ createSample Demo.cloud [] again w2
     = (fail 400 "A sample with this title already exists", w2).
Proof. repeat split. Qed.

(* ================================================================== *)
(** * Further properties of the controllers *)
(* ================================================================== *)

From Stdlib Require OrderedTypeEx.

(** ** Pagination *)

Lemma total_pages_ceil (n : nat) (l : Z) :
  (1 <= l)%Z ->
  exists k, total_pages n l = Some k
            /\ ((k - 1) * l < Z.of_nat n <= k * l)%Z.
Proof.
  intros Hl. unfold total_pages.
  destruct (l =? 0)%Z eqn:E; [apply Z.eqb_eq in E; lia|].
  eexists. split; [reflexivity|].
  pose proof (Z.div_mod (- Z.of_nat n) l ltac:(lia)) as Hdm.
  pose proof (Z.mod_pos_bound (- Z.of_nat n) l ltac:(lia)) as Hb.
  nia.
Qed.

Lemma paginate_page (A : Type) (p l : Z) (items : list A) :
  (1 <= p)%Z -> (1 <= l)%Z ->
  paginate p l items
  = Some (firstn (Z.to_nat l) (skipn (Z.to_nat ((p - 1) * l)) items)).
Proof.
  intros Hp Hl. unfold paginate.
  destruct ((p - 1) * l <? 0)%Z eqn:E; [apply Z.ltb_lt in E; nia|].
  rewrite Z.abs_eq by lia. reflexivity.
Qed.

Lemma page_length (A : Type) (p l : Z) (items : list A) :
  (1 <= p)%Z -> (1 <= l)%Z ->
  length (firstn (Z.to_nat l) (skipn (Z.to_nat ((p - 1) * l)) items))
  = Nat.min (Z.to_nat l) (length items - Z.to_nat ((p - 1) * l)).
Proof. intros Hp Hl. rewrite length_firstn, length_skipn. reflexivity. Qed.

Lemma sortSamples_length (sort : option string) (l : list Sample.t) :
  length (sortSamples sort l) = length l.
Proof. unfold sortSamples. destruct (str_eq _ _); [apply length_rev|reflexivity]. Qed.

Lemma int_or_given (p dflt : Z) : (1 <= p)%Z -> int_or (Some p) dflt = p.
Proof.
  intros Hp. unfold int_or.
  change (truthy p) with (negb (p =? 0)%Z).
  destruct (p =? 0)%Z eqn:E; [apply Z.eqb_eq in E; lia|reflexivity].
Qed.

(** X1. For a page number and a limit that are at least 1, the public list
    of samples answers 200 and leaves the world alone; the number of pages
    it reports is the number of matching samples divided by the limit,
    rounded up; a page holds at most [limit] samples, exactly [limit] before
    the last page, at least one up to the last page, and none beyond it: a
    page past the end is an empty list, not an error. *)
Theorem getSamples_pages (rt : Runtime) (q : SampleQuery.t) (user : option User)
    (w : World) (p l : Z) :
  parseParam rt (SampleQuery.page q) = Some p -> (1 <= p)%Z ->
  parseParam rt (SampleQuery.limit q) = Some l -> (1 <= l)%Z ->
  let found := filter (Sample_matches (samplesQuery q user)) (samples w) in
  exists items k,
    getSamples rt q user w
    = (reply_data (items, {| current := p; total := Some k;
                             totalItems := length found |}), w)
    /\ ((k - 1) * l < Z.of_nat (length found) <= k * l)%Z
    /\ length items <= Z.to_nat l
    /\ ((p < k)%Z -> length items = Z.to_nat l)
    /\ ((p <= k)%Z -> items <> [])
    /\ ((k < p)%Z -> items = []).
Proof.
  intros Hpage Hp Hlimit Hl found.
  destruct (total_pages_ceil (length found) l Hl) as (k & Hk & Hceil).
  unfold getSamples. rewrite Hpage, Hlimit, !int_or_given by assumption.
  fold found. rewrite paginate_page by assumption. rewrite Hk.
  eexists; exists k. split; [reflexivity|]. split; [exact Hceil|].
  pose proof (page_length _ p l
                (sortSamples match SampleQuery.sort q with
                             | Some s => Some s
                             | None => Some "rating"
                             end found) Hp Hl) as Hlen.
  rewrite sortSamples_length in Hlen.
  assert (Hoff : Z.of_nat (Z.to_nat ((p - 1) * l)) = ((p - 1) * l)%Z)
    by (apply Z2Nat.id; nia).
  repeat split.
  - rewrite Hlen. lia.
  - intros Hlt. rewrite Hlen. assert ((p * l <= (k - 1) * l)%Z) by nia. lia.
  - intros Hle Hempty. rewrite Hempty in Hlen. simpl in Hlen.
    assert (((p - 1) * l <= (k - 1) * l)%Z) by nia. lia.
  - intros Hgt. apply length_zero_iff_nil. rewrite Hlen.
    assert ((k * l <= (p - 1) * l)%Z) by nia. lia.
Qed.

Lemma getSamples_pages_witness :
  fst (getSamples Demo.rt Tour.second_page (Some Demo.visitor) Demo.world)
  = reply_data ([], {| current := 2; total := Some 1%Z; totalItems := 1 |}).
Proof.
  destruct (getSamples_pages Demo.rt Tour.second_page (Some Demo.visitor)
              Demo.world 2 1 eq_refl ltac:(lia) eq_refl ltac:(lia))
    as (items & k & Hr & Hceil & _ & _ & _ & Hpast).
  simpl in Hceil. assert (k = 1%Z) by lia. subst k.
  rewrite (Hpast ltac:(lia)) in Hr. rewrite Hr. reflexivity.
Defined.

(** ** Toggles *)

Lemma Sample_setStatus_lookup (id id' : nat) (st : string) (w : World) :
  findById Sample._id id' (samples (Sample_setStatus id st w))
  = option_map (fun d => if has_id Sample._id id d
                         then Sample.with_status st d else d)
               (findById Sample._id id' (samples w)).
Proof.
  unfold Sample_setStatus. simpl. apply findById_map.
  intros x. destruct (has_id Sample._id id x); reflexivity.
Qed.

Lemma Service_setStatus_lookup (id id' : nat) (st : string) (w : World) :
  findById Service._id id' (services (Service_setStatus id st w))
  = option_map (fun d => if has_id Service._id id d
                         then Service.with_status st d else d)
               (findById Service._id id' (services w)).
Proof.
  unfold Service_setStatus. simpl. apply findById_map.
  intros x. destruct (has_id Service._id id x); reflexivity.
Qed.

Lemma lookup_has_id {A} (idof : A -> nat) (id id' : nat) (l : list A) (d : A) :
  findById idof id' l = Some d -> has_id idof id d = (id' =? id).
Proof.
  intros H. apply findById_id in H. unfold has_id. rewrite H. reflexivity.
Qed.

Lemma toggleSampleStatus_lookup (id : nat) (w : World) (sample : Sample.t) :
  findById Sample._id id (samples w) = Some sample ->
  Sample.status sample <> ESampleStatus.ARCHIVED ->
  let flipped := if String.eqb (Sample.status sample) ESampleStatus.PUBLISHED
                 then ESampleStatus.DRAFT else ESampleStatus.PUBLISHED in
  toggleSampleStatus id w
  = (reply 200 "Sample status toggled successfully" (id, flipped),
     Sample_setStatus id flipped w)
  /\ forall id',
       findById Sample._id id' (samples (Sample_setStatus id flipped w))
       = if id' =? id then Some (Sample.with_status flipped sample)
         else findById Sample._id id' (samples w).
Proof.
  intros Hf Hna flipped. split.
  - unfold toggleSampleStatus. rewrite Hf.
    destruct (String.eqb_spec (Sample.status sample) ESampleStatus.ARCHIVED);
      [contradiction|reflexivity].
  - intros id'. rewrite Sample_setStatus_lookup.
    destruct (id' =? id) eqn:E.
    + apply Nat.eqb_eq in E. subst id'. rewrite Hf. simpl.
      rewrite (lookup_has_id _ id id _ _ Hf), Nat.eqb_refl. reflexivity.
    + destruct (findById Sample._id id' (samples w)) as [d|] eqn:Hd;
        [|reflexivity].
      simpl. rewrite (lookup_has_id _ id id' _ _ Hd), E. reflexivity.
Qed.

Lemma toggleServiceStatus_lookup (id : nat) (w : World) (service : Service.t) :
  findById Service._id id (services w) = Some service ->
  Service.status service <> EServiceStatus.INACTIVE ->
  Service.status service <> EServiceStatus.COMING_SOON ->
  let flipped := if String.eqb (Service.status service) EServiceStatus.LIVE
                 then EServiceStatus.DRAFT else EServiceStatus.LIVE in
  toggleServiceStatus id w
  = (reply 200 "Service status toggled successfully" (id, flipped),
     Service_setStatus id flipped w)
  /\ forall id',
       findById Service._id id' (services (Service_setStatus id flipped w))
       = if id' =? id then Some (Service.with_status flipped service)
         else findById Service._id id' (services w).
Proof.
  intros Hf Hni Hnc flipped. split.
  - unfold toggleServiceStatus. rewrite Hf.
    destruct (String.eqb_spec (Service.status service) EServiceStatus.INACTIVE);
      [contradiction|].
    destruct (String.eqb_spec (Service.status service) EServiceStatus.COMING_SOON);
      [contradiction|reflexivity].
  - intros id'. rewrite Service_setStatus_lookup.
    destruct (id' =? id) eqn:E.
    + apply Nat.eqb_eq in E. subst id'. rewrite Hf. simpl.
      rewrite (lookup_has_id _ id id _ _ Hf), Nat.eqb_refl. reflexivity.
    + destruct (findById Service._id id' (services w)) as [d|] eqn:Hd;
        [|reflexivity].
      simpl. rewrite (lookup_has_id _ id id' _ _ Hd), E. reflexivity.
Qed.

(** Two toggles, on the paths of the records. *)
Lemma toggle_twice_lookups (id : nat) (w : World) :
  (forall sample,
      findById Sample._id id (samples w) = Some sample ->
      Sample.status sample = ESampleStatus.DRAFT
      \/ Sample.status sample = ESampleStatus.PUBLISHED ->
      let once := toggleSampleStatus id w in
      let twice := toggleSampleStatus id (snd once) in
      code (fst once) = 200 /\ code (fst twice) = 200
      /\ option_map Sample.status (findById Sample._id id (samples (snd once)))
         <> Some (Sample.status sample)
      /\ forall id', findById Sample._id id' (samples (snd twice))
                     = findById Sample._id id' (samples w))
  /\ (forall service,
      findById Service._id id (services w) = Some service ->
      Service.status service = EServiceStatus.DRAFT
      \/ Service.status service = EServiceStatus.LIVE ->
      let once := toggleServiceStatus id w in
      let twice := toggleServiceStatus id (snd once) in
      code (fst once) = 200 /\ code (fst twice) = 200
      /\ option_map Service.status (findById Service._id id (services (snd once)))
         <> Some (Service.status service)
      /\ forall id', findById Service._id id' (services (snd twice))
                     = findById Service._id id' (services w)).
Proof.
  split.
  - intros sample Hf Hst once twice.
    assert (Hna : Sample.status sample <> ESampleStatus.ARCHIVED)
      by (destruct Hst as [-> | ->]; discriminate).
    destruct (toggleSampleStatus_lookup id w sample Hf Hna) as [E1 L1].
    cbv zeta in E1, L1.
    set (flipped := if String.eqb (Sample.status sample) ESampleStatus.PUBLISHED
                    then ESampleStatus.DRAFT else ESampleStatus.PUBLISHED) in *.
    assert (Hf1 : findById Sample._id id (samples (snd once))
                  = Some (Sample.with_status flipped sample)).
    { unfold once. rewrite E1. simpl snd. rewrite L1, Nat.eqb_refl. reflexivity. }
    assert (Hna1 : Sample.status (Sample.with_status flipped sample)
                   <> ESampleStatus.ARCHIVED).
    { unfold flipped. destruct (String.eqb _ _); discriminate. }
    destruct (toggleSampleStatus_lookup id (snd once) _ Hf1 Hna1) as [E2 L2].
    cbv zeta in E2, L2.
    assert (Hback : Sample.with_status
                      (if String.eqb (Sample.status
                                        (Sample.with_status flipped sample))
                                     ESampleStatus.PUBLISHED
                       then ESampleStatus.DRAFT else ESampleStatus.PUBLISHED)
                      (Sample.with_status flipped sample) = sample).
    { unfold flipped. destruct sample. simpl in *.
      destruct Hst as [-> | ->]; reflexivity. }
    repeat split.
    + unfold once. rewrite E1. reflexivity.
    + unfold twice. rewrite E2. reflexivity.
    + rewrite Hf1. unfold flipped. simpl.
      destruct Hst as [-> | ->]; discriminate.
    + intros id'. unfold twice. rewrite E2. simpl snd. rewrite L2.
      destruct (id' =? id) eqn:E.
      * apply Nat.eqb_eq in E. subst id'. rewrite Hback, Hf. reflexivity.
      * unfold once. rewrite E1. simpl snd. rewrite L1, E. reflexivity.
  - intros service Hf Hst once twice.
    assert (Hni : Service.status service <> EServiceStatus.INACTIVE)
      by (destruct Hst as [-> | ->]; discriminate).
    assert (Hnc : Service.status service <> EServiceStatus.COMING_SOON)
      by (destruct Hst as [-> | ->]; discriminate).
    destruct (toggleServiceStatus_lookup id w service Hf Hni Hnc) as [E1 L1].
    cbv zeta in E1, L1.
    set (flipped := if String.eqb (Service.status service) EServiceStatus.LIVE
                    then EServiceStatus.DRAFT else EServiceStatus.LIVE) in *.
    assert (Hf1 : findById Service._id id (services (snd once))
                  = Some (Service.with_status flipped service)).
    { unfold once. rewrite E1. simpl snd. rewrite L1, Nat.eqb_refl. reflexivity. }
    assert (Hni1 : Service.status (Service.with_status flipped service)
                   <> EServiceStatus.INACTIVE).
    { unfold flipped. destruct (String.eqb _ _); discriminate. }
    assert (Hnc1 : Service.status (Service.with_status flipped service)
                   <> EServiceStatus.COMING_SOON).
    { unfold flipped. destruct (String.eqb _ _); discriminate. }
    destruct (toggleServiceStatus_lookup id (snd once) _ Hf1 Hni1 Hnc1)
      as [E2 L2].
    cbv zeta in E2, L2.
    assert (Hback : Service.with_status
                      (if String.eqb (Service.status
                                        (Service.with_status flipped service))
                                     EServiceStatus.LIVE
                       then EServiceStatus.DRAFT else EServiceStatus.LIVE)
                      (Service.with_status flipped service) = service).
    { unfold flipped. destruct service. simpl in *.
      destruct Hst as [-> | ->]; reflexivity. }
    repeat split.
    + unfold once. rewrite E1. reflexivity.
    + unfold twice. rewrite E2. reflexivity.
    + rewrite Hf1. unfold flipped. simpl.
      destruct Hst as [-> | ->]; discriminate.
    + intros id'. unfold twice. rewrite E2. simpl snd. rewrite L2.
      destruct (id' =? id) eqn:E.
      * apply Nat.eqb_eq in E. subst id'. rewrite Hback, Hf. reflexivity.
      * unfold once. rewrite E1. simpl snd. rewrite L1, E. reflexivity.
Qed.

(** X2. Toggling twice restores the status: a sample that is a Draft or
    Published (a service that is a Draft or Live) gets the other status
    and then its own again, both toggles answer 200, and after them every
    identifier finds a document with the status, the title and the slug
    of the document that it found before. *)
Theorem toggle_twice_restores (id : nat) (w : World) :
  (forall sample,
      findById Sample._id id (samples w) = Some sample ->
      Sample.status sample = ESampleStatus.DRAFT
      \/ Sample.status sample = ESampleStatus.PUBLISHED ->
      let once := toggleSampleStatus id w in
      let twice := toggleSampleStatus id (snd once) in
      code (fst once) = 200 /\ code (fst twice) = 200
      /\ option_map Sample.status (findById Sample._id id (samples (snd once)))
         <> Some (Sample.status sample)
      /\ forall id',
           let before := findById Sample._id id' (samples w) in
           let after := findById Sample._id id' (samples (snd twice)) in
           option_map Sample.status after = option_map Sample.status before
           /\ option_map Sample.title after = option_map Sample.title before
           /\ option_map Sample.slug after = option_map Sample.slug before)
  /\ (forall service,
      findById Service._id id (services w) = Some service ->
      Service.status service = EServiceStatus.DRAFT
      \/ Service.status service = EServiceStatus.LIVE ->
      let once := toggleServiceStatus id w in
      let twice := toggleServiceStatus id (snd once) in
      code (fst once) = 200 /\ code (fst twice) = 200
      /\ option_map Service.status (findById Service._id id (services (snd once)))
         <> Some (Service.status service)
      /\ forall id',
           let before := findById Service._id id' (services w) in
           let after := findById Service._id id' (services (snd twice)) in
           option_map Service.status after = option_map Service.status before
           /\ option_map Service.title after = option_map Service.title before
           /\ option_map Service.slug after = option_map Service.slug before).
Proof.
  split.
  - intros sample Hf Hst once twice.
    destruct (proj1 (toggle_twice_lookups id w) sample Hf Hst)
      as (H1 & H2 & H3 & H4).
    split; [exact H1|]. split; [exact H2|]. split; [exact H3|].
    intros id' before after. unfold after, before, twice, once.
    rewrite (H4 id'). repeat split.
  - intros service Hf Hst once twice.
    destruct (proj2 (toggle_twice_lookups id w) service Hf Hst)
      as (H1 & H2 & H3 & H4).
    split; [exact H1|]. split; [exact H2|]. split; [exact H3|].
    intros id' before after. unfold after, before, twice, once.
    rewrite (H4 id'). repeat split.
Qed.

Lemma toggle_twice_restores_witness :
  (forall id',
      option_map Sample.status
        (findById Sample._id id'
           (samples (snd (toggleSampleStatus 3
                            (snd (toggleSampleStatus 3 Demo.world))))))
      = option_map Sample.status (findById Sample._id id' (samples Demo.world)))
  /\ (forall id',
      option_map Service.status
        (findById Service._id id'
           (services (snd (toggleServiceStatus 1
                             (snd (toggleServiceStatus 1 Demo.world))))))
      = option_map Service.status
          (findById Service._id id' (services Demo.world))).
Proof.
  split.
  - destruct (proj1 (toggle_twice_restores 3 Demo.world) _ eq_refl
                    (or_intror eq_refl)) as (_ & _ & _ & H).
    intros id'. exact (proj1 (H id')).
  - destruct (proj2 (toggle_twice_restores 1 Demo.world) _ eq_refl
                    (or_introl eq_refl)) as (_ & _ & _ & H).
    intros id'. exact (proj1 (H id')).
Defined.

Lemma Blog_setStatus_lookup (id : nat) (st : string) (w : World) (id' : nat) :
  findById Blog._id id' (blogs (Blog_setStatus id st w))
  = option_map (fun d => if has_id Blog._id id d then Blog.with_status st d else d)
               (findById Blog._id id' (blogs w)).
Proof.
  unfold Blog_setStatus. simpl. apply findById_map.
  intros x. destruct (has_id Blog._id id x); reflexivity.
Qed.

(** A toggle that succeeds, on the paths of the records. *)
Lemma toggle_writes_one_document (id : nat) (w : World) :
  (forall r w',
      toggleSampleStatus id w = (r, w') -> success r = true ->
      exists sample st,
        findById Sample._id id (samples w) = Some sample
        /\ data r = Some (id, st) /\ st <> Sample.status sample
        /\ findById Sample._id id (samples w')
           = Some (Sample.with_status st sample)
        /\ (forall id', id' <> id ->
              findById Sample._id id' (samples w')
              = findById Sample._id id' (samples w))
        /\ length (samples w') = length (samples w)
        /\ events_since w w' = [DbWrite MSample id]
        /\ blogs w' = blogs w /\ services w' = services w
        /\ sections w' = sections w /\ testimonials w' = testimonials w
        /\ imageAssets w' = imageAssets w)
  /\ (forall r w',
      toggleBlogStatus id w = (r, w') -> success r = true ->
      exists blog st,
        findById Blog._id id (blogs w) = Some blog
        /\ data r = Some (id, st) /\ st <> Blog.status blog
        /\ findById Blog._id id (blogs w') = Some (Blog.with_status st blog)
        /\ (forall id', id' <> id ->
              findById Blog._id id' (blogs w') = findById Blog._id id' (blogs w))
        /\ length (blogs w') = length (blogs w)
        /\ events_since w w' = [DbWrite MBlog id]
        /\ samples w' = samples w /\ services w' = services w
        /\ sections w' = sections w /\ testimonials w' = testimonials w
        /\ imageAssets w' = imageAssets w)
  /\ (forall r w',
      toggleServiceStatus id w = (r, w') -> success r = true ->
      exists service st,
        findById Service._id id (services w) = Some service
        /\ data r = Some (id, st) /\ st <> Service.status service
        /\ findById Service._id id (services w')
           = Some (Service.with_status st service)
        /\ (forall id', id' <> id ->
              findById Service._id id' (services w')
              = findById Service._id id' (services w))
        /\ length (services w') = length (services w)
        /\ events_since w w' = [DbWrite MService id]
        /\ samples w' = samples w /\ blogs w' = blogs w
        /\ sections w' = sections w /\ testimonials w' = testimonials w
        /\ imageAssets w' = imageAssets w).
Proof.
  repeat apply conj.
  - intros r w'. unfold toggleSampleStatus.
    destruct (findById Sample._id id (samples w)) as [sample|] eqn:Hf;
      [|intros [= <- <-]; discriminate].
    destruct (String.eqb (Sample.status sample) ESampleStatus.ARCHIVED);
      [intros [= <- <-]; discriminate|].
    intros [= <- <-] _. eexists; eexists.
    split; [reflexivity|]. split; [reflexivity|].
    split.
    { destruct (String.eqb_spec (Sample.status sample) ESampleStatus.PUBLISHED)
        as [e|n]; [rewrite e; discriminate|intros e; apply n; symmetry; exact e]. }
    split.
    { rewrite Sample_setStatus_lookup, Hf. simpl.
      rewrite (lookup_has_id _ id id _ _ Hf), Nat.eqb_refl. reflexivity. }
    split.
    { intros id' Hne. rewrite Sample_setStatus_lookup.
      destruct (findById Sample._id id' (samples w)) as [d|] eqn:Hd;
        [|reflexivity].
      simpl. rewrite (lookup_has_id _ id id' _ _ Hd).
      apply Nat.eqb_neq in Hne. rewrite Hne. reflexivity. }
    split; [unfold Sample_setStatus; simpl; apply length_map|].
    split; [events|]. repeat split.
  - intros r w'. unfold toggleBlogStatus.
    destruct (findById Blog._id id (blogs w)) as [blog|] eqn:Hf;
      [|intros [= <- <-]; discriminate].
    destruct (String.eqb (Blog.status blog) EBlogStatus.ARCHIVED);
      [intros [= <- <-]; discriminate|].
    intros [= <- <-] _. eexists; eexists.
    split; [reflexivity|]. split; [reflexivity|].
    split.
    { destruct (String.eqb_spec (Blog.status blog) EBlogStatus.PUBLISHED)
        as [e|n]; [rewrite e; discriminate|intros e; apply n; symmetry; exact e]. }
    split.
    { rewrite Blog_setStatus_lookup, Hf. simpl.
      rewrite (lookup_has_id _ id id _ _ Hf), Nat.eqb_refl. reflexivity. }
    split.
    { intros id' Hne. rewrite Blog_setStatus_lookup.
      destruct (findById Blog._id id' (blogs w)) as [d|] eqn:Hd;
        [|reflexivity].
      simpl. rewrite (lookup_has_id _ id id' _ _ Hd).
      apply Nat.eqb_neq in Hne. rewrite Hne. reflexivity. }
    split; [unfold Blog_setStatus; simpl; apply length_map|].
    split; [events|]. repeat split.
  - intros r w'. unfold toggleServiceStatus.
    destruct (findById Service._id id (services w)) as [service|] eqn:Hf;
      [|intros [= <- <-]; discriminate].
    destruct (String.eqb (Service.status service) EServiceStatus.INACTIVE
              || String.eqb (Service.status service) EServiceStatus.COMING_SOON);
      [intros [= <- <-]; discriminate|].
    intros [= <- <-] _. eexists; eexists.
    split; [reflexivity|]. split; [reflexivity|].
    split.
    { destruct (String.eqb_spec (Service.status service) EServiceStatus.LIVE)
        as [e|n]; [rewrite e; discriminate|intros e; apply n; symmetry; exact e]. }
    split.
    { rewrite Service_setStatus_lookup, Hf. simpl.
      rewrite (lookup_has_id _ id id _ _ Hf), Nat.eqb_refl. reflexivity. }
    split.
    { intros id' Hne. rewrite Service_setStatus_lookup.
      destruct (findById Service._id id' (services w)) as [d|] eqn:Hd;
        [|reflexivity].
      simpl. rewrite (lookup_has_id _ id id' _ _ Hd).
      apply Nat.eqb_neq in Hne. rewrite Hne. reflexivity. }
    split; [unfold Service_setStatus; simpl; apply length_map|].
    split; [events|]. repeat split.
Qed.

(** X3. A toggle that succeeds writes the status of one document: the
    store is written once and the blob store is never called, the answer
    names the status that is then stored, the document keeps its title,
    its slug and the locator of its content, and every other document of
    every collection is left as it was. *)
Theorem toggle_writes_status_only (id : nat) (w : World) :
  (forall r w',
      toggleSampleStatus id w = (r, w') -> success r = true ->
      exists sample sample' st,
        findById Sample._id id (samples w) = Some sample
        /\ data r = Some (id, st) /\ st <> Sample.status sample
        /\ findById Sample._id id (samples w') = Some sample'
        /\ Sample.status sample' = st
        /\ Sample.title sample' = Sample.title sample
        /\ Sample.slug sample' = Sample.slug sample
        /\ Sample.contentUrl sample' = Sample.contentUrl sample
        /\ (forall id', id' <> id ->
              findById Sample._id id' (samples w')
              = findById Sample._id id' (samples w))
        /\ length (samples w') = length (samples w)
        /\ events_since w w' = [DbWrite MSample id]
        /\ blogs w' = blogs w /\ services w' = services w
        /\ sections w' = sections w /\ testimonials w' = testimonials w
        /\ imageAssets w' = imageAssets w)
  /\ (forall r w',
      toggleBlogStatus id w = (r, w') -> success r = true ->
      exists blog blog' st,
        findById Blog._id id (blogs w) = Some blog
        /\ data r = Some (id, st) /\ st <> Blog.status blog
        /\ findById Blog._id id (blogs w') = Some blog'
        /\ Blog.status blog' = st
        /\ Blog.title blog' = Blog.title blog
        /\ Blog.slug blog' = Blog.slug blog
        /\ Blog.contentUrl blog' = Blog.contentUrl blog
        /\ (forall id', id' <> id ->
              findById Blog._id id' (blogs w')
              = findById Blog._id id' (blogs w))
        /\ length (blogs w') = length (blogs w)
        /\ events_since w w' = [DbWrite MBlog id]
        /\ samples w' = samples w /\ services w' = services w
        /\ sections w' = sections w /\ testimonials w' = testimonials w
        /\ imageAssets w' = imageAssets w)
  /\ (forall r w',
      toggleServiceStatus id w = (r, w') -> success r = true ->
      exists service service' st,
        findById Service._id id (services w) = Some service
        /\ data r = Some (id, st) /\ st <> Service.status service
        /\ findById Service._id id (services w') = Some service'
        /\ Service.status service' = st
        /\ Service.title service' = Service.title service
        /\ Service.slug service' = Service.slug service
        /\ Service.contentUrl service' = Service.contentUrl service
        /\ (forall id', id' <> id ->
              findById Service._id id' (services w')
              = findById Service._id id' (services w))
        /\ length (services w') = length (services w)
        /\ events_since w w' = [DbWrite MService id]
        /\ samples w' = samples w /\ blogs w' = blogs w
        /\ sections w' = sections w /\ testimonials w' = testimonials w
        /\ imageAssets w' = imageAssets w).
Proof.
  destruct (toggle_writes_one_document id w) as (Hs & Hb & Hv).
  repeat apply conj.
  - intros r w' Hr Hok.
    destruct (Hs r w' Hr Hok) as (sample & st & Hf & Hd & Hne & Hf' & Hrest).
    exists sample, (Sample.with_status st sample), st.
    repeat (split; [first [assumption|reflexivity]|]). exact Hrest.
  - intros r w' Hr Hok.
    destruct (Hb r w' Hr Hok) as (blog & st & Hf & Hd & Hne & Hf' & Hrest).
    exists blog, (Blog.with_status st blog), st.
    repeat (split; [first [assumption|reflexivity]|]). exact Hrest.
  - intros r w' Hr Hok.
    destruct (Hv r w' Hr Hok) as (service & st & Hf & Hd & Hne & Hf' & Hrest).
    exists service, (Service.with_status st service), st.
    repeat (split; [first [assumption|reflexivity]|]). exact Hrest.
Qed.

Lemma toggle_writes_status_only_witness :
  events_since Demo.world (snd (toggleSampleStatus 1 Demo.world))
  = [DbWrite MSample 1]
  /\ events_since Demo.world (snd (toggleBlogStatus 1 Demo.world))
     = [DbWrite MBlog 1]
  /\ events_since Demo.world (snd (toggleServiceStatus 1 Demo.world))
     = [DbWrite MService 1].
Proof.
  destruct (toggle_writes_status_only 1 Demo.world) as (Hs & Hb & Hv).
  repeat apply conj.
  - destruct (Hs _ _ (surjective_pairing _) eq_refl)
      as (? & ? & ? & _ & _ & _ & _ & _ & _ & _ & _ & _ & _ & H & _). exact H.
  - destruct (Hb _ _ (surjective_pairing _) eq_refl)
      as (? & ? & ? & _ & _ & _ & _ & _ & _ & _ & _ & _ & _ & H & _). exact H.
  - destruct (Hv _ _ (surjective_pairing _) eq_refl)
      as (? & ? & ? & _ & _ & _ & _ & _ & _ & _ & _ & _ & _ & H & _). exact H.
Defined.

(** ** What a write leaves in a collection *)

Section StoreFacts.
Context {A : Type} (idof : A -> nat).

Lemma In_store (d x : A) (l : list A) :
  In x (store idof d l) -> x = d \/ (In x l /\ idof x <> idof d).
Proof.
  unfold store. destruct (existsb _ l) eqn:E.
  - intros H. apply in_map_iff in H as (y & Hy & Hin).
    unfold has_id in Hy. destruct (idof y =? idof d) eqn:Eid.
    + left. symmetry. exact Hy.
    + right. subst y. split; [exact Hin|]. apply Nat.eqb_neq. exact Eid.
  - intros H. apply in_app_or in H as [H|[H|[]]].
    + right. split; [exact H|]. intros Heq.
      assert (existsb (has_id idof (idof d)) l = true); [|congruence].
      apply existsb_exists. exists x. split; [exact H|].
      unfold has_id. apply Nat.eqb_eq. exact Heq.
    + left. symmetry. exact H.
Qed.

Lemma store_In (d : A) (l : list A) : In d (store idof d l).
Proof. exact (findById_In idof _ _ _ (findById_store idof d l)). Qed.

Lemma store_keeps (d x : A) (l : list A) :
  In x l -> idof x <> idof d -> In x (store idof d l).
Proof.
  intros Hin Hne. unfold store. destruct (existsb _ l).
  - apply in_map_iff. exists x. split; [|exact Hin].
    unfold has_id. apply Nat.eqb_neq in Hne. rewrite Hne. reflexivity.
  - apply in_or_app. left. exact Hin.
Qed.

Lemma findById_store_other (d : A) (id : nat) (l : list A) :
  id <> idof d -> findById idof id (store idof d l) = findById idof id l.
Proof.
  intros Hne. unfold store, findById, has_id. destruct (existsb _ l).
  - induction l as [|x l IH]; simpl; [reflexivity|].
    destruct (idof x =? idof d) eqn:E.
    + apply Nat.eqb_eq in E.
      destruct (idof d =? id) eqn:E1; [apply Nat.eqb_eq in E1; congruence|].
      destruct (idof x =? id) eqn:E2; [apply Nat.eqb_eq in E2; congruence|].
      exact IH.
    + destruct (idof x =? id); [reflexivity|exact IH].
  - induction l as [|x l IH]; simpl.
    + destruct (idof d =? id) eqn:E1; [apply Nat.eqb_eq in E1; congruence|].
      reflexivity.
    + destruct (idof x =? id); [reflexivity|exact IH].
Qed.

Lemma unique_ok_other (key : A -> option string) (d x : A) (l : list A) :
  unique_ok idof key d l = true -> In x l -> idof x <> idof d ->
  str_eq (key x) (key d) = false.
Proof.
  unfold unique_ok. intros H Hin Hne.
  apply negb_true_iff in H.
  destruct (str_eq (key x) (key d)) eqn:E; [|reflexivity].
  assert (existsb (fun x => negb (has_id idof (idof d) x)
                            && str_eq (key x) (key d)) l = true);
    [|congruence].
  apply existsb_exists. exists x. split; [exact Hin|].
  unfold has_id. apply Nat.eqb_neq in Hne. rewrite Hne, E. reflexivity.
Qed.

(** After a write that the unique index let through, the key of the
    written document finds that document. *)
Lemma find_key_store (key : A -> option string) (d : A) (l : list A) (s : string) :
  unique_ok idof key d l = true -> key d = Some s ->
  find (fun x => str_eq (key x) (Some s)) (store idof d l) = Some d.
Proof.
  intros Hu Hk.
  destruct (find _ (store idof d l)) as [x|] eqn:Hf.
  - apply find_some in Hf as [Hin Hx].
    apply In_store in Hin as [->|[Hin Hne]]; [reflexivity|].
    rewrite <- Hk, (unique_ok_other key d x l Hu Hin Hne) in Hx. discriminate.
  - pose proof (find_none _ _ Hf d (store_In d l)) as Hn. simpl in Hn.
    rewrite Hk, str_eq_refl in Hn. discriminate.
Qed.
End StoreFacts.

Lemma Sample_save_unique (d : Sample.t) (w w' : World) :
  Sample_save d w = Some w' ->
  unique_ok Sample._id Sample.slug d (samples w) = true.
Proof.
  unfold Sample_save. destruct (Sample.validate d); simpl; [|discriminate].
  destruct (unique_ok _ _ _ _); [reflexivity|discriminate].
Qed.

Lemma Blog_save_unique (cats : list string) (d : Blog.t) (w w' : World) :
  Blog_save cats d w = Some w' ->
  unique_ok Blog._id Blog.slug d (blogs w) = true
  /\ unique_ok Blog._id Blog.title d (blogs w) = true.
Proof.
  unfold Blog_save. destruct (Blog.validate cats d); simpl; [|discriminate].
  destruct (unique_ok _ Blog.slug _ _); simpl; [|discriminate].
  destruct (unique_ok _ Blog.title _ _); [split; reflexivity|discriminate].
Qed.

Lemma required_some (o : option string) :
  required o = true -> exists s, o = Some s.
Proof. destruct o; [eauto|discriminate]. Qed.

(** Where documents that share a slug share their identifier, the slug
    of a document finds the document that its identifier finds. *)
Lemma find_slug_distinct {A} (idof : A -> nat) (slugof : A -> option string)
    (l : list A) (id : nat) (d : A) (s : string) :
  (forall a b, In a l -> In b l ->
               str_eq (slugof a) (slugof b) = true -> idof a = idof b) ->
  findById idof id l = Some d -> slugof d = Some s ->
  find (fun x => str_eq (slugof x) (Some s)) l = Some d.
Proof.
  unfold findById. induction l as [|x l IH]; simpl; [discriminate|].
  intros Hd Hf Hs. unfold has_id in Hf at 1.
  destruct (idof x =? id) eqn:E.
  - injection Hf as ->. rewrite Hs, str_eq_refl. reflexivity.
  - destruct (str_eq (slugof x) (Some s)) eqn:Ex.
    + exfalso. apply Nat.eqb_neq in E. apply E.
      pose proof (find_some _ _ Hf) as [Hin Hid].
      unfold has_id in Hid. apply Nat.eqb_eq in Hid. rewrite <- Hid.
      apply Hd; [left; reflexivity|right; exact Hin|].
      rewrite Hs. exact Ex.
    + apply IH; [|exact Hf|exact Hs].
      intros a b' Ha Hb. apply Hd; right; assumption.
Qed.

Lemma find_slug_of_id {A} (idof : A -> nat) (slugof : A -> option string)
    (l : list A) (id : nat) (d : A) (s : string) :
  distinct_slugs idof slugof l = true ->
  findById idof id l = Some d -> slugof d = Some s ->
  find (fun x => str_eq (slugof x) (Some s)) l = Some d.
Proof.
  intros Hd. apply find_slug_distinct. intros a b' Ha Hb Hs.
  unfold distinct_slugs in Hd.
  rewrite forallb_forall in Hd. specialize (Hd a Ha).
  rewrite forallb_forall in Hd. specialize (Hd b' Hb).
  rewrite Hs in Hd. apply Nat.eqb_eq. exact Hd.
Qed.

(** X4. Archiving is final for the public routes. Once [archiveSample]
    has answered 200 the sample is stored with the status Archived and
    the slug it had, and a toggle of it is refused with 400 and changes
    nothing. Its slug answers 403 to everyone who is not an admin; for a
    sample that was archived before, which is saved without a write and
    so without a look at the unique index, this is so where no two
    stored samples share a slug. The same holds of [archiveBlog], whose
    slug then answers 403 to every caller. *)
Theorem archived_stays_hidden (cats : list string) (id : nat) (w : World) :
  (forall r w',
      archiveSample id w = (r, w') -> success r = true ->
      exists sample slug,
        findById Sample._id id (samples w) = Some sample
        /\ Sample.slug sample = Some slug
        /\ option_map Sample.status (findById Sample._id id (samples w'))
           = Some ESampleStatus.ARCHIVED
        /\ option_map Sample.slug (findById Sample._id id (samples w'))
           = Some (Some slug)
        /\ toggleSampleStatus id w'
           = (fail 400 "Cannot toggle status of archived sample", w')
        /\ ((Sample.status sample = ESampleStatus.ARCHIVED ->
               distinct_slugs Sample._id Sample.slug (samples w) = true) ->
            forall user, isAdmin user = false ->
              getSampleBySlug slug user w'
              = (fail 403 "Not authorized to view this sample", w')))
  /\ (forall r w',
      archiveBlog cats id w = (r, w') -> success r = true ->
      exists blog slug,
        findById Blog._id id (blogs w) = Some blog
        /\ Blog.slug blog = Some slug
        /\ option_map Blog.status (findById Blog._id id (blogs w'))
           = Some EBlogStatus.ARCHIVED
        /\ option_map Blog.slug (findById Blog._id id (blogs w'))
           = Some (Some slug)
        /\ toggleBlogStatus id w'
           = (fail 400 "Cannot toggle status of archived blog", w')
        /\ ((Blog.status blog = EBlogStatus.ARCHIVED ->
               distinct_slugs Blog._id Blog.slug (blogs w) = true) ->
            getBlogBySlug cats slug w'
            = (fail 403 "Not authorized to view this blog", w'))).
Proof.
  split.
  - intros r w'. unfold archiveSample.
    destruct (findById Sample._id id (samples w)) as [sample|] eqn:Hf;
      [|intros [= <- <-]; discriminate].
    assert (Hid : Sample._id sample = id) by exact (findById_id _ _ _ _ Hf).
    unfold Sample_saveLoaded.
    destruct (Sample.validate _ && Sample_eqb _ _) eqn:Hkept.
    + intros [= <- <-] _.
      apply andb_prop in Hkept as [Hv Hkept]. apply Sample_eqb_true in Hkept.
      assert (Hslug : exists s, Sample.slug sample = Some s).
      { unfold Sample.validate in Hv. simpl in Hv.
        repeat (apply andb_prop in Hv as [Hv ?]).
        apply required_some. assumption. }
      destruct Hslug as [slug Hslug].
      assert (Hst : Sample.status sample = ESampleStatus.ARCHIVED)
        by (rewrite Hkept; reflexivity).
      exists sample, slug. rewrite Hf. simpl option_map. rewrite Hst, Hslug.
      repeat apply conj; try reflexivity.
      * unfold toggleSampleStatus. rewrite Hf, Hst. reflexivity.
      * intros Hd user Hu'. unfold getSampleBySlug.
        rewrite (find_slug_of_id Sample._id Sample.slug _ id sample slug
                   (Hd eq_refl) Hf Hslug).
        rewrite Hst. simpl. rewrite Hu'. reflexivity.
    + destruct (Sample_save _ w) as [w1|] eqn:Hs;
        [|intros [= <- <-]; discriminate].
      intros [= <- <-] _.
      pose proof (Sample_save_unique _ _ _ Hs) as Hu.
      apply Sample_save_some in Hs as [-> Hv].
      assert (Hslug : exists s, Sample.slug sample = Some s).
      { unfold Sample.validate in Hv. simpl in Hv.
        repeat (apply andb_prop in Hv as [Hv ?]).
        apply required_some. assumption. }
      destruct Hslug as [slug Hslug].
      assert (Hnew : findById Sample._id id
                       (store Sample._id
                          (Sample.with_status ESampleStatus.ARCHIVED sample)
                          (samples w))
                     = Some (Sample.with_status ESampleStatus.ARCHIVED sample))
        by (apply findById_store_at; exact Hid).
      exists sample, slug. simpl samples. rewrite Hnew. simpl option_map.
      repeat apply conj; try reflexivity.
      * exact Hslug.
      * rewrite Hslug. reflexivity.
      * unfold toggleSampleStatus. simpl samples. rewrite Hnew. reflexivity.
      * intros _ user Hu'. unfold getSampleBySlug. simpl samples.
        rewrite (find_key_store Sample._id Sample.slug _ _ slug Hu Hslug).
        simpl. rewrite Hu'. reflexivity.
  - intros r w'. unfold archiveBlog.
    destruct (findById Blog._id id (blogs w)) as [blog|] eqn:Hf;
      [|intros [= <- <-]; discriminate].
    assert (Hid : Blog._id blog = id) by exact (findById_id _ _ _ _ Hf).
    unfold Blog_saveLoaded.
    destruct (Blog.validate _ _ && Blog_eqb _ _) eqn:Hkept.
    + intros [= <- <-] _.
      apply andb_prop in Hkept as [Hv Hkept]. apply Blog_eqb_true in Hkept.
      assert (Hslug : exists s, Blog.slug blog = Some s).
      { unfold Blog.validate in Hv. simpl in Hv.
        repeat (apply andb_prop in Hv as [Hv ?]).
        apply required_some. assumption. }
      destruct Hslug as [slug Hslug].
      assert (Hst : Blog.status blog = EBlogStatus.ARCHIVED)
        by (rewrite Hkept; reflexivity).
      exists blog, slug. rewrite Hf. simpl option_map. rewrite Hst, Hslug.
      repeat apply conj; try reflexivity.
      * unfold toggleBlogStatus. rewrite Hf, Hst. reflexivity.
      * intros Hd. unfold getBlogBySlug.
        rewrite (find_slug_of_id Blog._id Blog.slug _ id blog slug
                   (Hd eq_refl) Hf Hslug).
        rewrite Hst. reflexivity.
    + destruct (Blog_save cats _ w) as [w1|] eqn:Hs;
        [|intros [= <- <-]; discriminate].
      intros [= <- <-] _.
      pose proof (Blog_save_unique _ _ _ _ Hs) as [Hu _].
      apply Blog_save_some in Hs as [-> Hv].
      assert (Hslug : exists s, Blog.slug blog = Some s).
      { unfold Blog.validate in Hv. simpl in Hv.
        repeat (apply andb_prop in Hv as [Hv ?]).
        apply required_some. assumption. }
      destruct Hslug as [slug Hslug].
      assert (Hnew : findById Blog._id id
                       (store Blog._id
                          (Blog.with_status EBlogStatus.ARCHIVED blog) (blogs w))
                     = Some (Blog.with_status EBlogStatus.ARCHIVED blog))
        by (apply findById_store_at; exact Hid).
      exists blog, slug. simpl blogs. rewrite Hnew. simpl option_map.
      repeat apply conj; try reflexivity.
      * exact Hslug.
      * rewrite Hslug. reflexivity.
      * unfold toggleBlogStatus. simpl blogs. rewrite Hnew. reflexivity.
      * intros _. unfold getBlogBySlug. simpl blogs.
        rewrite (find_key_store Blog._id Blog.slug _ _ slug Hu Hslug).
        reflexivity.
Qed.

Lemma archived_stays_hidden_witness :
  toggleSampleStatus 3 (snd (archiveSample 3 Demo.world))
  = (fail 400 "Cannot toggle status of archived sample",
     snd (archiveSample 3 Demo.world))
  /\ getSampleBySlug "graph-theory" (Some Demo.visitor)
       (snd (archiveSample 3 Demo.world))
     = (fail 403 "Not authorized to view this sample",
        snd (archiveSample 3 Demo.world))
  /\ getBlogBySlug Demo.categories "release-notes"
       (snd (archiveBlog Demo.categories 3 Demo.world))
     = (fail 403 "Not authorized to view this blog",
        snd (archiveBlog Demo.categories 3 Demo.world)).
Proof.
  destruct (archived_stays_hidden Demo.categories 3 Demo.world)
    as [Hs Hb].
  destruct (Hs _ _ (surjective_pairing _) eq_refl)
    as (sample & slug & Hf & Hslug & _ & _ & Ht & Hv).
  destruct (Hb _ _ (surjective_pairing _) eq_refl)
    as (blog & slug' & Hf' & Hslug' & _ & _ & _ & Hv').
  injection Hf as <-. injection Hslug as <-.
  injection Hf' as <-. injection Hslug' as <-.
  repeat apply conj.
  - exact Ht.
  - exact (Hv (fun _ => eq_refl) (Some Demo.visitor) eq_refl).
  - exact (Hv' (fun _ => eq_refl)).
Defined.

(** ** Deleting *)

Lemma deleteBlob_outcome (cloud : Cloudinary) url kind (w w1 : World) done :
  deleteBlob cloud url kind w = (done, w1) ->
  (done = true /\ w1 = w)
  \/ exists pid, w1 = log (DeleteFile pid kind done) w.
Proof.
  unfold deleteBlob. destruct url as [u|]; [|intros [= <- <-]; left; split; reflexivity].
  destruct (truthy u); intros [= <- <-].
  - right. eexists. reflexivity.
  - left. split; reflexivity.
Qed.

Ltac same_but_tac := unfold same_but; simpl; repeat split; auto.

Lemma removes_one_intro {A} (idof : A -> nat) (coll : World -> list A)
    (m : Model) (id : nat) (w w' : World) (blobs : list Event) :
  coll w' = remove idof id (coll w) ->
  events_since w w' = blobs ++ [DbDelete m id] ->
  forallb blob_deleted blobs = true ->
  same_but m w w' ->
  removes_one idof coll m id w w'.
Proof.
  intros Hc He Hb Hs. unfold removes_one. rewrite Hc.
  split; [apply findById_remove|].
  split; [intros id' Hne; apply findById_remove_other; exact Hne|].
  split; [exists blobs; split; assumption|exact Hs].
Qed.

(** X5. A delete that answers 200 took exactly one document out of the
    store: the identifier no longer finds anything, every other
    identifier finds what it found before, the other collections are
    untouched, and the one write to the document store comes after the
    blob store has deleted every file it was asked to delete. Asking for
    the same delete again is answered with 404. *)
Theorem delete_removes_one (cloud : Cloudinary) (id : nat) (w : World) :
  (forall r w',
      deleteSample cloud (Some id) w = (r, w') -> success r = true ->
      removes_one Sample._id samples MSample id w w'
      /\ deleteSample cloud (Some id) w' = (fail 404 "Sample not found", w'))
  /\ (forall r w',
      deleteBlog cloud (Some id) w = (r, w') -> success r = true ->
      removes_one Blog._id blogs MBlog id w w'
      /\ deleteBlog cloud (Some id) w' = (fail 404 "Blog not found", w'))
  /\ (forall r w',
      deleteService cloud (Some id) w = (r, w') -> success r = true ->
      removes_one Service._id services MService id w w'
      /\ deleteService cloud (Some id) w' = (fail 404 "Service not found", w'))
  /\ (forall r w',
      deleteTestimonial cloud (Some id) w = (r, w') -> success r = true ->
      removes_one Testimonial._id testimonials MTestimonial id w w'
      /\ deleteTestimonial cloud (Some id) w' = (fail 404 "Testimonial not found", w')).
Proof.
  repeat apply conj.
  - intros r w'. unfold deleteSample. cbv beta iota.
    destruct (findById Sample._id id (samples w)) as [sample|] eqn:Hf;
      [|intros [= <- <-]; discriminate].
    rewrite (findById_id _ _ _ _ Hf).
    destruct (deleteBlob cloud _ _ w) as [[] w1] eqn:Hd;
      intros [= <- <-]; [intros _|discriminate].
    assert (H : removes_one Sample._id samples MSample id w
                  (log (DbDelete MSample id)
                       (set_samples (remove Sample._id id (samples w1)) w1))).
    { apply deleteBlob_outcome in Hd as [[_ ->]|[pid ->]].
      - apply (removes_one_intro _ _ _ _ _ _ []);
          [reflexivity|events|reflexivity|same_but_tac].
      - apply (removes_one_intro _ _ _ _ _ _ [DeleteFile pid (Some "raw") true]);
          [reflexivity|events|reflexivity|same_but_tac]. }
    split; [exact H|].
    destruct H as [Hnone _]. simpl samples in Hnone. simpl samples.
    rewrite Hnone. reflexivity.
  - intros r w'. unfold deleteBlog. cbv beta iota.
    destruct (findById Blog._id id (blogs w)) as [blog|] eqn:Hf;
      [|intros [= <- <-]; discriminate].
    rewrite (findById_id _ _ _ _ Hf).
    destruct (deleteBlob cloud _ _ w) as [[] w1] eqn:Hd;
      [|intros [= <- <-]; discriminate].
    destruct (deleteBlob cloud _ _ w1) as [[] w2] eqn:Hd2;
      intros [= <- <-]; [intros _|discriminate].
    assert (H : removes_one Blog._id blogs MBlog id w
                  (log (DbDelete MBlog id)
                       (set_blogs (remove Blog._id id (blogs w2)) w2))).
    { apply deleteBlob_outcome in Hd as [[_ ->]|[pid ->]];
        apply deleteBlob_outcome in Hd2 as [[_ ->]|[pid2 ->]].
      - apply (removes_one_intro _ _ _ _ _ _ []);
          [reflexivity|events|reflexivity|same_but_tac].
      - apply (removes_one_intro _ _ _ _ _ _ [DeleteFile pid2 None true]);
          [reflexivity|events|reflexivity|same_but_tac].
      - apply (removes_one_intro _ _ _ _ _ _ [DeleteFile pid (Some "raw") true]);
          [reflexivity|events|reflexivity|same_but_tac].
      - apply (removes_one_intro _ _ _ _ _ _
                 [DeleteFile pid (Some "raw") true; DeleteFile pid2 None true]);
          [reflexivity|events|reflexivity|same_but_tac]. }
    split; [exact H|].
    destruct H as [Hnone _]. simpl blogs in Hnone. simpl blogs.
    rewrite Hnone. reflexivity.
  - intros r w'. unfold deleteService. cbv beta iota.
    destruct (findById Service._id id (services w)) as [service|] eqn:Hf;
      [|intros [= <- <-]; discriminate].
    rewrite (findById_id _ _ _ _ Hf).
    destruct (deleteBlob cloud _ _ w) as [[] w1] eqn:Hd;
      intros [= <- <-]; [intros _|discriminate].
    assert (H : removes_one Service._id services MService id w
                  (log (DbDelete MService id)
                       (set_services (remove Service._id id (services w1)) w1))).
    { apply deleteBlob_outcome in Hd as [[_ ->]|[pid ->]].
      - apply (removes_one_intro _ _ _ _ _ _ []);
          [reflexivity|events|reflexivity|same_but_tac].
      - apply (removes_one_intro _ _ _ _ _ _ [DeleteFile pid (Some "raw") true]);
          [reflexivity|events|reflexivity|same_but_tac]. }
    split; [exact H|].
    destruct H as [Hnone _]. simpl services in Hnone. simpl services.
    rewrite Hnone. reflexivity.
  - intros r w'. unfold deleteTestimonial. cbv beta iota.
    destruct (findById Testimonial._id id (testimonials w)) as [t|] eqn:Hf;
      [|intros [= <- <-]; discriminate].
    assert (H : forall blobs w1,
               trace w1 = trace w ++ blobs -> forallb blob_deleted blobs = true ->
               testimonials w1 = testimonials w -> same_but MTestimonial w w1 ->
               let w' := log (DbDelete MTestimonial id)
                           (set_testimonials
                              (remove Testimonial._id id (testimonials w1)) w1) in
               removes_one Testimonial._id testimonials MTestimonial id w w'
               /\ deleteTestimonial cloud (Some id) w'
                  = (fail 404 "Testimonial not found", w')).
    { intros blobs w1 Ht Hb Hc Hs. cbv zeta.
      assert (Hr : removes_one Testimonial._id testimonials MTestimonial id w
                     (log (DbDelete MTestimonial id)
                        (set_testimonials
                           (remove Testimonial._id id (testimonials w1)) w1))).
      { apply (removes_one_intro _ _ _ _ _ _ blobs).
        - simpl. rewrite Hc. reflexivity.
        - apply events_since_app. simpl. rewrite Ht, <- app_assoc. reflexivity.
        - exact Hb.
        - destruct Hs as (?&?&?&?&?&?&?). same_but_tac. }
      split; [exact Hr|]. destruct Hr as [Hn _].
      unfold deleteTestimonial at 1. cbv beta iota. rewrite Hn. reflexivity. }
    destruct (truthy (Testimonial.imageUrl t)).
    + destruct (truthy (getPublicIdFromUrl_export cloud _)).
      * destruct (deleteFile cloud _ None) eqn:Hdone;
          intros [= <- <-]; [intros _|discriminate].
        apply (H [DeleteFile (getPublicIdFromUrl_export cloud
                                (interpolate (Testimonial.imageUrl t)))
                             None true]
                 (log (DeleteFile (getPublicIdFromUrl_export cloud
                                     (interpolate (Testimonial.imageUrl t)))
                                  None true) w));
          [reflexivity|reflexivity|reflexivity|same_but_tac].
      * intros [= <- <-] _.
        apply (H [] w); [symmetry; apply app_nil_r|reflexivity|reflexivity
                         |same_but_tac].
    + intros [= <- <-] _.
      apply (H [] w); [symmetry; apply app_nil_r|reflexivity|reflexivity
                       |same_but_tac].
Qed.

Lemma delete_removes_one_witness :
  findById Sample._id 1 (samples (snd (deleteSample Demo.cloud (Some 1) Demo.world)))
  = None
  /\ findById Blog._id 3 (blogs (snd (deleteBlog Demo.cloud (Some 3) Demo.world)))
     = None
  /\ findById Service._id 2
       (services (snd (deleteService Demo.cloud (Some 2) Demo.world))) = None
  /\ findById Testimonial._id 1
       (testimonials (snd (deleteTestimonial Demo.cloud (Some 1) Demo.world))) = None.
Proof.
  destruct (delete_removes_one Demo.cloud 1 Demo.world) as (Hs & _ & _ & Ht).
  destruct (delete_removes_one Demo.cloud 3 Demo.world) as (_ & Hb & _).
  destruct (delete_removes_one Demo.cloud 2 Demo.world) as (_ & _ & Hv & _).
  repeat apply conj.
  - exact (proj1 (proj1 (Hs _ _ (surjective_pairing _) eq_refl))).
  - exact (proj1 (proj1 (Hb _ _ (surjective_pairing _) eq_refl))).
  - exact (proj1 (proj1 (Hv _ _ (surjective_pairing _) eq_refl))).
  - exact (proj1 (proj1 (Ht _ _ (surjective_pairing _) eq_refl))).
Defined.

Lemma deleteBlob_failed (cloud : Cloudinary) url kind (w w1 : World) :
  deleteBlob cloud url kind w = (false, w1) ->
  exists pid, w1 = log (DeleteFile pid kind false) w.
Proof.
  intros H. apply deleteBlob_outcome in H as [[H _]|H];
    [discriminate|exact H].
Qed.

Ltac same_store_tac := unfold same_store; simpl; repeat split; auto.

Ltac no_call :=
  split; [same_store_tac|];
  split; [intros e He; no_event He|];
  split; [intros _; reflexivity|];
  intros Hn; try discriminate Hn; split; reflexivity.

(** X6. A delete that does not answer 200 leaves every document where it
    was: whatever happened between the request and the answer was a
    deletion in the blob store, and no document was deleted or written.
    The 404 of an unknown identifier comes without any call, and so does
    the 500 of an identifier that is no ObjectId. *)
Theorem failed_delete_keeps_documents (cloud : Cloudinary) (id : option nat)
    (w : World) :
  let kept (r : Response unit) (w' : World) :=
    same_store w w'
    /\ (forall e, In e (events_since w w') ->
                  exists pid kind done, e = DeleteFile pid kind done)
    /\ (code r = 404 -> w' = w)
    /\ (id = None -> code r = 500 /\ w' = w) in
  (forall r w', deleteSample cloud id w = (r, w') -> success r = false ->
                kept r w')
  /\ (forall r w', deleteBlog cloud id w = (r, w') -> success r = false ->
                   kept r w')
  /\ (forall r w', deleteService cloud id w = (r, w') -> success r = false ->
                   kept r w')
  /\ (forall r w', deleteTestimonial cloud id w = (r, w') -> success r = false ->
                   kept r w').
Proof.
  cbv zeta.
  assert (Hblobs : forall (r : Response unit) msg w' (blobs : list Event),
             r = fail 500 msg -> same_store w w' ->
             events_since w w' = blobs ->
             Forall (fun e => exists pid kind done,
                                e = DeleteFile pid kind done) blobs ->
             id <> None ->
             same_store w w'
             /\ (forall e, In e (events_since w w') ->
                           exists pid kind done, e = DeleteFile pid kind done)
             /\ (code r = 404 -> w' = w)
             /\ (id = None -> code r = 500 /\ w' = w)).
  { intros r msg w' blobs -> Hsame -> Hall Hid. split; [exact Hsame|].
    split; [intros e He; exact (proj1 (Forall_forall _ _) Hall e He)|].
    split; [discriminate|]. intros Hn. contradiction. }
  repeat apply conj.
  - intros r w'. unfold deleteSample. destruct id as [id|].
    2:{ intros [= <- <-] _. no_call. }
    destruct (findById Sample._id id (samples w)) as [sample|] eqn:Hf.
    2:{ intros [= <- <-] _. no_call. }
    destruct (deleteBlob cloud _ _ w) as [[] w1] eqn:Hd;
      intros [= <- <-]; [discriminate|intros _].
    apply deleteBlob_failed in Hd as [pid ->].
    apply (Hblobs _ _ _ [DeleteFile pid (Some "raw") false] eq_refl);
      [same_store_tac|events| |discriminate].
    repeat constructor. eauto.
  - intros r w'. unfold deleteBlog. destruct id as [id|].
    2:{ intros [= <- <-] _. no_call. }
    destruct (findById Blog._id id (blogs w)) as [blog|] eqn:Hf.
    2:{ intros [= <- <-] _. no_call. }
    destruct (deleteBlob cloud _ _ w) as [[] w1] eqn:Hd.
    + destruct (deleteBlob cloud _ _ w1) as [[] w2] eqn:Hd2;
        intros [= <- <-]; [discriminate|intros _].
      apply deleteBlob_failed in Hd2 as [pid2 ->].
      apply deleteBlob_outcome in Hd as [[_ ->]|[pid ->]].
      * apply (Hblobs _ _ _ [DeleteFile pid2 None false] eq_refl);
          [same_store_tac|events| |discriminate].
        repeat constructor. eauto.
      * apply (Hblobs _ _ _ [DeleteFile pid (Some "raw") true;
                             DeleteFile pid2 None false] eq_refl);
          [same_store_tac|events| |discriminate].
        repeat constructor; eauto.
    + intros [= <- <-] _.
      apply deleteBlob_failed in Hd as [pid ->].
      apply (Hblobs _ _ _ [DeleteFile pid (Some "raw") false] eq_refl);
        [same_store_tac|events| |discriminate].
      repeat constructor. eauto.
  - intros r w'. unfold deleteService. destruct id as [id|].
    2:{ intros [= <- <-] _. no_call. }
    destruct (findById Service._id id (services w)) as [service|] eqn:Hf.
    2:{ intros [= <- <-] _. no_call. }
    destruct (deleteBlob cloud _ _ w) as [[] w1] eqn:Hd;
      intros [= <- <-]; [discriminate|intros _].
    apply deleteBlob_failed in Hd as [pid ->].
    apply (Hblobs _ _ _ [DeleteFile pid (Some "raw") false] eq_refl);
      [same_store_tac|events| |discriminate].
    repeat constructor. eauto.
  - intros r w'. unfold deleteTestimonial. destruct id as [id|].
    2:{ intros [= <- <-] _. no_call. }
    destruct (findById Testimonial._id id (testimonials w)) as [t|] eqn:Hf.
    2:{ intros [= <- <-] _. no_call. }
    destruct (truthy (Testimonial.imageUrl t)); [|intros [= <- <-]; discriminate].
    destruct (truthy (getPublicIdFromUrl_export cloud _));
      [|intros [= <- <-]; discriminate].
    destruct (deleteFile cloud _ None) eqn:Hdone;
      intros [= <- <-]; [discriminate|intros _].
    eapply (Hblobs _ _ _ [DeleteFile _ None false] eq_refl);
      [same_store_tac|events| |discriminate].
    repeat constructor. eauto.
Qed.

Lemma failed_delete_keeps_documents_witness :
  same_store Tour.gallery
    (snd (deleteTestimonial Tour.cloud_images_locked (Some 3) Tour.gallery))
  /\ code (fst (deleteTestimonial Tour.cloud_images_locked (Some 3)
                                  Tour.gallery)) = 500
  /\ deleteSample Demo.cloud None Demo.world
     = (fail 500 "Error deleting sample", Demo.world).
Proof.
  destruct (failed_delete_keeps_documents Tour.cloud_images_locked (Some 3)
              Tour.gallery) as (_ & _ & _ & Ht).
  destruct (Ht _ _ (surjective_pairing _) eq_refl) as [Hsame _].
  split; [exact Hsame|]. split; [reflexivity|].
  destruct (failed_delete_keeps_documents Demo.cloud None Demo.world)
    as (Hs & _).
  destruct (Hs _ _ (surjective_pairing _) eq_refl) as (_ & _ & _ & Hn).
  destruct (Hn eq_refl) as [_ Hw].
  rewrite (surjective_pairing (deleteSample Demo.cloud None Demo.world)).
  rewrite Hw. reflexivity.
Defined.

(** X7. Deleting a blog deletes its content blob before its thumbnail.
    When the blob store deletes the first and rejects the second, the
    request is answered with 500 and the blog stays in the store as it
    was, its content locator now naming a blob that is gone. *)
Theorem deleteBlog_half_done (cloud : Cloudinary) (id : nat) (w : World)
    (blog : Blog.t) (content thumbnail : string) :
  findById Blog._id id (blogs w) = Some blog ->
  Blog.contentUrl blog = Some content -> truthy content = true ->
  Blog.thumbnailUrl blog = Some thumbnail -> truthy thumbnail = true ->
  deleteFile cloud (getPublicIdFromUrl cloud content) (Some "raw") = true ->
  deleteFile cloud (getPublicIdFromUrl cloud thumbnail) None = false ->
  exists w',
    deleteBlog cloud (Some id) w = (fail 500 "Error deleting blog", w')
    /\ blogs w' = blogs w
    /\ findById Blog._id id (blogs w') = Some blog
    /\ events_since w w'
       = [DeleteFile (getPublicIdFromUrl cloud content) (Some "raw") true;
          DeleteFile (getPublicIdFromUrl cloud thumbnail) None false].
Proof.
  intros Hf Hc Htc Ht Htt Hd1 Hd2.
  unfold deleteBlog, deleteBlob. rewrite Hf, Hc, Ht, Htc, Htt, Hd1, Hd2.
  eexists. split; [reflexivity|]. split; [reflexivity|].
  split; [exact Hf|events].
Qed.

Lemma deleteBlog_half_done_witness :
  exists w',
    deleteBlog Tour.cloud_images_locked (Some 4) Tour.gallery
    = (fail 500 "Error deleting blog", w')
    /\ findById Blog._id 4 (blogs w') = Some Tour.illustrated
    /\ events_since Tour.gallery w'
       = [DeleteFile "https://res.cloudinary.com/raw/field-notes.md"
                     (Some "raw") true;
          DeleteFile "https://res.cloudinary.com/image/field-notes.png"
                     None false].
Proof.
  destruct (deleteBlog_half_done Tour.cloud_images_locked 4 Tour.gallery
              Tour.illustrated _ _ eq_refl eq_refl eq_refl eq_refl eq_refl
              eq_refl eq_refl) as (w' & H1 & _ & H2 & H3).
  exists w'. repeat split; assumption.
Defined.

(** X8. Deleting an image asset never waits for the blob store: whenever
    the asset is stored the answer is 200 and the record is gone, also
    when the blob store rejected the deletion of the image, and the other
    records are left as they were. An identifier that finds no asset is
    answered with 404 and an identifier that is no ObjectId with 500,
    both without any call. *)
Theorem deleteImageAsset_always_removes (cloud : Cloudinary) (w : World) :
  (forall id asset,
      findById ImageAsset._id id (imageAssets w) = Some asset ->
      let r := fst (deleteImageAssetById cloud (Some id) w) in
      let w' := snd (deleteImageAssetById cloud (Some id) w) in
      code r = 200
      /\ findById ImageAsset._id id (imageAssets w') = None
      /\ (forall id', id' <> id ->
            findById ImageAsset._id id' (imageAssets w')
            = findById ImageAsset._id id' (imageAssets w))
      /\ same_but MImageAsset w w'
      /\ (events_since w w' = [DbDelete MImageAsset id]
          \/ exists publicId,
               ImageAsset.publicId asset = Some publicId
               /\ events_since w w'
                  = [DeleteImageAsset publicId (deleteImageAsset cloud publicId);
                     DbDelete MImageAsset id]))
  /\ (forall id,
      findById ImageAsset._id id (imageAssets w) = None ->
      deleteImageAssetById cloud (Some id) w
      = (fail 404 "Image asset not found", w))
  /\ deleteImageAssetById cloud None w
     = (fail 500 "Error deleting image asset", w).
Proof.
  split; [|split; [|reflexivity]].
  - intros id asset Hf. cbv zeta. unfold deleteImageAssetById. rewrite Hf.
    simpl fst. simpl snd.
    destruct (ImageAsset.publicId asset) as [old|] eqn:Hp;
      [destruct (truthy old)|]; simpl imageAssets.
    + split; [reflexivity|]. split; [apply findById_remove|].
      split; [intros id' Hne; apply findById_remove_other; exact Hne|].
      split; [same_but_tac|]. right. exists old. split; [reflexivity|events].
    + split; [reflexivity|]. split; [apply findById_remove|].
      split; [intros id' Hne; apply findById_remove_other; exact Hne|].
      split; [same_but_tac|]. left. events.
    + split; [reflexivity|]. split; [apply findById_remove|].
      split; [intros id' Hne; apply findById_remove_other; exact Hne|].
      split; [same_but_tac|]. left. events.
  - intros id Hf. unfold deleteImageAssetById. rewrite Hf. reflexivity.
Qed.

(** ** Reading by slug *)

Lemma find_slug_some {A} (slugof : A -> option string) (l : list A) (d : A)
    (slug : string) :
  find (fun x => str_eq (slugof x) (Some slug)) l = Some d ->
  In d l /\ slugof d = Some slug.
Proof.
  intros H. apply find_some in H as [Hin Hs]. split; [exact Hin|].
  apply str_eq_true. exact Hs.
Qed.

(** X9. What a slug gives away. A sample is returned to a caller who is
    not an admin only when it is Published; a blog is returned only when
    it is Published, to whoever asks; a service is returned only when it
    is Live, and one that is not Live is answered exactly as a slug that
    no service has. The returned document is a stored one with the slug
    that was asked for. *)
Theorem slug_routes_respect_visibility (cats : list string) (slug : string)
    (w : World) :
  (forall user r w' sample,
      getSampleBySlug slug user w = (r, w') -> data r = Some sample ->
      w' = w /\ In sample (samples w) /\ Sample.slug sample = Some slug
      /\ (Sample.status sample = ESampleStatus.PUBLISHED \/ isAdmin user = true))
  /\ (forall r w' blog,
      getBlogBySlug cats slug w = (r, w') -> data r = Some blog ->
      Blog.slug blog = Some slug /\ Blog.status blog = EBlogStatus.PUBLISHED
      /\ exists stored, In stored (blogs w) /\ blog = Blog_viewed stored)
  /\ (forall r w' service,
      getServiceBySlug slug w = (r, w') -> data r = Some service ->
      w' = w /\ In service (services w) /\ Service.slug service = Some slug
      /\ Service.status service = EServiceStatus.LIVE)
  /\ (forall r w',
      getServiceBySlug slug w = (r, w') -> success r = false ->
      r = fail 404 "Service not found" /\ w' = w).
Proof.
  repeat apply conj.
  - intros user r w' sample. unfold getSampleBySlug.
    destruct (find _ (samples w)) as [d|] eqn:Hf;
      [|intros [= <- <-]; discriminate].
    apply find_slug_some in Hf as [Hin Hs].
    destruct (String.eqb_spec (Sample.status d) ESampleStatus.PUBLISHED) as [e|n];
      simpl.
    + intros [= <- <-] [= <-]. repeat split; auto.
    + destruct (isAdmin user) eqn:Ha; simpl; intros [= <- <-];
        [|discriminate].
      intros [= <-]. repeat split; auto.
  - intros r w' blog. unfold getBlogBySlug.
    destruct (find _ (blogs w)) as [d|] eqn:Hf;
      [|intros [= <- <-]; discriminate].
    apply find_slug_some in Hf as [Hin Hs].
    destruct (String.eqb_spec (Blog.status d) EBlogStatus.PUBLISHED) as [e|n];
      simpl; [|intros [= <- <-]; discriminate].
    destruct (Blog_saveLoaded cats _ _ w); intros [= <- <-]; [|discriminate].
    intros [= <-]. repeat split; [exact Hs|exact e|].
    exists d. split; [exact Hin|reflexivity].
  - intros r w' service. unfold getServiceBySlug.
    destruct (find _ (services w)) as [d|] eqn:Hf;
      [|intros [= <- <-]; discriminate].
    apply find_slug_some in Hf as [Hin Hs].
    destruct (String.eqb_spec (Service.status d) EServiceStatus.LIVE) as [e|n];
      simpl; intros [= <- <-]; [|discriminate].
    intros [= <-]. repeat split; auto.
  - intros r w'. unfold getServiceBySlug.
    destruct (find _ (services w)) as [d|];
      [|intros [= <- <-] _; split; reflexivity].
    destruct (String.eqb (Service.status d) EServiceStatus.LIVE);
      simpl; intros [= <- <-]; [discriminate|].
    intros _. split; reflexivity.
Qed.

Lemma slug_routes_respect_visibility_witness :
  code (fst (getSampleBySlug "intro-to-testing" (Some Demo.visitor) Demo.world))
  = 403
  /\ getServiceBySlug "essay-help" Demo.world
     = getServiceBySlug "no-such-service" Demo.world
  /\ exists service,
       data (fst (getServiceBySlug "proofreading" Demo.world)) = Some service
       /\ Service.status service = EServiceStatus.LIVE.
Proof.
  destruct (slug_routes_respect_visibility Demo.categories "proofreading"
              Demo.world) as (_ & _ & Hlive & _).
  split; [reflexivity|]. split; [reflexivity|].
  eexists. split; [reflexivity|].
  exact (proj2 (proj2 (proj2 (Hlive _ _ _ (surjective_pairing _) eq_refl)))).
Defined.

Lemma unique_ok_again {A} (idof : A -> nat) (key : A -> option string)
    (d d' : A) (l : list A) :
  unique_ok idof key d l = true -> idof d' = idof d -> key d' = key d ->
  unique_ok idof key d' (store idof d l) = true.
Proof.
  intros Hu Hid Hk. unfold unique_ok. apply negb_true_iff.
  destruct (existsb _ (store idof d l)) eqn:E; [|reflexivity].
  apply existsb_exists in E as (x & Hin & Hx).
  apply andb_prop in Hx as [Hx1 Hx2].
  apply In_store in Hin as [->|[Hin Hne]].
  - unfold has_id in Hx1. rewrite Hid, Nat.eqb_refl in Hx1. discriminate.
  - rewrite Hk, (unique_ok_other idof key d x l Hu Hin Hne) in Hx2.
    discriminate.
Qed.

Lemma views_or_zero (z : Z) : (z ||| 0 = z)%Z.
Proof.
  unfold jor, truthy, Truthy_Z. destruct (Z.eqb_spec z 0); simpl; congruence.
Qed.

Lemma plus_one_exact (x : Z) :
  (- 2 ^ 53 <= x < 2 ^ 53)%Z -> plus_one x = (x + 1)%Z.
Proof.
  unfold plus_one. intros H.
  destruct (Z.abs x <? 2 ^ 53)%Z eqn:E1; [reflexivity|].
  destruct (x =? - 2 ^ 53)%Z eqn:E2; [reflexivity|].
  exfalso. apply Z.ltb_ge in E1. apply Z.eqb_neq in E2.
  change (2 ^ 53)%Z with 9007199254740992%Z in *. lia.
Qed.

Lemma Blog_eqb_views (a b : Blog.t) :
  Blog.views a <> Blog.views b -> Blog_eqb a b = false.
Proof.
  intros H. destruct (Blog_eqb a b) eqn:E; [|reflexivity].
  apply Blog_eqb_true in E. subst b. contradiction.
Qed.

Lemma Blog_viewed_stuck (blog : Blog.t) :
  Blog.views blog = (2 ^ 53)%Z -> Blog_viewed blog = blog.
Proof.
  intros H. unfold Blog_viewed. rewrite H. destruct blog. simpl in *.
  subst. reflexivity.
Qed.

(** X10. Reading a blog by its slug counts the reading. A request that is
    answered with the blog found a Published blog and touched no other
    blog. While the count is below [2 ^ 53] in size, the store was
    written once: the stored blog has one view more than before and the
    status, the title and the slug it had, the answer carries the new
    count, and the next request for the same slug is answered too, with
    one view more again. At a count of [2 ^ 53] the sum is rounded back
    to the count: the request is answered with the count as it was and
    nothing is written. *)
Theorem getBlogBySlug_counts_views (cats : list string) (slug : string)
    (w w' : World) (r : Response Blog.t) :
  getBlogBySlug cats slug w = (r, w') -> success r = true ->
  exists blog,
    find (fun d => str_eq (Blog.slug d) (Some slug)) (blogs w) = Some blog
    /\ Blog.status blog = EBlogStatus.PUBLISHED
    /\ (forall id', id' <> Blog._id blog ->
          findById Blog._id id' (blogs w') = findById Blog._id id' (blogs w))
    /\ ((- 2 ^ 53 <= Blog.views blog < 2 ^ 53 - 1)%Z ->
        let stored := findById Blog._id (Blog._id blog) (blogs w') in
        option_map Blog.views (data r) = Some (Blog.views blog + 1)%Z
        /\ option_map Blog.views stored = Some (Blog.views blog + 1)%Z
        /\ option_map Blog.status stored = Some EBlogStatus.PUBLISHED
        /\ option_map Blog.title stored = Some (Blog.title blog)
        /\ option_map Blog.slug stored = Some (Some slug)
        /\ events_since w w' = [DbWrite MBlog (Blog._id blog)]
        /\ exists again w'',
             getBlogBySlug cats slug w' = (reply_data again, w'')
             /\ Blog.views again = (Blog.views blog + 2)%Z)
    /\ (Blog.views blog = (2 ^ 53)%Z ->
        option_map Blog.views (data r) = Some (2 ^ 53)%Z /\ w' = w).
Proof.
  unfold getBlogBySlug at 1.
  destruct (find _ (blogs w)) as [blog|] eqn:Hf;
    [|intros [= <- <-]; discriminate].
  destruct (String.eqb (Blog.status blog) EBlogStatus.PUBLISHED) eqn:Hst;
    simpl; [|intros [= <- <-]; discriminate].
  apply find_slug_some in Hf as Hfound. destruct Hfound as [Hin Hslug].
  assert (Hpub : Blog.status blog = EBlogStatus.PUBLISHED)
    by (apply String.eqb_eq; exact Hst).
  unfold Blog_saveLoaded.
  destruct (Blog.validate cats (Blog_viewed blog)
            && Blog_eqb blog (Blog_viewed blog)) eqn:Hkept.
  - (* nothing has changed: no write *)
    intros [= <- <-] _.
    apply andb_prop in Hkept as [_ Hkept]. apply Blog_eqb_true in Hkept.
    exists blog. split; [reflexivity|]. split; [exact Hpub|].
    split; [reflexivity|]. split.
    + intros Hrange. exfalso.
      apply (f_equal Blog.views) in Hkept. simpl in Hkept.
      rewrite views_or_zero, plus_one_exact in Hkept; lia.
    + intros Hv. split; [|reflexivity].
      simpl. rewrite views_or_zero, Hv. reflexivity.
  - destruct (Blog_save cats _ w) as [w1|] eqn:Hs;
      intros [= <- <-]; [intros _|discriminate].
    pose proof (Blog_save_unique _ _ _ _ Hs) as [Hu Ht].
    apply Blog_save_some in Hs as [-> Hv].
    rewrite Hv in Hkept. simpl in Hkept.
    exists blog. split; [reflexivity|]. split; [exact Hpub|].
    split; [intros id' Hne; simpl blogs; apply findById_store_other; exact Hne|].
    split.
    + intros Hrange. cbv zeta. simpl blogs.
      rewrite (findById_store_at Blog._id (Blog._id blog)
                 (Blog_viewed blog)) by reflexivity.
      assert (Hone : Blog.views (Blog_viewed blog) = (Blog.views blog + 1)%Z).
      { simpl. rewrite views_or_zero. apply plus_one_exact. lia. }
      assert (Htwo : Blog.views (Blog_viewed (Blog_viewed blog))
                     = (Blog.views blog + 2)%Z).
      { change (Blog.views (Blog_viewed (Blog_viewed blog)))
          with (plus_one (Blog.views (Blog_viewed blog) ||| 0%Z)).
        rewrite views_or_zero, Hone, plus_one_exact; lia. }
      split; [simpl data; cbn [option_map]; rewrite Hone; reflexivity|].
      cbn [option_map]. rewrite Hone.
      change (Blog.status (Blog_viewed blog)) with (Blog.status blog).
      change (Blog.title (Blog_viewed blog)) with (Blog.title blog).
      change (Blog.slug (Blog_viewed blog)) with (Blog.slug blog).
      rewrite Hpub, Hslug.
      repeat (split; [reflexivity|]).
      split; [events|].
      unfold getBlogBySlug. simpl blogs.
      rewrite (find_key_store Blog._id Blog.slug (Blog_viewed blog) (blogs w)
                 slug Hu Hslug).
      change (Blog.status (Blog_viewed blog)) with (Blog.status blog).
      rewrite Hst. simpl negb. cbv iota.
      unfold Blog_saveLoaded.
      rewrite (Blog_eqb_views (Blog_viewed blog)
                 (Blog_viewed (Blog_viewed blog))) by (rewrite Hone, Htwo; lia).
      rewrite andb_false_r.
      unfold Blog_save.
      change (Blog.validate cats (Blog_viewed (Blog_viewed blog)))
        with (Blog.validate cats (Blog_viewed blog)).
      rewrite Hv. simpl blogs.
      rewrite (unique_ok_again Blog._id Blog.slug (Blog_viewed blog)
                 (Blog_viewed (Blog_viewed blog)) (blogs w) Hu eq_refl eq_refl).
      rewrite (unique_ok_again Blog._id Blog.title (Blog_viewed blog)
                 (Blog_viewed (Blog_viewed blog)) (blogs w) Ht eq_refl eq_refl).
      simpl andb. cbv iota. eexists; eexists. split; [reflexivity|exact Htwo].
    + intros Hstuck. exfalso.
      rewrite (Blog_viewed_stuck blog Hstuck), Blog_eqb_refl in Hkept.
      discriminate.
Qed.

Lemma getBlogBySlug_counts_views_witness :
  let run := getBlogBySlug Demo.categories "release-notes" Demo.world in
  option_map Blog.views (data (fst run)) = Some 1%Z
  /\ option_map Blog.views (findById Blog._id 3 (blogs (snd run))) = Some 1%Z
  /\ events_since Demo.world (snd run) = [DbWrite MBlog 3].
Proof.
  intros run.
  destruct (getBlogBySlug_counts_views Demo.categories "release-notes"
              Demo.world _ _ (surjective_pairing run) eq_refl)
    as (blog & Hf & _ & _ & Hcount & _).
  injection Hf as <-.
  destruct Hcount as (Hd & Hs & _ & _ & _ & He & _).
  - simpl. lia.
  - split; [exact Hd|]. split; [exact Hs|exact He].
Defined.

(** The count that no reading moves: at [2 ^ 53] views the blog is
    answered and the store is not written. *)
Example getBlogBySlug_stuck_count :
  let crowded :=
    set_blogs (map (fun d => if Blog._id d =? 3
                             then Blog.mk (Blog._id d) (Blog.title d)
                                    (Blog.subtitle d) (Blog.description d)
                                    (Blog.slug d) (Blog.contentUrl d)
                                    (Blog.thumbnailUrl d) (Blog.creator d)
                                    (2 ^ 53)%Z (Blog.category d)
                                    (Blog.datePublished d)
                                    (Blog.tableOfContents d) (Blog.tags d)
                                    (Blog.readTime d) (Blog.status d)
                                    (Blog.ctaSection d) (Blog.authorName d)
                                    (Blog.readMore d) (Blog.faqs d)
                             else d) (blogs Demo.world)) Demo.world in
  let run := getBlogBySlug Demo.categories "release-notes" crowded in
  code (fst run) = 200
  /\ option_map Blog.views (data (fst run)) = Some (2 ^ 53)%Z
  /\ snd run = crowded.
Proof. vm_compute. repeat split; reflexivity. Qed.

(** ** The collection of samples stays consistent *)

Section DistinctFacts.
Context {A : Type} (idof : A -> nat) (slugof : A -> option string).

Lemma existsb_map_ids (f : A -> A) (id : nat) (l : list A) :
  (forall x, idof (f x) = idof x) ->
  existsb (has_id idof id) (map f l) = existsb (has_id idof id) l.
Proof.
  intros Hf. induction l as [|x l IH]; simpl; [reflexivity|].
  unfold has_id at 1 3. rewrite Hf, IH. reflexivity.
Qed.

Lemma distinct_ids_map (f : A -> A) (l : list A) :
  (forall x, idof (f x) = idof x) ->
  distinct_ids idof (map f l) = distinct_ids idof l.
Proof.
  intros Hf. induction l as [|x l IH]; simpl; [reflexivity|].
  rewrite Hf, existsb_map_ids, IH by exact Hf. reflexivity.
Qed.

Lemma existsb_filter_false (p q : A -> bool) (l : list A) :
  existsb p l = false -> existsb p (filter q l) = false.
Proof.
  induction l as [|x l IH]; simpl; [reflexivity|].
  intros H. apply orb_false_elim in H as [H1 H2].
  destruct (q x); simpl; [rewrite H1|]; exact (IH H2).
Qed.

Lemma distinct_ids_filter (q : A -> bool) (l : list A) :
  distinct_ids idof l = true -> distinct_ids idof (filter q l) = true.
Proof.
  induction l as [|x l IH]; simpl; [reflexivity|].
  intros H. apply andb_prop in H as [H1 H2]. apply negb_true_iff in H1.
  destruct (q x); simpl; [|exact (IH H2)].
  rewrite (existsb_filter_false _ q l H1), (IH H2). reflexivity.
Qed.

Lemma distinct_ids_app (d : A) (l : list A) :
  distinct_ids idof l = true -> existsb (has_id idof (idof d)) l = false ->
  distinct_ids idof (l ++ [d]) = true.
Proof.
  induction l as [|x l IH]; simpl; [reflexivity|].
  intros H E. apply andb_prop in H as [H1 H2]. apply negb_true_iff in H1.
  apply orb_false_elim in E as [E1 E2].
  rewrite existsb_app, H1, (IH H2 E2). simpl.
  unfold has_id in *. rewrite Nat.eqb_sym, E1. reflexivity.
Qed.

Lemma distinct_ids_store (d : A) (l : list A) :
  distinct_ids idof l = true -> distinct_ids idof (store idof d l) = true.
Proof.
  intros H. unfold store. destruct (existsb _ l) eqn:E.
  - rewrite distinct_ids_map; [exact H|].
    intros x. unfold has_id. destruct (idof x =? idof d) eqn:Ex; [|reflexivity].
    apply Nat.eqb_eq in Ex. symmetry. exact Ex.
  - apply distinct_ids_app; assumption.
Qed.

Lemma distinct_slugs_spec (l : list A) :
  distinct_slugs idof slugof l = true
  <-> forall a b, In a l -> In b l ->
                  str_eq (slugof a) (slugof b) = true -> idof a = idof b.
Proof.
  unfold distinct_slugs. split.
  - intros H a b Ha Hb Hs.
    rewrite forallb_forall in H. specialize (H a Ha).
    rewrite forallb_forall in H. specialize (H b Hb).
    rewrite Hs in H. simpl in H. apply Nat.eqb_eq. exact H.
  - intros H. apply forallb_forall. intros a Ha.
    apply forallb_forall. intros b Hb.
    destruct (str_eq (slugof a) (slugof b)) eqn:Hs; [|reflexivity].
    simpl. apply Nat.eqb_eq. apply H; assumption.
Qed.

Lemma str_eq_sym (a b : option string) : str_eq a b = str_eq b a.
Proof. destruct a, b; simpl; try reflexivity. apply String.eqb_sym. Qed.

Lemma distinct_slugs_store (d : A) (l : list A) :
  distinct_slugs idof slugof l = true ->
  unique_ok idof slugof d l = true ->
  distinct_slugs idof slugof (store idof d l) = true.
Proof.
  intros H Hu. apply distinct_slugs_spec. intros a b Ha Hb Hs.
  rewrite distinct_slugs_spec in H.
  apply In_store in Ha as [->|[Ha Hna]]; apply In_store in Hb as [->|[Hb Hnb]].
  - reflexivity.
  - rewrite str_eq_sym, (unique_ok_other idof slugof d b l Hu Hb Hnb) in Hs.
    discriminate.
  - rewrite (unique_ok_other idof slugof d a l Hu Ha Hna) in Hs. discriminate.
  - apply H; assumption.
Qed.

Lemma distinct_slugs_map (f : A -> A) (l : list A) :
  (forall x, idof (f x) = idof x) -> (forall x, slugof (f x) = slugof x) ->
  distinct_slugs idof slugof l = true ->
  distinct_slugs idof slugof (map f l) = true.
Proof.
  intros Hid Hsl H. apply distinct_slugs_spec. intros a b Ha Hb Hs.
  rewrite distinct_slugs_spec in H.
  apply in_map_iff in Ha as (a0 & <- & Ha). apply in_map_iff in Hb as (b0 & <- & Hb).
  rewrite !Hid. rewrite !Hsl in Hs. apply H; assumption.
Qed.

Lemma distinct_slugs_filter (q : A -> bool) (l : list A) :
  distinct_slugs idof slugof l = true ->
  distinct_slugs idof slugof (filter q l) = true.
Proof.
  intros H. apply distinct_slugs_spec. intros a b Ha Hb Hs.
  rewrite distinct_slugs_spec in H.
  apply filter_In in Ha as [Ha _]. apply filter_In in Hb as [Hb _].
  apply H; assumption.
Qed.
End DistinctFacts.

(** The invariant speaks of the samples and of the next identifier only. *)
Lemma Sample_store_ok_ext (w w' : World) :
  samples w' = samples w -> nextId w' = nextId w ->
  Sample_store_ok w' = Sample_store_ok w.
Proof. unfold Sample_store_ok. intros -> ->. reflexivity. Qed.

Lemma Sample_store_ok_parts (w : World) :
  Sample_store_ok w = true <->
  (forall d, In d (samples w) ->
             Sample.validate d = true /\ Sample_follows_title d = true
             /\ Sample._id d < nextId w)
  /\ distinct_ids Sample._id (samples w) = true
  /\ distinct_slugs Sample._id Sample.slug (samples w) = true.
Proof.
  unfold Sample_store_ok. rewrite !andb_true_iff, forallb_forall.
  split.
  - intros [[H1 H2] H3]. repeat split; try assumption;
      specialize (H1 d H); rewrite !andb_true_iff in H1;
      destruct H1 as [[? ?] Hlt]; try assumption.
    apply Nat.ltb_lt. exact Hlt.
  - intros (H1 & H2 & H3). repeat split; try assumption.
    intros d Hd. destruct (H1 d Hd) as (? & ? & Hlt).
    rewrite !andb_true_iff. repeat split; try assumption.
    apply Nat.ltb_lt. exact Hlt.
Qed.

Lemma Sample_store_ok_save (d : Sample.t) (w w' : World) :
  Sample_store_ok w = true -> Sample_save d w = Some w' ->
  Sample_follows_title d = true -> Sample._id d < nextId w ->
  Sample_store_ok w' = true.
Proof.
  intros Hok Hs Hft Hlt.
  pose proof (Sample_save_unique _ _ _ Hs) as Hu.
  apply Sample_save_some in Hs as [-> Hv].
  apply Sample_store_ok_parts in Hok as (H1 & H2 & H3).
  apply Sample_store_ok_parts. simpl samples. simpl nextId.
  split; [|split].
  - intros x Hx. apply In_store in Hx as [->|[Hx _]]; [|exact (H1 x Hx)].
    repeat split; assumption.
  - apply distinct_ids_store. exact H2.
  - apply distinct_slugs_store; assumption.
Qed.

Lemma Sample_store_ok_saveLoaded (loaded d : Sample.t) (w w' : World) :
  Sample_store_ok w = true -> Sample_saveLoaded loaded d w = Some w' ->
  Sample_follows_title d = true -> Sample._id d < nextId w ->
  Sample_store_ok w' = true.
Proof.
  unfold Sample_saveLoaded. destruct (_ && _).
  - intros Hok [= <-] _ _. exact Hok.
  - apply Sample_store_ok_save.
Qed.

Lemma Sample_store_ok_setStatus (id : nat) (st : string) (w : World) :
  Sample_store_ok w = true -> in_enum ESampleStatus.values st = true ->
  Sample_store_ok (Sample_setStatus id st w) = true.
Proof.
  intros Hok Hst.
  apply Sample_store_ok_parts in Hok as (H1 & H2 & H3).
  apply Sample_store_ok_parts. unfold Sample_setStatus. simpl samples.
  simpl nextId. split; [|split].
  - intros x Hx. apply in_map_iff in Hx as (y & <- & Hy).
    destruct (H1 y Hy) as (Hv & Hft & Hlt).
    destruct (has_id Sample._id id y); [|repeat split; assumption].
    repeat split; [|exact Hft|exact Hlt].
    unfold Sample.validate in *. simpl.
    rewrite !andb_true_iff in *. destruct Hv as [Hv _]. split; assumption.
  - rewrite distinct_ids_map; [exact H2|].
    intros x. destruct (has_id Sample._id id x); reflexivity.
  - apply distinct_slugs_map; [| |exact H3];
      intros x; destruct (has_id Sample._id id x); reflexivity.
Qed.

Lemma Sample_store_ok_remove (id : nat) (w w' : World) :
  Sample_store_ok w = true ->
  samples w' = remove Sample._id id (samples w) -> nextId w' = nextId w ->
  Sample_store_ok w' = true.
Proof.
  intros Hok Hs Hn.
  apply Sample_store_ok_parts in Hok as (H1 & H2 & H3).
  apply Sample_store_ok_parts. rewrite Hs, Hn. unfold remove.
  split; [|split].
  - intros x Hx. apply filter_In in Hx as [Hx _]. exact (H1 x Hx).
  - apply distinct_ids_filter. exact H2.
  - apply distinct_slugs_filter. exact H3.
Qed.

Lemma Sample_store_ok_bump (w : World) :
  Sample_store_ok w = true -> Sample_store_ok (bump w) = true.
Proof.
  intros Hok.
  apply Sample_store_ok_parts in Hok as (H1 & H2 & H3).
  apply Sample_store_ok_parts. simpl. split; [|split; assumption].
  intros x Hx. destruct (H1 x Hx) as (? & ? & ?). repeat split; auto.
Qed.

Lemma contentOnCreate_world (cloud : Cloudinary) kind content slug
    (w w1 : World) st :
  contentOnCreate cloud kind content slug w = (st, w1) ->
  samples w1 = samples w /\ nextId w1 = nextId w.
Proof.
  intros H. apply contentOnCreate_outcome in H
    as [(-> & _)|[(c & _ & -> & _)|(c & url & _ & _ & ->)]];
    split; reflexivity.
Qed.

Lemma contentOnUpdate_world (cloud : Cloudinary) kind content compared slug
    oldUrl (w w1 : World) st :
  contentOnUpdate cloud kind content compared slug oldUrl w = (st, w1) ->
  samples w1 = samples w /\ nextId w1 = nextId w.
Proof.
  intros H. apply contentOnUpdate_outcome in H
    as [(_ & ->)|[(c0 & _ & -> & _)|[(c0 & url & _ & _ & -> & _)
       |(c0 & url & old & done & _ & _ & _ & -> & _)]]]; split; reflexivity.
Qed.

Lemma deleteBlob_world (cloud : Cloudinary) url kind (w w1 : World) done :
  deleteBlob cloud url kind w = (done, w1) ->
  samples w1 = samples w /\ nextId w1 = nextId w.
Proof.
  intros H. apply deleteBlob_outcome in H as [[_ ->]|[pid ->]];
    split; reflexivity.
Qed.

(** X11. Every handler that saves a sample keeps the collection
    consistent. If every stored sample passes the validators of the
    schema, has the slug of its title and an identifier below the next
    one, and no two samples share an identifier or a slug, then the same
    holds after [createSample], [updateSample] and [archiveSample],
    whatever the request and whatever the answer. *)
Theorem sample_saves_keep_consistency (cloud : Cloudinary) (w : World) :
  Sample_store_ok w = true ->
  (forall errors body,
      Sample_store_ok (snd (createSample cloud errors body w)) = true)
  /\ (forall id body user,
      Sample_store_ok (snd (updateSample cloud id body user w)) = true)
  /\ (forall id, Sample_store_ok (snd (archiveSample id w)) = true).
Proof.
  intros Hok. repeat apply conj.
  - intros errors body. unfold createSample.
    destruct errors; [|exact Hok].
    destruct (SampleBody.title body) as [title|]; [|exact Hok].
    destruct (find _ (samples w)); [exact Hok|].
    destruct (contentOnCreate _ _ _ _ _) as [[contentUrl|] w1] eqn:Hc;
      apply contentOnCreate_world in Hc as [Hs Hn];
      pose proof (Sample_store_ok_ext w w1 Hs Hn) as Hext;
      [|simpl; rewrite Hext; exact Hok].
    destruct (Sample_save _ _) as [w2|] eqn:Hsave;
      [|simpl; rewrite Hext; exact Hok].
    simpl. eapply Sample_store_ok_save; [|exact Hsave| |].
    + apply Sample_store_ok_bump. rewrite Hext. exact Hok.
    + unfold Sample_follows_title. simpl. apply String.eqb_refl.
    + simpl. lia.
  - intros id body user. unfold updateSample.
    destruct (findById Sample._id id (samples w)) as [sample|] eqn:Hf;
      [|exact Hok].
    pose proof (findById_In _ _ _ _ Hf) as Hin.
    apply Sample_store_ok_parts in Hok as Hparts.
    destruct Hparts as (H1 & _). destruct (H1 sample Hin) as (Hv & Hft & Hlt).
    destruct (slugOnUpdate _ _ _ _ _ _ _ _) as [slug|] eqn:Hslug; [|exact Hok].
    destruct (contentOnUpdate _ _ _ _ _ _ _) as [[contentUrl|] w1] eqn:Hc;
      apply contentOnUpdate_world in Hc as [Hs Hn];
      pose proof (Sample_store_ok_ext w w1 Hs Hn) as Hext;
      [|simpl; rewrite Hext; exact Hok].
    destruct (Sample_saveLoaded _ _ _) as [w2|] eqn:Hsave;
      [|simpl; rewrite Hext; exact Hok].
    simpl. eapply Sample_store_ok_saveLoaded; [|exact Hsave| |].
    + rewrite Hext. exact Hok.
    + unfold Sample_follows_title in *. simpl.
      unfold slugOnUpdate in Hslug.
      destruct (SampleBody.title body) as [t|].
      * destruct (truthy t) eqn:Ht; simpl in Hslug.
        -- unfold jor at 1. simpl. unfold truthy at 1. simpl. rewrite Ht.
           destruct (negb _) eqn:Hne.
           ++ destruct (find _ _); [discriminate|].
              injection Hslug as <-. apply str_eq_refl.
           ++ injection Hslug as <-. apply negb_false_iff in Hne.
              apply (str_eq_true (Some t)) in Hne.
              rewrite <- Hne in Hft. exact Hft.
        -- injection Hslug as <-.
           rewrite jor_falsy by exact Ht. exact Hft.
      * injection Hslug as <-. rewrite jor_falsy by reflexivity. exact Hft.
    + simpl. rewrite Hn. exact Hlt.
  - intros id. unfold archiveSample.
    destruct (findById Sample._id id (samples w)) as [sample|] eqn:Hf;
      [|exact Hok].
    pose proof (findById_In _ _ _ _ Hf) as Hin.
    apply Sample_store_ok_parts in Hok as Hparts.
    destruct Hparts as (H1 & _). destruct (H1 sample Hin) as (Hv & Hft & Hlt).
    destruct (Sample_saveLoaded _ _ _) as [w1|] eqn:Hsave; [|exact Hok].
    simpl. eapply Sample_store_ok_saveLoaded; [exact Hok|exact Hsave| |].
    + exact Hft.
    + exact Hlt.
Qed.

Lemma sample_saves_keep_consistency_witness :
  Sample_store_ok
    (snd (createSample Demo.cloud [] Demo.eager_sample Demo.world)) = true
  /\ Sample_store_ok
       (snd (updateSample Demo.cloud 1 Demo.shouted_sample (Some Demo.admin)
                          Demo.world)) = true
  /\ Sample_store_ok (snd (archiveSample 3 Demo.world)) = true.
Proof.
  destruct (sample_saves_keep_consistency Demo.cloud Demo.world eq_refl)
    as (Hc & Hu & Ha).
  split; [apply Hc|]. split; [apply Hu|apply Ha].
Defined.

(** X12. The writes that go round the validators keep the collection of
    samples consistent too: [toggleSampleStatus], which writes the status
    with [findByIdAndUpdate], and [deleteSample] leave a consistent
    collection consistent, whatever the answer. *)
Theorem sample_toggle_and_delete_keep_consistency (cloud : Cloudinary)
    (w : World) :
  Sample_store_ok w = true ->
  (forall id, Sample_store_ok (snd (toggleSampleStatus id w)) = true)
  /\ (forall id, Sample_store_ok (snd (deleteSample cloud id w)) = true).
Proof.
  intros Hok. repeat apply conj.
  - intros id. unfold toggleSampleStatus.
    destruct (findById Sample._id id (samples w)) as [sample|]; [|exact Hok].
    destruct (String.eqb _ ESampleStatus.ARCHIVED); [exact Hok|].
    simpl. apply Sample_store_ok_setStatus; [exact Hok|].
    destruct (String.eqb _ _); reflexivity.
  - intros id. unfold deleteSample. destruct id as [id|]; [|exact Hok].
    destruct (findById Sample._id id (samples w)) as [sample|] eqn:Hf;
      [|exact Hok].
    destruct (deleteBlob _ _ _ _) as [[] w1] eqn:Hd;
      apply deleteBlob_world in Hd as [Hs Hn]; simpl.
    + eapply Sample_store_ok_remove; [exact Hok| |].
      * simpl. rewrite Hs. reflexivity.
      * simpl. exact Hn.
    + rewrite (Sample_store_ok_ext w w1 Hs Hn). exact Hok.
Qed.

Lemma sample_toggle_and_delete_keep_consistency_witness :
  Sample_store_ok (snd (toggleSampleStatus 1 Demo.world)) = true
  /\ Sample_store_ok (snd (deleteSample Demo.cloud (Some 2) Demo.world)) = true.
Proof.
  destruct (sample_toggle_and_delete_keep_consistency Demo.cloud Demo.world
              eq_refl) as (Ht & Hd).
  split; [apply Ht|apply Hd].
Defined.

(** ** Services and their sections *)

Lemma sections_resolved_spec (w : World) :
  sections_resolved w = true <-> sections_resolve w.
Proof.
  unfold sections_resolved, sections_resolve. rewrite forallb_forall. split.
  - intros H service sec Hin Hsec. specialize (H service Hin).
    rewrite Hsec in H. apply existsb_findById in H. exact H.
  - intros H service Hin.
    destruct (Service.section service) as [sec|] eqn:Hsec; [|reflexivity].
    apply existsb_findById. exact (H service sec Hin Hsec).
Qed.

Lemma sections_resolve_ext (w w' : World) :
  services w' = services w -> sections w' = sections w ->
  sections_resolve w -> sections_resolve w'.
Proof. unfold sections_resolve. intros -> ->. auto. Qed.

Lemma contentOnCreate_services (cloud : Cloudinary) kind content slug
    (w w1 : World) st :
  contentOnCreate cloud kind content slug w = (st, w1) ->
  services w1 = services w /\ sections w1 = sections w.
Proof.
  intros H. apply contentOnCreate_outcome in H
    as [(-> & _)|[(c & _ & -> & _)|(c & url & _ & _ & ->)]];
    split; reflexivity.
Qed.

Lemma contentOnUpdate_services (cloud : Cloudinary) kind content compared slug
    oldUrl (w w1 : World) st :
  contentOnUpdate cloud kind content compared slug oldUrl w = (st, w1) ->
  services w1 = services w /\ sections w1 = sections w.
Proof.
  intros H. apply contentOnUpdate_outcome in H
    as [(_ & ->)|[(c0 & _ & -> & _)|[(c0 & url & _ & _ & -> & _)
       |(c0 & url & old & done & _ & _ & _ & -> & _)]]]; split; reflexivity.
Qed.

Lemma ServiceSection_save_some (d : ServiceSection.t) (w w' : World) :
  ServiceSection_save d w = Some w' ->
  w' = log (DbWrite MServiceSection (ServiceSection._id d))
           (set_sections (store ServiceSection._id d (sections w)) w).
Proof.
  unfold ServiceSection_save.
  destruct (_ && _ && _); [|discriminate]. intros [= <-]. reflexivity.
Qed.

(** A write of a section keeps every identifier that found a section
    finding one. *)
Lemma store_still_finds (d : ServiceSection.t) (l : list ServiceSection.t)
    (sec : nat) :
  (exists s, findById ServiceSection._id sec l = Some s) ->
  exists s, findById ServiceSection._id sec (store ServiceSection._id d l)
            = Some s.
Proof.
  intros H. destruct (Nat.eq_dec sec (ServiceSection._id d)) as [->|Hne].
  - exists d. apply findById_store.
  - rewrite findById_store_other by exact Hne. exact H.
Qed.

(** X13. No handler of services leaves a service without its section.
    If the section of every stored service is a stored section, the same
    holds after [createService], [updateService], [toggleServiceStatus]
    and [deleteService], whatever the request and whatever the answer. *)
Theorem services_keep_their_sections (cloud : Cloudinary) (w : World) :
  sections_resolved w = true ->
  (forall errors body,
      sections_resolved (snd (createService cloud errors body w)) = true)
  /\ (forall id body,
      sections_resolved (snd (updateService cloud id body w)) = true)
  /\ (forall id, sections_resolved (snd (toggleServiceStatus id w)) = true)
  /\ (forall id, sections_resolved (snd (deleteService cloud id w)) = true).
Proof.
  intros Hok. pose proof (proj1 (sections_resolved_spec w) Hok) as Hres.
  repeat apply conj.
  - intros errors body. unfold createService.
    destruct errors; [|exact Hok].
    destruct (ServiceBody.section body) as [sec|] eqn:Hsec; [|exact Hok].
    destruct (findById ServiceSection._id sec (sections w)) as [section|] eqn:Hf;
      [|exact Hok].
    destruct (ServiceBody.title body) as [title|]; [|exact Hok].
    destruct (find _ (services w)); [exact Hok|].
    destruct (contentOnCreate _ _ _ _ _) as [[contentUrl|] w1] eqn:Hc;
      apply contentOnCreate_services in Hc as [Hs Hn];
      [|simpl; apply sections_resolved_spec;
        exact (sections_resolve_ext _ _ Hs Hn Hres)].
    destruct (Service_save _ _) as [w2|] eqn:Hsave;
      [|simpl; apply sections_resolved_spec;
        exact (sections_resolve_ext _ _ Hs Hn Hres)].
    apply Service_save_some in Hsave as [-> _]. simpl.
    apply sections_resolved_spec. intros service sec' Hin Hsec'.
    simpl in Hin. simpl sections. rewrite Hn.
    apply In_store in Hin as [->|[Hin _]].
    + simpl in Hsec'. injection Hsec' as <-. eauto.
    + rewrite Hs in Hin. exact (Hres service sec' Hin Hsec').
  - intros id body. unfold updateService.
    destruct (findById Service._id id (services w)) as [service|] eqn:Hf;
      [|exact Hok].
    pose proof (findById_In _ _ _ _ Hf) as Hin0.
    destruct (match ServiceBody.section body with
              | Some sec => _ | None => _ end) as [[]|] eqn:Hcheck;
      [|exact Hok].
    destruct (slugOnUpdate _ _ _ _ _ _ _ _) as [slug|]; [|exact Hok].
    destruct (contentOnUpdate _ _ _ _ _ _ _) as [[contentUrl|] w1] eqn:Hc;
      apply contentOnUpdate_services in Hc as [Hs Hn];
      [|simpl; apply sections_resolved_spec;
        exact (sections_resolve_ext _ _ Hs Hn Hres)].
    destruct (Service_saveLoaded _ _ _) as [w2|] eqn:Hsave;
      [|simpl; apply sections_resolved_spec;
        exact (sections_resolve_ext _ _ Hs Hn Hres)].
    apply Service_saveLoaded_some in Hsave as [(-> & _)|(-> & _)];
      [simpl; apply sections_resolved_spec;
       exact (sections_resolve_ext _ _ Hs Hn Hres)|].
    simpl.
    apply sections_resolved_spec. intros service' sec' Hin Hsec'.
    simpl in Hin. simpl sections. rewrite Hn.
    apply In_store in Hin as [->|[Hin _]].
    + simpl in Hsec'.
      destruct (ServiceBody.section body) as [sec|].
      * injection Hsec' as <-.
        destruct (Service.section service) as [cur|] eqn:Hcur;
          [|discriminate].
        destruct (sec =? cur) eqn:E; simpl in Hcheck.
        -- apply Nat.eqb_eq in E. subst cur. exact (Hres service sec Hin0 Hcur).
        -- destruct (findById ServiceSection._id sec (sections w)) as [s|];
             [eauto|discriminate].
      * exact (Hres service sec' Hin0 Hsec').
    + rewrite Hs in Hin. exact (Hres service' sec' Hin Hsec').
  - intros id. unfold toggleServiceStatus.
    destruct (findById Service._id id (services w)) as [service|]; [|exact Hok].
    destruct (_ || _); [exact Hok|]. simpl.
    apply sections_resolved_spec. intros service' sec' Hin Hsec'.
    simpl in Hin. simpl sections.
    apply in_map_iff in Hin as (old & <- & Hin).
    apply (Hres old sec' Hin).
    destruct (has_id Service._id id old); exact Hsec'.
  - intros id. unfold deleteService. destruct id as [id|]; [|exact Hok].
    destruct (findById Service._id id (services w)) as [service|]; [|exact Hok].
    destruct (deleteBlob _ _ _ _) as [[] w1] eqn:Hd;
      apply deleteBlob_outcome in Hd; simpl; apply sections_resolved_spec.
    + intros service' sec' Hin Hsec'. simpl in Hin. simpl sections.
      apply filter_In in Hin as [Hin _].
      destruct Hd as [[_ ->]|[pid ->]]; exact (Hres service' sec' Hin Hsec').
    + destruct Hd as [[_ ->]|[pid ->]]; exact Hres.
Qed.

Lemma services_keep_their_sections_witness :
  sections_resolved
    (snd (createService Demo.cloud [] Demo.eager_service Demo.world)) = true
  /\ sections_resolved (snd (deleteService Demo.cloud (Some 3) Demo.world)) = true.
Proof.
  destruct (services_keep_their_sections Demo.cloud Demo.world eq_refl)
    as (Hc & _ & _ & Hd).
  split; [apply Hc|apply Hd].
Defined.

(** X14. No handler of sections takes a section away from a service. If
    the section of every stored service is a stored section, the same
    holds after [createSection], [updateSection] and [deleteSection],
    whatever the request and whatever the answer. *)
Theorem sections_stay_for_their_services (w : World) :
  sections_resolved w = true ->
  (forall errors name description order,
      sections_resolved (snd (createSection errors name description order w))
      = true)
  /\ (forall id name description order status,
      sections_resolved (snd (updateSection id name description order status w))
      = true)
  /\ (forall id, sections_resolved (snd (deleteSection id w)) = true).
Proof.
  intros Hok. pose proof (proj1 (sections_resolved_spec w) Hok) as Hres.
  repeat apply conj.
  - intros errors name description order. unfold createSection.
    destruct errors; [|exact Hok].
    destruct name as [n|]; [|exact Hok].
    destruct (find _ (sections w)); [exact Hok|].
    destruct (ServiceSection_save _ _) as [w1|] eqn:Hsave; [|exact Hok].
    apply ServiceSection_save_some in Hsave as ->. simpl.
    apply sections_resolved_spec. intros service' sec' Hin Hsec'.
    simpl in Hin. simpl sections.
    apply store_still_finds. exact (Hres service' sec' Hin Hsec').
  - intros id name description order status. unfold updateSection.
    destruct (findById ServiceSection._id id (sections w)) as [section|];
      [|exact Hok].
    destruct (slugOnUpdate _ _ _ _ _ _ _ _) as [slug|]; [|exact Hok].
    unfold ServiceSection_saveLoaded.
    destruct (ServiceSection.validate _ && ServiceSection_eqb _ _);
      [exact Hok|].
    destruct (ServiceSection_save _ _) as [w1|] eqn:Hsave; [|exact Hok].
    apply ServiceSection_save_some in Hsave as ->. simpl.
    apply sections_resolved_spec. intros service' sec' Hin Hsec'.
    simpl in Hin. simpl sections.
    apply store_still_finds. exact (Hres service' sec' Hin Hsec').
  - intros id. unfold deleteSection.
    destruct (0 <? _) eqn:Hc; [exact Hok|].
    destruct (findById ServiceSection._id id (sections w)); [|exact Hok].
    simpl. apply sections_resolved_spec. intros service' sec' Hin Hsec'.
    simpl in Hin. simpl sections.
    apply Nat.ltb_ge in Hc.
    assert (Hz : countDocuments (in_section id) (services w) = 0) by lia.
    pose proof (countDocuments_zero _ _ Hz service' Hin) as Hq.
    unfold in_section in Hq. rewrite Hsec' in Hq.
    rewrite findById_remove_other;
      [exact (Hres service' sec' Hin Hsec')|].
    intros ->. rewrite Nat.eqb_refl in Hq. discriminate.
Qed.

Lemma sections_stay_for_their_services_witness :
  sections_resolved
    (snd (createSection [] (Some "Editing") None None Demo.world)) = true
  /\ sections_resolved (snd (deleteSection 11 Demo.world)) = true
  /\ sections_resolved (snd (deleteSection 10 Demo.world)) = true.
Proof.
  destruct (sections_stay_for_their_services Demo.world eq_refl)
    as (Hc & _ & Hd).
  split; [apply Hc|]. split; apply Hd.
Defined.

(** ** Content that is already a URL *)

Lemma http_truthy (c : string) : startsWith_http c = true -> truthy c = true.
Proof. destruct c; [discriminate|reflexivity]. Qed.

Lemma contentOnCreate_url (cloud : Cloudinary) kind (c slug : string) (w : World) :
  startsWith_http c = true ->
  contentOnCreate cloud kind (Some c) slug w = (Go (Some c), w).
Proof.
  intros H. unfold contentOnCreate. rewrite (http_truthy c H), H. reflexivity.
Qed.

Lemma contentOnUpdate_url (cloud : Cloudinary) kind (c : string) compared slug
    oldUrl (w : World) :
  startsWith_http c = true ->
  contentOnUpdate cloud kind (Some c) compared slug oldUrl w = (Go (Some c), w).
Proof.
  intros H. unfold contentOnUpdate. rewrite H, andb_false_r. reflexivity.
Qed.

(** X15. Content that is given as a URL is taken as the locator: no blob
    is uploaded and none is deleted, on a create and on an update of a
    sample or of a service, so an update that replaces one URL by
    another leaves the blob of the old one in the blob store. The only
    event of such a request is the write of the document, and the
    document that is answered has the URL as its content locator. *)
Theorem url_content_is_kept_as_is (cloud : Cloudinary) (w : World) (c : string) :
  startsWith_http c = true ->
  (forall errors body r w',
      SampleBody.content body = Some c ->
      createSample cloud errors body w = (r, w') ->
      (events_since w w' = [] \/ exists id, events_since w w' = [DbWrite MSample id])
      /\ forall sample, data r = Some sample ->
                        Sample.contentUrl sample = Some c)
  /\ (forall id body user r w',
      SampleBody.content body = Some c ->
      updateSample cloud id body user w = (r, w') ->
      (events_since w w' = [] \/ events_since w w' = [DbWrite MSample id])
      /\ forall sample, data r = Some sample ->
                        Sample.contentUrl sample = Some c)
  /\ (forall errors body r w',
      ServiceBody.content body = Some c ->
      createService cloud errors body w = (r, w') ->
      (events_since w w' = [] \/ exists id, events_since w w' = [DbWrite MService id])
      /\ forall service, data r = Some service ->
                         Service.contentUrl service = Some c)
  /\ (forall id body r w',
      ServiceBody.content body = Some c ->
      updateService cloud id body w = (r, w') ->
      (events_since w w' = [] \/ events_since w w' = [DbWrite MService id])
      /\ forall service, data r = Some service ->
                         Service.contentUrl service = Some c).
Proof.
  intros Hc. repeat apply conj.
  - intros errors body r w' Hb. unfold createSample.
    destruct errors;
      [|intros [= <- <-]; split; [left; apply events_since_refl|discriminate]].
    destruct (SampleBody.title body) as [title|];
      [|intros [= <- <-]; split; [left; apply events_since_refl|discriminate]].
    destruct (find _ (samples w));
      [intros [= <- <-]; split; [left; apply events_since_refl|discriminate]|].
    rewrite Hb, (contentOnCreate_url cloud _ c _ w Hc).
    destruct (Sample_save _ _) as [w2|] eqn:Hs; intros [= <- <-];
      [|split; [left; apply events_since_refl|discriminate]].
    apply Sample_save_some in Hs as [-> _].
    split; [right; eexists; events|]. intros sample [= <-]. reflexivity.
  - intros id body user r w' Hb. unfold updateSample.
    destruct (findById Sample._id id (samples w)) as [sample|] eqn:Hf;
      [|intros [= <- <-]; split; [left; apply events_since_refl|discriminate]].
    rewrite (findById_id _ _ _ _ Hf).
    destruct (slugOnUpdate _ _ _ _ _ _ _ _) as [slug|];
      [|intros [= <- <-]; split; [left; apply events_since_refl|discriminate]].
    rewrite Hb, (contentOnUpdate_url cloud _ c _ _ _ w Hc).
    destruct (Sample_saveLoaded _ _ _) as [w2|] eqn:Hs; intros [= <- <-];
      [|split; [left; apply events_since_refl|discriminate]].
    apply Sample_saveLoaded_some in Hs as [(-> & _)|(-> & _)].
    + split; [left; apply events_since_refl|].
      intros sample' [= <-]. reflexivity.
    + split; [right; events|]. intros sample' [= <-]. reflexivity.
  - intros errors body r w' Hb. unfold createService.
    destruct errors;
      [|intros [= <- <-]; split; [left; apply events_since_refl|discriminate]].
    destruct (match ServiceBody.section body with
              | Some sec => _ | None => _ end);
      [|intros [= <- <-]; split; [left; apply events_since_refl|discriminate]].
    destruct (ServiceBody.title body) as [title|];
      [|intros [= <- <-]; split; [left; apply events_since_refl|discriminate]].
    destruct (find _ (services w));
      [intros [= <- <-]; split; [left; apply events_since_refl|discriminate]|].
    rewrite Hb, (contentOnCreate_url cloud _ c _ w Hc).
    destruct (Service_save _ _) as [w2|] eqn:Hs; intros [= <- <-];
      [|split; [left; apply events_since_refl|discriminate]].
    apply Service_save_some in Hs as [-> _].
    split; [right; eexists; events|]. intros service [= <-]. reflexivity.
  - intros id body r w' Hb. unfold updateService.
    destruct (findById Service._id id (services w)) as [service|] eqn:Hf;
      [|intros [= <- <-]; split; [left; apply events_since_refl|discriminate]].
    rewrite (findById_id _ _ _ _ Hf).
    destruct (match ServiceBody.section body with
              | Some sec => _ | None => _ end) as [[]|];
      [|intros [= <- <-]; split; [left; apply events_since_refl|discriminate]].
    destruct (slugOnUpdate _ _ _ _ _ _ _ _) as [slug|];
      [|intros [= <- <-]; split; [left; apply events_since_refl|discriminate]].
    rewrite Hb, (contentOnUpdate_url cloud _ c _ _ _ w Hc).
    destruct (Service_saveLoaded _ _ _) as [w2|] eqn:Hs; intros [= <- <-];
      [|split; [left; apply events_since_refl|discriminate]].
    apply Service_saveLoaded_some in Hs as [(-> & _)|(-> & _)].
    + split; [left; apply events_since_refl|].
      intros service' [= <-]. reflexivity.
    + split; [right; events|]. intros service' [= <-]. reflexivity.
Qed.

Lemma url_content_is_kept_as_is_witness :
  events_since Demo.world
    (snd (updateSample Demo.cloud 1 Tour.moved_content (Some Demo.admin)
                       Demo.world))
  = [DbWrite MSample 1]
  /\ option_map Sample.contentUrl
       (data (fst (updateSample Demo.cloud 1 Tour.moved_content
                                (Some Demo.admin) Demo.world)))
     = Some (Some "https://example.org/elsewhere.md").
Proof.
  destruct (url_content_is_kept_as_is Demo.cloud Demo.world
              "https://example.org/elsewhere.md" eq_refl)
    as (_ & Hu & _).
  destruct (Hu 1 Tour.moved_content (Some Demo.admin) _ _ eq_refl
               (surjective_pairing _)) as [[He|He] Hd].
  - vm_compute in He. discriminate.
  - split; [exact He|].
    destruct (data (fst (updateSample Demo.cloud 1 Tour.moved_content
                                      (Some Demo.admin) Demo.world)))
      as [sample|] eqn:E; [|vm_compute in E; discriminate].
    simpl. rewrite (Hd sample eq_refl). reflexivity.
Defined.

(** ** Who may change the status *)

(** X16. Only admins change the status through an update. Whatever a
    caller who is not an admin sends as status, the sample or blog that
    is stored after [updateSample] or [updateBlog] has the status it had
    before, and the blog has the publication date it had before. An
    admin who sends a status and is answered 200 finds that status
    stored. *)
Theorem update_status_is_for_admins (cloud : Cloudinary) (rt : Runtime)
    (cats : list string) (id : nat) (user : option User) (w : World) :
  (forall body sample,
      isAdmin user = false ->
      findById Sample._id id (samples w) = Some sample ->
      exists sample',
        findById Sample._id id
                 (samples (snd (updateSample cloud id body user w)))
        = Some sample'
        /\ Sample.status sample' = Sample.status sample)
  /\ (forall body thumbnail now blog,
      isAdmin user = false ->
      findById Blog._id id (blogs w) = Some blog ->
      exists blog',
        findById Blog._id id
                 (blogs (snd (updateBlog cloud rt cats id body thumbnail user
                                         now w)))
        = Some blog'
        /\ Blog.status blog' = Blog.status blog
        /\ Blog.datePublished blog' = Blog.datePublished blog)
  /\ (forall body st r w',
      isAdmin user = true ->
      SampleBody.status body = Some st -> truthy st = true ->
      updateSample cloud id body user w = (r, w') -> success r = true ->
      exists sample',
        findById Sample._id id (samples w') = Some sample'
        /\ data r = Some sample' /\ Sample.status sample' = st).
Proof.
  repeat apply conj.
  - intros body sample Hu Hf. unfold updateSample. rewrite Hf.
    pose proof (findById_id _ _ _ _ Hf) as Hid.
    destruct (slugOnUpdate _ _ _ _ _ _ _ _) as [slug|]; [|simpl; eauto].
    destruct (contentOnUpdate _ _ _ _ _ _ _) as [st w1] eqn:Hc.
    apply contentOnUpdate_world in Hc as [Hsame _].
    destruct st as [contentUrl|]; [|simpl; rewrite Hsame; eauto].
    destruct (Sample_saveLoaded _ _ _) as [w2|] eqn:Hs;
      [|simpl; rewrite Hsame; eauto].
    apply Sample_saveLoaded_some in Hs as [(-> & _)|(-> & _)];
      [simpl; rewrite Hsame; eauto|]. simpl.
    eexists. split; [apply (findById_store_at Sample._id); exact Hid|].
    simpl. rewrite Hu.
    destruct (SampleBody.status body) as [st|]; [|reflexivity].
    rewrite andb_false_r. reflexivity.
  - intros body thumbnail now blog Hu Hf. unfold updateBlog. rewrite Hf.
    pose proof (findById_id _ _ _ _ Hf) as Hid.
    destruct user as [u|]; [|simpl; eauto].
    destruct (Blog.creator blog) as [creator|]; [|simpl; eauto].
    destruct (negb _ && negb _); [simpl; eauto|].
    destruct (slugOnUpdate _ _ _ _ _ _ _ _) as [slug|]; [|simpl; eauto].
    destruct (contentOnUpdate _ _ _ _ _ _ _) as [st w1] eqn:Hc.
    assert (Hsame : blogs w1 = blogs w).
    { apply contentOnUpdate_outcome in Hc
        as [(_ & ->)|[(c0 & _ & -> & _)|[(c0 & url & _ & _ & -> & _)
           |(c0 & url & old & done & _ & _ & _ & -> & _)]]]; reflexivity. }
    destruct st as [contentUrl|]; [|simpl; rewrite Hsame; eauto].
    updateBlog_tail w1; simpl; rewrite ?Hsame; eauto;
      (eexists; split; [apply (findById_store_at Blog._id); exact Hid|];
       cbn [Blog.status Blog.datePublished]; simpl in Hu;
       rewrite Hu, !andb_false_r; split; reflexivity).
  - intros body st r w' Hu Hst Ht. unfold updateSample.
    destruct (findById Sample._id id (samples w)) as [sample|] eqn:Hf;
      [|intros [= <- <-]; discriminate].
    pose proof (findById_id _ _ _ _ Hf) as Hid.
    destruct (slugOnUpdate _ _ _ _ _ _ _ _) as [slug|];
      [|intros [= <- <-]; discriminate].
    destruct (contentOnUpdate _ _ _ _ _ _ _) as [st' w1] eqn:Hc.
    apply contentOnUpdate_world in Hc as [Hsame _].
    destruct st' as [contentUrl|]; [|intros [= <- <-]; discriminate].
    destruct (Sample_saveLoaded _ _ _) as [w2|] eqn:Hs;
      intros [= <- <-]; [intros _|discriminate].
    apply Sample_saveLoaded_some in Hs as [(-> & Hkept & _)|(-> & _)].
    + exists sample. split; [simpl samples; rewrite Hsame; exact Hf|].
      split; [simpl data; f_equal; symmetry; exact Hkept|].
      rewrite Hkept. simpl. rewrite Hst, Hu, Ht. reflexivity.
    + simpl.
      eexists. split; [apply (findById_store_at Sample._id); exact Hid|].
      split; [reflexivity|]. simpl. rewrite Hst, Hu, Ht. reflexivity.
Qed.

Lemma update_status_is_for_admins_witness :
  exists sample',
    findById Sample._id 1
      (samples (snd (updateSample Demo.cloud 1 Tour.publish_me
                                  (Some Demo.visitor) Demo.world)))
    = Some sample'
    /\ Sample.status sample' = ESampleStatus.DRAFT.
Proof.
  destruct (update_status_is_for_admins Demo.cloud Demo.rt Demo.categories 1
              (Some Demo.visitor) Demo.world) as (Hs & _).
  exact (Hs Tour.publish_me _ eq_refl eq_refl).
Defined.

(** ** Titles without a slug *)

Lemma Sample_save_needs_slug (d : Sample.t) (w : World) :
  Sample.slug d = Some EmptyString -> Sample_save d w = None.
Proof.
  intros H. unfold Sample_save, Sample.validate. rewrite H. simpl.
  rewrite !andb_false_r. reflexivity.
Qed.

Lemma Service_save_needs_slug (d : Service.t) (w : World) :
  Service.slug d = Some EmptyString -> Service_save d w = None.
Proof.
  intros H. unfold Service_save, Service.validate. rewrite H. simpl.
  rewrite !andb_false_r. reflexivity.
Qed.

Lemma ServiceSection_save_needs_slug (d : ServiceSection.t) (w : World) :
  ServiceSection.slug d = Some EmptyString -> ServiceSection_save d w = None.
Proof.
  intros H. unfold ServiceSection_save, ServiceSection.validate. rewrite H.
  simpl. rewrite !andb_false_r. reflexivity.
Qed.

Lemma contentOnCreate_same_store (cloud : Cloudinary) kind content slug
    (w w1 : World) st :
  contentOnCreate cloud kind content slug w = (st, w1) -> same_store w w1.
Proof.
  intros H. apply contentOnCreate_outcome in H
    as [(-> & _)|[(c & _ & -> & _)|(c & url & _ & _ & ->)]]; same_store_tac.
Qed.

(** X17. A title from which no slug can be made is never stored. When
    the title of a new sample or service, or the name of a new section,
    has no letter and no digit, the create is not answered with success
    and the store holds what it held; the required slug is what stops
    it, after the content has been uploaded: a sample with such a title
    and raw content is answered 500 with the blob uploaded and no
    document to refer to it. *)
Theorem title_without_slug_is_refused (cloud : Cloudinary) (title : string)
    (w : World) :
  Slug.slugify title = EmptyString ->
  (forall errors body r w',
      SampleBody.title body = Some title ->
      createSample cloud errors body w = (r, w') ->
      success r = false /\ same_store w w')
  /\ (forall errors body r w',
      ServiceBody.title body = Some title ->
      createService cloud errors body w = (r, w') ->
      success r = false /\ same_store w w')
  /\ (forall errors description order r w',
      createSection errors (Some title) description order w = (r, w') ->
      success r = false /\ w' = w)
  /\ (forall body c url,
      SampleBody.title body = Some title ->
      SampleBody.content body = Some c ->
      truthy c = true -> startsWith_http c = false ->
      uploader_upload cloud c (publicIdOf "samples" (Some EmptyString))
                      (folderOf "samples") = Some url ->
      find (fun d => str_eq (Sample.slug d) (Some EmptyString)) (samples w)
      = None ->
      exists w',
        createSample cloud [] body w = (fail 500 "Error creating sample", w')
        /\ events_since w w'
           = [Upload c (publicIdOf "samples" (Some EmptyString))
                     (folderOf "samples") (Some url)]).
Proof.
  intros Hslug. repeat apply conj.
  - intros errors body r w' Ht. unfold createSample. rewrite Ht, Hslug.
    destruct errors; [|intros [= <- <-]; split; [reflexivity|same_store_tac]].
    destruct (find _ (samples w));
      [intros [= <- <-]; split; [reflexivity|same_store_tac]|].
    destruct (contentOnCreate _ _ _ _ _) as [[contentUrl|] w1] eqn:Hc;
      apply contentOnCreate_same_store in Hc;
      [|intros [= <- <-]; split; [reflexivity|exact Hc]].
    rewrite Sample_save_needs_slug by reflexivity.
    intros [= <- <-]. split; [reflexivity|exact Hc].
  - intros errors body r w' Ht. unfold createService. rewrite Ht, Hslug.
    destruct errors; [|intros [= <- <-]; split; [reflexivity|same_store_tac]].
    destruct (match ServiceBody.section body with
              | Some sec => _ | None => _ end);
      [|intros [= <- <-]; split; [reflexivity|same_store_tac]].
    destruct (find _ (services w));
      [intros [= <- <-]; split; [reflexivity|same_store_tac]|].
    destruct (contentOnCreate _ _ _ _ _) as [[contentUrl|] w1] eqn:Hc;
      apply contentOnCreate_same_store in Hc;
      [|intros [= <- <-]; split; [reflexivity|exact Hc]].
    rewrite Service_save_needs_slug by reflexivity.
    intros [= <- <-]. split; [reflexivity|exact Hc].
  - intros errors description order r w'. unfold createSection. rewrite Hslug.
    destruct errors; [|intros [= <- <-]; split; reflexivity].
    destruct (find _ (sections w)); [intros [= <- <-]; split; reflexivity|].
    rewrite ServiceSection_save_needs_slug by reflexivity.
    intros [= <- <-]. split; reflexivity.
  - intros body c url Ht Hc Htr Hh Hup Hfree. unfold createSample.
    rewrite Ht, Hslug, Hfree, Hc. unfold contentOnCreate.
    rewrite Htr, Hh, Hup.
    rewrite Sample_save_needs_slug by reflexivity.
    eexists. split; [reflexivity|events].
Qed.

Lemma title_without_slug_is_refused_witness :
  exists w',
    createSample Demo.cloud [] Tour.punctuation Demo.world
    = (fail 500 "Error creating sample", w')
    /\ same_store Demo.world w'
    /\ events_since Demo.world w'
       = [Upload "Some text" "content/samples/-content.md"
                 "ping-assignments/content/samples"
                 (Some "https://res.cloudinary.com/raw/content/samples/-content.md")].
Proof.
  destruct (title_without_slug_is_refused Demo.cloud "?!" Demo.world eq_refl)
    as (Hs & _ & _ & Hup).
  destruct (Hup Tour.punctuation "Some text" _ eq_refl eq_refl eq_refl eq_refl
                eq_refl eq_refl) as (w' & Hr & He).
  exists w'. split; [exact Hr|]. split; [|exact He].
  exact (proj2 (Hs [] Tour.punctuation _ _ eq_refl Hr)).
Defined.

(** ** Testimonials on the homepage *)

Lemma homepage_listed (w : World) (t : Testimonial.t) :
  In t (testimonials w) ->
  exists listed,
    data (fst (getHomepageTestimonials w)) = Some listed
    /\ (In t listed <->
        Testimonial.forHomepage t = true /\ Testimonial.status t = "published").
Proof.
  intros Hin. eexists. split; [reflexivity|].
  rewrite <- in_rev, filter_In, andb_true_iff, Bool.eqb_true_iff, String.eqb_eq.
  tauto.
Qed.

Lemma Testimonial_save_lookup (d : Testimonial.t) (w w' : World) :
  Testimonial_save d w = Some w' ->
  testimonials w' = store Testimonial._id d (testimonials w)
  /\ findById Testimonial._id (Testimonial._id d) (testimonials w') = Some d
  /\ (forall id', id' <> Testimonial._id d ->
        findById Testimonial._id id' (testimonials w')
        = findById Testimonial._id id' (testimonials w))
  /\ In d (testimonials w').
Proof.
  intros H. apply Testimonial_save_some in H as [-> _]. simpl.
  split; [reflexivity|]. split; [apply findById_store|].
  split; [intros id' Hne; apply findById_store_other; exact Hne|].
  apply store_In.
Qed.

Lemma Testimonial_saveLoaded_lookup (loaded d : Testimonial.t) (w w' : World) :
  Testimonial_saveLoaded loaded d w = Some w' ->
  findById Testimonial._id (Testimonial._id d) (testimonials w) = Some loaded ->
  Testimonial.validate d = true
  /\ findById Testimonial._id (Testimonial._id d) (testimonials w') = Some d
  /\ (forall id', id' <> Testimonial._id d ->
        findById Testimonial._id id' (testimonials w')
        = findById Testimonial._id id' (testimonials w))
  /\ In d (testimonials w').
Proof.
  intros H Hf.
  apply Testimonial_saveLoaded_some in H as [(-> & -> & Hv)|(-> & Hv & _)].
  - split; [exact Hv|]. split; [exact Hf|]. split; [reflexivity|].
    exact (findById_In _ _ _ _ Hf).
  - simpl. split; [exact Hv|]. split; [apply findById_store|].
    split; [intros id' Hne; apply findById_store_other; exact Hne|].
    apply store_In.
Qed.

(** A toggle and the toggle after it, on the paths of the record. *)
Lemma homepage_toggle_documents (id : nat) (w w' : World)
    (r : Response Testimonial.t) :
  toggleTestimonialForHomepage id w = (r, w') -> success r = true ->
  exists t,
    let t' := Testimonial_with_homepage (negb (Testimonial.forHomepage t)) t in
    findById Testimonial._id id (testimonials w) = Some t
    /\ data r = Some t'
    /\ message r = Some (if Testimonial.forHomepage t
                         then "Testimonial removed from homepage"
                         else "Testimonial added to homepage")
    /\ findById Testimonial._id id (testimonials w') = Some t'
    /\ (forall id', id' <> id ->
          findById Testimonial._id id' (testimonials w')
          = findById Testimonial._id id' (testimonials w))
    /\ (exists listed,
          data (fst (getHomepageTestimonials w')) = Some listed
          /\ (In t' listed <->
              Testimonial.forHomepage t = false
              /\ Testimonial.status t = "published"))
    /\ (exists w'',
          toggleTestimonialForHomepage id w'
          = (reply 200 (if Testimonial.forHomepage t
                        then "Testimonial added to homepage"
                        else "Testimonial removed from homepage") t, w'')
          /\ forall id', findById Testimonial._id id' (testimonials w'')
                         = findById Testimonial._id id' (testimonials w)).
Proof.
  unfold toggleTestimonialForHomepage at 1.
  destruct (findById Testimonial._id id (testimonials w)) as [t|] eqn:Hf;
    [|intros [= <- <-]; discriminate].
  destruct (Testimonial_saveLoaded _ _ w) as [w1|] eqn:Hs;
    intros [= <- <-]; [intros _|discriminate].
  pose proof (findById_id _ _ _ _ Hf) as Hid.
  apply Testimonial_saveLoaded_lookup in Hs as (Hv & Hnew & Hother & Hin);
    [|simpl Testimonial._id; rewrite Hid; exact Hf].
  simpl Testimonial._id in Hnew, Hother. rewrite Hid in Hnew, Hother.
  exists t. cbv zeta. split; [reflexivity|]. split; [reflexivity|].
  split; [simpl; destruct (Testimonial.forHomepage t); reflexivity|].
  split; [exact Hnew|]. split; [exact Hother|]. split.
  - destruct (homepage_listed w1 _ Hin) as (listed & Hl & Hiff).
    exists listed. split; [exact Hl|]. rewrite Hiff. simpl.
    rewrite negb_true_iff. tauto.
  - unfold toggleTestimonialForHomepage. rewrite Hnew.
    assert (Hback : Testimonial_with_homepage
                      (negb (Testimonial.forHomepage
                               (Testimonial_with_homepage
                                  (negb (Testimonial.forHomepage t)) t)))
                      (Testimonial_with_homepage
                         (negb (Testimonial.forHomepage t)) t) = t).
    { destruct t as [i n c s l u st []]; reflexivity. }
    rewrite Hback.
    assert (Hvt : Testimonial.validate t = true) by exact Hv.
    assert (Hchanged : Testimonial_eqb
                         (Testimonial_with_homepage
                            (negb (Testimonial.forHomepage t)) t) t = false).
    { destruct (Testimonial_eqb _ t) eqn:E; [|reflexivity].
      apply Testimonial_eqb_true in E.
      apply (f_equal Testimonial.forHomepage) in E. simpl in E.
      destruct (Testimonial.forHomepage t); discriminate E. }
    unfold Testimonial_saveLoaded, Testimonial_save.
    rewrite Hchanged, andb_false_r, Hvt.
    eexists. split.
    + simpl. destruct (Testimonial.forHomepage t); reflexivity.
    + intros id'. simpl testimonials.
      destruct (Nat.eq_dec id' id) as [->|Hne].
      * rewrite (findById_store_at Testimonial._id id t _ Hid).
        symmetry. exact Hf.
      * rewrite findById_store_other by (rewrite Hid; exact Hne).
        apply Hother. exact Hne.
Qed.

(** X18. The homepage flag of a testimonial. A toggle that is answered
    200 stores the testimonial with the flag negated and with the name,
    the content and the status it had, says in its message which way it
    went, and leaves the other testimonials alone; afterwards the
    testimonial is on the list of the homepage exactly when it is
    published and was not flagged before. A second toggle is answered
    200 as well, says that it went the other way and stores the flag as
    it was at first. *)
Theorem homepage_toggle_round_trip (id : nat) (w w' : World)
    (r : Response Testimonial.t) :
  toggleTestimonialForHomepage id w = (r, w') -> success r = true ->
  exists t t',
    findById Testimonial._id id (testimonials w) = Some t
    /\ findById Testimonial._id id (testimonials w') = Some t'
    /\ Testimonial.forHomepage t' = negb (Testimonial.forHomepage t)
    /\ Testimonial.name t' = Testimonial.name t
    /\ Testimonial.content t' = Testimonial.content t
    /\ Testimonial.status t' = Testimonial.status t
    /\ option_map Testimonial.forHomepage (data r)
       = Some (negb (Testimonial.forHomepage t))
    /\ message r = Some (if Testimonial.forHomepage t
                         then "Testimonial removed from homepage"
                         else "Testimonial added to homepage")
    /\ (forall id', id' <> id ->
          findById Testimonial._id id' (testimonials w')
          = findById Testimonial._id id' (testimonials w))
    /\ (exists listed,
          data (fst (getHomepageTestimonials w')) = Some listed
          /\ (In t' listed <->
              Testimonial.forHomepage t = false
              /\ Testimonial.status t = "published"))
    /\ (exists r2 w'',
          toggleTestimonialForHomepage id w' = (r2, w'')
          /\ code r2 = 200
          /\ message r2 = Some (if Testimonial.forHomepage t
                                then "Testimonial added to homepage"
                                else "Testimonial removed from homepage")
          /\ option_map Testimonial.forHomepage
               (findById Testimonial._id id (testimonials w''))
             = Some (Testimonial.forHomepage t)
          /\ forall id', id' <> id ->
                findById Testimonial._id id' (testimonials w'')
                = findById Testimonial._id id' (testimonials w)).
Proof.
  intros Hr Hok.
  destruct (homepage_toggle_documents id w w' r Hr Hok)
    as (t & Hf & Hd & Hm & Hnew & Hother & Hlist & (w'' & Hr2 & Hback)).
  exists t, (Testimonial_with_homepage (negb (Testimonial.forHomepage t)) t).
  split; [exact Hf|]. split; [exact Hnew|].
  repeat (split; [reflexivity|]).
  split; [rewrite Hd; reflexivity|]. split; [exact Hm|].
  split; [exact Hother|]. split; [exact Hlist|].
  eexists; exists w''. split; [exact Hr2|].
  split; [reflexivity|]. split; [reflexivity|].
  split; [rewrite Hback, Hf; reflexivity|].
  intros id' _. apply Hback.
Qed.

Lemma homepage_toggle_round_trip_witness :
  exists t',
    findById Testimonial._id 1
      (testimonials (snd (toggleTestimonialForHomepage 1 Demo.world)))
    = Some t'
    /\ Testimonial.forHomepage t' = true
    /\ In t' (rev (filter (fun d => Bool.eqb (Testimonial.forHomepage d) true
                                    && String.eqb (Testimonial.status d)
                                                  "published")
                          (testimonials
                             (snd (toggleTestimonialForHomepage 1 Demo.world))))).
Proof.
  destruct (homepage_toggle_round_trip 1 Demo.world _ _ (surjective_pairing _)
              eq_refl)
    as (t & t' & Hf & Hnew & Hflag & _ & _ & _ & _ & _ & _
        & (listed & Hl & Hiff) & _).
  injection Hf as <-. injection Hl as <-.
  exists t'. split; [exact Hnew|]. split; [exact Hflag|].
  apply Hiff. split; reflexivity.
Defined.

(** A change of status, on the paths of the record. *)
Lemma changeTestimonialStatus_documents (id : nat) (status : option string)
    (w : World) :
  (match status with
   | Some st => in_enum ["draft"; "published"; "archived"] st = false
   | None => True
   end ->
   changeTestimonialStatus id status w
   = (fail 400 "Invalid status. Must be 'draft', 'published', or 'archived'", w))
  /\ (forall r w',
      changeTestimonialStatus id status w = (r, w') -> success r = true ->
      exists t st,
        let t' := Testimonial_with_status st t in
        status = Some st
        /\ In st ["draft"; "published"; "archived"]
        /\ findById Testimonial._id id (testimonials w) = Some t
        /\ data r = Some t'
        /\ findById Testimonial._id id (testimonials w') = Some t'
        /\ getTestimonialById id w' = (reply_data t', w')
        /\ (forall id', id' <> id ->
              findById Testimonial._id id' (testimonials w')
              = findById Testimonial._id id' (testimonials w))
        /\ (exists listed,
              data (fst (getHomepageTestimonials w')) = Some listed
              /\ (In t' listed <->
                  st = "published" /\ Testimonial.forHomepage t = true))).
Proof.
  split.
  - unfold changeTestimonialStatus. destruct status as [st|]; [|reflexivity].
    intros ->. reflexivity.
  - intros r w'. unfold changeTestimonialStatus.
    destruct status as [st|]; [|intros [= <- <-]; discriminate].
    destruct (in_enum _ st) eqn:Hen; simpl; [|intros [= <- <-]; discriminate].
    destruct (findById Testimonial._id id (testimonials w)) as [t|] eqn:Hf;
      [|intros [= <- <-]; discriminate].
    destruct (Testimonial_saveLoaded _ _ w) as [w1|] eqn:Hs;
      intros [= <- <-]; [intros _|discriminate].
    pose proof (findById_id _ _ _ _ Hf) as Hid.
    apply Testimonial_saveLoaded_lookup in Hs as (_ & Hnew & Hother & Hin);
      [|simpl Testimonial._id; rewrite Hid; exact Hf].
    simpl Testimonial._id in Hnew, Hother. rewrite Hid in Hnew, Hother.
    exists t, st. cbv zeta. split; [reflexivity|]. split.
    { unfold in_enum in Hen. apply existsb_exists in Hen as (x & Hx & He).
      apply String.eqb_eq in He. subst x. exact Hx. }
    split; [reflexivity|]. split; [reflexivity|]. split; [exact Hnew|].
    split; [unfold getTestimonialById; rewrite Hnew; reflexivity|].
    split; [exact Hother|].
    destruct (homepage_listed w1 _ Hin) as (listed & Hl & Hiff).
    exists listed. split; [exact Hl|]. rewrite Hiff. simpl. tauto.
Qed.

(** X19. Changing the status of a testimonial. A status that is not one
    of draft, published and archived is refused with 400 before the
    testimonial is looked up, so also for an identifier that is not
    stored. After a change that is answered 200 the testimonial is
    stored with the status asked for and with the name, the content and
    the homepage flag it had, the answer carries that status, the other
    testimonials are left alone, and the testimonial is on the list of
    the homepage exactly when the new status is published and it is
    flagged. *)
Theorem changeTestimonialStatus_sets_status (id : nat) (status : option string)
    (w : World) :
  (match status with
   | Some st => in_enum ["draft"; "published"; "archived"] st = false
   | None => True
   end ->
   changeTestimonialStatus id status w
   = (fail 400 "Invalid status. Must be 'draft', 'published', or 'archived'", w))
  /\ (forall r w',
      changeTestimonialStatus id status w = (r, w') -> success r = true ->
      exists t t' st,
        status = Some st
        /\ In st ["draft"; "published"; "archived"]
        /\ findById Testimonial._id id (testimonials w) = Some t
        /\ findById Testimonial._id id (testimonials w') = Some t'
        /\ Testimonial.status t' = st
        /\ Testimonial.name t' = Testimonial.name t
        /\ Testimonial.content t' = Testimonial.content t
        /\ Testimonial.forHomepage t' = Testimonial.forHomepage t
        /\ option_map Testimonial.status (data r) = Some st
        /\ (forall id', id' <> id ->
              findById Testimonial._id id' (testimonials w')
              = findById Testimonial._id id' (testimonials w))
        /\ (exists listed,
              data (fst (getHomepageTestimonials w')) = Some listed
              /\ (In t' listed <->
                  st = "published" /\ Testimonial.forHomepage t = true))).
Proof.
  destruct (changeTestimonialStatus_documents id status w) as [Hrefused Hset].
  split; [exact Hrefused|].
  intros r w' Hr Hok.
  destruct (Hset r w' Hr Hok)
    as (t & st & Hst & Hen & Hf & Hd & Hnew & _ & Hother & Hlist).
  exists t, (Testimonial_with_status st t), st.
  split; [exact Hst|]. split; [exact Hen|]. split; [exact Hf|].
  split; [exact Hnew|]. repeat (split; [reflexivity|]).
  split; [rewrite Hd; reflexivity|]. split; [exact Hother|exact Hlist].
Qed.

Lemma changeTestimonialStatus_sets_status_witness :
  changeTestimonialStatus 77 (Some "Published") Demo.world
  = (fail 400 "Invalid status. Must be 'draft', 'published', or 'archived'",
     Demo.world)
  /\ option_map Testimonial.status
       (data (fst (changeTestimonialStatus 2 (Some "published") Demo.world)))
     = Some "published".
Proof.
  split.
  - exact (proj1 (changeTestimonialStatus_sets_status 77 (Some "Published")
                    Demo.world) eq_refl).
  - destruct (proj2 (changeTestimonialStatus_sets_status 2 (Some "published")
                       Demo.world) _ _ (surjective_pairing _) eq_refl)
      as (t & t' & st & Hst & _ & _ & _ & _ & _ & _ & _ & Hd & _).
    injection Hst as <-. exact Hd.
Defined.

(** ** The sanitizer of features and tags *)

(** X20. The sanitizer of [features] and [tags] always hands an array to
    the validator that follows it, so the error that the value must be
    an array can never be raised. A string that is not JSON, a string
    that is the JSON of something else than an array, and a value that
    is neither a string nor an array all pass as the empty array; an
    array, given as such or as JSON text, is checked item by item.
    Sanitizing twice is sanitizing once. *)
Theorem array_fields_are_always_arrays (rt : Runtime) (value : JsValue) :
  (exists items, arraySanitizer rt value = JArr items)
  /\ validateFeatures rt value <> Some "Features must be an array"
  /\ validateTags rt value <> Some "Tags must be an array"
  /\ match value with
     | JArr items =>
         validateFeatures rt value
         = (if existsb (badItem 1 500) items
            then Some "Each feature must be a string between 1 and 500 characters"
            else None)
         /\ validateTags rt value
            = (if existsb (badItem 2 50) items
               then Some "Each tag must be a string between 2 and 50 characters"
               else None)
     | JStr s =>
         match JSON_parse rt s with
         | Some (JArr items) =>
             validateFeatures rt value = validateFeatures rt (JArr items)
             /\ validateTags rt value = validateTags rt (JArr items)
         | _ => validateFeatures rt value = None /\ validateTags rt value = None
         end
     | _ => validateFeatures rt value = None /\ validateTags rt value = None
     end
  /\ arraySanitizer rt (arraySanitizer rt value) = arraySanitizer rt value.
Proof.
  unfold validateFeatures, validateTags, arrayValidator.
  assert (Harr : exists items, arraySanitizer rt value = JArr items).
  { unfold arraySanitizer. destruct value; eauto.
    destruct (JSON_parse rt s) as [[]|]; eauto. }
  split; [exact Harr|].
  destruct Harr as [items Hitems]. rewrite Hitems.
  split; [destruct (existsb _ items); discriminate|].
  split; [destruct (existsb _ items); discriminate|].
  split.
  - unfold arraySanitizer in Hitems. destruct value; try injection Hitems as <-;
      try (split; reflexivity).
    destruct (JSON_parse rt s) as [[]|]; injection Hitems as <-;
      split; reflexivity.
  - reflexivity.
Qed.

(** ** A section from its creation to its deletion *)

Lemma insertSection_In (d x : ServiceSection.t) (l : list ServiceSection.t) :
  In x (insertSection d l) <-> x = d \/ In x l.
Proof.
  induction l as [|y l IH]; simpl.
  - split; [intros [H|[]]; left; symmetry; exact H|intros [H|[]]; left; symmetry; exact H].
  - destruct (_ <=? _)%Z; simpl.
    + split; [intros [H|H]; [left; symmetry; exact H|right; exact H]
             |intros [H|H]; [left; symmetry; exact H|right; exact H]].
    + rewrite IH. tauto.
Qed.

(** Documents of equal order come out of the sort in their stored
    order. *)
Lemma sortSections_equal_orders (l : list ServiceSection.t) :
  (forall x y, In x l -> In y l ->
               ServiceSection.order x = ServiceSection.order y) ->
  sortSections l = l.
Proof.
  unfold sortSections. induction l as [|x r IH]; [reflexivity|].
  intros H. simpl. rewrite IH by (intros a b Ha Hb; apply H; right; assumption).
  destruct r as [|y r']; [reflexivity|]. simpl.
  rewrite (H x y (or_introl eq_refl) (or_intror (or_introl eq_refl))).
  rewrite Z.leb_refl. reflexivity.
Qed.

Lemma sortByOrder_equal_orders (l : list Service.t) :
  (forall x y, In x l -> In y l -> Service.order x = Service.order y) ->
  sortByOrder l = l.
Proof.
  unfold sortByOrder. induction l as [|x r IH]; [reflexivity|].
  intros H. simpl. rewrite IH by (intros a b Ha Hb; apply H; right; assumption).
  destruct r as [|y r']; [reflexivity|]. simpl.
  rewrite (H x y (or_introl eq_refl) (or_intror (or_introl eq_refl))).
  rewrite Z.leb_refl. reflexivity.
Qed.

Lemma sortSections_In (l : list ServiceSection.t) (x : ServiceSection.t) :
  In x (sortSections l) <-> In x l.
Proof.
  unfold sortSections. induction l as [|y l IH]; simpl; [tauto|].
  rewrite insertSection_In, IH. split; intros [H|H]; auto.
Qed.

Lemma countDocuments_none {A} (q : A -> bool) (l : list A) :
  (forall x, In x l -> q x = false) -> countDocuments q l = 0.
Proof.
  unfold countDocuments. induction l as [|y l IH]; simpl; [reflexivity|].
  intros H. rewrite (H y (or_introl eq_refl)). apply IH.
  intros x Hx. apply H. right. exact Hx.
Qed.

Lemma remove_appended {A} (idof : A -> nat) (d : A) (l : list A) :
  existsb (has_id idof (idof d)) l = false ->
  remove idof (idof d) (l ++ [d]) = l.
Proof.
  intros H. unfold remove. rewrite filter_app. simpl.
  unfold has_id at 2. rewrite Nat.eqb_refl. simpl. rewrite app_nil_r.
  induction l as [|x l IH]; simpl in *; [reflexivity|].
  apply orb_false_elim in H as [H1 H2]. rewrite H1. simpl.
  rewrite (IH H2). reflexivity.
Qed.

Lemma jor_zero (z : Z) : (z ||| 0 = z)%Z.
Proof. exact (views_or_zero z). Qed.

(** X21. A section from its creation to its deletion. In a store where
    services refer to stored sections and the identifiers of the
    sections are below the next one, a [createSection] that is answered
    with success has stored a Draft section with the slug of its name and
    the order it was given, or 0; [getSections] lists it; a second
    section with the same name is refused with 400; and the new section
    can be deleted at once, which gives back the sections exactly as
    they were. *)
Theorem section_created_then_deleted (errors : list string)
    (name description : option string) (order : option Z) (w w' : World)
    (r : Response ServiceSection.t) :
  sections_resolved w = true -> sections_known w = true ->
  createSection errors name description order w = (r, w') ->
  success r = true ->
  exists section n,
    name = Some n /\ data r = Some section /\ code r = 201
    /\ ServiceSection._id section = nextId w
    /\ ServiceSection.slug section = Some (Slug.slugify n)
    /\ ServiceSection.status section = EServiceSectionStatus.DRAFT
    /\ ServiceSection.order section
       = match order with Some o => o | None => 0%Z end
    /\ findById ServiceSection._id (nextId w) (sections w') = Some section
    /\ (exists listed, data (fst (getSections w')) = Some listed
                       /\ In section listed)
    /\ (forall description' order',
          createSection [] name description' order' w'
          = (fail 400 "A section with this name already exists", w'))
    /\ (exists w'',
          deleteSection (nextId w) w'
          = (reply_msg "Section deleted successfully", w'')
          /\ sections w'' = sections w /\ services w'' = services w).
Proof.
  intros Hres Hknown. unfold createSection at 1.
  destruct errors; [|intros [= <- <-]; discriminate].
  destruct name as [n|]; [|intros [= <- <-]; discriminate].
  destruct (find _ (sections w)); [intros [= <- <-]; discriminate|].
  destruct (ServiceSection_save _ _) as [w1|] eqn:Hs;
    intros [= <- <-]; [intros _|discriminate].
  apply ServiceSection_save_some in Hs as ->.
  assert (Hfresh : existsb (has_id ServiceSection._id (nextId w)) (sections w)
                   = false).
  { destruct (existsb _ (sections w)) eqn:E; [|reflexivity].
    apply existsb_exists in E as (x & Hx & Hid).
    unfold sections_known in Hknown. rewrite forallb_forall in Hknown.
    specialize (Hknown x Hx). apply Nat.ltb_lt in Hknown.
    unfold has_id in Hid. apply Nat.eqb_eq in Hid. lia. }
  set (section := ServiceSection.mk (nextId w) (Some n) description
                    (Some (Slug.slugify n))
                    match order with Some o => (o ||| 0)%Z | None => 0%Z end
                    EServiceSectionStatus.DRAFT) in *.
  assert (Hstored : sections
                      (log (DbWrite MServiceSection (ServiceSection._id section))
                         (set_sections
                            (store ServiceSection._id section (sections (bump w)))
                            (bump w)))
                    = sections w ++ [section]).
  { simpl. unfold store. simpl ServiceSection._id. rewrite Hfresh. reflexivity. }
  exists section, n. split; [reflexivity|]. split; [reflexivity|].
  split; [reflexivity|]. split; [reflexivity|]. split; [reflexivity|].
  split; [reflexivity|].
  split; [simpl; destruct order; [apply jor_zero|reflexivity]|].
  split; [simpl sections; apply (findById_store_at ServiceSection._id);
          reflexivity|].
  split.
  { eexists. split; [reflexivity|]. apply sortSections_In.
    rewrite Hstored. apply in_or_app. right. left. reflexivity. }
  split.
  { intros description' order'. unfold createSection.
    destruct (find_slug_taken ServiceSection.slug
                (sections (log (DbWrite MServiceSection
                                        (ServiceSection._id section))
                             (set_sections
                                (store ServiceSection._id section
                                       (sections (bump w))) (bump w))))
                section (Slug.slugify n)) as [d' Hd'].
    - rewrite Hstored. apply in_or_app. right. left. reflexivity.
    - reflexivity.
    - rewrite Hd'. reflexivity. }
  unfold deleteSection. rewrite Hstored.
  assert (Hcount : countDocuments (in_section (nextId w)) (services w) = 0).
  { apply countDocuments_none. intros service Hin. unfold in_section.
    destruct (Service.section service) as [sec|] eqn:Hsec; [|reflexivity].
    apply sections_resolved_spec in Hres.
    destruct (Hres service sec Hin Hsec) as [s Hfound].
    apply Nat.eqb_neq. intros ->.
    assert (existsb (has_id ServiceSection._id (nextId w)) (sections w) = true)
      by (apply existsb_findById; eauto).
    congruence. }
  simpl services. rewrite Hcount. simpl.
  assert (Hf : findById ServiceSection._id (nextId w) (sections w ++ [section])
               = Some section).
  { rewrite <- Hstored. simpl sections.
    apply (findById_store_at ServiceSection._id). reflexivity. }
  rewrite Hf. eexists. split; [reflexivity|]. simpl.
  split; [|reflexivity].
  exact (remove_appended ServiceSection._id section (sections w) Hfresh).
Qed.

Lemma section_created_then_deleted_witness :
  exists section w'',
    data (fst (createSection [] (Some "Editing & Co") None None Demo.world))
    = Some section
    /\ ServiceSection.slug section = Some "editing-co"
    /\ deleteSection 1000
         (snd (createSection [] (Some "Editing & Co") None None Demo.world))
       = (reply_msg "Section deleted successfully", w'')
    /\ sections w'' = sections Demo.world.
Proof.
  destruct (section_created_then_deleted [] (Some "Editing & Co") None None
              Demo.world _ _ eq_refl eq_refl (surjective_pairing _) eq_refl)
    as (section & n & Hn & Hd & _ & _ & Hslug & _ & _ & _ & _ & _
        & (w'' & Hdel & Hs & _)).
  injection Hn as <-.
  exists section, w''. split; [exact Hd|]. split; [exact Hslug|].
  split; [exact Hdel|exact Hs].
Defined.

(** ** Pages that are not given *)

Lemma int_or_default (x : option Z) (dflt : Z) :
  x = None \/ x = Some 0%Z -> int_or x dflt = dflt.
Proof. intros [->| ->]; reflexivity. Qed.

(** X22. Page numbers and limits that are not given, on the public list
    of samples. A page that is missing, unreadable or 0 is read as page
    1, and a limit that is missing, unreadable or 0 as the limit 10: the
    request is answered with the first ten samples of the sorted list,
    with 1 as the current page and with the number of pages of ten that
    hold all the samples found. *)
Theorem getSamples_odd_pages (rt : Runtime) (q : SampleQuery.t)
    (user : option User) (w : World) :
  let found := filter (Sample_matches (samplesQuery q user)) (samples w) in
  let sorted := sortSamples match SampleQuery.sort q with
                            | Some s => Some s
                            | None => Some "rating"
                            end found in
  let page := parseParam rt (SampleQuery.page q) in
  let limit := parseParam rt (SampleQuery.limit q) in
  page = None \/ page = Some 0%Z -> limit = None \/ limit = Some 0%Z ->
  exists k,
    getSamples rt q user w
    = (reply_data (firstn 10 sorted,
                   {| current := 1; total := Some k;
                      totalItems := length found |}), w)
    /\ ((k - 1) * 10 < Z.of_nat (length found) <= k * 10)%Z.
Proof.
  cbv zeta. intros Hp Hl. unfold getSamples.
  rewrite (int_or_default _ 1 Hp), (int_or_default _ 10 Hl).
  destruct (total_pages_ceil
              (length (filter (Sample_matches (samplesQuery q user))
                              (samples w))) 10 ltac:(lia)) as (k & Hk & Hceil).
  rewrite Hk. exists k. split; [reflexivity|exact Hceil].
Qed.

Lemma getSamples_odd_pages_witness :
  option_map (fun d => (length (fst d), snd d))
    (data (fst (getSamples Demo.rt Tour.page_zero (Some Demo.visitor)
                           Demo.world)))
  = Some (1, {| current := 1; total := Some 1%Z; totalItems := 1 |}).
Proof.
  destruct (getSamples_odd_pages Demo.rt Tour.page_zero (Some Demo.visitor)
              Demo.world (or_intror eq_refl) (or_introl eq_refl))
    as (k & Hr & Hk).
  set (n := Z.of_nat _) in Hk. vm_compute in n. subst n.
  assert (k = 1%Z) by lia. subst k.
  rewrite Hr. reflexivity.
Defined.

(** ** An image asset from its creation to its deletion *)

Lemma ImageAsset_save_some (d : ImageAsset.t) (w w' : World) :
  ImageAsset_save d w = Some w' ->
  w' = log (DbWrite MImageAsset (ImageAsset._id d))
           (set_imageAssets (store ImageAsset._id d (imageAssets w)) w)
  /\ ImageAsset.validate d = true.
Proof.
  unfold ImageAsset_save. destruct (ImageAsset.validate d); [|discriminate].
  intros [= <-]. split; reflexivity.
Qed.

(** X23. An image asset from its creation to its deletion. A create
    without a file is answered 400 and writes nothing. A create that is
    answered with success has stored the path of the file as the URL of
    the asset and the name of the file as its public id, the asset is
    found under its identifier, and deleting it asks the blob store to
    delete that public id, removes the record whatever the blob store
    answers, and leaves the identifier unknown. *)
Theorem image_asset_created_then_deleted (cloud : Cloudinary)
    (errors : list string) (name altText : option string)
    (file : option (string * string)) (w : World) :
  (errors = [] -> file = None ->
   createImageAsset errors name altText file w
   = (fail 400 "Image file is required", w))
  /\ (forall r w',
      createImageAsset errors name altText file w = (r, w') ->
      success r = true ->
      exists path filename,
        let asset := ImageAsset.mk (nextId w) name (Some path) altText
                                   (Some filename) in
        file = Some (path, filename) /\ truthy filename = true
        /\ r = reply 201 "Image asset created successfully" asset
        /\ events_since w w' = [DbWrite MImageAsset (nextId w)]
        /\ getImageAssetById (nextId w) w' = (reply_data asset, w')
        /\ exists w'',
             deleteImageAssetById cloud (Some (nextId w)) w'
             = (reply_msg "Image asset deleted successfully", w'')
             /\ events_since w' w''
                = [DeleteImageAsset filename (deleteImageAsset cloud filename);
                   DbDelete MImageAsset (nextId w)]
             /\ getImageAssetById (nextId w) w''
                = (fail 404 "Image asset not found", w'')).
Proof.
  split.
  - intros -> ->. reflexivity.
  - intros r w'. unfold createImageAsset.
    destruct errors; [|intros [= <- <-]; discriminate].
    destruct file as [[path filename]|]; [|intros [= <- <-]; discriminate].
    destruct (ImageAsset_save _ _) as [w1|] eqn:Hs;
      intros [= <- <-]; [intros _|discriminate].
    apply ImageAsset_save_some in Hs as [-> Hv].
    assert (Htr : truthy filename = true).
    { unfold ImageAsset.validate in Hv. simpl in Hv.
      repeat (apply andb_prop in Hv as [Hv ?]). assumption. }
    exists path, filename. cbv zeta.
    split; [reflexivity|]. split; [exact Htr|]. split; [reflexivity|].
    split; [events|].
    assert (Hfound : findById ImageAsset._id (nextId w)
                       (store ImageAsset._id
                          (ImageAsset.mk (nextId w) name (Some path) altText
                                         (Some filename))
                          (imageAssets w))
                     = Some (ImageAsset.mk (nextId w) name (Some path) altText
                                           (Some filename)))
      by (apply (findById_store_at ImageAsset._id); reflexivity).
    split; [unfold getImageAssetById; simpl imageAssets; rewrite Hfound;
            reflexivity|].
    unfold deleteImageAssetById. cbv beta iota. simpl imageAssets.
    rewrite Hfound.
    simpl ImageAsset.publicId. cbv iota. rewrite Htr.
    eexists. split; [reflexivity|]. split; [events|].
    unfold getImageAssetById. simpl imageAssets.
    rewrite findById_remove. reflexivity.
Qed.

Lemma image_asset_created_then_deleted_witness :
  exists w' w'',
    createImageAsset [] (Some "Banner") (Some "A banner")
      (Some ("https://res.cloudinary.com/image/banner.png", "assets/banner"))
      Demo.world
    = (reply 201 "Image asset created successfully"
         (ImageAsset.mk 1000 (Some "Banner")
            (Some "https://res.cloudinary.com/image/banner.png")
            (Some "A banner") (Some "assets/banner")), w')
    /\ deleteImageAssetById Tour.cloud_images_locked (Some 1000) w'
       = (reply_msg "Image asset deleted successfully", w'')
    /\ events_since w' w''
       = [DeleteImageAsset "assets/banner" false; DbDelete MImageAsset 1000].
Proof.
  destruct (proj2 (image_asset_created_then_deleted Tour.cloud_images_locked
                     [] (Some "Banner") (Some "A banner")
                     (Some ("https://res.cloudinary.com/image/banner.png",
                            "assets/banner")) Demo.world)
                  _ _ (surjective_pairing _) eq_refl)
    as (path & filename & Hfile & _ & Hr & _ & _ & (w'' & Hdel & Hev & _)).
  injection Hfile as <- <-.
  eexists; exists w''. split; [|split; [exact Hdel|exact Hev]].
  rewrite (surjective_pairing (createImageAsset _ _ _ _ _)) at 1.
  rewrite Hr. reflexivity.
Defined.

Lemma deleteImageAsset_always_removes_witness :
  code (fst (deleteImageAssetById Tour.cloud_images_locked (Some 1)
                                  Demo.world)) = 200
  /\ findById ImageAsset._id 1
       (imageAssets (snd (deleteImageAssetById Tour.cloud_images_locked
                                               (Some 1) Demo.world))) = None
  /\ events_since Demo.world
       (snd (deleteImageAssetById Tour.cloud_images_locked (Some 1)
                                  Demo.world))
     = [DeleteImageAsset "assets/logo" false; DbDelete MImageAsset 1]
  /\ deleteImageAssetById Tour.cloud_images_locked (Some 7) Demo.world
     = (fail 404 "Image asset not found", Demo.world).
Proof.
  destruct (deleteImageAsset_always_removes Tour.cloud_images_locked
              Demo.world) as (Hstored & Hunknown & _).
  split; [|split; [|split]].
  - exact (proj1 (Hstored 1 _ eq_refl)).
  - exact (proj1 (proj2 (Hstored 1 _ eq_refl))).
  - destruct (Hstored 1 _ eq_refl) as (_ & _ & _ & _ & [He|(p & Hp & He)]).
    + vm_compute in He. discriminate.
    + injection Hp as <-. exact He.
  - exact (Hunknown 7 eq_refl).
Defined.

(** ** A new sample on the lists *)

Lemma store_fresh {A} (idof : A -> nat) (d : A) (l : list A) :
  existsb (has_id idof (idof d)) l = false -> store idof d l = l ++ [d].
Proof. intros H. unfold store. rewrite H. reflexivity. Qed.

Lemma map_untouched {A} (idof : A -> nat) (id : nat) (f : A -> A) (l : list A) :
  existsb (has_id idof id) l = false ->
  map (fun d => if has_id idof id d then f d else d) l = l.
Proof.
  induction l as [|x l IH]; simpl; [reflexivity|].
  intros H. apply orb_false_elim in H as [H1 H2].
  rewrite H1, (IH H2). reflexivity.
Qed.

Lemma filter_everything {A} (q : A -> bool) (l : list A) :
  (forall x, q x = true) -> filter q l = l.
Proof.
  intros H. induction l as [|x l IH]; simpl; [reflexivity|].
  rewrite H, IH. reflexivity.
Qed.

Lemma Sample_store_ok_fresh (w : World) :
  Sample_store_ok w = true ->
  existsb (has_id Sample._id (nextId w)) (samples w) = false.
Proof.
  intros Hok. apply Sample_store_ok_parts in Hok as (H1 & _).
  destruct (existsb _ (samples w)) eqn:E; [|reflexivity].
  apply existsb_exists in E as (x & Hx & Hid).
  destruct (H1 x Hx) as (_ & _ & Hlt).
  unfold has_id in Hid. apply Nat.eqb_eq in Hid. lia.
Qed.

Lemma getAllSamplesForAdmin_plain (rt : Runtime) (w : World) :
  getAllSamplesForAdmin rt None None None None None None w
  = (reply_data (firstn 10 (rev (samples w)),
                 {| current := 1;
                    total := total_pages (length (samples w)) 10;
                    totalItems := length (samples w) |}), w).
Proof.
  unfold getAllSamplesForAdmin. cbn [parseParam int_or searchFilter].
  rewrite filter_everything by reflexivity. reflexivity.
Qed.

(** X24. A new sample on the lists. In a consistent collection, a sample
    that [createSample] has just created is at once the first entry of
    the list of the admins, which shows drafts; no caller who is not an
    admin receives it from [getSamples], whatever the query; and after
    one [toggleSampleStatus] it is, as Published, the first entry of the
    public list sorted by recency. *)
Theorem new_sample_on_the_lists (cloud : Cloudinary) (rt : Runtime)
    (errors : list string) (body : SampleBody.t) (w w' : World)
    (r : Response Sample.t) :
  Sample_store_ok w = true ->
  createSample cloud errors body w = (r, w') -> success r = true ->
  exists sample,
    data r = Some sample /\ Sample._id sample = nextId w
    /\ samples w' = samples w ++ [sample]
    /\ (exists rest pg,
          getAllSamplesForAdmin rt None None None None None None w'
          = (reply_data (sample :: rest, pg), w')
          /\ totalItems pg = S (length (samples w)))
    /\ (forall q user r1 w1 items pg,
          isAdmin user = false ->
          getSamples rt q user w' = (r1, w1) -> data r1 = Some (items, pg) ->
          ~ In sample items)
    /\ (let w'' := snd (toggleSampleStatus (nextId w) w') in
        forall status user,
          isAdmin user = false ->
          exists rest pg,
            getSamples rt (SampleQuery.mk None None None status (Some "recent")
                                          None None) user w''
            = (reply_data
                 (Sample.with_status ESampleStatus.PUBLISHED sample :: rest, pg),
               w'')).
Proof.
  intros Hok. pose proof (Sample_store_ok_fresh w Hok) as Hfresh.
  unfold createSample.
  destruct errors; [|intros [= <- <-]; discriminate].
  destruct (SampleBody.title body) as [title|];
    [|intros [= <- <-]; discriminate].
  destruct (find _ (samples w)); [intros [= <- <-]; discriminate|].
  destruct (contentOnCreate _ _ _ _ _) as [[contentUrl|] w1] eqn:Hc;
    [|intros [= <- <-]; discriminate].
  apply contentOnCreate_world in Hc as [Hs Hn].
  destruct (Sample_save _ _) as [w2|] eqn:Hsave;
    intros [= <- <-]; [intros _|discriminate].
  apply Sample_save_some in Hsave as [-> _].
  rewrite Hn in *.
  set (sample := Sample.mk (nextId w) (Some title) (SampleBody.subtitle body)
                   (SampleBody.description body) (Some (Slug.slugify title))
                   contentUrl (SampleBody.subject body) (SampleBody.topic body)
                   (SampleBody.academicLevel body) (SampleBody.wordCount body)
                   (SampleBody.referenceCount body) (SampleBody.faqs body)
                   ESampleStatus.DRAFT) in *.
  remember (log (DbWrite MSample (Sample._id sample))
              (set_samples (store Sample._id sample (samples (bump w1)))
                           (bump w1))) as w' eqn:Hw'.
  assert (Hstored : samples w' = samples w ++ [sample]).
  { rewrite Hw'. simpl. rewrite Hs. apply store_fresh. exact Hfresh. }
  exists sample. split; [reflexivity|]. split; [reflexivity|].
  split; [exact Hstored|]. split; [|split].
  - rewrite getAllSamplesForAdmin_plain, Hstored, rev_app_distr.
    exists (firstn 9 (rev (samples w))). eexists.
    split; [reflexivity|]. simpl. rewrite length_app. simpl. lia.
  - intros q user r1 w1' items pg Hu Hget Hd Hin.
    destruct (getSamples_items rt q user w' r1 w1' items pg sample Hget Hd Hin)
      as [_ Hm].
    apply samplesQuery_status in Hm as [Hm _].
    specialize (Hm Hu). discriminate.
  - cbv zeta. intros status user Hu.
    assert (Hf : findById Sample._id (nextId w) (samples w') = Some sample).
    { rewrite Hstored, <- (store_fresh Sample._id sample (samples w) Hfresh).
      apply (findById_store_at Sample._id). reflexivity. }
    destruct (toggleSampleStatus_lookup (nextId w) w' sample Hf
                ltac:(discriminate)) as [Ht _].
    cbv zeta in Ht. rewrite Ht. cbn [snd].
    unfold getSamples, samplesQuery.
    cbn [SampleQuery.sort SampleQuery.page SampleQuery.limit
         SampleQuery.subject SampleQuery.topic SampleQuery.academicLevel
         parseParam int_or]. rewrite Hu.
    unfold Sample_setStatus. cbn [samples log set_samples]. rewrite Hstored.
    rewrite map_app, (map_untouched Sample._id _ _ _ Hfresh). cbn [map].
    unfold has_id at 1. cbn [Sample._id sample]. rewrite Nat.eqb_refl.
    rewrite filter_app. cbn [filter].
    change (Sample_matches _ (Sample.with_status _ sample)) with true.
    cbv iota. unfold sortSamples. cbn [str_eq]. 
    change (String.eqb "recent" "recent") with true. cbv iota.
    rewrite rev_app_distr.
    eexists (firstn 9 (rev _)). eexists. reflexivity.
Qed.

Lemma new_sample_on_the_lists_witness :
  let w' := snd (createSample Demo.cloud [] Demo.eager_sample Demo.world) in
  let w'' := snd (toggleSampleStatus 1000 w') in
  exists sample rest pg,
    getSamples Demo.rt
      (SampleQuery.mk None None None None (Some "recent") None None)
      (Some Demo.visitor) w''
    = (reply_data (sample :: rest, pg), w'')
    /\ Sample.title sample = Some "Number Theory"
    /\ Sample.status sample = ESampleStatus.PUBLISHED.
Proof.
  destruct (new_sample_on_the_lists Demo.cloud Demo.rt [] Demo.eager_sample
              Demo.world _ _ eq_refl (surjective_pairing _) eq_refl)
    as (sample & Hd & _ & _ & _ & _ & Hpub).
  injection Hd as <-.
  destruct (Hpub None (Some Demo.visitor) eq_refl) as (rest & pg & Hget).
  eexists; exists rest, pg. split; [exact Hget|]. split; reflexivity.
Defined.

(** ** The dashboard *)

Lemma sample_status_is_capitalised (st lower : string) :
  in_enum ESampleStatus.values st = true ->
  in_enum ["published"; "draft"; "active"; "inactive"] lower = true ->
  String.eqb st lower = false.
Proof.
  unfold in_enum. simpl. intros H1 H2.
  repeat (apply orb_prop in H1 as [H1|H1]);
    repeat (apply orb_prop in H2 as [H2|H2]);
    try discriminate;
    apply String.eqb_eq in H1; apply String.eqb_eq in H2; subst;
    reflexivity.
Qed.

(** X25. The content counts of the dashboard look for statuses that no
    document has. [getDashboardStats] counts the blogs whose status is
    published or draft and the samples whose status is active or
    inactive, in lower case, while the schemas only admit Draft,
    Published and Archived: in a store whose blogs and samples pass the
    validators of their schemas the four counts are 0, however many
    blogs are Published. *)
Theorem dashboard_content_status_is_zero (cats : list string) (w : World) :
  forallb (Blog.validate cats) (blogs w) = true ->
  forallb Sample.validate (samples w) = true ->
  contentStatus w
  = {| publishedBlogs := 0; draftBlogs := 0;
       activeSamples := 0; inactiveSamples := 0 |}.
Proof.
  intros Hb Hs. rewrite forallb_forall in Hb, Hs.
  assert (Hblog : forall lower,
             in_enum ["published"; "draft"; "active"; "inactive"] lower = true ->
             countDocuments (fun d => String.eqb (Blog.status d) lower) (blogs w)
             = 0).
  { intros lower Hl. apply countDocuments_none. intros d Hd.
    specialize (Hb d Hd). unfold Blog.validate in Hb.
    apply andb_prop in Hb as [_ Hb].
    exact (sample_status_is_capitalised _ _ Hb Hl). }
  assert (Hsample : forall lower,
             in_enum ["published"; "draft"; "active"; "inactive"] lower = true ->
             countDocuments (fun d => String.eqb (Sample.status d) lower)
                            (samples w) = 0).
  { intros lower Hl. apply countDocuments_none. intros d Hd.
    specialize (Hs d Hd). unfold Sample.validate in Hs.
    apply andb_prop in Hs as [_ Hs].
    exact (sample_status_is_capitalised _ _ Hs Hl). }
  unfold contentStatus.
  rewrite !Hblog, !Hsample by reflexivity. reflexivity.
Qed.

Lemma dashboard_content_status_is_zero_witness :
  publishedBlogs (contentStatus Demo.world) = 0
  /\ countDocuments
       (fun d => String.eqb (Blog.status d) EBlogStatus.PUBLISHED)
       (blogs Demo.world) = 1.
Proof.
  rewrite (dashboard_content_status_is_zero Demo.categories Demo.world
             eq_refl eq_refl).
  split; reflexivity.
Defined.

(** ** Counting the subjects *)

Lemma subject_compare_eq (a b : option string) :
  subject_compare a b = Eq -> a = b.
Proof.
  destruct a, b; simpl; try discriminate; [|reflexivity].
  intros H. apply OrderedTypeEx.String_as_OT.cmp_eq in H. congruence.
Qed.

Lemma subject_compare_refl (a : option string) : subject_compare a a = Eq.
Proof.
  destruct a; simpl; [|reflexivity].
  apply OrderedTypeEx.String_as_OT.cmp_eq. reflexivity.
Qed.

Lemma subject_compare_trans (a b c : option string) :
  subject_compare a b = Lt -> subject_compare b c = Lt ->
  subject_compare a c = Lt.
Proof.
  destruct a, b, c; simpl; try discriminate; try reflexivity.
  intros H1 H2.
  apply OrderedTypeEx.String_as_OT.cmp_lt in H1.
  apply OrderedTypeEx.String_as_OT.cmp_lt in H2.
  apply OrderedTypeEx.String_as_OT.cmp_lt.
  exact (OrderedTypeEx.String_as_OT.lt_trans _ _ _ H1 H2).
Qed.

Lemma subject_compare_gt (a b : option string) :
  subject_compare a b = Gt -> subject_compare b a = Lt.
Proof.
  destruct a, b; simpl; try discriminate; try reflexivity.
  rewrite (String.compare_antisym s0 s). intros ->. reflexivity.
Qed.

Lemma subject_compare_differ (a b : option string) :
  subject_compare a b = Lt -> str_eq b a = false.
Proof.
  intros H. destruct (str_eq b a) eqn:E; [|reflexivity].
  apply str_eq_true in E. subst b.
  rewrite subject_compare_refl in H. discriminate.
Qed.

(** In an ascending list every group after the first has a greater
    subject. *)
Lemma ascending_tail (k : option string) (n : nat)
    (rest : list (option string * nat)) :
  ascending ((k, n) :: rest) = true ->
  ascending rest = true
  /\ forall g, In g rest -> subject_compare k (fst g) = Lt.
Proof.
  revert k n. induction rest as [|[k' n'] rest IH]; intros k n H.
  - split; [reflexivity|intros g []].
  - simpl in H. apply andb_prop in H as [H1 H2].
    destruct (subject_compare k k') eqn:E; try discriminate.
    split; [exact H2|].
    intros g [<-|Hg]; [exact E|].
    destruct (IH k' n' H2) as [_ Hall].
    exact (subject_compare_trans _ _ _ E (Hall g Hg)).
Qed.

Lemma ascending_cons (k : option string) (n : nat)
    (rest : list (option string * nat)) :
  ascending rest = true ->
  (forall g, In g rest -> subject_compare k (fst g) = Lt) ->
  ascending ((k, n) :: rest) = true.
Proof.
  intros H Hall. destruct rest as [|[k' n'] rest]; [reflexivity|].
  change (match subject_compare k k' with Lt => true | _ => false end
          && ascending ((k', n') :: rest) = true).
  pose proof (Hall (k', n') (or_introl eq_refl)) as Hk. simpl in Hk.
  rewrite Hk, H. reflexivity.
Qed.

Lemma tally_In (key : option string) (groups : list (option string * nat))
    (g : option string * nat) :
  In g (tally key groups) -> fst g = key \/ exists g', In g' groups /\ fst g = fst g'.
Proof.
  induction groups as [|[k n] rest IH]; simpl.
  - intros [<-|[]]. left. reflexivity.
  - destruct (subject_compare key k) eqn:E.
    + intros [<-|H]; right; [exists (k, n)|exists g]; simpl; auto.
    + intros [<-|[<-|H]]; [left; reflexivity| |];
        right; [exists (k, n)|exists g]; simpl; auto.
    + intros [<-|H]; [right; exists (k, n); simpl; auto|].
      destruct (IH H) as [Hk|(g' & Hg' & Hf)]; [left; exact Hk|].
      right. exists g'. auto.
Qed.

Lemma tally_ascending (key : option string)
    (groups : list (option string * nat)) :
  ascending groups = true -> ascending (tally key groups) = true.
Proof.
  induction groups as [|[k n] rest IH]; intros H; [reflexivity|].
  destruct (ascending_tail k n rest H) as [Hrest Hall].
  simpl tally. destruct (subject_compare key k) eqn:E.
  - apply ascending_cons; assumption.
  - apply ascending_cons; [exact H|].
    intros g [<-|Hg]; [exact E|].
    exact (subject_compare_trans _ _ _ E (Hall g Hg)).
  - apply ascending_cons; [exact (IH Hrest)|].
    intros g Hg. apply tally_In in Hg as [->|(g' & Hg' & ->)].
    + apply subject_compare_gt. exact E.
    + exact (Hall g' Hg').
Qed.

Lemma count_of_absent (subject : option string)
    (groups : list (option string * nat)) :
  (forall g, In g groups -> subject_compare subject (fst g) = Lt) ->
  count_of subject groups = 0.
Proof.
  intros Hall. unfold count_of.
  destruct (find _ groups) as [[k n]|] eqn:Hf; [|reflexivity].
  apply find_some in Hf as [Hin Hk].
  rewrite (subject_compare_differ _ _ (Hall _ Hin)) in Hk. discriminate.
Qed.

Lemma count_of_cons (subject k : option string) (n : nat)
    (rest : list (option string * nat)) :
  count_of subject ((k, n) :: rest)
  = if str_eq k subject then n else count_of subject rest.
Proof. unfold count_of. simpl. destruct (str_eq k subject); reflexivity. Qed.

Lemma tally_counts (key subject : option string)
    (groups : list (option string * nat)) :
  ascending groups = true ->
  count_of subject (tally key groups)
  = count_of subject groups + (if str_eq key subject then 1 else 0).
Proof.
  induction groups as [|[k n] rest IH]; intros H.
  - simpl tally. rewrite count_of_cons. unfold count_of. simpl.
    destruct (str_eq key subject); reflexivity.
  - destruct (ascending_tail k n rest H) as [Hrest Hall].
    simpl tally. destruct (subject_compare key k) eqn:E.
    + apply subject_compare_eq in E. subst k.
      rewrite !count_of_cons. destruct (str_eq key subject); lia.
    + rewrite (count_of_cons subject key). destruct (str_eq key subject) eqn:Es.
      * apply str_eq_true in Es. subst subject.
        rewrite count_of_absent; [reflexivity|].
        intros g [<-|Hg]; [exact E|].
        exact (subject_compare_trans _ _ _ E (Hall g Hg)).
      * lia.
    + rewrite !count_of_cons, (IH Hrest).
      destruct (str_eq k subject) eqn:Ek; [|reflexivity].
      apply str_eq_true in Ek. subst subject.
      rewrite (subject_compare_differ _ _ (subject_compare_gt _ _ E)). lia.
Qed.

Lemma tally_sum (key : option string) (groups : list (option string * nat)) :
  list_sum (map snd (tally key groups)) = S (list_sum (map snd groups)).
Proof.
  induction groups as [|[k n] rest IH]; [reflexivity|].
  simpl tally. destruct (subject_compare key k); simpl; [lia|lia|].
  simpl in IH. rewrite IH. lia.
Qed.

Lemma tally_positive (key : option string)
    (groups : list (option string * nat)) :
  forallb (fun g => 1 <=? snd g) groups = true ->
  forallb (fun g => 1 <=? snd g) (tally key groups) = true.
Proof.
  induction groups as [|[k n] rest IH]; [reflexivity|].
  intros H. cbn [forallb snd] in H. apply andb_prop in H as [H1 H2].
  simpl tally. destruct (subject_compare key k); cbn [forallb snd].
  - rewrite H2. destruct n; reflexivity.
  - rewrite H1, H2. reflexivity.
  - rewrite H1, (IH H2). reflexivity.
Qed.

(** X26. The subject counts are exact. [getSubjectCounts] answers 200
    and changes nothing; its groups are in strictly ascending order of
    their subject, so that no subject is listed twice; the count it
    gives for a subject is the number of Published samples of that
    subject, samples that are not Published counting for nothing; no
    listed count is 0; and the counts add up to the number of Published
    samples. *)
Theorem subject_counts_are_exact (w : World) :
  let published (d : Sample.t) :=
    String.eqb (Sample.status d) ESampleStatus.PUBLISHED in
  exists groups,
    getSubjectCounts w = (reply_data groups, w)
    /\ ascending groups = true
    /\ (forall subject,
          count_of subject groups
          = countDocuments
              (fun d => published d && str_eq (Sample.subject d) subject)
              (samples w))
    /\ forallb (fun g => 1 <=? snd g) groups = true
    /\ list_sum (map snd groups) = countDocuments published (samples w).
Proof.
  cbv zeta. unfold getSubjectCounts, countDocuments.
  eexists. split; [reflexivity|].
  induction (samples w) as [|d l (IH1 & IH2 & IH3 & IH4)]; simpl.
  - repeat split.
  - destruct (String.eqb (Sample.status d) ESampleStatus.PUBLISHED); simpl.
    + split; [apply tally_ascending; exact IH1|].
      split; [|split; [apply tally_positive; exact IH3|]].
      * intros subject. rewrite (tally_counts _ _ _ IH1), IH2.
        destruct (str_eq (Sample.subject d) subject); simpl; lia.
      * rewrite tally_sum, IH4. reflexivity.
    + repeat split; assumption.
Qed.

Lemma subject_counts_are_exact_witness :
  exists groups,
    data (fst (getSubjectCounts Demo.world)) = Some groups
    /\ count_of (Some "Testing") groups = 1
    /\ list_sum (map snd groups) = 1.
Proof.
  destruct (subject_counts_are_exact Demo.world)
    as (groups & Hget & _ & Hcount & _ & Hsum).
  exists groups. rewrite Hget. split; [reflexivity|].
  split; [rewrite Hcount; reflexivity|rewrite Hsum; reflexivity].
Defined.

(** ** Reading back what was written *)

(** X27. What a write answers is what an admin reads back. The sample
    in the answer of a successful [createSample] or [updateSample] is
    the sample that [getSampleByIdForAdmin] then returns for its
    identifier, field by field; for an update it is the identifier of
    the request. *)
Theorem writes_are_read_back (cloud : Cloudinary) (w : World) :
  (forall errors body r w',
      createSample cloud errors body w = (r, w') -> success r = true ->
      exists sample,
        data r = Some sample
        /\ getSampleByIdForAdmin (Sample._id sample) w' = (reply_data sample, w'))
  /\ (forall id body user r w',
      updateSample cloud id body user w = (r, w') -> success r = true ->
      exists sample,
        data r = Some sample /\ Sample._id sample = id
        /\ getSampleByIdForAdmin id w' = (reply_data sample, w')).
Proof.
  repeat apply conj.
  - intros errors body r w' Hc Hok.
    destruct (createSample_success cloud errors body w w' r Hc Hok)
      as (title & sample & _ & _ & -> & _ & _ & Hf).
    exists sample. split; [reflexivity|].
    unfold getSampleByIdForAdmin. rewrite Hf. reflexivity.
  - intros id body user r w'. unfold updateSample.
    destruct (findById Sample._id id (samples w)) as [sample|] eqn:Hf;
      [|intros [= <- <-]; discriminate].
    pose proof (findById_id _ _ _ _ Hf) as Hid.
    destruct (slugOnUpdate _ _ _ _ _ _ _ _) as [slug|];
      [|intros [= <- <-]; discriminate].
    destruct (contentOnUpdate _ _ _ _ _ _ _) as [st w1] eqn:Hc.
    apply contentOnUpdate_world in Hc as [Hsame _].
    destruct st as [contentUrl|]; [|intros [= <- <-]; discriminate].
    destruct (Sample_saveLoaded _ _ _) as [w2|] eqn:Hs;
      intros [= <- <-]; [intros _|discriminate].
    apply Sample_saveLoaded_some in Hs as [(-> & Hkept & _)|(-> & _)].
    + eexists. split; [reflexivity|]. split; [exact Hid|].
      unfold getSampleByIdForAdmin. rewrite Hsame, Hf.
      rewrite <- Hkept. reflexivity.
    + eexists. split; [reflexivity|]. split; [exact Hid|].
      unfold getSampleByIdForAdmin. simpl samples.
      rewrite (findById_store_at Sample._id id) by exact Hid. reflexivity.
Qed.

Lemma writes_are_read_back_witness :
  exists sample,
    data (fst (updateSample Demo.cloud 2 Demo.new_content (Some Demo.admin)
                            Demo.world)) = Some sample
    /\ getSampleByIdForAdmin 2
         (snd (updateSample Demo.cloud 2 Demo.new_content (Some Demo.admin)
                            Demo.world))
       = (reply_data sample,
          snd (updateSample Demo.cloud 2 Demo.new_content (Some Demo.admin)
                            Demo.world))
    /\ Sample.status sample = ESampleStatus.ARCHIVED.
Proof.
  destruct (writes_are_read_back Demo.cloud Demo.world) as (_ & Hu).
  destruct (Hu 2 Demo.new_content (Some Demo.admin) _ _ (surjective_pairing _)
               eq_refl) as (sample & Hd & _ & Hg).
  exists sample. split; [exact Hd|]. split; [exact Hg|].
  vm_compute in Hd. injection Hd as <-. reflexivity.
Defined.

(** ** Two routes to one list *)

(** X28. Two routes to one list. For an admin who names no status, the
    public route of the blogs answers exactly what the route of the
    admins answers for the same page, limit, tag, category and search,
    errors included. The public list of testimonials is the list of the
    admins asked for the status published: the two requests have the
    same code and the same data, and are answered alike whenever one of
    them succeeds. *)
Theorem public_and_admin_lists_agree (rt : Runtime) (w : World) :
  (forall page limit status tag category search user,
      isAdmin user = true -> truthy status = false ->
      getBlogs rt page limit status tag category search user w
      = getAllBlogsForAdmin rt page limit tag category search w)
  /\ (forall page limit forHomepage,
      let public := getTestimonials rt page limit forHomepage w in
      let admins := getAllTestimonialsForAdmin rt page limit forHomepage
                      (Some "published") w in
      code (fst public) = code (fst admins)
      /\ data (fst public) = data (fst admins)
      /\ snd public = snd admins
      /\ (success (fst public) = true -> public = admins)).
Proof.
  split.
  - intros page limit status tag category search user Hu Hst.
    unfold getBlogs, getAllBlogsForAdmin, blogsStatusFilter, searchFilter.
    rewrite Hu, Hst.
    assert (Hsame : forall q1 q2 : Blog.t -> bool,
               (forall d, q1 d = q2 d) ->
               forall p l fail_,
                 match paginate p l (rev (filter q1 (blogs w))) with
                 | Some page_items =>
                     (reply_data (page_items,
                                  {| current := p;
                                     total := total_pages
                                                (length (filter q1 (blogs w))) l;
                                     totalItems := length (filter q1 (blogs w))
                                  |}), w)
                 | None => fail_
                 end
                 = match paginate p l (rev (filter q2 (blogs w))) with
                   | Some page_items =>
                       (reply_data (page_items,
                                    {| current := p;
                                       total := total_pages
                                                  (length (filter q2 (blogs w))) l;
                                       totalItems := length (filter q2 (blogs w))
                                    |}), w)
                   | None => fail_
                   end).
    { intros q1 q2 H p l fail_. rewrite (filter_ext q1 q2 H). reflexivity. }
    assert (Hcat : forall d : Blog.t,
               (if truthy category then matches category (Blog.category d)
                else true)
               = matches_truthy category (Blog.category d)).
    { intros d. unfold matches_truthy, matches.
      destruct category; reflexivity. }
    destruct search as [pattern|]; cbn [truthy Truthy_option].
    + destruct (truthy pattern) eqn:Hp.
      * destruct (regex_i rt pattern) as [re|]; [|reflexivity].
        apply Hsame. intros d. rewrite Hcat. unfold found_in.
        cbn [matches existsb andb]. rewrite ?orb_false_r, ?andb_true_r.
        reflexivity.
      * apply Hsame. intros d. rewrite Hcat. unfold found_in.
        cbn [matches existsb andb]. rewrite ?orb_false_r, ?andb_true_r.
        reflexivity.
    + apply Hsame. intros d. rewrite Hcat. unfold found_in.
      cbn [matches existsb andb]. rewrite ?orb_false_r, ?andb_true_r.
      reflexivity.
  - intros page limit forHomepage. cbv zeta.
    unfold getTestimonials, getAllTestimonialsForAdmin.
    assert (Hq : filter
                   (fun d =>
                      String.eqb (Testimonial.status d) "published"
                      && match forHomepage with
                         | Some f => Bool.eqb (Testimonial.forHomepage d)
                                              (String.eqb f "true")
                         | None => true
                         end) (testimonials w)
                 = filter
                     (fun d =>
                        match forHomepage with
                        | Some f => Bool.eqb (Testimonial.forHomepage d)
                                             (String.eqb f "true")
                        | None => true
                        end
                        && matches_truthy (Some "published")
                                          (Some (Testimonial.status d)))
                     (testimonials w)).
    { apply filter_ext. intros d. unfold matches_truthy. simpl.
      apply andb_comm. }
    rewrite Hq.
    destruct (paginate _ _ _); simpl; repeat split; try discriminate.
Qed.

Lemma public_and_admin_lists_agree_witness :
  getBlogs Demo.rt None None None None None None (Some Demo.admin) Demo.world
  = getAllBlogsForAdmin Demo.rt None None None None None Demo.world
  /\ option_map (fun listed => totalItems (snd listed))
       (data (fst (getAllBlogsForAdmin Demo.rt None None None None None
                                       Demo.world))) = Some 3.
Proof.
  split; [|reflexivity].
  exact (proj1 (public_and_admin_lists_agree Demo.rt Demo.world)
           None None None None None None (Some Demo.admin) eq_refl eq_refl).
Defined.
